(** * viresclient.time_util: ISO 8601 dates, date-times and durations

    A shallow embedding of [src/viresclient/time_util.py] together with the
    part of the Python runtime the module relies on: the backtracking
    regular expressions of [re], [int] and [float] conversions of matched
    text, binary64 arithmetic, and the [timedelta], [date] and [datetime]
    types of the [datetime] module. *)

From Stdlib Require Import ZArith List String Ascii Bool Lia.
From Stdlib Require Import Floats.SpecFloat.
Import ListNotations.

Open Scope string_scope.
Open Scope Z_scope.

(** ** Exceptions *)

(** The three exception classes that can leave the module.  [ValueError] is
    the malformed-input error of the documentation. *)
Inductive exn : Type :=
| ValueError
| OverflowError
| TypeError.

Inductive result (A : Type) : Type :=
| Ok (a : A)
| Raise (e : exn).

Arguments Ok {A} a.
Arguments Raise {A} e.

Definition bind {A B : Type} (c : result A) (k : A -> result B) : result B :=
  match c with
  | Ok a => k a
  | Raise e => Raise e
  end.

Notation "x <- c ;; k" := (bind c (fun x => k))
  (at level 61, c at next level, right associativity).

(** ** Text

    A text is a [string] of 8-bit characters: a Python [str] whose code
    points are all below 256.  Among these code points the decimal
    digits, which [\d], [int] and [float] take, are [0] to [9] alone.
    A [str] with a code point from 256 on, where Unicode has further
    decimal digits, has no counterpart here. *)

Module Text.

Definition is_digit (c : ascii) : bool :=
  let n := nat_of_ascii c in (Nat.leb 48 n && Nat.leb n 57)%bool.

Definition digit_val (c : ascii) : Z := Z.of_nat (nat_of_ascii c) - 48.

Definition digit_chr (d : Z) : ascii := ascii_of_nat (Z.to_nat (48 + d)).

(** Every character of [s] is in the class [p]. *)
Fixpoint all (p : ascii -> bool) (s : string) : bool :=
  match s with
  | EmptyString => true
  | String c s' => (p c && all p s')%bool
  end.

Definition all_digits : string -> bool := all is_digit.

(** Value of a run of decimal digits, most significant first. *)
Fixpoint digits_val (acc : Z) (s : string) : Z :=
  match s with
  | EmptyString => acc
  | String c s' => digits_val (10 * acc + digit_val c) s'
  end.

(** [s[:n]] *)
Fixpoint prefix (n : nat) (s : string) : string :=
  match n, s with
  | S n', String c s' => String c (prefix n' s')
  | _, _ => EmptyString
  end.

(** [x or d] on an optional piece of text: [None] and the empty string
    are both false. *)
Definition or_else (x : option string) (d : string) : string :=
  match x with
  | Some (String c s) => String c s
  | _ => d
  end.

(** The decimal digits of a natural number, least significant first,
    produced with a bound on the number of digits. *)
Fixpoint digits_rev (fuel : nat) (n : Z) : string :=
  match fuel with
  | O => EmptyString
  | S fuel' =>
      if n <? 10 then String (digit_chr n) EmptyString
      else String (digit_chr (n mod 10)) (digits_rev fuel' (n / 10))
  end.

Fixpoint rev_append (s acc : string) : string :=
  match s with
  | EmptyString => acc
  | String c s' => rev_append s' (String c acc)
  end.

(** ['%d' % n] *)
Definition decimal (n : Z) : string :=
  match n with
  | Zneg p => String "-" (rev_append (digits_rev (S (Z.to_nat (Z.log2 (Zpos p)))) (Zpos p)) "")
  | _ => rev_append (digits_rev (S (Z.to_nat (Z.log2 n))) n) ""
  end.

(** ['%0<w>d' % n] for [n >= 0]: exactly [w] digits when [n < 10 ^ w]. *)
Fixpoint zero_padded (w : nat) (n : Z) (acc : string) : string :=
  match w with
  | O => acc
  | S w' => zero_padded w' (n / 10) (String (digit_chr (n mod 10)) acc)
  end.

(** [int(s)] for the text this module passes to it: an optional sign
    followed by at least one decimal digit. *)
Definition int_of (s : string) : result Z :=
  let unsigned (t : string) : result Z :=
    match t with
    | EmptyString => Raise ValueError
    | _ => if all_digits t then Ok (digits_val 0 t) else Raise ValueError
    end in
  match s with
  | String "+" t => unsigned t
  | String "-" t => v <- unsigned t ;; Ok (- v)
  | _ => unsigned s
  end.

(** [int(x or 0)] *)
Definition int_or_0 (x : option string) : result Z :=
  match x with
  | Some (String c s) => int_of (String c s)
  | _ => Ok 0
  end.

End Text.

(** ** Regular expressions

    The patterns of the module use a small part of [re]: literals,
    character classes, greedy [?], greedy counted repetition of a character
    class, ordered alternation, numbered and named groups, [^] and [$].
    The matcher is the usual backtracking one, written with a continuation
    for the rest of the pattern; the first successful path wins, as in
    [re]. *)

Module Re.

Inductive regex : Type :=
| Bos                                                (* ^ *)
| Eos                                                (* $ *)
| Chr (c : ascii)                                    (* a literal *)
| Cls (p : ascii -> bool)                            (* \d, [+-], [.,] *)
| Rep (p : ascii -> bool) (lo : nat) (hi : option nat) (* p{lo,hi}, p*, p+ *)
| Seq (r1 r2 : regex)
| Alt (r1 r2 : regex)                                (* r1|r2 *)
| Opt (r : regex)                                    (* (?:r)? *)
| Grp (n : nat) (r : regex)                          (* (r), group n *)
| Named (name : string) (n : nat) (r : regex).       (* (?P<name>r), group n *)

(** Text captured by the groups that took part in the match, latest
    first. *)
Definition captures : Type := list (nat * string).

Fixpoint group (g : captures) (n : nat) : option string :=
  match g with
  | [] => None
  | (m, s) :: g' => if Nat.eqb m n then Some s else group g' n
  end.

(** The text consumed between [s] and its suffix [s']. *)
Definition consumed (s s' : string) : string :=
  Text.prefix (String.length s - String.length s') s.

Definition newline : ascii := ascii_of_nat 10.

Section Matcher.
(** Length of the whole subject: [^] holds where nothing has been
    consumed yet. *)
Variable subject_length : nat.
Context {R : Type}.

Fixpoint rep (p : ascii -> bool) (lo : nat) (hi : option nat)
         (s : string) (g : captures)
         (k : string -> captures -> option R) {struct s} : option R :=
  let stop := match lo with O => k s g | S _ => None end in
  match hi with
  | Some O => stop
  | _ =>
      match s with
      | String c s' =>
          if p c then
            match rep p (Nat.pred lo) (option_map Nat.pred hi) s' g k with
            | Some x => Some x
            | None => stop
            end
          else stop
      | EmptyString => stop
      end
  end.

Fixpoint run (r : regex) (s : string) (g : captures)
         (k : string -> captures -> option R) {struct r} : option R :=
  match r with
  | Bos => if Nat.eqb (String.length s) subject_length then k s g else None
  | Eos =>
      match s with
      | EmptyString => k s g
      | String c EmptyString => if Ascii.eqb c newline then k s g else None
      | _ => None
      end
  | Chr c =>
      match s with
      | String c' s' => if Ascii.eqb c c' then k s' g else None
      | EmptyString => None
      end
  | Cls p =>
      match s with
      | String c' s' => if p c' then k s' g else None
      | EmptyString => None
      end
  | Rep p lo hi => rep p lo hi s g k
  | Seq r1 r2 => run r1 s g (fun s' g' => run r2 s' g' k)
  | Alt r1 r2 =>
      match run r1 s g k with
      | Some x => Some x
      | None => run r2 s g k
      end
  | Opt r1 =>
      match run r1 s g k with
      | Some x => Some x
      | None => k s g
      end
  | Grp n r1 | Named _ n r1 =>
      run r1 s g (fun s' g' => k s' ((n, consumed s s') :: g'))
  end.
End Matcher.

(** [pattern.match(s)] *)
Definition rmatch (r : regex) (s : string) : option captures :=
  run (String.length s) r s [] (fun _ g => Some g).

(** [match.groups()] for a pattern with [n] groups. *)
Definition groups (g : captures) (n : nat) : list (option string) :=
  map (fun i => group g (S i)) (seq 0 n).

(** The names of the named groups and their numbers. *)
Fixpoint groupindex (r : regex) : list (string * nat) :=
  match r with
  | Seq r1 r2 | Alt r1 r2 => groupindex r1 ++ groupindex r2
  | Opt r1 | Grp _ r1 => groupindex r1
  | Named name n r1 => (name, n) :: groupindex r1
  | _ => []
  end.

Fixpoint index_of (names : list (string * nat)) (name : string) : option nat :=
  match names with
  | [] => None
  | (x, n) :: names' => if String.eqb x name then Some n else index_of names' name
  end.

(** [match.groupdict()[name]] *)
Definition groupdict (r : regex) (g : captures) (name : string) : option string :=
  match index_of (groupindex r) name with
  | Some n => group g n
  | None => None
  end.

(** The declarative reading of a pattern, without the order in which the
    matcher tries the alternatives: [matches n r w rest g g'] holds when
    [r] can consume the word [w] in front of [rest] in a subject of length
    [n], taking the captures from [g] to [g']. *)
Inductive matches (n : nat) : regex -> string -> string -> captures -> captures -> Prop :=
| M_Bos rest g :
    String.length rest = n -> matches n Bos "" rest g g
| M_Eos rest g :
    rest = "" \/ rest = String newline "" -> matches n Eos "" rest g g
| M_Chr c rest g :
    matches n (Chr c) (String c "") rest g g
| M_Cls p c rest g :
    p c = true -> matches n (Cls p) (String c "") rest g g
| M_Rep p lo hi w rest g :
    Text.all p w = true -> (lo <= String.length w)%nat ->
    (forall h, hi = Some h -> (String.length w <= h)%nat) ->
    matches n (Rep p lo hi) w rest g g
| M_Seq r1 r2 w1 w2 rest g g1 g2 :
    matches n r1 w1 (w2 ++ rest) g g1 -> matches n r2 w2 rest g1 g2 ->
    matches n (Seq r1 r2) (w1 ++ w2) rest g g2
| M_Alt_l r1 r2 w rest g g' :
    matches n r1 w rest g g' -> matches n (Alt r1 r2) w rest g g'
| M_Alt_r r1 r2 w rest g g' :
    matches n r2 w rest g g' -> matches n (Alt r1 r2) w rest g g'
| M_Opt_some r w rest g g' :
    matches n r w rest g g' -> matches n (Opt r) w rest g g'
| M_Opt_none r rest g :
    matches n (Opt r) "" rest g g
| M_Grp i r w rest g g' :
    matches n r w rest g g' -> matches n (Grp i r) w rest g ((i, w) :: g')
| M_Named name i r w rest g g' :
    matches n r w rest g g' -> matches n (Named name i r) w rest g ((i, w) :: g').

(** The numbers of the groups of a pattern. *)
Fixpoint group_numbers (r : regex) : list nat :=
  match r with
  | Seq r1 r2 | Alt r1 r2 => group_numbers r1 ++ group_numbers r2
  | Opt r1 => group_numbers r1
  | Grp n r1 | Named _ n r1 => n :: group_numbers r1
  | _ => []
  end.

Infix "+>" := Seq (at level 61, right associativity).

Definition one_of (cs : string) (c : ascii) : bool :=
  match String.index 0 (String c EmptyString) cs with
  | Some _ => true
  | None => false
  end.

(** [\d{lo,hi}], [\d*], [\d+] *)
Definition d (lo hi : nat) : regex := Rep Text.is_digit lo (Some hi).
Definition d_star : regex := Rep Text.is_digit 0 None.
Definition d_plus : regex := Rep Text.is_digit 1 None.

End Re.

(** ** Binary64 numbers

    Python's [float] is IEEE 754 binary64.  The operations are those of the
    standard library's specification of IEEE arithmetic at precision 53,
    rounding to nearest, ties to even. *)

Module Float.

Definition prec : Z := 53.
Definition emax : Z := 1024.

Definition float : Type := spec_float.

Definition zero : float := S754_zero false.
Definition add : float -> float -> float := SFadd prec emax.
Definition sub : float -> float -> float := SFsub prec emax.
Definition mul : float -> float -> float := SFmul prec emax.
Definition eqb : float -> float -> bool := SFeqb.

(** [float(n)] for an integer [n]. *)
Definition of_Z (n : Z) : float := binary_normalize prec emax n 0 false.

(** The binary64 number nearest to [n / d], for [0 <= n] and [0 < d]. *)
Definition of_ratio (n d : Z) : float :=
  let '(q, e, l) := SFdiv_core_binary prec emax n 0 d 0 in
  binary_round_aux prec emax false q e l.

(** Splits [s] at its first ["."]. *)
Fixpoint split_dot (s : string) : string * option string :=
  match s with
  | EmptyString => (EmptyString, None)
  | String "." s' => (EmptyString, Some s')
  | String c s' => let '(i, f) := split_dot s' in (String c i, f)
  end.

(** [float(s)] for the text this module passes to it: decimal digits,
    optionally followed by a point and more decimal digits.  The
    conversion is correctly rounded. *)
Definition of_string (s : string) : result float :=
  let digits (t : string) : bool :=
    match t with
    | EmptyString => false
    | _ => Text.all_digits t
    end in
  match split_dot s with
  | (i, None) =>
      if digits i then Ok (of_ratio (Text.digits_val 0 i) 1) else Raise ValueError
  | (i, Some f) =>
      if (digits i && digits f)%bool
      then Ok (of_ratio (Text.digits_val 0 (i ++ f)) (10 ^ Z.of_nat (String.length f)))
      else Raise ValueError
  end.

(** [float(x or 0)] *)
Definition of_string_or_0 (x : option string) : result float :=
  match x with
  | Some (String c s) => of_string (String c s)
  | _ => Ok (of_Z 0)
  end.

Definition is_zero (x : float) : bool :=
  match x with
  | S754_zero _ => true
  | _ => false
  end.

Definition signed (s : bool) (n : Z) : Z := if s then - n else n.

(** C's [modf]: the fractional and the integral part, both with the sign
    of the argument. *)
Definition modf (x : float) : float * float :=
  match x with
  | S754_zero _ => (x, x)
  | S754_infinity s => (S754_zero s, x)
  | S754_nan => (x, x)
  | S754_finite s m e =>
      if 0 <=? e then (S754_zero s, x)
      else
        let ip := Z.shiftr (Zpos m) (- e) in
        let fp := Z.land (Zpos m) (Z.ones (- e)) in
        (binary_normalize prec emax (signed s fp) e s,
         binary_normalize prec emax (signed s ip) 0 s)
  end.

(** [PyLong_FromDouble]: truncation towards zero. *)
Definition to_Z (x : float) : result Z :=
  match x with
  | S754_zero _ => Ok 0
  | S754_infinity _ => Raise OverflowError
  | S754_nan => Raise ValueError
  | S754_finite s m e =>
      Ok (signed s (if 0 <=? e then Z.shiftl (Zpos m) e else Z.shiftr (Zpos m) (- e)))
  end.

(** C's [round]: to the nearest integer, halves away from zero. *)
Definition round (x : float) : float :=
  match x with
  | S754_finite s m e =>
      if 0 <=? e then x
      else
        let ip := Z.shiftr (Zpos m) (- e) in
        let up := Z.testbit (Zpos m) (- e - 1) in
        binary_normalize prec emax (signed s (if up then ip + 1 else ip)) 0 s
  | _ => x
  end.

Definition abs : float -> float := SFabs.

(** The exact value of a finite number as [m * 2 ^ e]. *)
Definition mantissa_exponent (x : float) : option (Z * Z) :=
  match x with
  | S754_zero _ => Some (0, 0)
  | S754_finite s m e => Some (signed s (Zpos m), e)
  | _ => None
  end.

(** [n / d] rounded to the nearest integer, ties to even; [0 < d]. *)
Definition div_half_even (n d : Z) : Z :=
  let q := n / d in
  let r := n mod d in
  match 2 * r ?= d with
  | Lt => q
  | Gt => q + 1
  | Eq => if Z.even q then q else q + 1
  end.

(** ['%.6f' % x] for a finite [x >= 0]: the exact value of [x] rounded to
    six decimal places. *)
Definition format_6f (x : float) : string :=
  match mantissa_exponent x with
  | Some (m, e) =>
      let scaled :=
        if 0 <=? e then m * 2 ^ e * 1000000
        else div_half_even (m * 1000000) (2 ^ (- e)) in
      Text.decimal (scaled / 1000000) ++ "." ++ Text.zero_padded 6 (scaled mod 1000000) ""
  | None => "inf"
  end.

End Float.

(** ** Elapsed time: [datetime.timedelta] *)

Module Timedelta.

(** Days, seconds and microseconds, normalised by every constructor:
    [0 <= seconds < 86400], [0 <= microseconds < 1000000] and
    [-999999999 <= days <= 999999999]. *)
Record timedelta : Type := mk {
  days : Z;
  seconds : Z;
  microseconds : Z
}.

Definition wf (v : timedelta) : bool :=
  ((-999999999 <=? days v) && (days v <=? 999999999) &&
   (0 <=? seconds v) && (seconds v <? 86400) &&
   (0 <=? microseconds v) && (microseconds v <? 1000000))%bool.

Definition us_per_second : Z := 1000000.
Definition us_per_minute : Z := 60000000.
Definition us_per_hour : Z := 3600000000.
Definition us_per_day : Z := 86400000000.

Definition total_microseconds (v : timedelta) : Z :=
  (days v * 86400 + seconds v) * us_per_second + microseconds v.

(** [microseconds_to_delta]: split a number of microseconds and check the
    range of the days. *)
Definition of_microseconds (x : Z) : result timedelta :=
  let us := x mod us_per_second in
  let t := x / us_per_second in
  let s := t mod 86400 in
  let d := t / 86400 in
  if ((-999999999 <=? d) && (d <=? 999999999))%bool
  then Ok (mk d s us)
  else Raise OverflowError.

(** [timedelta(hours=h, minutes=m)] with integers. *)
Definition of_hours_minutes (h m : Z) : result timedelta :=
  of_microseconds (m * us_per_minute + h * us_per_hour).

(** [timedelta(0)] *)
Definition ZERO : timedelta := mk 0 0 0.

(** [-v] *)
Definition neg (v : timedelta) : result timedelta :=
  of_microseconds (- total_microseconds v).

(** One argument of the constructor given as a float ([accum]): the
    whole part is added exactly, the fractional part is scaled in binary64
    and its own fraction is kept in [leftover]. *)
Definition accum (sofar : Z) (leftover : Float.float) (num : Float.float) (factor : Z)
  : result (Z * Float.float) :=
  let '(fracpart, intpart) := Float.modf num in
  x <- Float.to_Z intpart ;;
  let sum := sofar + x * factor in
  if Float.is_zero fracpart then Ok (sum, leftover)
  else
    let dnum := Float.mul (Float.of_Z factor) fracpart in
    let '(fracpart', intpart') := Float.modf dnum in
    y <- Float.to_Z intpart' ;;
    Ok (sum + y, Float.add leftover fracpart').

(** The leftover fractions of a microsecond, rounded to the nearest whole
    number with ties going to the even total. *)
Definition round_leftover (x : Z) (leftover : Float.float) : result Z :=
  if Float.is_zero leftover then Ok x
  else
    let whole := Float.round leftover in
    let whole :=
      if Float.eqb (Float.abs (Float.sub whole leftover)) (Float.of_ratio 1 2) then
        let x_is_odd := Float.of_Z (if Z.odd x then 1 else 0) in
        Float.sub
          (Float.mul (Float.of_Z 2)
             (Float.round (Float.mul (Float.add leftover x_is_odd) (Float.of_ratio 1 2))))
          x_is_odd
      else whole in
    w <- Float.to_Z whole ;;
    Ok (x + w).

(** [timedelta(days, seconds)] with two floats. *)
Definition of_floats (days seconds : Float.float) : result timedelta :=
  a <- accum 0 Float.zero seconds us_per_second ;;
  b <- accum (fst a) (snd a) days us_per_day ;;
  x <- round_leftover (fst b) (snd b) ;;
  of_microseconds x.

End Timedelta.

(** ** The proleptic Gregorian calendar of [datetime] *)

Module Calendar.

Definition MINYEAR : Z := 1.
Definition MAXYEAR : Z := 9999.
Definition MAXORDINAL : Z := 3652059.

Definition DAYS_IN_MONTH : list Z :=
  [-1; 31; 28; 31; 30; 31; 30; 31; 31; 30; 31; 30; 31].

Definition DAYS_BEFORE_MONTH : list Z :=
  [-1; 0; 31; 59; 90; 120; 151; 181; 212; 243; 273; 304; 334].

Definition at_index (l : list Z) (i : Z) : Z := nth (Z.to_nat i) l 0.

Definition b2z (b : bool) : Z := if b then 1 else 0.

Definition is_leap (year : Z) : bool :=
  ((year mod 4 =? 0) && (negb (year mod 100 =? 0) || (year mod 400 =? 0)))%bool.

Definition days_before_year (year : Z) : Z :=
  let y := year - 1 in
  y * 365 + y / 4 - y / 100 + y / 400.

Definition days_in_month (year month : Z) : Z :=
  if ((month =? 2) && is_leap year)%bool then 29
  else at_index DAYS_IN_MONTH month.

Definition days_before_month (year month : Z) : Z :=
  at_index DAYS_BEFORE_MONTH month + b2z ((2 <? month) && is_leap year).

(** [_ymd2ord]: 1 January of year 1 is day 1. *)
Definition ymd2ord (year month day : Z) : Z :=
  days_before_year year + days_before_month year month + day.

Definition DI400Y : Z := 146097.
Definition DI100Y : Z := 36524.
Definition DI4Y : Z := 1461.

(** [_ord2ymd] *)
Definition ord2ymd (n : Z) : Z * Z * Z :=
  let n := n - 1 in
  let n400 := n / DI400Y in
  let n := n mod DI400Y in
  let year := n400 * 400 + 1 in
  let n100 := n / DI100Y in
  let n := n mod DI100Y in
  let n4 := n / DI4Y in
  let n := n mod DI4Y in
  let n1 := n / 365 in
  let n := n mod 365 in
  let year := year + (n100 * 100 + n4 * 4 + n1) in
  if ((n1 =? 4) || (n100 =? 4))%bool then (year - 1, 12, 31)
  else
    let leapyear := ((n1 =? 3) && (negb (n4 =? 24) || (n100 =? 3)))%bool in
    let month := Z.shiftr (n + 50) 5 in
    let preceding := at_index DAYS_BEFORE_MONTH month + b2z ((2 <? month) && leapyear) in
    let '(month, preceding) :=
      if n <? preceding
      then (month - 1,
            preceding - (at_index DAYS_IN_MONTH (month - 1)
                         + b2z ((month - 1 =? 2) && leapyear)))
      else (month, preceding) in
    (year, month, n - preceding + 1).

(** The checks of the [date] constructor. *)
Definition valid_date (year month day : Z) : bool :=
  ((MINYEAR <=? year) && (year <=? MAXYEAR) &&
   (1 <=? month) && (month <=? 12) &&
   (1 <=? day) && (day <=? days_in_month year month))%bool.

(** The checks of the [time] fields. *)
Definition valid_time (hour minute second microsecond : Z) : bool :=
  ((0 <=? hour) && (hour <=? 23) && (0 <=? minute) && (minute <=? 59) &&
   (0 <=? second) && (second <=? 59) &&
   (0 <=? microsecond) && (microsecond <=? 999999))%bool.

End Calendar.

(** ** [datetime.date] *)

Module Date.

Record date : Type := mk {
  year : Z;
  month : Z;
  day : Z
}.

Definition wf (d : date) : bool := Calendar.valid_date (year d) (month d) (day d).

Definition toordinal (d : date) : Z := Calendar.ymd2ord (year d) (month d) (day d).

End Date.

(** ** The module's [TimeZone] class: a fixed offset and a label *)

Module TimeZone.

Record t : Type := mk {
  offset : Timedelta.timedelta;
  label : string
}.

(** [UTC = TimeZone(ZERO, "UTC")] *)
Definition UTC : t := mk Timedelta.ZERO "UTC".

(** [tz.utcoffset(dt)] as [datetime] calls it: the offset has to lie
    strictly between minus and plus 24 hours. *)
Definition utcoffset (tz : t) : result Timedelta.timedelta :=
  let us := Timedelta.total_microseconds (offset tz) in
  if ((- Timedelta.us_per_day <? us) && (us <? Timedelta.us_per_day))%bool
  then Ok (offset tz)
  else Raise ValueError.

(** [tz.dst(dt)]: the class returns its offset here too. *)
Definition dst (tz : t) : Timedelta.timedelta := offset tz.

End TimeZone.

(** ** [datetime.datetime]

    The zone of a zone-aware value is an instance of the module's
    [TimeZone]. *)

Module Datetime.

Record datetime : Type := mk {
  year : Z;
  month : Z;
  day : Z;
  hour : Z;
  minute : Z;
  second : Z;
  microsecond : Z;
  tzinfo : option TimeZone.t
}.

Definition wf (v : datetime) : bool :=
  (Calendar.valid_date (year v) (month v) (day v) &&
   Calendar.valid_time (hour v) (minute v) (second v) (microsecond v))%bool.

(** [datetime(year, month, day, hour, minute, second, microsecond, tzinfo)] *)
Definition new (y mo d h mi s us : Z) (tz : option TimeZone.t) : result datetime :=
  if (Calendar.valid_date y mo d && Calendar.valid_time h mi s us)%bool
  then Ok (mk y mo d h mi s us tz)
  else Raise ValueError.

(** [v.replace(tzinfo=tz)] *)
Definition replace_tzinfo (v : datetime) (tz : option TimeZone.t) : datetime :=
  mk (year v) (month v) (day v) (hour v) (minute v) (second v) (microsecond v) tz.

(** [v.date()] *)
Definition date (v : datetime) : Date.date := Date.mk (year v) (month v) (day v).

Definition toordinal (v : datetime) : Z := Calendar.ymd2ord (year v) (month v) (day v).

(** The wall-clock reading of [v] in microseconds since the start of day
    0 of the calendar. *)
Definition wall_clock (v : datetime) : Z :=
  (((toordinal v * 24 + hour v) * 60 + minute v) * 60 + second v) * 1000000
  + microsecond v.

(** [v - delta]: the zone is kept; a result outside years 1 to 9999
    overflows. *)
Definition sub (v : datetime) (delta : Timedelta.timedelta) : result datetime :=
  let t := wall_clock v - Timedelta.total_microseconds delta in
  let days := t / Timedelta.us_per_day in
  let rest := t mod Timedelta.us_per_day in
  if ((0 <? days) && (days <=? Calendar.MAXORDINAL))%bool then
    let '(y, mo, d) := Calendar.ord2ymd days in
    let secs := rest / 1000000 in
    let h := secs / 3600 in
    let rem := secs mod 3600 in
    Ok (mk y mo d h (rem / 60) (rem mod 60) (rest mod 1000000) (tzinfo v))
  else Raise OverflowError.

(** [v.astimezone(tz)] for a zone-aware [v] whose zone is [mytz] and a
    target [tz]: subtract the own offset, attach [tz], and let
    [tz.fromutc] add the target's offset.  The inherited [fromutc] adds
    [utcoffset - dst] and then [dst]; for [TimeZone] the two are equal,
    so only [dst] is added. *)
Definition astimezone (v : datetime) (mytz tz : TimeZone.t) : result datetime :=
  myoffset <- TimeZone.utcoffset mytz ;;
  utc <- sub v myoffset ;;
  let utc := replace_tzinfo utc (Some tz) in
  _ <- TimeZone.utcoffset tz ;;
  back <- Timedelta.neg (TimeZone.dst tz) ;;
  sub utc back.

End Datetime.

(** ** The module [viresclient.time_util] *)

Module TimeUtil.

Import Re.

(** The values the functions of the module are called with. *)
Inductive value : Type :=
| Str (s : string)
| DateV (d : Date.date)
| DatetimeV (v : Datetime.datetime)
| TimedeltaV (v : Timedelta.timedelta).

Definition sign_class : ascii -> bool := one_of "+-".
Definition fraction_mark : ascii -> bool := one_of ".,".

Definition RE_ISO_8601_DATETIME_LONG : regex :=
  Bos +> Grp 1 (d 4 4) +> Chr "-" +> Grp 2 (d 2 2) +> Chr "-" +> Grp 3 (d 2 2) +>
  Opt (
    Chr "T" +> Grp 4 (d 2 2) +> Chr ":" +> Grp 5 (d 2 2) +>
    Opt (Chr ":" +> Grp 6 (d 2 2) +>
         Opt (Cls fraction_mark +> Grp 7 (d 0 6) +> d_star)) +>
    Opt (Grp 8 (Alt (Chr "Z")
                    (Grp 9 (Cls sign_class +> d 2 2) +>
                     Opt (Chr ":" +> Grp 10 (d 2 2)))))
  ) +> Eos.

Definition RE_ISO_8601_DATETIME_SHORT : regex :=
  Bos +> Grp 1 (d 4 4) +> Grp 2 (d 2 2) +> Grp 3 (d 2 2) +>
  Opt (
    Chr "T" +> Grp 4 (d 2 2) +> Grp 5 (d 2 2) +>
    Opt (Grp 6 (d 2 2) +>
         Opt (Cls fraction_mark +> Grp 7 (d 0 6) +> d_star)) +>
    Opt (Grp 8 (Alt (Chr "Z")
                    (Grp 9 (Cls sign_class +> d 2 2) +>
                     Opt (Grp 10 (d 2 2)))))
  ) +> Eos.

(** [(?:(?P<name>\d+(\.\d+)?)X)?]: an optional number with its
    designator. *)
Definition designated (name : string) (n : nat) (x : ascii) : regex :=
  Opt (Named name n (d_plus +> Opt (Grp (S n) (Chr "." +> d_plus))) +> Chr x).

Definition RE_ISO_8601_DURATION : regex :=
  Bos +> Opt (Named "sign" 1 (Cls sign_class)) +> Chr "P" +>
  designated "years" 2 "Y" +>
  designated "months" 4 "M" +>
  designated "days" 6 "D" +>
  Opt (Chr "T") +> designated "hours" 8 "H" +>
  designated "minutes" 10 "M" +>
  designated "seconds" 12 "S" +> Eos.

Definition ZERO : Timedelta.timedelta := Timedelta.ZERO.

Definition UTC : TimeZone.t := TimeZone.UTC.

(** [int(x)] of a group that took part in the match. *)
Definition int_group (x : option string) : result Z :=
  match x with
  | Some s => Text.int_of s
  | None => Raise TypeError
  end.

Definition to_utc_naive (value : Datetime.datetime) : result Datetime.datetime :=
  match Datetime.tzinfo value with
  | Some tz =>
      v <- Datetime.astimezone value tz UTC ;;
      Ok (Datetime.replace_tzinfo v None)
  | None => Ok value
  end.

(** The zone of a matched date-time: [tzone], [tz_hour] and [tz_min] are
    groups 8 to 10. *)
Definition zone_of (tzone tz_hour tz_min : option string) (tz_local : option TimeZone.t)
  : result (option TimeZone.t) :=
  match tzone with
  | Some (String c z) =>
      if String.eqb (String c z) "Z" then Ok (Some UTC)
      else
        match tz_hour with
        | None => Raise TypeError
        | Some th =>
            hours <- Text.int_or_0 tz_hour ;;
            minutes <- Text.int_of (Text.prefix 1 th ++ Text.or_else tz_min "0") ;;
            offset <- Timedelta.of_hours_minutes hours minutes ;;
            Ok (Some (TimeZone.mk offset (th ++ ":" ++ Text.or_else tz_min "00")))
        end
  | _ => Ok tz_local
  end.

(** The loop over the two patterns: the first that matches wins. *)
Definition match_datetime (s : string) : option captures :=
  match rmatch RE_ISO_8601_DATETIME_LONG s with
  | Some m => Some m
  | None => rmatch RE_ISO_8601_DATETIME_SHORT s
  end.

(** The first part of [parse_datetime]: the value before the final
    conversion to UTC. *)
Definition parse_datetime_zoned (value : value) (tz_local : option TimeZone.t)
  : result Datetime.datetime :=
  match value with
  | DatetimeV v => Ok v
  | Str s =>
      match match_datetime s with
      | None => Raise ValueError
      | Some m =>
          match groups m 10 with
          | [year; month; day; hour; minute; sec; usec; tzone; tz_hour; tz_min] =>
              tz_obj <- zone_of tzone tz_hour tz_min tz_local ;;
              y <- int_group year ;;
              mo <- int_group month ;;
              dd <- Text.int_or_0 day ;;
              h <- Text.int_or_0 hour ;;
              mi <- Text.int_or_0 minute ;;
              s <- Text.int_or_0 sec ;;
              us <- Text.int_of (Text.prefix 6 (Text.or_else usec "" ++ "000000")) ;;
              Datetime.new y mo dd h mi s us tz_obj
          | _ => Raise TypeError
          end
      end
  | _ => Raise TypeError
  end.

Definition parse_datetime (value : value) (tz_local : option TimeZone.t)
  : result Datetime.datetime :=
  v <- parse_datetime_zoned value tz_local ;;
  to_utc_naive v.

Definition parse_date (value : value) : result Date.date :=
  match value with
  | DateV d => Ok d
  | _ =>
      v <- parse_datetime value None ;;
      Ok (Datetime.date v)
  end.

Definition parse_duration (value : value) : result Timedelta.timedelta :=
  match value with
  | TimedeltaV v => Ok v
  | Str s =>
      match rmatch RE_ISO_8601_DURATION s with
      | None => Raise ValueError
      | Some m =>
          let mt := groupdict RE_ISO_8601_DURATION m in
          let sign := if String.eqb (Text.or_else (mt "sign") "") "-" then -1 else 1 in
          days <- Float.of_string_or_0 (mt "days") ;;
          months <- Float.of_string_or_0 (mt "months") ;;
          let days := Float.add days (Float.mul months (Float.of_Z 30)) in
          years <- Float.of_string_or_0 (mt "years") ;;
          let days := Float.add days (Float.mul years (Float.of_Z 365)) in
          fsec <- Float.of_string_or_0 (mt "seconds") ;;
          minutes <- Float.of_string_or_0 (mt "minutes") ;;
          let fsec := Float.add fsec (Float.mul minutes (Float.of_Z 60)) in
          hours <- Float.of_string_or_0 (mt "hours") ;;
          let fsec := Float.add fsec (Float.mul hours (Float.of_Z 3600)) in
          if sign <? 0 then Raise ValueError
          else Timedelta.of_floats days fsec
      end
  | _ => Raise TypeError
  end.

(** The seconds designator with a fraction:
    ["%.6fS" % (seconds + 1e-6 * microseconds)]. *)
Definition seconds_with_fraction (seconds microseconds : Z) : string :=
  Float.format_6f
    (Float.add (Float.of_Z seconds)
       (Float.mul (Float.of_ratio 1 1000000) (Float.of_Z microseconds))) ++ "S".

(** [items.append(x)] *)
Definition append (items : list string) (x : string) : list string :=
  (items ++ [x])%list.

Definition encode_duration (value : value) : result string :=
  match value with
  | TimedeltaV value =>
      let items : list string := [] in
      st <- (if Timedelta.days value <? 0
             then v <- Timedelta.neg value ;; Ok (append items "-", v)
             else Ok (items, value)) ;;
      let '(items, value) := st in
      let items := append items "P" in
      let items :=
        if negb (Timedelta.days value =? 0)
        then append items (Text.decimal (Timedelta.days value) ++ "D")
        else if ((Timedelta.seconds value =? 0) && (Timedelta.microseconds value =? 0))%bool
             then append items "T0S"
             else items in
      let items :=
        if (negb (Timedelta.seconds value =? 0)
            || negb (Timedelta.microseconds value =? 0))%bool then
          let minutes := Timedelta.seconds value / 60 in
          let seconds := Timedelta.seconds value mod 60 in
          let hours := minutes / 60 in
          let minutes := minutes mod 60 in
          let items := append items "T" in
          let items :=
            if negb (hours =? 0) then append items (Text.decimal hours ++ "H") else items in
          let items :=
            if negb (minutes =? 0) then append items (Text.decimal minutes ++ "M") else items in
          if negb (Timedelta.microseconds value =? 0)
          then append items (seconds_with_fraction seconds (Timedelta.microseconds value))
          else if negb (seconds =? 0)
               then append items (Text.decimal seconds ++ "S")
               else items
        else items in
      Ok (String.concat "" items)
  | _ => Raise ValueError
  end.

End TimeUtil.

(** ** Vocabulary of the statements *)

(** Exactly two decimal digits. *)
Definition is_two_digits (w : string) : bool :=
  (Nat.eqb (String.length w) 2 && Text.all_digits w)%bool.

(** The sign carried by the hour field of an offset, ["+HH"] or ["-HH"]. *)
Definition offset_sign (tz_hour : string) : Z :=
  match tz_hour with
  | String "-" _ => -1
  | _ => 1
  end.

(** The captures of ["2020-01-01T00:00:00-01:30"] under the long pattern. *)
Definition example_offset_captures : Re.captures :=
  [(8%nat, "-01:30"); (10%nat, "30"); (9%nat, "-01"); (6%nat, "00");
   (5%nat, "00"); (4%nat, "00"); (3%nat, "01"); (2%nat, "01"); (1%nat, "2020")].

(** What a match of a date-time pattern says about an explicit offset:
    group 9 is a sign and two digits, group 10 is absent or two digits. *)
Definition offset_groups (m : Re.captures) : Prop :=
  forall tzone, Re.group m 8 = Some tzone -> tzone <> "Z" ->
    tzone <> "" /\
    exists sg hh,
      Re.group m 9 = Some (String sg hh) /\
      TimeUtil.sign_class sg = true /\ is_two_digits hh = true /\
      (forall mm, Re.group m 10 = Some mm -> is_two_digits mm = true).

(** A non-negative decimal number as the duration pattern writes it:
    digits, optionally followed by a point and more digits. *)
Definition is_number (w : string) : bool :=
  let digits (t : string) : bool :=
    (negb (String.eqb t "") && Text.all_digits t)%bool in
  match Float.split_dot w with
  | (i, None) => digits i
  | (i, Some f) => (digits i && digits f)%bool
  end.

(** The named groups of a duration match, as [parse_duration] reads
    them. *)
Definition duration_group (m : Re.captures) (name : string) : option string :=
  Re.groupdict TimeUtil.RE_ISO_8601_DURATION m name.

(** A group of a duration match is absent or a number. *)
Definition number_group (x : option string) : Prop :=
  match x with
  | None => True
  | Some w => is_number w = true
  end.

(** The text of a named group when the duration pattern matches [s]. *)
Definition duration_group_of (s name : string) : option string :=
  match Re.rmatch TimeUtil.RE_ISO_8601_DURATION s with
  | Some m => duration_group m name
  | None => None
  end.

(** A continuation that fails on every subject starting with a character
    of the class [p], whatever the captures. *)
Definition rejects {R : Type} (p : ascii -> bool)
           (k : string -> Re.captures -> option R) : Prop :=
  forall c u g, p c = true -> k (String c u) g = None.

(** The subject is empty or starts outside the class [p]. *)
Definition starts_outside (p : ascii -> bool) (t : string) : bool :=
  match t with
  | EmptyString => true
  | String c _ => negb (p c)
  end.

Definition is_point (c : ascii) : bool := Ascii.eqb c ".".

(** A number in two parts: the digits before the point and, optionally,
    the digits after it. *)
Definition fraction_text (fs : option string) : string :=
  match fs with
  | Some f => "." ++ f
  | None => ""
  end.

Definition fraction_captures (j : nat) (fs : option string) : Re.captures :=
  match fs with
  | Some f => [(j, "." ++ f)]
  | None => []
  end.

Definition digits_nonempty (w : string) : bool :=
  (negb (String.eqb w "") && Text.all_digits w)%bool.

Definition fraction_ok (fs : option string) : bool :=
  match fs with
  | Some f => digits_nonempty f
  | None => true
  end.

(** [f] holds on the [fuel] integers from [from] on. *)
Fixpoint holds_from (f : Z -> bool) (fuel : nat) (from : Z) : bool :=
  match fuel with
  | O => true
  | S fuel' => (f from && holds_from f fuel' (from + 1))%bool
  end.

(** What [ord2ymd] has to give for day [n] of the first 400 years: a valid
    month and day of a year between 1 and 400 whose ordinal is [n]; the
    last year is reached only by its own days. *)
Definition cycle_day_ok (n : Z) : bool :=
  let '(y, m, d) := Calendar.ord2ymd n in
  ((Calendar.ymd2ord y m d =? n) && (1 <=? y) && (y <=? 400) &&
   ((y <=? 399) || (145731 <? n)) &&
   (1 <=? m) && (m <=? 12) && (1 <=? d) && (d <=? Calendar.days_in_month y m))%bool.

(** ** The duration text of the documentation

    The encoder as section 4.5 describes it, for comparison with
    [encode_duration]: a sign for a negative value, then the text of the
    absolute value. *)

(** The elapsed time of [x] microseconds. *)
Definition split_microseconds (x : Z) : Timedelta.timedelta :=
  Timedelta.mk (x / 1000000 / 86400) ((x / 1000000) mod 86400) (x mod 1000000).

(** The absolute value of an elapsed time. *)
Definition magnitude (v : Timedelta.timedelta) : Timedelta.timedelta :=
  if Timedelta.days v <? 0
  then split_microseconds (- Timedelta.total_microseconds v)
  else v.

Definition hours_of (a : Timedelta.timedelta) : Z := Timedelta.seconds a / 60 / 60.
Definition minutes_of (a : Timedelta.timedelta) : Z := (Timedelta.seconds a / 60) mod 60.
Definition seconds_of (a : Timedelta.timedelta) : Z := Timedelta.seconds a mod 60.

Definition sign_text (v : Timedelta.timedelta) : string :=
  if Timedelta.days v <? 0 then "-" else "".

(** [<days>D] if the day count is not zero. *)
Definition days_text (a : Timedelta.timedelta) : string :=
  if Timedelta.days a =? 0 then "" else Text.decimal (Timedelta.days a) ++ "D".

(** [<hours>H] if hours are not zero. *)
Definition hours_text (a : Timedelta.timedelta) : string :=
  if hours_of a =? 0 then "" else Text.decimal (hours_of a) ++ "H".

(** [<minutes>M] if minutes are not zero. *)
Definition minutes_text (a : Timedelta.timedelta) : string :=
  if minutes_of a =? 0 then "" else Text.decimal (minutes_of a) ++ "M".

(** The seconds with six fractional digits if microseconds are present,
    otherwise as a plain integer if seconds are not zero. *)
Definition seconds_text (a : Timedelta.timedelta) : string :=
  if Timedelta.microseconds a =? 0
  then (if seconds_of a =? 0 then "" else Text.decimal (seconds_of a) ++ "S")
  else TimeUtil.seconds_with_fraction (seconds_of a) (Timedelta.microseconds a).

(** Whether there is a sub-day remainder. *)
Definition has_time (a : Timedelta.timedelta) : bool :=
  (negb (Timedelta.seconds a =? 0) || negb (Timedelta.microseconds a =? 0))%bool.

(** [T0S] for the zero value, nothing for whole days, and otherwise [T]
    with the hours, minutes and seconds that are there. *)
Definition time_text (a : Timedelta.timedelta) : string :=
  if has_time a
  then "T" ++ hours_text a ++ minutes_text a ++ seconds_text a
  else if Timedelta.days a =? 0 then "T0S" else "".

Definition duration_text (a : Timedelta.timedelta) : string :=
  "P" ++ days_text a ++ time_text a.

(** The grammar [P(nD)?(T(nH)?(nM)?(nS(.ffffff)?)?)?] of section 6: [n]
    is one or more digits and [ffffff] six digits. *)
Definition number_designator (x : string) (n : option string) : string :=
  match n with
  | Some w => w ++ x
  | None => ""
  end.

Definition seconds_designator (s : option (string * option string)) : string :=
  match s with
  | None => ""
  | Some (w, None) => w ++ "S"
  | Some (w, Some f) => w ++ "." ++ f ++ "S"
  end.

Definition grammar_text (d : option string)
           (t : option (option string * option string * option (string * option string)))
  : string :=
  "P" ++ number_designator "D" d ++
  match t with
  | None => ""
  | Some (h, m, s) =>
      "T" ++ number_designator "H" h ++ number_designator "M" m ++ seconds_designator s
  end.

Definition whole_number (n : option string) : bool :=
  match n with
  | Some w => digits_nonempty w
  | None => true
  end.

Definition seconds_number (s : option (string * option string)) : bool :=
  match s with
  | None => true
  | Some (w, None) => digits_nonempty w
  | Some (w, Some f) =>
      (digits_nonempty w && Text.all_digits f && Nat.eqb (String.length f) 6)%bool
  end.

Definition grammar_ok (d : option string)
           (t : option (option string * option string * option (string * option string)))
  : bool :=
  match t with
  | None => whole_number d
  | Some (h, m, s) =>
      (whole_number d && whole_number h && whole_number m && seconds_number s)%bool
  end.

Definition in_grammar (s : string) : Prop :=
  s = "PT0S" \/ exists d t, grammar_ok d t = true /\ s = grammar_text d t.

(** No year designator anywhere and no month designator, that is, no [M]
    in front of the [T]. *)
Fixpoint contains (c : ascii) (s : string) : bool :=
  match s with
  | EmptyString => false
  | String x s' => (Ascii.eqb x c || contains c s')%bool
  end.

Fixpoint before (c : ascii) (s : string) : string :=
  match s with
  | EmptyString => EmptyString
  | String x s' => if Ascii.eqb x c then EmptyString else String x (before c s')
  end.

Definition no_year_month (s : string) : bool :=
  (negb (contains "Y" s) && negb (contains "M" (before "T" s)))%bool.

(** ** Vocabulary for binary64 *)

(** Plus zero, a positive finite number or plus infinity. *)
Definition nonneg (x : Float.float) : bool :=
  match x with
  | S754_zero s | S754_infinity s | S754_finite s _ _ => negb s
  | S754_nan => false
  end.

(** The binary64 number of a whole [n] with [0 < n < 2 ^ 53]: the 53-bit
    mantissa [n * 2 ^ (53 - digits n)] and the matching exponent. *)
Definition exact_float (n : Z) : Float.float :=
  S754_finite false (Z.to_pos (n * 2 ^ (53 - Zdigits2 n))) (Zdigits2 n - 53).

(** Plus zero or a positive finite number whose exponent and magnitude
    (digits plus exponent) are at most [b]. *)
Definition bounded (b : Z) (x : Float.float) : bool :=
  match x with
  | S754_zero false => true
  | S754_finite false m e => ((e <=? b) && (Zdigits2 (Zpos m) + e <=? b))%bool
  | _ => false
  end.

(** ** Vocabulary for the subjects of the patterns *)

(** A text of ASCII characters: every code point is below 128. *)
Definition ascii_only (s : string) : bool :=
  Text.all (fun c => Nat.ltb (nat_of_ascii c) 128) s.

(** A line feed at the end of the subject. *)
Definition line_feed : string := String Re.newline "".

(** No literal and no class of the pattern takes a line feed. *)
Fixpoint newline_free (r : Re.regex) : bool :=
  match r with
  | Re.Bos | Re.Eos => true
  | Re.Chr c => negb (Ascii.eqb c Re.newline)
  | Re.Cls p | Re.Rep p _ _ => negb (p Re.newline)
  | Re.Seq r1 r2 | Re.Alt r1 r2 => (newline_free r1 && newline_free r2)%bool
  | Re.Opt r1 | Re.Grp _ r1 | Re.Named _ _ r1 => newline_free r1
  end.

(** The text has no line feed in it. *)
Definition no_newline (s : string) : bool := negb (contains Re.newline s).

(** A continuation on the subject with the line feed that does what
    another one does on the subject without it. *)
Definition follows {R : Type} (k' k : string -> Re.captures -> option R) : Prop :=
  forall u g, no_newline u = true -> k' (u ++ line_feed) g = k u g.

(** ** Vocabulary for duration texts *)

(** An optional component of a duration text: absent, or digits with an
    optional fraction. *)
Definition optional_number (x : option string) : bool :=
  match x with
  | Some w => is_number w
  | None => true
  end.

Definition is_sign (sg : string) : bool :=
  (String.eqb sg "" || String.eqb sg "+" || String.eqb sg "-")%bool.

Definition sign_group (sg : string) : option string :=
  match sg with
  | EmptyString => None
  | _ => Some sg
  end.

Definition separator (t : bool) : string := if t then "T" else "".

(** The text of a duration: the sign, [P], the years, months and days that
    are there, the separator [T] if [t], and the hours, minutes and seconds
    that are there. *)
Definition duration_string (sg : string) (y mo d : option string) (t : bool)
           (h mi s : option string) : string :=
  sg ++ "P" ++ number_designator "Y" y ++ number_designator "M" mo ++
  number_designator "D" d ++ separator t ++
  number_designator "H" h ++ number_designator "M" mi ++ number_designator "S" s.

(** A minutes number with nothing between it and the months' place: it is
    read as months. *)
Definition minutes_as_months (mo d : option string) (t : bool) (h mi : option string)
  : bool :=
  match mo, d, h, mi with
  | None, None, None, Some _ => negb t
  | _, _, _, _ => false
  end.

(** What the group [i] of a designator and the group after it, for the
    fraction, capture. *)
Definition number_captures (i : nat) (c : option string) : Re.captures :=
  match c with
  | Some w => (i, w) :: fraction_captures (S i) (snd (Float.split_dot w))
  | None => []
  end.

(** A text that the group of the designator [x] leaves alone: it does not
    start with a digit, or it starts with a number that has another
    designator. *)
Definition clear_of (x : ascii) (tail : string) : Prop :=
  starts_outside Text.is_digit tail = true \/
  exists ip fs y rest,
    tail = ip ++ fraction_text fs ++ String y rest /\
    digits_nonempty ip = true /\ fraction_ok fs = true /\
    Text.is_digit y = false /\ is_point y = false /\ Ascii.eqb x y = false.

(** The rest of the duration pattern after [P]. *)
Definition duration_body : Re.regex :=
  Re.Seq (TimeUtil.designated "years" 2 "Y")
    (Re.Seq (TimeUtil.designated "months" 4 "M")
       (Re.Seq (TimeUtil.designated "days" 6 "D")
          (Re.Seq (Re.Opt (Re.Chr "T"))
             (Re.Seq (TimeUtil.designated "hours" 8 "H")
                (Re.Seq (TimeUtil.designated "minutes" 10 "M")
                   (Re.Seq (TimeUtil.designated "seconds" 12 "S") Re.Eos)))))).

(** The binary64 number of a whole [n] with [0 <= n < 2 ^ 53]. *)
Definition whole_float (n : Z) : Float.float :=
  if n =? 0 then Float.zero else exact_float n.

(** An optional whole number: its decimal text and its value, zero when
    it is absent. *)
Definition whole_text (c : option Z) : option string := option_map Text.decimal c.

Definition whole_value (c : option Z) : Z :=
  match c with
  | Some n => n
  | None => 0
  end.

Definition whole_ok (c : option Z) : bool :=
  match c with
  | Some n => 0 <=? n
  | None => true
  end.

(** A component that is written only when it is not zero. *)
Definition nonzero (n : Z) : option Z := if n =? 0 then None else Some n.

(** ** Vocabulary for date-time texts *)

(** Exactly [k] decimal digits. *)
Definition digits_of (k : nat) (w : string) : bool :=
  (Nat.eqb (String.length w) k && Text.all_digits w)%bool.

(** The zone of a date-time text: [Z], or a sign, two digits for the
    hours and optionally two digits for the minutes. *)
Inductive zone_text : Type :=
| Zulu
| Offset (sg : ascii) (hh : string) (mm : option string).

(** The time of a date-time text: hours, minutes, optionally seconds with
    an optional fraction mark and fraction digits, and optionally a zone. *)
Record clock_text : Type := mk_clock {
  c_hour : string;
  c_minute : string;
  c_second : option (string * option (ascii * string));
  c_zone : option zone_text
}.

Definition zone_ok (z : option zone_text) : bool :=
  match z with
  | Some (Offset sg hh mm) =>
      (TimeUtil.sign_class sg && digits_of 2 hh &&
       match mm with
       | Some m => digits_of 2 m
       | None => true
       end)%bool
  | _ => true
  end.

Definition second_ok (sec : option (string * option (ascii * string))) : bool :=
  match sec with
  | Some (ss, fr) =>
      (digits_of 2 ss &&
       match fr with
       | Some (mk, f) => (TimeUtil.fraction_mark mk && Text.all_digits f)%bool
       | None => true
       end)%bool
  | None => true
  end.

Definition clock_ok (c : option clock_text) : bool :=
  match c with
  | Some c =>
      (digits_of 2 (c_hour c) && digits_of 2 (c_minute c) &&
       second_ok (c_second c) && zone_ok (c_zone c))%bool
  | None => true
  end.

(** The separator [c] of the long form; the short form has none. *)
Definition mark (long : bool) (c : ascii) : string :=
  if long then String c "" else "".

Definition fraction_part (fr : option (ascii * string)) : string :=
  match fr with
  | Some (mk, f) => String mk f
  | None => ""
  end.

Definition second_part (long : bool) (sec : option (string * option (ascii * string)))
  : string :=
  match sec with
  | Some (ss, fr) => mark long ":" ++ ss ++ fraction_part fr
  | None => ""
  end.

Definition zone_string (long : bool) (z : zone_text) : string :=
  match z with
  | Zulu => "Z"
  | Offset sg hh mm =>
      String sg hh ++
      match mm with
      | Some m => mark long ":" ++ m
      | None => ""
      end
  end.

Definition zone_part (long : bool) (z : option zone_text) : string :=
  match z with
  | Some z => zone_string long z
  | None => ""
  end.

Definition clock_part (long : bool) (c : option clock_text) : string :=
  match c with
  | Some c =>
      "T" ++ c_hour c ++ mark long ":" ++ c_minute c ++
      second_part long (c_second c) ++ zone_part long (c_zone c)
  | None => ""
  end.

(** A date-time text in the long form, with [-] and [:], or in the short
    form, without them. *)
Definition datetime_text (long : bool) (Y M D : string) (c : option clock_text) : string :=
  Y ++ mark long "-" ++ M ++ mark long "-" ++ D ++ clock_part long c.

(** What the groups of the patterns capture from such a text. *)
Definition zone_captures (long : bool) (z : option zone_text) : Re.captures :=
  match z with
  | None => []
  | Some Zulu => [(8%nat, "Z")]
  | Some (Offset sg hh None) => [(8%nat, String sg hh); (9%nat, String sg hh)]
  | Some (Offset sg hh (Some m)) =>
      [(8%nat, String sg hh ++ mark long ":" ++ m); (10%nat, m); (9%nat, String sg hh)]
  end.

Definition second_captures (sec : option (string * option (ascii * string)))
  : Re.captures :=
  match sec with
  | None => []
  | Some (ss, None) => [(6%nat, ss)]
  | Some (ss, Some (_, f)) => [(7%nat, Text.prefix 6 f); (6%nat, ss)]
  end.

Definition clock_captures (long : bool) (c : option clock_text) : Re.captures :=
  match c with
  | None => []
  | Some c =>
      (zone_captures long (c_zone c) ++ second_captures (c_second c) ++
       [(5%nat, c_minute c); (4%nat, c_hour c)])%list
  end.

(** [s[n:]] *)
Fixpoint drop (n : nat) (s : string) : string :=
  match n, s with
  | S n', String _ s' => drop n' s'
  | _, _ => s
  end.

(** The two date-time patterns in one: [long] puts the separators in. *)
Definition after (long : bool) (c : ascii) (r : Re.regex) : Re.regex :=
  if long then Re.Seq (Re.Chr c) r else r.

Definition zone_pattern (long : bool) : Re.regex :=
  Re.Opt (Re.Grp 8
            (Re.Alt (Re.Chr "Z")
               (Re.Seq (Re.Grp 9 (Re.Seq (Re.Cls TimeUtil.sign_class) (Re.d 2 2)))
                  (Re.Opt (after long ":" (Re.Grp 10 (Re.d 2 2))))))).

Definition fraction_pattern : Re.regex :=
  Re.Opt (Re.Seq (Re.Cls TimeUtil.fraction_mark) (Re.Seq (Re.Grp 7 (Re.d 0 6)) Re.d_star)).

Definition second_pattern (long : bool) : Re.regex :=
  Re.Opt (after long ":" (Re.Seq (Re.Grp 6 (Re.d 2 2)) fraction_pattern)).

Definition clock_pattern (long : bool) : Re.regex :=
  Re.Opt (Re.Seq (Re.Chr "T")
            (Re.Seq (Re.Grp 4 (Re.d 2 2))
               (after long ":"
                  (Re.Seq (Re.Grp 5 (Re.d 2 2))
                     (Re.Seq (second_pattern long) (zone_pattern long)))))).

Definition datetime_pattern (long : bool) : Re.regex :=
  Re.Seq Re.Bos
    (Re.Seq (Re.Grp 1 (Re.d 4 4))
       (after long "-"
          (Re.Seq (Re.Grp 2 (Re.d 2 2))
             (after long "-"
                (Re.Seq (Re.Grp 3 (Re.d 2 2))
                   (Re.Seq (clock_pattern long) Re.Eos)))))).

(** ** The value of a date-time text *)

Definition text_hour (c : option clock_text) : Z :=
  match c with
  | Some c => Text.digits_val 0 (c_hour c)
  | None => 0
  end.

Definition text_minute (c : option clock_text) : Z :=
  match c with
  | Some c => Text.digits_val 0 (c_minute c)
  | None => 0
  end.

Definition text_second (c : option clock_text) : Z :=
  match c with
  | Some (mk_clock _ _ (Some (ss, _)) _) => Text.digits_val 0 ss
  | _ => 0
  end.

(** The fraction [0.f] of a second in whole microseconds, rounded down. *)
Definition fraction_microseconds (f : string) : Z :=
  Text.digits_val 0 f * 1000000 / 10 ^ Z.of_nat (String.length f).

Definition text_microsecond (c : option clock_text) : Z :=
  match c with
  | Some (mk_clock _ _ (Some (_, Some (_, f))) _) => fraction_microseconds f
  | _ => 0
  end.

Definition text_zone (c : option clock_text) : option zone_text :=
  match c with
  | Some c => c_zone c
  | None => None
  end.

(** The zone that a text stands for: the assumed one when it has none,
    [UTC] for [Z], and otherwise the hours and the minutes, both with the
    sign that is written in front of the hours. *)
Definition zone_value (z : option zone_text) (tz_local : option TimeZone.t)
  : result (option TimeZone.t) :=
  match z with
  | None => Ok tz_local
  | Some Zulu => Ok (Some TimeUtil.UTC)
  | Some (Offset sg hh mm) =>
      let sgn := offset_sign (String sg hh) in
      offset <- Timedelta.of_hours_minutes (sgn * Text.digits_val 0 hh)
                  (sgn * Text.digits_val 0 (Text.or_else mm "0")) ;;
      Ok (Some (TimeZone.mk offset (String sg hh ++ ":" ++ Text.or_else mm "00")))
  end.

(** The zone-aware or naive timestamp that a text stands for. *)
Definition text_value (Y M D : string) (c : option clock_text)
           (tz_local : option TimeZone.t) : result Datetime.datetime :=
  zone <- zone_value (text_zone c) tz_local ;;
  Datetime.new (Text.digits_val 0 Y) (Text.digits_val 0 M) (Text.digits_val 0 D)
    (text_hour c) (text_minute c) (text_second c) (text_microsecond c) zone.

(** [k] zeros. *)
Fixpoint zeros (k : nat) : string :=
  match k with
  | O => ""
  | S k' => String "0" (zeros k')
  end.

(** A date-time text of the long or the short form, possibly followed by
    a line feed. *)
Definition is_datetime_text (s : string) : Prop :=
  exists long Y M D c tail,
    digits_of 4 Y = true /\ digits_of 2 M = true /\ digits_of 2 D = true /\
    clock_ok c = true /\ (tail = "" \/ tail = line_feed) /\
    s = datetime_text long Y M D c ++ tail.

(** The strings of the duration grammar: a sign or none, [P], numbers with
    their designators in the order years, months, days, [T] or not, hours,
    minutes, seconds, and a line feed or nothing at the end. *)
Definition is_duration_text (s : string) : Prop :=
  exists sg y mo d t h mi se tail,
    is_sign sg = true /\
    optional_number y = true /\ optional_number mo = true /\ optional_number d = true /\
    optional_number h = true /\ optional_number mi = true /\ optional_number se = true /\
    minutes_as_months mo d t h mi = false /\
    (tail = "" \/ tail = line_feed) /\
    s = duration_string sg y mo d t h mi se ++ tail.

(** ** Vocabulary for rounding errors *)

(** A positive binary64 number with a full mantissa of 53 digits and an
    exponent between [lo] and [hi]. *)
Definition normal (lo hi : Z) (x : Float.float) : bool :=
  match x with
  | S754_finite false m e => ((Zdigits2 (Zpos m) =? 53) && (lo <=? e) && (e <=? hi))%bool
  | _ => false
  end.

(** The value of a positive number in units of [2 ^ -256], a whole number
    when the exponent is at least [-256]. *)
Definition fixed (x : Float.float) : Z :=
  match x with
  | S754_finite false m e => Zpos m * 2 ^ (e + 256)
  | _ => 0
  end.
(** * Properties *)

(** ** Text *)

Section TextFacts.

Lemma append_nil_r (s : string) : s ++ "" = s.
Proof. induction s as [|c s IH]; simpl; [reflexivity | now rewrite IH]. Qed.

Lemma append_assoc (a b c : string) : (a ++ b) ++ c = a ++ (b ++ c).
Proof. induction a as [|x a IH]; simpl; [reflexivity | now rewrite IH]. Qed.

Lemma length_append (a b : string) :
  String.length (a ++ b) = (String.length a + String.length b)%nat.
Proof. induction a as [|x a IH]; simpl; [reflexivity | now rewrite IH]. Qed.

Lemma prefix_append (w rest : string) : Text.prefix (String.length w) (w ++ rest) = w.
Proof. induction w as [|c w IH]; simpl; [now destruct rest | now rewrite IH]. Qed.

Lemma all_append (p : ascii -> bool) (a b : string) :
  Text.all p (a ++ b) = (Text.all p a && Text.all p b)%bool.
Proof.
  induction a as [|x a IH]; simpl; [reflexivity|].
  now rewrite IH, andb_assoc.
Qed.

End TextFacts.

(** ** The matcher against the declarative reading of a pattern *)

Section MatcherSound.

Variable n : nat.
Context {R : Type}.

Lemma consumed_append (w rest : string) : Re.consumed (w ++ rest) rest = w.
Proof.
  unfold Re.consumed. rewrite length_append.
  replace (String.length w + String.length rest - String.length rest)%nat
    with (String.length w) by lia.
  apply prefix_append.
Qed.

(** Whatever path of the repetition leads to a result, it consumed a word
    of the class within the bounds. *)
Lemma rep_sound (p : ascii -> bool) (s : string) :
  forall lo hi g (k : string -> Re.captures -> option R) x,
    Re.rep p lo hi s g k = Some x ->
    exists w rest,
      s = w ++ rest /\ Text.all p w = true /\ (lo <= String.length w)%nat /\
      (forall h, hi = Some h -> (String.length w <= h)%nat) /\
      k rest g = Some x.
Proof.
  induction s as [|c s IH]; intros lo hi g k x H.
  - exists "", "". simpl in *.
    destruct lo; [|destruct hi as [[|h]|]; discriminate].
    split; [reflexivity|]. split; [reflexivity|]. split; [apply Nat.le_refl|].
    split; [intros h _; apply Nat.le_0_l|].
    destruct hi as [[|h]|]; exact H.
  - assert (Hstop : (match lo with O => k (String c s) g | S _ => None end) = Some x ->
                    exists w rest, String c s = w ++ rest /\ Text.all p w = true /\
                      (lo <= String.length w)%nat /\
                      (forall h, hi = Some h -> (String.length w <= h)%nat) /\
                      k rest g = Some x).
    { intros Hs. destruct lo; [|discriminate].
      exists "", (String c s).
      split; [reflexivity|]. split; [reflexivity|]. split; [apply Nat.le_refl|].
      split; [intros h _; apply Nat.le_0_l | exact Hs]. }
    simpl in H.
    destruct hi as [[|h]|].
    + apply Hstop, H.
    + destruct (p c) eqn:Hc; [|apply Hstop, H].
      destruct (Re.rep p (Nat.pred lo) (option_map Nat.pred (Some (S h))) s g k) eqn:Hr;
        [|apply Hstop, H].
      inversion H; subst r. apply IH in Hr.
      destruct Hr as (w & rest & -> & Hall & Hlo & Hhi & Hk).
      exists (String c w), rest. simpl. rewrite Hc, Hall.
      split; [reflexivity|]. split; [reflexivity|]. split; [lia|].
      split; [|exact Hk].
      intros h' Hh'. inversion Hh'; subst h'.
      specialize (Hhi h eq_refl). lia.
    + destruct (p c) eqn:Hc; [|apply Hstop, H].
      destruct (Re.rep p (Nat.pred lo) (option_map Nat.pred None) s g k) eqn:Hr;
        [|apply Hstop, H].
      inversion H; subst r. apply IH in Hr.
      destruct Hr as (w & rest & -> & Hall & Hlo & Hhi & Hk).
      exists (String c w), rest. simpl. rewrite Hc, Hall.
      split; [reflexivity|]. split; [reflexivity|]. split; [lia|].
      split; [discriminate | exact Hk].
Qed.

(** Soundness of the matcher: a result comes from a word that the pattern
    matches declaratively and from the continuation applied to the rest. *)
Lemma run_sound (r : Re.regex) :
  forall s g (k : string -> Re.captures -> option R) x,
    Re.run n r s g k = Some x ->
    exists w rest g',
      s = w ++ rest /\ Re.matches n r w rest g g' /\ k rest g' = Some x.
Proof.
  induction r as [| |c|p|p lo hi|r1 IH1 r2 IH2|r1 IH1 r2 IH2|r1 IH1|i r1 IH1|name i r1 IH1];
    intros s g k x H; simpl in H.
  - destruct (Nat.eqb (String.length s) n) eqn:E; [|discriminate].
    apply Nat.eqb_eq in E.
    exists "", s, g. repeat split; auto. now constructor.
  - destruct s as [|c [|c' s']]; try discriminate.
    + exists "", "", g. repeat split; auto. constructor; auto.
    + destruct (Ascii.eqb c Re.newline) eqn:E; [|discriminate].
      apply Ascii.eqb_eq in E; subst c.
      exists "", (String Re.newline ""), g. repeat split; auto. constructor; auto.
  - destruct s as [|c' s]; [discriminate|].
    destruct (Ascii.eqb c c') eqn:E; [|discriminate].
    apply Ascii.eqb_eq in E; subst c'.
    exists (String c ""), s, g. repeat split; auto. constructor.
  - destruct s as [|c' s]; [discriminate|].
    destruct (p c') eqn:E; [|discriminate].
    exists (String c' ""), s, g. repeat split; auto. now constructor.
  - apply rep_sound in H. destruct H as (w & rest & -> & Hall & Hlo & Hhi & Hk).
    exists w, rest, g. repeat split; auto. now constructor.
  - apply IH1 in H. destruct H as (w1 & rest1 & g1 & -> & M1 & H).
    apply IH2 in H. destruct H as (w2 & rest & g2 & -> & M2 & H).
    exists (w1 ++ w2), rest, g2. rewrite append_assoc. repeat split; auto.
    econstructor; eauto.
  - destruct (Re.run n r1 s g k) eqn:E.
    + inversion H; subst r. apply IH1 in E.
      destruct E as (w & rest & g' & -> & M & Hk).
      exists w, rest, g'. repeat split; auto. now apply Re.M_Alt_l.
    + apply IH2 in H. destruct H as (w & rest & g' & -> & M & Hk).
      exists w, rest, g'. repeat split; auto. now apply Re.M_Alt_r.
  - destruct (Re.run n r1 s g k) eqn:E.
    + inversion H; subst r. apply IH1 in E.
      destruct E as (w & rest & g' & -> & M & Hk).
      exists w, rest, g'. repeat split; auto. now apply Re.M_Opt_some.
    + exists "", s, g. repeat split; auto. apply Re.M_Opt_none.
  - apply IH1 in H. destruct H as (w & rest & g' & -> & M & Hk).
    rewrite consumed_append in Hk.
    exists w, rest, ((i, w) :: g'). repeat split; auto. now constructor.
  - apply IH1 in H. destruct H as (w & rest & g' & -> & M & Hk).
    rewrite consumed_append in Hk.
    exists w, rest, ((i, w) :: g'). repeat split; auto. now constructor.
Qed.

End MatcherSound.

(** A successful [pattern.match(s)] is a declarative match of a prefix of
    [s]. *)
Lemma rmatch_sound (r : Re.regex) (s : string) (m : Re.captures) :
  Re.rmatch r s = Some m ->
  exists w rest, s = w ++ rest /\ Re.matches (String.length s) r w rest [] m.
Proof.
  unfold Re.rmatch. intros H. apply run_sound in H.
  destruct H as (w & rest & g' & -> & M & Hk). inversion Hk; subst g'.
  now exists w, rest.
Qed.

(** The captures only grow, and only by groups of the pattern. *)
Lemma matches_captures (n : nat) (r : Re.regex) (w rest : string) (g g' : Re.captures) :
  Re.matches n r w rest g g' ->
  exists new, g' = (new ++ g)%list /\
              Forall (fun kv => In (fst kv) (Re.group_numbers r)) new.
Proof.
  induction 1; simpl;
    try (exists []; split; [reflexivity | constructor]).
  - destruct IHmatches1 as (n1 & -> & F1), IHmatches2 as (n2 & -> & F2).
    exists (n2 ++ n1)%list. split; [now rewrite app_assoc|].
    apply Forall_app; split; eapply Forall_impl; eauto; simpl; intros;
      apply in_or_app; auto.
  - destruct IHmatches as (n1 & -> & F1). exists n1; split; auto.
    eapply Forall_impl; eauto; simpl; intros; apply in_or_app; auto.
  - destruct IHmatches as (n1 & -> & F1). exists n1; split; auto.
    eapply Forall_impl; eauto; simpl; intros; apply in_or_app; auto.
  - destruct IHmatches as (n1 & -> & F1). exists n1; split; auto.
  - destruct IHmatches as (n1 & -> & F1). exists ((i, w) :: n1). split; auto.
    constructor; simpl; auto. eapply Forall_impl; eauto; simpl; auto.
  - destruct IHmatches as (n1 & -> & F1). exists ((i, w) :: n1). split; auto.
    constructor; simpl; auto. eapply Forall_impl; eauto; simpl; auto.
Qed.

Lemma group_frame (new g : Re.captures) (i : nat) (l : list nat) :
  Forall (fun kv => In (fst kv) l) new -> ~ In i l ->
  Re.group (new ++ g)%list i = Re.group g i.
Proof.
  induction 1 as [|[k v] new Hk _ IH]; intros Hi; simpl; [reflexivity|].
  destruct (Nat.eqb k i) eqn:E; [|auto].
  apply Nat.eqb_eq in E; subst k. simpl in Hk. contradiction.
Qed.

(** A group outside a pattern keeps its text across a match of the
    pattern. *)
Lemma matches_frame (n : nat) (r : Re.regex) (w rest : string) (g g' : Re.captures) (i : nat) :
  Re.matches n r w rest g g' -> ~ In i (Re.group_numbers r) ->
  Re.group g' i = Re.group g i.
Proof.
  intros M Hi. apply matches_captures in M. destruct M as (new & -> & F).
  eapply group_frame; eauto.
Qed.

(** ** Date-time strings: the shape of a match *)

Ltac invert_matches :=
  repeat match goal with
  | H : Re.matches _ (Re.Seq _ _) _ _ _ _ |- _ => inversion H; subst; clear H
  | H : Re.matches _ (Re.Opt _) _ _ _ _ |- _ => inversion H; subst; clear H
  | H : Re.matches _ (Re.Alt _ _) _ _ _ _ |- _ => inversion H; subst; clear H
  | H : Re.matches _ (Re.Grp _ _) _ _ _ _ |- _ => inversion H; subst; clear H
  | H : Re.matches _ (Re.Named _ _ _) _ _ _ _ |- _ => inversion H; subst; clear H
  | H : Re.matches _ (Re.Chr _) _ _ _ _ |- _ => inversion H; subst; clear H
  | H : Re.matches _ (Re.Cls _) _ _ _ _ |- _ => inversion H; subst; clear H
  | H : Re.matches _ (Re.Rep _ _ _) _ _ _ _ |- _ => inversion H; subst; clear H
  | H : Re.matches _ Re.Bos _ _ _ _ |- _ => inversion H; subst; clear H
  | H : Re.matches _ Re.Eos _ _ _ _ |- _ => inversion H; subst; clear H
  end.

Lemma sign_class_cases (c : ascii) :
  TimeUtil.sign_class c = true -> c = "+"%char \/ c = "-"%char.
Proof.
  destruct c as [[] [] [] [] [] [] [] []]; vm_compute; intros H;
    try discriminate H; auto.
Qed.

Lemma digit_val_range (c : ascii) :
  Text.is_digit c = true -> 0 <= Text.digit_val c <= 9.
Proof.
  unfold Text.is_digit, Text.digit_val. intros H.
  apply andb_true_iff in H. destruct H as [H1 H2].
  apply Nat.leb_le in H1, H2. lia.
Qed.

Lemma exactly_two_digits (w : string) :
  Text.all Text.is_digit w = true -> (2 <= String.length w)%nat ->
  (forall h, Some 2%nat = Some h -> (String.length w <= h)%nat) ->
  is_two_digits w = true.
Proof.
  intros Hd Hlo Hhi. specialize (Hhi 2%nat eq_refl).
  unfold is_two_digits, Text.all_digits. rewrite Hd, andb_true_r.
  apply Nat.eqb_eq. lia.
Qed.

Lemma two_digits_inv (w : string) :
  is_two_digits w = true ->
  exists a b, w = String a (String b "") /\
              Text.is_digit a = true /\ Text.is_digit b = true.
Proof.
  unfold is_two_digits, Text.all_digits. intros H.
  apply andb_true_iff in H. destruct H as [Hl Hd].
  destruct w as [|a [|b [|c w]]]; try discriminate Hl.
  simpl in Hd. rewrite andb_true_r in Hd. apply andb_true_iff in Hd.
  exists a, b. tauto.
Qed.

Lemma two_digits_int (w : string) :
  is_two_digits w = true ->
  Text.int_of w = Ok (Text.digits_val 0 w) /\ 0 <= Text.digits_val 0 w <= 99.
Proof.
  intros H. destruct (two_digits_inv w H) as (a & b & -> & Ha & Hb).
  pose proof (digit_val_range a Ha). pose proof (digit_val_range b Hb).
  split.
  - unfold Text.int_of.
    assert (Hs : a <> "+"%char /\ a <> "-"%char)
      by (split; intros ->; discriminate Ha).
    destruct Hs as [Hp Hm].
    assert (E : Text.all_digits (String a (String b "")) = true)
      by (unfold Text.all_digits; simpl; now rewrite Ha, Hb).
    destruct a as [[] [] [] [] [] [] [] []]; try (now rewrite E);
      try (exfalso; apply Hp; reflexivity); try (exfalso; apply Hm; reflexivity).
  - unfold Text.digits_val. lia.
Qed.

(** ** Elapsed time from a number of microseconds *)

Lemma of_microseconds_total (x : Z) (v : Timedelta.timedelta) :
  Timedelta.of_microseconds x = Ok v ->
  Timedelta.total_microseconds v = x /\ Timedelta.wf v = true.
Proof.
  unfold Timedelta.of_microseconds, Timedelta.total_microseconds, Timedelta.wf,
    Timedelta.us_per_second.
  destruct (_ && _)%bool eqn:E; [|discriminate].
  intros H; inversion H; subst v; clear H; simpl.
  apply andb_true_iff in E. destruct E as [E1 E2].
  split.
  - pose proof (Z.div_mod x 1000000 ltac:(lia)).
    pose proof (Z.div_mod (x / 1000000) 86400 ltac:(lia)). lia.
  - rewrite E1, E2. simpl.
    pose proof (Z.mod_pos_bound x 1000000 ltac:(lia)).
    pose proof (Z.mod_pos_bound (x / 1000000) 86400 ltac:(lia)).
    repeat (apply andb_true_iff; split); try apply Z.leb_le; try apply Z.ltb_lt; lia.
Qed.

Lemma of_microseconds_in_range (x : Z) :
  -999999999 * 86400000000 <= x < 1000000000 * 86400000000 ->
  exists v, Timedelta.of_microseconds x = Ok v.
Proof.
  intros Hx. unfold Timedelta.of_microseconds, Timedelta.us_per_second.
  assert (E : -999999999 <= x / 1000000 / 86400 <= 999999999).
  { rewrite Z.div_div by lia. split.
    - apply Z.div_le_lower_bound; lia.
    - assert (x / (1000000 * 86400) < 1000000000); [|lia].
      apply Z.div_lt_upper_bound; lia. }
  destruct E as [E1 E2]. apply Z.leb_le in E1, E2. rewrite E1, E2. simpl. eauto.
Qed.

(** ** The zone of an explicit offset *)

Lemma signed_int (sg : ascii) (w : string) (v : Z) :
  TimeUtil.sign_class sg = true -> Text.int_of w = Ok v ->
  (w <> "" /\ Text.all_digits w = true) ->
  Text.int_of (String sg w) = Ok (offset_sign (String sg w) * Text.digits_val 0 w).
Proof.
  intros Hs Hw [Hne Hd].
  assert (U : (match w with
               | "" => Raise ValueError
               | _ => if Text.all_digits w then Ok (Text.digits_val 0 w) else Raise ValueError
               end) = Ok (Text.digits_val 0 w)).
  { destruct w; [contradiction|]. now rewrite Hd. }
  destruct (sign_class_cases sg Hs) as [-> | ->]; unfold Text.int_of, offset_sign.
  - rewrite U. f_equal; lia.
  - rewrite U. unfold bind. f_equal; lia.
Qed.

Lemma two_digits_text (w : string) :
  is_two_digits w = true -> w <> "" /\ Text.all_digits w = true.
Proof.
  intros H. destruct (two_digits_inv w H) as (a & b & -> & Ha & Hb).
  split; [discriminate|]. unfold Text.all_digits. simpl. now rewrite Ha, Hb.
Qed.

Lemma zone_of_offset (sg : ascii) (hh tzone : string) (tz_min : option string)
      (tz_local : option TimeZone.t) :
  TimeUtil.sign_class sg = true -> is_two_digits hh = true ->
  (forall mm, tz_min = Some mm -> is_two_digits mm = true) ->
  tzone <> "" -> tzone <> "Z" ->
  exists tz,
    TimeUtil.zone_of (Some tzone) (Some (String sg hh)) tz_min tz_local = Ok (Some tz) /\
    Timedelta.total_microseconds (TimeZone.offset tz) =
      offset_sign (String sg hh) *
      (Text.digits_val 0 hh * 3600000000
       + Text.digits_val 0 (Text.or_else tz_min "0") * 60000000) /\
    TimeZone.label tz = String sg hh ++ ":" ++ Text.or_else tz_min "00".
Proof.
  intros Hs Hh Hm Hne HZ.
  destruct (two_digits_int hh Hh) as [Ih Rh].
  pose proof (two_digits_text hh Hh) as Th.
  assert (M : exists mm, Text.or_else tz_min "0" = mm /\
                         Text.int_of mm = Ok (Text.digits_val 0 mm) /\
                         0 <= Text.digits_val 0 mm <= 99 /\
                         mm <> "" /\ Text.all_digits mm = true).
  { destruct tz_min as [mm|].
    - specialize (Hm mm eq_refl).
      destruct (two_digits_int mm Hm) as [Im Rm].
      destruct (two_digits_text mm Hm) as [Nm Dm].
      exists mm. repeat split; auto; try lia.
      destruct mm; [contradiction | reflexivity].
    - exists "0". repeat split; simpl; try lia; try discriminate; reflexivity. }
  destruct M as (mm & Emm & Im & Rm & Nm & Dm).
  unfold TimeUtil.zone_of.
  destruct tzone as [|c z]; [contradiction|].
  apply String.eqb_neq in HZ. rewrite HZ.
  unfold Text.int_or_0.
  rewrite (signed_int sg hh _ Hs Ih Th). unfold bind at 1.
  replace (Text.prefix 1 (String sg hh)) with (String sg "") by (now destruct hh).
  rewrite Emm. simpl append.
  rewrite (signed_int sg mm _ Hs Im (conj Nm Dm)). unfold bind at 1.
  assert (Sg : offset_sign (String sg mm) = offset_sign (String sg hh)) by reflexivity.
  rewrite Sg.
  assert (S1 : offset_sign (String sg hh) = 1 \/ offset_sign (String sg hh) = -1).
  { unfold offset_sign.
    destruct (sign_class_cases sg Hs) as [-> | ->]; auto. }
  unfold Timedelta.of_hours_minutes, Timedelta.us_per_minute, Timedelta.us_per_hour.
  destruct (of_microseconds_in_range
              (offset_sign (String sg hh) * Text.digits_val 0 mm * 60000000
               + offset_sign (String sg hh) * Text.digits_val 0 hh * 3600000000))
    as [v Hv]; [destruct S1 as [-> | ->]; lia|].
  rewrite Hv. unfold bind.
  eexists. split; [reflexivity|]. cbn [TimeZone.offset TimeZone.label].
  split; [|reflexivity].
  apply of_microseconds_total in Hv. destruct Hv as [Hv _]. rewrite Hv. ring.
Qed.

Ltac offset_case :=
  match goal with
  | Hg : Re.group _ 8 = Some ?tzone, HZ : ?tzone <> "Z" |- _ =>
      cbn in Hg;
      first
        [ discriminate Hg
        | injection Hg as Hg; subst tzone;
          first
            [ exfalso; apply HZ; reflexivity
            | cbn;
              split; [discriminate|];
              do 2 eexists; split; [reflexivity|];
              split; [assumption|];
              split; [now apply exactly_two_digits|];
              intros mm Hmm;
              first [ discriminate Hmm
                    | injection Hmm as Hmm; subst mm; now apply exactly_two_digits ] ] ]
  end.

Lemma long_offset_groups (s : string) (m : Re.captures) :
  Re.rmatch TimeUtil.RE_ISO_8601_DATETIME_LONG s = Some m -> offset_groups m.
Proof.
  intros H. apply rmatch_sound in H. destruct H as (w & rest & -> & M).
  unfold TimeUtil.RE_ISO_8601_DATETIME_LONG, Re.d, Re.d_star in M.
  invert_matches; intros tzone Hg HZ; offset_case.
Qed.

Lemma short_offset_groups (s : string) (m : Re.captures) :
  Re.rmatch TimeUtil.RE_ISO_8601_DATETIME_SHORT s = Some m -> offset_groups m.
Proof.
  intros H. apply rmatch_sound in H. destruct H as (w & rest & -> & M).
  unfold TimeUtil.RE_ISO_8601_DATETIME_SHORT, Re.d, Re.d_star in M.
  invert_matches; intros tzone Hg HZ; offset_case.
Qed.

Lemma match_datetime_offset_groups (s : string) (m : Re.captures) :
  TimeUtil.match_datetime s = Some m -> offset_groups m.
Proof.
  unfold TimeUtil.match_datetime.
  destruct (Re.rmatch TimeUtil.RE_ISO_8601_DATETIME_LONG s) eqn:E.
  - intros H; inversion H; subst. eapply long_offset_groups; eauto.
  - apply short_offset_groups.
Qed.

(** The zone of [parse_datetime_zoned] is the one [zone_of] computes from
    groups 8 to 10. *)
Lemma parse_datetime_zoned_tzinfo (s : string) (tz_local : option TimeZone.t)
      (m : Re.captures) (v : Datetime.datetime) :
  TimeUtil.match_datetime s = Some m ->
  TimeUtil.parse_datetime_zoned (TimeUtil.Str s) tz_local = Ok v ->
  TimeUtil.zone_of (Re.group m 8) (Re.group m 9) (Re.group m 10) tz_local
    = Ok (Datetime.tzinfo v).
Proof.
  intros Hm. unfold TimeUtil.parse_datetime_zoned. rewrite Hm.
  cbn [Re.groups map seq].
  destruct (TimeUtil.zone_of _ _ _ _) as [tz|]; [|discriminate].
  unfold bind at 1.
  repeat match goal with
  | |- bind ?c _ = _ -> _ => destruct c; [unfold bind at 1 | discriminate]
  end.
  unfold Datetime.new. destruct (_ && _)%bool; [|discriminate].
  intros H; inversion H; reflexivity.
Qed.

(** C4.  A date-time string with an explicit signed offset gets a zone
    whose offset is the two-digit hour field and the two-digit minute field
    (zero when absent), both with the sign written in front of the hours;
    ["2020-01-01T00:00:00-01:30"] is 01:30 on the same day in UTC. *)
Theorem explicit_offset_zone :
  (forall (s : string) (tz_local : option TimeZone.t) (m : Re.captures) (tzone : string),
      TimeUtil.match_datetime s = Some m ->
      Re.group m 8 = Some tzone -> tzone <> "Z" ->
      exists sg hh tz,
        Re.group m 9 = Some (String sg hh) /\
        TimeUtil.sign_class sg = true /\ is_two_digits hh = true /\
        (forall mm, Re.group m 10 = Some mm -> is_two_digits mm = true) /\
        TimeUtil.zone_of (Re.group m 8) (Re.group m 9) (Re.group m 10) tz_local
          = Ok (Some tz) /\
        Timedelta.total_microseconds (TimeZone.offset tz) =
          offset_sign (String sg hh) *
          (Text.digits_val 0 hh * 3600000000
           + Text.digits_val 0 (Text.or_else (Re.group m 10) "0") * 60000000) /\
        (forall v, TimeUtil.parse_datetime_zoned (TimeUtil.Str s) tz_local = Ok v ->
                   Datetime.tzinfo v = Some tz)) /\
  TimeUtil.parse_datetime (TimeUtil.Str "2020-01-01T00:00:00-01:30") None
    = Ok (Datetime.mk 2020 1 1 1 30 0 0 None).
Proof.
  split; [|reflexivity].
  intros s tz_local m tzone Hm Hg HZ.
  destruct (match_datetime_offset_groups s m Hm tzone Hg HZ)
    as (Hne & sg & hh & H9 & Hs & Hh & H10).
  destruct (zone_of_offset sg hh tzone (Re.group m 10) tz_local Hs Hh H10 Hne HZ)
    as (tz & Hz & Ht & _).
  exists sg, hh, tz. rewrite Hg, H9.
  split; [reflexivity|]. split; [exact Hs|]. split; [exact Hh|].
  split; [exact H10|]. split; [exact Hz|]. split; [exact Ht|].
  intros v Hv. pose proof (parse_datetime_zoned_tzinfo s tz_local m v Hm Hv) as E.
  rewrite Hg, H9, Hz in E. now inversion E.
Qed.

Lemma explicit_offset_zone_witness :
  exists sg hh tz,
    Re.group example_offset_captures 9 = Some (String sg hh) /\
    TimeUtil.sign_class sg = true /\ is_two_digits hh = true /\
    (forall mm, Re.group example_offset_captures 10 = Some mm -> is_two_digits mm = true) /\
    TimeUtil.zone_of (Re.group example_offset_captures 8) (Re.group example_offset_captures 9)
      (Re.group example_offset_captures 10) None = Ok (Some tz) /\
    Timedelta.total_microseconds (TimeZone.offset tz) =
      offset_sign (String sg hh) *
      (Text.digits_val 0 hh * 3600000000
       + Text.digits_val 0 (Text.or_else (Re.group example_offset_captures 10) "0") * 60000000) /\
    (forall v,
        TimeUtil.parse_datetime_zoned (TimeUtil.Str "2020-01-01T00:00:00-01:30") None = Ok v ->
        Datetime.tzinfo v = Some tz).
Proof.
  apply (proj1 explicit_offset_zone "2020-01-01T00:00:00-01:30" None
           example_offset_captures "-01:30").
  - vm_compute. reflexivity.
  - reflexivity.
  - discriminate.
Defined.

(** ** Duration strings: the shape of a match *)

Lemma split_dot_digits (w t : string) :
  Text.all Text.is_digit w = true ->
  Float.split_dot (w ++ t) = (w ++ fst (Float.split_dot t), snd (Float.split_dot t)).
Proof.
  induction w as [|c w IH]; intros H.
  - simpl. now destruct (Float.split_dot t).
  - simpl in H. apply andb_true_iff in H. destruct H as [Hc Hw].
    cbn [append Float.split_dot]. rewrite (IH Hw).
    destruct c as [[] [] [] [] [] [] [] []]; try discriminate Hc; reflexivity.
Qed.

Lemma nonempty_eqb (w : string) : (1 <= String.length w)%nat -> String.eqb w "" = false.
Proof. destruct w; simpl; [lia | reflexivity]. Qed.

Lemma number_whole (ip : string) :
  Text.all Text.is_digit ip = true -> (1 <= String.length ip)%nat ->
  is_number ip = true.
Proof.
  intros Hd Hl. unfold is_number.
  rewrite <- (append_nil_r ip) at 1. rewrite (split_dot_digits ip "" Hd).
  simpl. rewrite append_nil_r, (nonempty_eqb ip Hl). exact Hd.
Qed.

Lemma number_fraction (ip fs : string) :
  Text.all Text.is_digit ip = true -> (1 <= String.length ip)%nat ->
  Text.all Text.is_digit fs = true -> (1 <= String.length fs)%nat ->
  is_number (ip ++ "." ++ fs) = true.
Proof.
  intros Hd Hl Hf Hlf. unfold is_number.
  rewrite (split_dot_digits ip _ Hd). simpl.
  rewrite append_nil_r, (nonempty_eqb ip Hl), (nonempty_eqb fs Hlf).
  unfold Text.all_digits. now rewrite Hd, Hf.
Qed.

(** An optional number with its designator either takes no part, or
    consumes a number and the designator and records the number. *)
Lemma designated_matches (n : nat) (name : string) (i : nat) (x : ascii)
      (w rest : string) (g g' : Re.captures) :
  Re.matches n (TimeUtil.designated name i x) w rest g g' ->
  (g' = g /\ w = "") \/
  (exists num, w = num ++ String x "" /\ is_number num = true /\
               Re.group g' i = Some num).
Proof.
  unfold TimeUtil.designated, Re.d_plus. intros M.
  invert_matches; [| |now left]; right.
  - eexists. split; [reflexivity|]. split.
    + apply number_fraction; auto.
    + simpl. now rewrite Nat.eqb_refl.
  - eexists. split; [reflexivity|]. split.
    + rewrite append_nil_r. apply number_whole; auto.
    + simpl. now rewrite Nat.eqb_refl.
Qed.

Ltac invert_seq :=
  repeat match goal with
  | H : Re.matches _ (Re.Seq _ _) _ _ _ _ |- _ => inversion H; subst; clear H
  end.

Ltac frame i M :=
  rewrite (matches_frame _ _ _ _ _ _ i M)
    by (cbn; intros F; repeat destruct F as [F|F]; try discriminate F; exact F).

Ltac walk i :=
  repeat match goal with
  | M : Re.matches _ (TimeUtil.designated _ _ _) _ _ ?g ?g' |- context [Re.group ?g' i] =>
      first
        [ frame i M
        | let num := fresh "num" in
          let Hn := fresh "Hn" in
          destruct (designated_matches _ _ _ _ _ _ _ _ M)
            as [[-> _] | (num & _ & Hn & ->)]; [clear M | exact Hn] ]
  end.

(** The captures of a duration match: the sign is absent, ["+"] or
    ["-"]; every other named group is absent or a number. *)
Lemma duration_groups (s : string) (m : Re.captures) :
  Re.rmatch TimeUtil.RE_ISO_8601_DURATION s = Some m ->
  (duration_group m "sign" = None \/ duration_group m "sign" = Some "+"
   \/ duration_group m "sign" = Some "-") /\
  number_group (duration_group m "years") /\
  number_group (duration_group m "months") /\
  number_group (duration_group m "days") /\
  number_group (duration_group m "hours") /\
  number_group (duration_group m "minutes") /\
  number_group (duration_group m "seconds").
Proof.
  intros H. apply rmatch_sound in H. destruct H as (w & rest & -> & M).
  change (duration_group m "sign") with (Re.group m 1).
  change (duration_group m "years") with (Re.group m 2).
  change (duration_group m "months") with (Re.group m 4).
  change (duration_group m "days") with (Re.group m 6).
  change (duration_group m "hours") with (Re.group m 8).
  change (duration_group m "minutes") with (Re.group m 10).
  change (duration_group m "seconds") with (Re.group m 12).
  unfold TimeUtil.RE_ISO_8601_DURATION in M.
  invert_seq.
  repeat match goal with
  | H : Re.matches _ Re.Bos _ _ _ _ |- _ => inversion H; subst; clear H
  | H : Re.matches _ Re.Eos _ _ _ _ |- _ => inversion H; subst; clear H
  | H : Re.matches _ (Re.Chr _) _ _ _ _ |- _ => inversion H; subst; clear H
  end.
  match goal with
  | H : Re.matches _ (Re.Opt (Re.Chr _)) _ _ ?a ?b |- _ =>
      assert (a = b) by (inversion H; subst; auto;
                         match goal with
                         | H' : Re.matches _ (Re.Chr _) _ _ _ _ |- _ => now inversion H'
                         end);
      subst; clear H
  end.
  match goal with
  | H : Re.matches _ (Re.Opt (Re.Named "sign" _ _)) _ _ _ ?g1 |- _ =>
      assert (Hs : g1 = [] \/ g1 = [(1%nat, "+")] \/ g1 = [(1%nat, "-")])
        by (inversion H; subst; auto; invert_matches;
            match goal with
            | Hc : TimeUtil.sign_class ?c = true |- _ =>
                destruct (sign_class_cases c Hc) as [-> | ->]; auto
            end);
      clear H
  end.
  unfold number_group.
  repeat split; [walk 1%nat | walk 2%nat | walk 4%nat | walk 6%nat
                 | walk 8%nat | walk 10%nat | walk 12%nat];
    destruct Hs as [-> | [-> | ->]]; cbn; auto.
Qed.

(** Where the sign group comes from: the first character of the subject. *)
Lemma duration_sign (s : string) (m : Re.captures) :
  Re.rmatch TimeUtil.RE_ISO_8601_DURATION s = Some m ->
  (duration_group m "sign" = None /\ exists t, s = String "P" t) \/
  (exists c t, duration_group m "sign" = Some (String c "") /\
               s = String c (String "P" t)).
Proof.
  intros H. apply rmatch_sound in H. destruct H as (w & rest & -> & M).
  change (duration_group m "sign") with (Re.group m 1).
  unfold TimeUtil.RE_ISO_8601_DURATION in M.
  invert_seq.
  repeat match goal with
  | H : Re.matches _ Re.Bos _ _ _ _ |- _ => inversion H; subst; clear H
  | H : Re.matches _ (Re.Chr _) _ _ _ _ |- _ => inversion H; subst; clear H
  end.
  match goal with
  | H : Re.matches _ (Re.Opt (Re.Chr _)) _ _ ?a ?b |- _ =>
      assert (a = b) by (inversion H; subst; auto;
                         match goal with
                         | H' : Re.matches _ (Re.Chr _) _ _ _ _ |- _ => now inversion H'
                         end);
      subst; clear H
  end.
  match goal with
  | H : Re.matches _ (Re.Opt (Re.Named "sign" _ _)) _ _ _ _ |- _ =>
      inversion H; subst; clear H; invert_matches
  end.
  - right. do 2 eexists. split; [walk 1%nat; reflexivity|]. cbn. reflexivity.
  - left. split; [walk 1%nat; reflexivity|]. cbn. eauto.
Qed.

Lemma of_string_or_0_raises (x : option string) (e : exn) :
  Float.of_string_or_0 x = Raise e -> e = ValueError.
Proof.
  unfold Float.of_string_or_0, Float.of_string.
  destruct x as [[|c s]|]; try discriminate.
  destruct (Float.split_dot (String c s)) as [i [f|]].
  - destruct (_ && _)%bool; [discriminate | now inversion 1].
  - destruct i; [now inversion 1|].
    destruct (Text.all_digits _); [discriminate | now inversion 1].
Qed.

Lemma of_string_number (w : string) :
  is_number w = true -> exists f, Float.of_string_or_0 (Some w) = Ok f.
Proof.
  unfold is_number, Float.of_string_or_0, Float.of_string.
  destruct w as [|c s]; [discriminate|].
  destruct (Float.split_dot (String c s)) as [i [f|]]; intros H.
  - apply andb_true_iff in H. destruct H as [Hi Hf].
    destruct i; [discriminate|]. destruct f; [discriminate|].
    simpl in Hi, Hf. rewrite Hi, Hf. simpl. eauto.
  - destruct i; [discriminate|]. simpl in H. rewrite H. eauto.
Qed.

Lemma of_string_or_0_group (x : option string) :
  number_group x -> exists f, Float.of_string_or_0 x = Ok f.
Proof.
  destruct x as [w|]; simpl.
  - apply of_string_number.
  - intros _. unfold Float.of_string_or_0. eauto.
Qed.

(** A leading minus sign is always refused with [ValueError], whatever
    follows it. *)
Lemma minus_sign_refused (t : string) :
  TimeUtil.parse_duration (TimeUtil.Str (String "-" t)) = Raise ValueError.
Proof.
  unfold TimeUtil.parse_duration.
  destruct (Re.rmatch TimeUtil.RE_ISO_8601_DURATION (String "-" t)) as [m|] eqn:E;
    [|reflexivity].
  cbv zeta.
  destruct (duration_sign _ _ E) as [[_ [t' Ht]] | (c & t' & Hs & Ht)];
    [discriminate Ht|].
  injection Ht as <- _. unfold duration_group in Hs. rewrite Hs. cbn [Text.or_else String.eqb Ascii.eqb Bool.eqb].
  repeat match goal with
  | |- bind ?c _ = _ =>
      let E' := fresh "E" in
      destruct c eqn:E';
        [unfold bind at 1 | rewrite (of_string_or_0_raises _ _ E'); reflexivity]
  end.
  reflexivity.
Qed.

(** What [parse_duration] computes from a match without a minus sign:
    every named group is absent or a number, and the result is the
    [timedelta] constructor applied to [days + 30 months + 365 years] and
    [seconds + 60 minutes + 3600 hours], computed in binary64. *)
Lemma parse_duration_floats (s : string) (m : Re.captures) :
  Re.rmatch TimeUtil.RE_ISO_8601_DURATION s = Some m ->
  duration_group m "sign" <> Some "-" ->
  (number_group (duration_group m "years") /\
   number_group (duration_group m "months") /\
   number_group (duration_group m "days") /\
   number_group (duration_group m "hours") /\
   number_group (duration_group m "minutes") /\
   number_group (duration_group m "seconds")) /\
  exists years months days hours minutes seconds,
    Float.of_string_or_0 (duration_group m "years") = Ok years /\
    Float.of_string_or_0 (duration_group m "months") = Ok months /\
    Float.of_string_or_0 (duration_group m "days") = Ok days /\
    Float.of_string_or_0 (duration_group m "hours") = Ok hours /\
    Float.of_string_or_0 (duration_group m "minutes") = Ok minutes /\
    Float.of_string_or_0 (duration_group m "seconds") = Ok seconds /\
    TimeUtil.parse_duration (TimeUtil.Str s) =
      Timedelta.of_floats
        (Float.add (Float.add days (Float.mul months (Float.of_Z 30)))
           (Float.mul years (Float.of_Z 365)))
        (Float.add (Float.add seconds (Float.mul minutes (Float.of_Z 60)))
           (Float.mul hours (Float.of_Z 3600))).
Proof.
  intros Hm Hsign.
  destruct (duration_groups s m Hm) as (Hs & Gy & Gmo & Gd & Gh & Gmi & Gs).
  split; [tauto|].
  destruct (of_string_or_0_group _ Gy) as [years Ey].
  destruct (of_string_or_0_group _ Gmo) as [months Emo].
  destruct (of_string_or_0_group _ Gd) as [days Ed].
  destruct (of_string_or_0_group _ Gh) as [hours Eh].
  destruct (of_string_or_0_group _ Gmi) as [minutes Emi].
  destruct (of_string_or_0_group _ Gs) as [seconds Es].
  exists years, months, days, hours, minutes, seconds.
  repeat (split; [assumption|]).
  unfold TimeUtil.parse_duration. rewrite Hm. cbv zeta.
  unfold duration_group in *.
  rewrite Ey, Emo, Ed, Eh, Emi, Es. unfold bind.
  destruct Hs as [-> | [-> | E]]; [reflexivity | reflexivity | contradiction].
Qed.

(** ** Malformed input *)

(** C2, as the code has it.  ["not-a-date"] is refused by both parsers and
    ["P"] by [parse_datetime]; [parse_duration] matches ["P"] with every
    group absent and returns the zero-length elapsed time. *)
Theorem malformed_inputs (tz_local : option TimeZone.t) :
  TimeUtil.parse_datetime (TimeUtil.Str "not-a-date") tz_local = Raise ValueError /\
  TimeUtil.parse_datetime (TimeUtil.Str "P") tz_local = Raise ValueError /\
  TimeUtil.parse_duration (TimeUtil.Str "not-a-date") = Raise ValueError /\
  TimeUtil.parse_duration (TimeUtil.Str "P") = Ok TimeUtil.ZERO.
Proof. repeat split; vm_compute; reflexivity. Qed.

(** [parse_duration("P")] is not an error. *)
Lemma incomplete_duration_accepted :
  ~ (TimeUtil.parse_duration (TimeUtil.Str "not-a-date") = Raise ValueError /\
     TimeUtil.parse_duration (TimeUtil.Str "P") = Raise ValueError).
Proof. intros [_ H]. vm_compute in H. discriminate H. Qed.

(** ** Dates *)

(** C9.  A date is returned as it is; any other value goes through
    [parse_datetime] without an assumed zone, whose result is cut down to
    its date and whose errors are passed on. *)
Theorem parse_date_delegates (value : TimeUtil.value) :
  TimeUtil.parse_date value =
    match value with
    | TimeUtil.DateV d => Ok d
    | _ =>
        match TimeUtil.parse_datetime value None with
        | Ok v => Ok (Date.mk (Datetime.year v) (Datetime.month v) (Datetime.day v))
        | Raise e => Raise e
        end
    end.
Proof. destruct value; reflexivity. Qed.

Example parse_date_examples :
  TimeUtil.parse_date (TimeUtil.Str "2019-05-01T23:30:00-02:00") = Ok (Date.mk 2019 5 2) /\
  TimeUtil.parse_date (TimeUtil.Str "2019-02-30") = Raise ValueError /\
  TimeUtil.parse_date (TimeUtil.DateV (Date.mk 2019 5 1)) = Ok (Date.mk 2019 5 1) /\
  TimeUtil.parse_date (TimeUtil.DatetimeV (Datetime.mk 2019 5 1 12 0 0 0 None))
    = Ok (Date.mk 2019 5 1).
Proof. repeat split; vm_compute; reflexivity. Qed.

(** ** Negative elapsed times *)

(** An elapsed time given as such is returned unchanged, negative or
    not. *)
Lemma negative_timedelta_returned :
  TimeUtil.parse_duration (TimeUtil.TimedeltaV (Timedelta.mk (-1) 0 0))
    = Ok (Timedelta.mk (-1) 0 0) /\
  Timedelta.wf (Timedelta.mk (-1) 0 0) = true /\
  Timedelta.total_microseconds (Timedelta.mk (-1) 0 0) < 0.
Proof. repeat split. Qed.

(** ** The matcher on numbers: which path wins *)

Section Forward.

Variable n : nat.
Context {R : Type}.

(** Greedy digits in front of something that is not a digit: when the
    continuation fails on every subject that starts with a digit, giving
    digits back cannot help, and the continuation sees the rest. *)
Lemma rep_digits (ds t : string) (g : Re.captures)
      (k : string -> Re.captures -> option R) :
  Text.all Text.is_digit ds = true -> starts_outside Text.is_digit t = true ->
  rejects Text.is_digit k ->
  forall lo, Re.rep Text.is_digit lo None (ds ++ t) g k =
             if Nat.leb lo (String.length ds) then k t g else None.
Proof.
  intros Hd Ht Hk. induction ds as [|c ds IH]; intros lo.
  - cbn [append String.length].
    destruct t as [|c u]; cbn.
    + now destruct lo.
    + cbn in Ht. apply negb_true_iff in Ht. rewrite Ht. now destruct lo.
  - cbn in Hd. apply andb_true_iff in Hd. destruct Hd as [Hc Hd].
    cbn [append String.length Re.rep option_map]. rewrite Hc, (IH Hd).
    assert (Hstop : (match lo with
                     | O => k (String c (ds ++ t)) g
                     | S _ => None
                     end) = None)
      by (destruct lo; [now apply Hk | reflexivity]).
    rewrite Hstop.
    destruct lo as [|lo]; cbn [Nat.pred Nat.leb].
    + now destruct (k t g).
    + destruct (Nat.leb lo (String.length ds)); [now destruct (k t g) | reflexivity].
Qed.

(** [\d+(\.\d+)?] in front of text that cannot continue the number. *)
Lemma number_run (j : nat) (ip : string) (fs : option string) (t : string)
      (g : Re.captures) (k : string -> Re.captures -> option R) :
  digits_nonempty ip = true -> fraction_ok fs = true ->
  starts_outside Text.is_digit t = true ->
  (fs = None -> starts_outside is_point t = true) ->
  rejects Text.is_digit k -> rejects is_point k ->
  Re.run n (Re.Seq Re.d_plus (Re.Opt (Re.Grp j (Re.Seq (Re.Chr ".") Re.d_plus))))
    (ip ++ fraction_text fs ++ t) g k
  = k t (fraction_captures j fs ++ g)%list.
Proof.
  intros Hip Hfs Ht Hpt Kd Kp.
  unfold digits_nonempty in Hip. apply andb_true_iff in Hip. destruct Hip as [Hne Hip].
  assert (Hl : Nat.leb 1 (String.length ip) = true)
    by (destruct ip; [discriminate Hne | reflexivity]).
  unfold Re.d_plus. cbn [Re.run].
  rewrite rep_digits; [rewrite Hl | exact Hip | | ].
  - destruct fs as [f|]; cbn [fraction_text fraction_captures].
    + cbn in Hfs. unfold digits_nonempty in Hfs.
      apply andb_true_iff in Hfs. destruct Hfs as [Hnf Hf].
      assert (Hlf : Nat.leb 1 (String.length f) = true)
        by (destruct f; [discriminate Hnf | reflexivity]).
      cbn [append Re.run Ascii.eqb Bool.eqb].
      rewrite rep_digits; [rewrite Hlf | exact Hf | exact Ht | ].
      * change (String "." (f ++ t)) with (String "." f ++ t) at 1.
        rewrite consumed_append.
        cbn [app]. destruct (k t _) eqn:E; [reflexivity|].
        now apply Kp.
      * intros c u g' Hc. now apply Kd.
    + cbn [append app].
      specialize (Hpt eq_refl).
      destruct t as [|c u]; cbn [Re.run].
      * reflexivity.
      * unfold starts_outside, is_point in Hpt. apply negb_true_iff in Hpt.
        rewrite Ascii.eqb_sym, Hpt. reflexivity.
  - destruct fs as [f|]; [reflexivity | exact Ht].
  - intros c u g' Hc. cbn [Re.run].
    assert (E : Ascii.eqb "." c = false)
      by (destruct c as [[] [] [] [] [] [] [] []]; try discriminate Hc; reflexivity).
    rewrite E. now apply Kd.
Qed.

End Forward.

Section Designated.

Variable n : nat.
Context {R : Type}.

Lemma run_Opt (r : Re.regex) (s : string) (g : Re.captures)
      (k : string -> Re.captures -> option R) :
  Re.run n (Re.Opt r) s g k =
    match Re.run n r s g k with
    | Some x => Some x
    | None => k s g
    end.
Proof. reflexivity. Qed.

Lemma run_Seq (r1 r2 : Re.regex) (s : string) (g : Re.captures)
      (k : string -> Re.captures -> option R) :
  Re.run n (Re.Seq r1 r2) s g k = Re.run n r1 s g (fun s' g' => Re.run n r2 s' g' k).
Proof. reflexivity. Qed.

Lemma run_Named (name : string) (i : nat) (r : Re.regex) (s : string) (g : Re.captures)
      (k : string -> Re.captures -> option R) :
  Re.run n (Re.Named name i r) s g k =
    Re.run n r s g (fun s' g' => k s' ((i, Re.consumed s s') :: g')).
Proof. reflexivity. Qed.

Lemma digit_differs (x c : ascii) :
  Text.is_digit x = false -> Text.is_digit c = true -> Ascii.eqb x c = false.
Proof.
  intros Hx Hc. apply Ascii.eqb_neq. intros ->. rewrite Hx in Hc. discriminate.
Qed.

Lemma point_differs (x c : ascii) :
  is_point x = false -> is_point c = true -> Ascii.eqb x c = false.
Proof.
  unfold is_point. intros Hx Hc. apply Ascii.eqb_eq in Hc. subst c. exact Hx.
Qed.

(** The continuation of a number inside [designated]: it closes the named
    group and wants the designator. *)
Lemma designator_rejects (p : ascii -> bool) (i : nat) (x : ascii)
      (w : string -> string) (k : string -> Re.captures -> option R) :
  (forall c, p c = true -> Ascii.eqb x c = false) ->
  rejects p (fun s' g' => Re.run n (Re.Chr x) s' ((i, w s') :: g') k).
Proof.
  intros H c u g Hc. cbn [Re.run]. now rewrite (H c Hc).
Qed.

Lemma consumed_number (ip ft t : string) :
  Re.consumed (ip ++ ft ++ t) t = ip ++ ft.
Proof. rewrite <- append_assoc. apply consumed_append. Qed.

(** The number and its designator are there: the group takes them when
    the rest of the pattern succeeds after them. *)
Lemma designated_take (name : string) (i : nat) (x : ascii) (ip : string)
      (fs : option string) (rest : string) (g : Re.captures)
      (k : string -> Re.captures -> option R) (r : R) :
  digits_nonempty ip = true -> fraction_ok fs = true ->
  Text.is_digit x = false -> is_point x = false ->
  k rest ((i, (ip ++ fraction_text fs)%string) :: fraction_captures (S i) fs ++ g)%list
    = Some r ->
  Re.run n (TimeUtil.designated name i x) (ip ++ fraction_text fs ++ String x rest) g k
  = Some r.
Proof.
  intros Hip Hfs Hx Hp Hk. unfold TimeUtil.designated.
  rewrite run_Opt, run_Seq, run_Named.
  rewrite (number_run n (S i) ip fs (String x rest) g); auto.
  - cbn [Re.run]. rewrite Ascii.eqb_refl, consumed_number, Hk. reflexivity.
  - cbn. now rewrite Hx.
  - intros _. cbn. now rewrite Hp.
  - apply (designator_rejects Text.is_digit i x (fun s' => Re.consumed _ s')).
    intros c. now apply digit_differs.
  - apply (designator_rejects is_point i x (fun s' => Re.consumed _ s')).
    intros c. now apply point_differs.
Qed.

(** A number with another designator: the group takes no part. *)
Lemma designated_skip_other (name : string) (i : nat) (x y : ascii) (ip : string)
      (fs : option string) (rest : string) (g : Re.captures)
      (k : string -> Re.captures -> option R) :
  digits_nonempty ip = true -> fraction_ok fs = true ->
  Text.is_digit x = false -> is_point x = false ->
  Text.is_digit y = false -> is_point y = false -> Ascii.eqb x y = false ->
  Re.run n (TimeUtil.designated name i x) (ip ++ fraction_text fs ++ String y rest) g k
  = k (ip ++ fraction_text fs ++ String y rest) g.
Proof.
  intros Hip Hfs Hx Hp Hy Hyp Hxy. unfold TimeUtil.designated.
  rewrite run_Opt, run_Seq, run_Named.
  rewrite (number_run n (S i) ip fs (String y rest) g); auto.
  - cbn [Re.run]. rewrite Hxy. reflexivity.
  - cbn. now rewrite Hy.
  - intros _. cbn. now rewrite Hyp.
  - apply (designator_rejects Text.is_digit i x (fun s' => Re.consumed _ s')).
    intros c. now apply digit_differs.
  - apply (designator_rejects is_point i x (fun s' => Re.consumed _ s')).
    intros c. now apply point_differs.
Qed.

(** No digit in front: the group takes no part. *)
Lemma designated_skip_start (name : string) (i : nat) (x : ascii) (s : string)
      (g : Re.captures) (k : string -> Re.captures -> option R) :
  starts_outside Text.is_digit s = true ->
  Re.run n (TimeUtil.designated name i x) s g k = k s g.
Proof.
  intros Hs. unfold TimeUtil.designated, Re.d_plus. cbn [Re.run].
  destruct s as [|c u]; cbn [Re.rep].
  - reflexivity.
  - cbn in Hs. apply negb_true_iff in Hs. rewrite Hs. reflexivity.
Qed.

End Designated.

(** A number is digits, optionally followed by a point and digits. *)
Lemma split_dot_spec (w : string) :
  w = fst (Float.split_dot w) ++ fraction_text (snd (Float.split_dot w)).
Proof.
  induction w as [|c w IH]; [reflexivity|].
  cbn [Float.split_dot].
  destruct (Float.split_dot w) as [i f]. cbn [fst snd] in IH.
  destruct c as [[] [] [] [] [] [] [] []]; cbn [fst snd append]; try (now rewrite <- IH).
  rewrite IH. cbn. reflexivity.
Qed.

Lemma number_parts (w : string) :
  is_number w = true ->
  exists ip fs, w = ip ++ fraction_text fs /\
                digits_nonempty ip = true /\ fraction_ok fs = true.
Proof.
  unfold is_number. intros H. pose proof (split_dot_spec w) as E.
  destruct (Float.split_dot w) as [i [f|]]; cbn [fst snd] in E.
  - apply andb_true_iff in H. destruct H as [Hi Hf].
    exists i, (Some f). auto.
  - exists i, None. auto.
Qed.

(** ["P<n>M"]: the number is taken by the months group. *)
Lemma months_match (num : string) :
  is_number num = true ->
  exists m, Re.rmatch TimeUtil.RE_ISO_8601_DURATION ("P" ++ num ++ "M") = Some m /\
            duration_group m "sign" = None /\ duration_group m "years" = None /\
            duration_group m "months" = Some num /\ duration_group m "days" = None /\
            duration_group m "hours" = None /\ duration_group m "minutes" = None /\
            duration_group m "seconds" = None.
Proof.
  intros H. destruct (number_parts num H) as (ip & fs & -> & Hip & Hfs).
  exists ((4%nat, ip ++ fraction_text fs) :: fraction_captures 5 fs).
  split.
  - unfold Re.rmatch, TimeUtil.RE_ISO_8601_DURATION.
    rewrite append_assoc.
    cbn [Re.run append]. rewrite Nat.eqb_refl.
    change (TimeUtil.sign_class "P") with false. cbn [Ascii.eqb Bool.eqb].
    rewrite designated_skip_other by (auto; reflexivity).
    erewrite designated_take; [reflexivity | auto | auto | reflexivity | reflexivity |].
    rewrite designated_skip_start by reflexivity.
    cbn [Re.run].
    rewrite !designated_skip_start by reflexivity.
    cbn [Re.run]. rewrite app_nil_r. reflexivity.
  - destruct fs; repeat split; cbn; try reflexivity.
Qed.

(** ["PT<n>M"]: the number is taken by the minutes group. *)
Lemma minutes_match (num : string) :
  is_number num = true ->
  exists m, Re.rmatch TimeUtil.RE_ISO_8601_DURATION ("PT" ++ num ++ "M") = Some m /\
            duration_group m "sign" = None /\ duration_group m "years" = None /\
            duration_group m "months" = None /\ duration_group m "days" = None /\
            duration_group m "hours" = None /\ duration_group m "minutes" = Some num /\
            duration_group m "seconds" = None.
Proof.
  intros H. destruct (number_parts num H) as (ip & fs & -> & Hip & Hfs).
  exists ((10%nat, ip ++ fraction_text fs) :: fraction_captures 11 fs).
  split.
  - unfold Re.rmatch, TimeUtil.RE_ISO_8601_DURATION.
    rewrite append_assoc.
    cbn [Re.run append]. rewrite Nat.eqb_refl.
    change (TimeUtil.sign_class "P") with false. cbn [Ascii.eqb Bool.eqb].
    rewrite !designated_skip_start by reflexivity.
    cbn [Re.run Ascii.eqb Bool.eqb].
    rewrite designated_skip_other by (auto; reflexivity).
    erewrite designated_take; [reflexivity | auto | auto | reflexivity | reflexivity |].
    rewrite designated_skip_start by reflexivity.
    cbn [Re.run]. rewrite app_nil_r. reflexivity.
  - destruct fs; repeat split; cbn; try reflexivity.
Qed.

(** ** The calendar: ordinals and dates *)

Lemma holds_from_spec (f : Z -> bool) (fuel : nat) :
  forall from, holds_from f fuel from = true ->
               forall n, from <= n < from + Z.of_nat fuel -> f n = true.
Proof.
  induction fuel as [|fuel IH]; intros from H n Hn.
  - simpl in Hn. lia.
  - cbn [holds_from] in H. apply andb_true_iff in H. destruct H as [H0 H1].
    destruct (Z.eq_dec n from) as [-> | Hne]; [exact H0|].
    apply (IH (from + 1) H1). lia.
Qed.

(** Every day of the first 400-year cycle, by evaluation. *)
Lemma first_cycle (n : Z) : 1 <= n <= 146097 -> cycle_day_ok n = true.
Proof.
  intros Hn.
  apply (holds_from_spec cycle_day_ok (Z.to_nat 146097) 1).
  - vm_compute. reflexivity.
  - rewrite Z2Nat.id by lia. lia.
Qed.

(** A whole number of cycles moves the year by 400 each and nothing
    else. *)
Lemma ord2ymd_cycle (n : Z) :
  Calendar.ord2ymd n =
    let '(y, m, d) := Calendar.ord2ymd ((n - 1) mod 146097 + 1) in
    (y + 400 * ((n - 1) / 146097), m, d).
Proof.
  unfold Calendar.ord2ymd, Calendar.DI400Y.
  replace ((n - 1) mod 146097 + 1 - 1) with ((n - 1) mod 146097) by lia.
  rewrite Z.mod_mod by lia.
  rewrite (Z.div_small ((n - 1) mod 146097) 146097)
    by (apply Z.mod_pos_bound; lia).
  cbv zeta.
  destruct (_ || _)%bool; [f_equal; f_equal; lia|].
  destruct (_ <? _); f_equal; f_equal; lia.
Qed.

Lemma is_leap_cycle (y q : Z) : Calendar.is_leap (y + 400 * q) = Calendar.is_leap y.
Proof.
  unfold Calendar.is_leap.
  replace (y + 400 * q) with (y + (100 * q) * 4) at 1 by lia.
  replace (y + 400 * q) with (y + (4 * q) * 100) at 1 by lia.
  replace (y + 400 * q) with (y + q * 400) by lia.
  now rewrite !Z.mod_add by lia.
Qed.

Lemma ymd2ord_cycle (y m d q : Z) :
  Calendar.ymd2ord (y + 400 * q) m d = Calendar.ymd2ord y m d + 146097 * q.
Proof.
  unfold Calendar.ymd2ord, Calendar.days_before_month, Calendar.days_before_year.
  rewrite is_leap_cycle.
  replace (y + 400 * q - 1) with (y - 1 + (100 * q) * 4) at 2 by lia.
  replace (y + 400 * q - 1) with (y - 1 + (4 * q) * 100) at 2 by lia.
  replace (y + 400 * q - 1) with (y - 1 + q * 400) at 2 by lia.
  rewrite !Z.div_add by lia. lia.
Qed.

Lemma days_in_month_cycle (y m q : Z) :
  Calendar.days_in_month (y + 400 * q) m = Calendar.days_in_month y m.
Proof. unfold Calendar.days_in_month. now rewrite is_leap_cycle. Qed.

(** [ymd2ord] undoes [ord2ymd], on every ordinal. *)
Lemma ymd2ord_ord2ymd (n : Z) :
  let '(y, m, d) := Calendar.ord2ymd n in Calendar.ymd2ord y m d = n.
Proof.
  rewrite ord2ymd_cycle.
  pose proof (Z.mod_pos_bound (n - 1) 146097 ltac:(lia)) as Hr.
  pose proof (first_cycle ((n - 1) mod 146097 + 1) ltac:(lia)) as Hc.
  unfold cycle_day_ok in Hc.
  destruct (Calendar.ord2ymd ((n - 1) mod 146097 + 1)) as [[y m] d].
  rewrite !andb_true_iff in Hc. destruct Hc as [[[[[[[Hc _] _] _] _] _] _] _].
  apply Z.eqb_eq in Hc. rewrite ymd2ord_cycle, Hc.
  pose proof (Z.div_mod (n - 1) 146097 ltac:(lia)). lia.
Qed.

(** The date of an ordinal between 1 and [MAXORDINAL] is valid. *)
Lemma ord2ymd_valid (n : Z) :
  0 < n <= Calendar.MAXORDINAL ->
  let '(y, m, d) := Calendar.ord2ymd n in Calendar.valid_date y m d = true.
Proof.
  unfold Calendar.MAXORDINAL. intros Hn.
  rewrite ord2ymd_cycle.
  pose proof (Z.mod_pos_bound (n - 1) 146097 ltac:(lia)) as Hr.
  pose proof (first_cycle ((n - 1) mod 146097 + 1) ltac:(lia)) as Hc.
  unfold cycle_day_ok in Hc.
  destruct (Calendar.ord2ymd ((n - 1) mod 146097 + 1)) as [[y m] d].
  rewrite !andb_true_iff in Hc.
  destruct Hc as [[[[[[[_ Hy1] Hy2] Hy3] Hm1] Hm2] Hd1] Hd2].
  apply Z.leb_le in Hy1, Hy2, Hm1, Hm2, Hd1, Hd2.
  apply orb_true_iff in Hy3.
  unfold Calendar.valid_date, Calendar.MINYEAR, Calendar.MAXYEAR.
  rewrite days_in_month_cycle.
  pose proof (Z.div_mod (n - 1) 146097 ltac:(lia)) as Hdm.
  assert (Hq : 0 <= (n - 1) / 146097 <= 24).
  { split; [apply Z.div_pos; lia|].
    assert ((n - 1) / 146097 < 25); [|lia].
    apply Z.div_lt_upper_bound; lia. }
  assert (Hyear : 1 <= y + 400 * ((n - 1) / 146097) <= 9999).
  { destruct Hy3 as [Hy3 | Hy3].
    - apply Z.leb_le in Hy3. lia.
    - apply Z.ltb_lt in Hy3. lia. }
  repeat (apply andb_true_iff; split); apply Z.leb_le; lia.
Qed.

(** ** Conversion to UTC *)

(** Subtracting an elapsed time moves the wall clock by that much, keeps
    the zone and gives valid fields. *)
Lemma sub_spec (v r : Datetime.datetime) (delta : Timedelta.timedelta) :
  Datetime.sub v delta = Ok r ->
  Datetime.wall_clock r = Datetime.wall_clock v - Timedelta.total_microseconds delta /\
  Datetime.tzinfo r = Datetime.tzinfo v /\
  Datetime.wf r = true.
Proof.
  unfold Datetime.sub, Timedelta.us_per_day.
  set (t := Datetime.wall_clock v - Timedelta.total_microseconds delta).
  destruct (_ && _)%bool eqn:E; [|discriminate].
  apply andb_true_iff in E. destruct E as [E1 E2].
  apply Z.ltb_lt in E1. apply Z.leb_le in E2.
  pose proof (ymd2ord_ord2ymd (t / 86400000000)) as Hrt.
  pose proof (ord2ymd_valid (t / 86400000000) (conj E1 E2)) as Hv.
  destruct (Calendar.ord2ymd (t / 86400000000)) as [[y mo] d].
  intros H. inversion H; subst r; clear H.
  pose proof (Z.div_mod t 86400000000 ltac:(lia)) as D1.
  pose proof (Z.mod_pos_bound t 86400000000 ltac:(lia)) as B1.
  set (rest := t mod 86400000000) in *.
  pose proof (Z.div_mod rest 1000000 ltac:(lia)) as D2.
  pose proof (Z.mod_pos_bound rest 1000000 ltac:(lia)) as B2.
  set (secs := rest / 1000000) in *.
  pose proof (Z.div_mod secs 3600 ltac:(lia)) as D3.
  pose proof (Z.mod_pos_bound secs 3600 ltac:(lia)) as B3.
  set (rem := secs mod 3600) in *.
  pose proof (Z.div_mod rem 60 ltac:(lia)) as D4.
  pose proof (Z.mod_pos_bound rem 60 ltac:(lia)) as B4.
  assert (S1 : 0 <= secs < 86400) by lia.
  assert (S2 : 0 <= secs / 3600 < 24) by lia.
  assert (S3 : 0 <= rem / 60 < 60) by lia.
  split; [|split; [reflexivity|]].
  - unfold Datetime.wall_clock, Datetime.toordinal. cbn [Datetime.year Datetime.month
      Datetime.day Datetime.hour Datetime.minute Datetime.second Datetime.microsecond].
    rewrite Hrt. lia.
  - unfold Datetime.wf. cbn [Datetime.year Datetime.month
      Datetime.day Datetime.hour Datetime.minute Datetime.second Datetime.microsecond].
    rewrite Hv. unfold Calendar.valid_time.
    repeat (apply andb_true_iff; split); try reflexivity; apply Z.leb_le; lia.
Qed.

Lemma astimezone_UTC_spec (v r : Datetime.datetime) (tz : TimeZone.t) :
  Datetime.astimezone v tz TimeUtil.UTC = Ok r ->
  Datetime.wall_clock r
    = Datetime.wall_clock v - Timedelta.total_microseconds (TimeZone.offset tz) /\
  Datetime.wf r = true.
Proof.
  unfold Datetime.astimezone.
  destruct (TimeZone.utcoffset tz) as [off|] eqn:Eo; [|discriminate].
  assert (off = TimeZone.offset tz).
  { unfold TimeZone.utcoffset in Eo. destruct (_ && _)%bool; now inversion Eo. }
  subst off. unfold bind at 1.
  destruct (Datetime.sub v (TimeZone.offset tz)) as [utc|] eqn:Es; [|discriminate].
  unfold bind at 1.
  change (TimeZone.utcoffset TimeUtil.UTC) with (Ok Timedelta.ZERO).
  change (Timedelta.neg (TimeZone.dst TimeUtil.UTC)) with (Ok Timedelta.ZERO).
  unfold bind. intros H.
  apply sub_spec in Es. apply sub_spec in H.
  destruct Es as (W1 & _ & _), H as (W2 & _ & V).
  split; [|exact V]. rewrite W2.
  change (Datetime.wall_clock (Datetime.replace_tzinfo utc (Some TimeUtil.UTC)))
    with (Datetime.wall_clock utc).
  rewrite W1. change (Timedelta.total_microseconds Timedelta.ZERO) with 0. lia.
Qed.

(** [to_utc_naive]: a zone-aware value moves to UTC and loses its zone, a
    naive one is returned as it is. *)
Lemma to_utc_naive_spec (z r : Datetime.datetime) :
  TimeUtil.to_utc_naive z = Ok r ->
  Datetime.tzinfo r = None /\
  match Datetime.tzinfo z with
  | Some tz =>
      Datetime.wall_clock r
        = Datetime.wall_clock z - Timedelta.total_microseconds (TimeZone.offset tz) /\
      Datetime.wf r = true
  | None => r = z
  end.
Proof.
  unfold TimeUtil.to_utc_naive.
  destruct (Datetime.tzinfo z) as [tz|] eqn:Ez.
  - destruct (Datetime.astimezone z tz TimeUtil.UTC) as [u|] eqn:Ea; [|discriminate].
    unfold bind. intros H. inversion H; subst r; clear H.
    apply astimezone_UTC_spec in Ea. destruct Ea as [W V].
    split; [reflexivity|]. split; [exact W | exact V].
  - intros H. inversion H; subst r. split; [exact Ez | reflexivity].
Qed.

(** ** Decimal text *)

Lemma digit_chr_spec (d : Z) :
  0 <= d <= 9 ->
  Text.digit_val (Text.digit_chr d) = d /\ Text.is_digit (Text.digit_chr d) = true.
Proof.
  intros H.
  assert (C : d = 0 \/ d = 1 \/ d = 2 \/ d = 3 \/ d = 4 \/ d = 5 \/ d = 6 \/ d = 7
              \/ d = 8 \/ d = 9) by lia.
  repeat (destruct C as [-> | C]; [split; reflexivity|]). subst d. split; reflexivity.
Qed.

Lemma length_rev_append (s acc : string) :
  String.length (Text.rev_append s acc) = (String.length s + String.length acc)%nat.
Proof.
  revert acc. induction s as [|c s IH]; intros acc; simpl; [reflexivity|].
  rewrite IH. simpl. lia.
Qed.

(** The digits produced with enough fuel read back as the number. *)
Lemma digits_rev_spec (fuel : nat) :
  forall n acc, 0 <= n < 10 ^ Z.of_nat fuel -> (1 <= fuel)%nat ->
    Text.digits_val 0 (Text.rev_append (Text.digits_rev fuel n) acc) = Text.digits_val n acc /\
    Text.all Text.is_digit (Text.rev_append (Text.digits_rev fuel n) acc)
      = Text.all Text.is_digit acc /\
    (1 <= String.length (Text.digits_rev fuel n))%nat.
Proof.
  induction fuel as [|fuel IH]; intros n acc Hn Hf; [lia|].
  cbn [Text.digits_rev].
  destruct (n <? 10) eqn:E.
  - apply Z.ltb_lt in E. destruct (digit_chr_spec n ltac:(lia)) as [V D].
    cbn [Text.rev_append Text.digits_val Text.all String.length].
    rewrite V, D. split; [f_equal; lia|]. split; [reflexivity | lia].
  - apply Z.ltb_ge in E.
    pose proof (Z.div_mod n 10 ltac:(lia)) as Hdm.
    pose proof (Z.mod_pos_bound n 10 ltac:(lia)) as Hm.
    destruct (digit_chr_spec (n mod 10) ltac:(lia)) as [V D].
    assert (Hfuel : (1 <= fuel)%nat).
    { destruct fuel; [|lia]. simpl in Hn. lia. }
    assert (Hq : 0 <= n / 10 < 10 ^ Z.of_nat fuel).
    { split; [apply Z.div_pos; lia|].
      apply Z.div_lt_upper_bound; [lia|].
      rewrite Nat2Z.inj_succ, Z.pow_succ_r in Hn by lia. lia. }
    cbn [Text.rev_append String.length].
    destruct (IH (n / 10) (String (Text.digit_chr (n mod 10)) acc) Hq Hfuel)
      as (IV & ID & IL).
    rewrite IV, ID. cbn [Text.digits_val Text.all]. rewrite V, D.
    split; [f_equal; lia|]. split; [reflexivity | lia].
Qed.

Lemma decimal_fuel (n : Z) :
  0 <= n -> n < 10 ^ Z.of_nat (S (Z.to_nat (Z.log2 n))).
Proof.
  intros Hn. rewrite Nat2Z.inj_succ, Z2Nat.id by apply Z.log2_nonneg.
  destruct (Z.eq_dec n 0) as [-> | Hne]; [reflexivity|].
  pose proof (Z.log2_spec n ltac:(lia)) as [_ H].
  eapply Z.lt_le_trans; [exact H|].
  apply Z.pow_le_mono_l. lia.
Qed.

Lemma digits_nonempty_intro (w : string) :
  (1 <= String.length w)%nat -> Text.all Text.is_digit w = true ->
  digits_nonempty w = true.
Proof.
  intros Hl Hd. unfold digits_nonempty, Text.all_digits. rewrite Hd.
  destruct w; [simpl in Hl; lia | reflexivity].
Qed.

(** ['%d' % n] of a natural number: digits that read back as [n]. *)
Lemma decimal_spec (n : Z) :
  0 <= n ->
  digits_nonempty (Text.decimal n) = true /\ Text.digits_val 0 (Text.decimal n) = n.
Proof.
  intros Hn.
  assert (E : Text.decimal n
              = Text.rev_append (Text.digits_rev (S (Z.to_nat (Z.log2 n))) n) "")
    by (destruct n; [reflexivity | reflexivity | lia]).
  rewrite E.
  destruct (digits_rev_spec (S (Z.to_nat (Z.log2 n))) n ""
              (conj Hn (decimal_fuel n Hn)) ltac:(lia)) as (V & D & L).
  split; [|exact V].
  apply digits_nonempty_intro; [|exact D].
  rewrite length_rev_append. lia.
Qed.

Lemma digits_nonempty_number (w : string) : digits_nonempty w = true -> is_number w = true.
Proof.
  unfold digits_nonempty, Text.all_digits. intros H.
  apply andb_true_iff in H. destruct H as [Hn Hd].
  apply number_whole; [exact Hd|]. destruct w; [discriminate Hn | simpl; lia].
Qed.

(** ** Binary64: shifting and rounding *)

Lemma digits2_size (p : positive) : digits2_pos p = Pos.size p.
Proof. induction p; simpl; congruence. Qed.

Lemma Zdigits2_log2 (m : Z) : 0 < m -> Zdigits2 m = Z.log2 m + 1.
Proof.
  destruct m as [|p|p]; try lia. intros _. cbn [Zdigits2].
  rewrite digits2_size. destruct p; cbn [Pos.size Z.log2]; lia.
Qed.

Lemma Zdigits2_nonneg (m : Z) : 0 <= Zdigits2 m.
Proof. destruct m; simpl; lia. Qed.

(** [m] has at most [k] binary digits when it is below [2 ^ k]. *)
Lemma Zdigits2_le (m k : Z) : 0 <= m -> 0 <= k -> (Zdigits2 m <= k <-> m < 2 ^ k).
Proof.
  intros Hm Hk. destruct (Z.eq_dec m 0) as [-> | Hne].
  - simpl. split; intros _; [apply Z.pow_pos_nonneg; lia | lia].
  - rewrite Zdigits2_log2 by lia.
    pose proof (Z.log2_lt_pow2 m k ltac:(lia)). lia.
Qed.

Lemma Zdigits2_bound (m : Z) : 0 <= m -> m < 2 ^ Zdigits2 m.
Proof.
  intros Hm. apply Zdigits2_le; [lia | apply Zdigits2_nonneg | lia].
Qed.

Lemma Zdigits2_mono (a b : Z) : 0 <= a <= b -> Zdigits2 a <= Zdigits2 b.
Proof.
  intros H. apply Zdigits2_le; [lia | apply Zdigits2_nonneg|].
  pose proof (Zdigits2_bound b ltac:(lia)). lia.
Qed.

Lemma Zdigits2_succ (m : Z) : 0 <= m -> Zdigits2 (m + 1) <= Zdigits2 m + 1.
Proof.
  intros Hm. pose proof (Zdigits2_nonneg m).
  apply Zdigits2_le; [lia | lia|].
  pose proof (Zdigits2_bound m Hm).
  rewrite Z.pow_add_r by lia. change (2 ^ 1) with 2. lia.
Qed.

Lemma Zdigits2_mul_pow2 (m k : Z) : 0 < m -> 0 <= k -> Zdigits2 (m * 2 ^ k) = Zdigits2 m + k.
Proof.
  intros Hm Hk.
  assert (0 < 2 ^ k) by (apply Z.pow_pos_nonneg; lia).
  rewrite !Zdigits2_log2 by nia.
  rewrite Z.log2_mul_pow2 by lia. lia.
Qed.

Lemma Zdigits2_shiftr (m k : Z) :
  0 <= m -> 0 <= k -> Zdigits2 (Z.shiftr m k) = Z.max (Zdigits2 m - k) 0.
Proof.
  intros Hm Hk.
  destruct (Z.eq_dec m 0) as [-> | Hne].
  - rewrite Z.shiftr_0_l. simpl. lia.
  - pose proof (Z.shiftr_nonneg m k) as Hs.
    destruct (Z.eq_dec (Z.shiftr m k) 0) as [E | E].
    + rewrite E. simpl.
      apply Z.shiftr_eq_0_iff in E. rewrite Zdigits2_log2 by lia. lia.
    + rewrite !Zdigits2_log2 by lia.
      rewrite Z.log2_shiftr by lia.
      assert (0 < Z.shiftr m k) by lia.
      assert (~ (m = 0 \/ 0 < m /\ Z.log2 m < k)).
      { intros F. apply Z.shiftr_eq_0_iff in F. lia. }
      lia.
Qed.

Lemma Zdigits2_mul (a b : Z) : 0 <= a -> 0 <= b -> Zdigits2 (a * b) <= Zdigits2 a + Zdigits2 b.
Proof.
  intros Ha Hb. pose proof (Zdigits2_nonneg a). pose proof (Zdigits2_nonneg b).
  apply Zdigits2_le; [nia | lia|].
  rewrite Z.pow_add_r by lia.
  pose proof (Zdigits2_bound a Ha). pose proof (Zdigits2_bound b Hb). nia.
Qed.

Lemma Zdigits2_add (a b k : Z) :
  0 <= a -> 0 <= b -> Zdigits2 a <= k -> Zdigits2 b <= k -> Zdigits2 (a + b) <= k + 1.
Proof.
  intros Ha Hb Ka Kb.
  assert (0 <= k) by (pose proof (Zdigits2_nonneg a); lia).
  apply Zdigits2_le; [lia | lia|].
  apply Zdigits2_le in Ka, Kb; try lia.
  rewrite Z.pow_add_r by lia. change (2 ^ 1) with 2. lia.
Qed.

(** One step to the right halves the mantissa. *)
Lemma shr_1_m (r : shr_record) :
  0 <= shr_m r -> shr_m (shr_1 r) = Z.shiftr (shr_m r) 1.
Proof.
  destruct r as [m r s]. cbn [shr_m]. intros Hm.
  rewrite Z.shiftr_div_pow2 by lia. change (2 ^ 1) with 2.
  destruct m as [|[p|p|]|p]; try lia; cbn [shr_1 shr_m].
  - reflexivity.
  - apply Z.div_unique with (r := 1); lia.
  - apply Z.div_unique with (r := 0); lia.
  - reflexivity.
Qed.

Lemma iter_shr_m (p : positive) :
  forall r, 0 <= shr_m r ->
            shr_m (iter_pos shr_1 p r) = Z.shiftr (shr_m r) (Zpos p).
Proof.
  induction p as [p IH|p IH|]; intros r Hr; cbn [iter_pos].
  - pose proof (Z.shiftr_nonneg (shr_m r) 1) as N1.
    rewrite IH; rewrite IH; rewrite ?shr_1_m; try lia.
    + rewrite !Z.shiftr_shiftr by lia. f_equal. lia.
    + apply Z.shiftr_nonneg. lia.
  - rewrite IH; rewrite IH; try lia.
    + rewrite Z.shiftr_shiftr by lia. f_equal. lia.
    + apply Z.shiftr_nonneg. lia.
  - now apply shr_1_m.
Qed.

(** [shr_fexp] on a mantissa that is not negative. *)
Lemma shr_fexp_spec (m e : Z) (l : location) :
  0 <= m ->
  0 <= shr_m (fst (shr_fexp Float.prec Float.emax m e l)) /\
  snd (shr_fexp Float.prec Float.emax m e l) = Z.max e (Z.max (Zdigits2 m + e - 53) (-1074)) /\
  Zdigits2 (shr_m (fst (shr_fexp Float.prec Float.emax m e l)))
    + snd (shr_fexp Float.prec Float.emax m e l)
    <= Z.max (Zdigits2 m + e) (-1074).
Proof.
  intros Hm. unfold shr_fexp, fexp, emin, Float.prec, Float.emax.
  change (3 - 1024 - 53) with (-1074).
  set (n := Z.max (Zdigits2 m + e - 53) (-1074) - e).
  assert (Hr : shr_m (shr_record_of_loc m l) = m)
    by (destruct l as [|[]]; reflexivity).
  pose proof (Zdigits2_nonneg m) as Hd.
  unfold shr. destruct n as [|p|p] eqn:En; cbn [fst snd].
  - rewrite Hr. lia.
  - rewrite iter_shr_m by (rewrite Hr; lia). rewrite Hr.
    rewrite Zdigits2_shiftr by lia.
    pose proof (Z.shiftr_nonneg m (Zpos p)). lia.
  - rewrite Hr. lia.
Qed.

Lemma round_nearest_even_spec (m : Z) (l : location) :
  0 <= m -> m <= round_nearest_even m l <= m + 1.
Proof.
  intros Hm. unfold round_nearest_even.
  destruct l as [|[]]; try lia. destruct (Z.even m); lia.
Qed.

(** The outcome of rounding a mantissa that is not negative: a zero, a
    finite number or an infinity of the given sign.  The exponent and the
    magnitude (digits plus exponent) stay within one of those of the
    input, and infinity needs a large input. *)
Lemma binary_round_aux_spec (sx : bool) (mx ex : Z) (lx : location) :
  0 <= mx ->
  match binary_round_aux Float.prec Float.emax sx mx ex lx with
  | S754_zero s => s = sx
  | S754_infinity s => s = sx /\ 971 < Z.max ex (Zdigits2 mx + ex - 52)
  | S754_nan => False
  | S754_finite s m e =>
      s = sx /\ e <= 971 /\
      e <= Z.max (Z.max ex (Zdigits2 mx + ex - 52)) (-1074) /\
      Zdigits2 (Zpos m) + e <= Z.max (Zdigits2 mx + ex + 1) (-1073)
  end.
Proof.
  intros Hm. unfold binary_round_aux.
  pose proof (shr_fexp_spec mx ex lx Hm) as (N1 & E1 & M1).
  destruct (shr_fexp Float.prec Float.emax mx ex lx) as [r1 e1]. cbn [fst snd] in *.
  pose proof (round_nearest_even_spec (shr_m r1) (loc_of_shr_record r1) N1) as R.
  set (m1 := round_nearest_even (shr_m r1) (loc_of_shr_record r1)) in *.
  assert (D1 : Zdigits2 m1 <= Zdigits2 (shr_m r1) + 1).
  { etransitivity; [apply (Zdigits2_mono m1 (shr_m r1 + 1)); lia|].
    apply Zdigits2_succ; lia. }
  pose proof (shr_fexp_spec m1 e1 loc_Exact ltac:(lia)) as (N2 & E2 & M2).
  destruct (shr_fexp Float.prec Float.emax m1 e1 loc_Exact) as [r2 e2].
  cbn [fst snd] in *.
  pose proof (Zdigits2_nonneg mx). pose proof (Zdigits2_nonneg m1).
  pose proof (Zdigits2_nonneg (shr_m r1)).
  destruct (shr_m r2) as [|p|p] eqn:Ep; [reflexivity | | lia].
  unfold Float.emax, Float.prec. change (1024 - 53) with 971.
  destruct (Z.leb e2 971) eqn:El.
  - apply Z.leb_le in El. cbn [Zdigits2] in *. repeat split; lia.
  - apply Z.leb_gt in El. split; [reflexivity | lia].
Qed.

(** ** Binary64: numbers that are not negative *)

Lemma round_aux_nonneg (m e : Z) (l : location) :
  0 <= m -> nonneg (binary_round_aux Float.prec Float.emax false m e l) = true.
Proof.
  intros Hm. pose proof (binary_round_aux_spec false m e l Hm) as H.
  destruct (binary_round_aux _ _ _ _ _ _) as [s|s| |s p x]; cbn.
  - now subst s.
  - destruct H as [-> _]. reflexivity.
  - contradiction.
  - destruct H as [-> _]. reflexivity.
Qed.

Lemma binary_round_nonneg (p : positive) (e : Z) :
  nonneg (binary_round Float.prec Float.emax false p e) = true.
Proof.
  unfold binary_round. destruct (shl_align _ _ _) as [mz ez].
  apply round_aux_nonneg. lia.
Qed.

Lemma binary_normalize_nonneg (z e : Z) :
  0 <= z -> nonneg (binary_normalize Float.prec Float.emax z e false) = true.
Proof.
  intros Hz. destruct z as [|p|p]; [reflexivity | apply binary_round_nonneg | lia].
Qed.

Lemma of_Z_nonneg (n : Z) : 0 <= n -> nonneg (Float.of_Z n) = true.
Proof. apply binary_normalize_nonneg. Qed.

Lemma div_eucl_fst (a b : Z) : fst (Z.div_eucl a b) = a / b.
Proof. reflexivity. Qed.

Lemma of_ratio_nonneg (n d : Z) : 0 <= n -> 0 < d -> nonneg (Float.of_ratio n d) = true.
Proof.
  intros Hn Hd. unfold Float.of_ratio, SFdiv_core_binary.
  set (e' := Z.min _ _). set (m' := match _ with Z0 => n | Zpos _ => _ | Zneg _ => 0 end).
  assert (Hm : 0 <= m').
  { subst m'. destruct (0 - 0 - e'); try lia. apply Z.shiftl_nonneg. lia. }
  pose proof (div_eucl_fst m' d) as Hq.
  destruct (Z.div_eucl m' d) as [q r]. cbn [fst] in Hq.
  apply round_aux_nonneg. subst q. apply Z.div_pos; lia.
Qed.

Lemma digits_val_nonneg (w : string) :
  forall acc, 0 <= acc -> Text.all Text.is_digit w = true -> 0 <= Text.digits_val acc w.
Proof.
  induction w as [|c w IH]; intros acc Ha Hd; cbn [Text.digits_val]; [exact Ha|].
  cbn in Hd. apply andb_true_iff in Hd. destruct Hd as [Hc Hd].
  apply IH; [|exact Hd]. pose proof (digit_val_range c Hc). lia.
Qed.

Lemma of_string_or_0_nonneg (x : option string) (f : Float.float) :
  Float.of_string_or_0 x = Ok f -> nonneg f = true.
Proof.
  unfold Float.of_string_or_0, Float.of_string.
  destruct x as [[|c s]|]; try (intros H; inversion H; reflexivity).
  destruct (Float.split_dot (String c s)) as [i [fr|]].
  - destruct (_ && _)%bool eqn:E; [|discriminate].
    intros H; inversion H; subst f; clear H.
    apply andb_true_iff in E. destruct E as [Ei Ef].
    assert (Di : Text.all Text.is_digit i = true)
      by (destruct i; [discriminate Ei | exact Ei]).
    assert (Df : Text.all Text.is_digit fr = true)
      by (destruct fr; [discriminate Ef | exact Ef]).
    apply of_ratio_nonneg.
    + apply digits_val_nonneg; [lia|]. now rewrite all_append, Di, Df.
    + apply Z.pow_pos_nonneg; lia.
  - destruct i as [|a i]; [discriminate|].
    destruct (Text.all_digits (String a i)) eqn:E; [|discriminate].
    intros H; injection H as <-.
    apply of_ratio_nonneg; [|lia].
    apply (digits_val_nonneg (String a i) 0); [lia | exact E].
Qed.

Lemma mul_nonneg_r (x : Float.float) (m : positive) (e : Z) :
  nonneg x = true -> nonneg (Float.mul x (S754_finite false m e)) = true.
Proof.
  destruct x as [s|s| |s p ex]; cbn; intros H; try discriminate H.
  - now rewrite xorb_false_r.
  - now rewrite xorb_false_r.
  - apply negb_true_iff in H. subst s. apply round_aux_nonneg. lia.
Qed.

Lemma mul_nonneg_l (x : Float.float) (m : positive) (e : Z) :
  nonneg x = true -> nonneg (Float.mul (S754_finite false m e) x) = true.
Proof.
  destruct x as [s|s| |s p ex]; cbn; intros H; try discriminate H; try exact H.
  apply negb_true_iff in H. subst s. apply round_aux_nonneg. lia.
Qed.

Lemma add_nonneg (x y : Float.float) :
  nonneg x = true -> nonneg y = true -> nonneg (Float.add x y) = true.
Proof.
  destruct x as [s|s| |s p ex], y as [t|t| |t q ey]; cbn; intros Hx Hy;
    try discriminate Hx; try discriminate Hy;
    apply negb_true_iff in Hx, Hy; subst s t; try reflexivity.
  apply binary_normalize_nonneg. cbn. lia.
Qed.

Lemma modf_nonneg (x : Float.float) :
  nonneg x = true ->
  nonneg (fst (Float.modf x)) = true /\ nonneg (snd (Float.modf x)) = true.
Proof.
  destruct x as [s|s| |s p e]; cbn [nonneg]; intros H; try discriminate H;
    apply negb_true_iff in H; subst s; unfold Float.modf; cbn [fst snd nonneg negb];
    auto.
  destruct (0 <=? e); cbn [fst snd nonneg negb]; [auto|].
  split; apply binary_normalize_nonneg; unfold Float.signed.
  - apply Z.land_nonneg. left. lia.
  - apply Z.shiftr_nonneg. lia.
Qed.

(** Truncating a number that is not negative gives a natural number,
    unless the number is infinite. *)
Lemma to_Z_nonneg (x : Float.float) :
  nonneg x = true ->
  (exists z, Float.to_Z x = Ok z /\ 0 <= z) \/ Float.to_Z x = Raise OverflowError.
Proof.
  destruct x as [s|s| |s p e]; cbn [nonneg]; intros H; try discriminate H;
    unfold Float.to_Z; auto.
  - left. exists 0. split; [reflexivity | lia].
  - apply negb_true_iff in H; subst s. left. eexists. split; [reflexivity|].
    unfold Float.signed. destruct (0 <=? e).
    + apply Z.shiftl_nonneg. lia.
    + apply Z.shiftr_nonneg. lia.
Qed.

Lemma round_nonneg (x : Float.float) : nonneg x = true -> nonneg (Float.round x) = true.
Proof.
  destruct x as [s|s| |s p e]; cbn [nonneg]; intros H; try discriminate H;
    unfold Float.round; cbn [nonneg]; auto.
  apply negb_true_iff in H; subst s.
  destruct (0 <=? e); [reflexivity|].
  apply binary_normalize_nonneg. unfold Float.signed.
  pose proof (Z.shiftr_nonneg (Zpos p) (- e)).
  destruct (Z.testbit _ _); lia.
Qed.

Lemma sub_zero_nonneg (x : Float.float) :
  nonneg x = true -> nonneg (Float.sub x (S754_zero false)) = true.
Proof.
  destruct x as [s|s| |s p e]; cbn; intros H; try discriminate H; auto.
  now destruct s.
Qed.

(** ** Binary64: alignment and the [timedelta] constructor *)

Lemma iter_xO (m d : positive) : Zpos (Pos.iter xO m d) = Zpos m * 2 ^ Zpos d.
Proof.
  induction d as [|d IH] using Pos.peano_ind.
  - cbn [Pos.iter]. lia.
  - rewrite Pos.iter_succ, Pos2Z.inj_xO, IH, Pos2Z.inj_succ, Z.pow_succ_r by lia. lia.
Qed.

(** Aligning to a smaller exponent shifts the mantissa to the left and
    keeps the value. *)
Lemma shl_align_spec (m : positive) (e e' : Z) :
  snd (shl_align m e e') = Z.min e e' /\
  Zpos (fst (shl_align m e e')) = Zpos m * 2 ^ (e - Z.min e e').
Proof.
  unfold shl_align. destruct (e' - e) as [|d|d] eqn:E; cbn [fst snd].
  - replace (Z.min e e') with e by lia. rewrite Z.sub_diag. lia.
  - replace (Z.min e e') with e by lia. rewrite Z.sub_diag. lia.
  - replace (Z.min e e') with e' by lia. rewrite iter_xO.
    split; [reflexivity|]. f_equal. f_equal. lia.
Qed.

Lemma shl_align_digits (m : positive) (e e' : Z) :
  Zdigits2 (Zpos (fst (shl_align m e e'))) + snd (shl_align m e e')
  = Zdigits2 (Zpos m) + e.
Proof.
  destruct (shl_align_spec m e e') as [E1 E2]. rewrite E1, E2.
  rewrite Zdigits2_mul_pow2 by lia. lia.
Qed.

Lemma trunc_small (m : positive) (e : Z) :
  Zdigits2 (Zpos m) + e <= 1 ->
  (if 0 <=? e then Z.shiftl (Zpos m) e else Z.shiftr (Zpos m) (- e)) <= 1.
Proof.
  intros H.
  assert (D1 : 1 <= Zdigits2 (Zpos m)) by (cbn; lia).
  pose proof (Zdigits2_bound (Zpos m) ltac:(lia)) as B.
  destruct (0 <=? e) eqn:E.
  - apply Z.leb_le in E. assert (e = 0) by lia. subst e.
    rewrite Z.shiftl_0_r.
    assert (Zdigits2 (Zpos m) = 1) by lia.
    replace (Zdigits2 (Zpos m)) with 1 in B by lia. change (2 ^ 1) with 2 in B. lia.
  - apply Z.leb_gt in E. rewrite Z.shiftr_div_pow2 by lia.
    assert (Zpos m / 2 ^ (- e) < 2); [|lia].
    apply Z.div_lt_upper_bound; [apply Z.pow_pos_nonneg; lia|].
    assert (2 ^ Zdigits2 (Zpos m) <= 2 ^ (1 + - e))
      by (apply Z.pow_le_mono_r; lia).
    rewrite Z.pow_add_r in * by lia. change (2 ^ 1) with 2 in *. lia.
Qed.

(** Taking one from a number that is not negative and truncating gives at
    least minus one. *)
Lemma sub_one_trunc (x : Float.float) :
  nonneg x = true ->
  (exists z, Float.to_Z (Float.sub x (Float.of_Z 1)) = Ok z /\ -1 <= z) \/
  Float.to_Z (Float.sub x (Float.of_Z 1)) = Raise OverflowError.
Proof.
  change (Float.of_Z 1) with (S754_finite false 4503599627370496 (-52)).
  destruct x as [s|s| |s mA eA]; cbn [nonneg]; intros H; try discriminate H;
    apply negb_true_iff in H; subst s.
  - left. exists (-1). split; [reflexivity | lia].
  - right. reflexivity.
  - unfold Float.sub, SFsub. cbn [cond_Zopp].
    set (ez := Z.min eA (-52)).
    destruct (shl_align_spec mA eA ez) as [_ Ea].
    destruct (shl_align_spec 4503599627370496 (-52) ez) as [_ Eb].
    replace (Z.min (-52) ez) with ez in Eb by lia.
    assert (Hb : Zpos (fst (shl_align 4503599627370496 (-52) ez)) = 2 ^ (- ez)).
    { rewrite Eb. change 4503599627370496 with (2 ^ 52).
      rewrite <- Z.pow_add_r by lia. f_equal. lia. }
    destruct (Zpos (fst (shl_align mA eA ez))
              - Zpos (fst (shl_align 4503599627370496 (-52) ez))) as [|p|p] eqn:Ed.
    + left. exists 0. split; [reflexivity | lia].
    + cbn [binary_normalize].
      destruct (to_Z_nonneg _ (binary_round_nonneg p ez)) as [(z & -> & Hz) | ->].
      * left. exists z. split; [reflexivity | lia].
      * right. reflexivity.
    + cbn [binary_normalize]. unfold binary_round.
      assert (Hp : Zpos p < 2 ^ (- ez)) by lia.
      assert (Dp : Zdigits2 (Zpos p) <= - ez) by (apply Zdigits2_le; lia).
      pose proof (shl_align_digits p ez
                    (fexp Float.prec Float.emax (Zpos (digits2_pos p) + ez))) as Hd.
      destruct (shl_align_spec p ez
                  (fexp Float.prec Float.emax (Zpos (digits2_pos p) + ez))) as [Es _].
      destruct (shl_align p ez _) as [mz ez']. cbn [fst snd] in Hd, Es.
      pose proof (binary_round_aux_spec true (Zpos mz) ez' loc_Exact ltac:(lia)) as R.
      destruct (binary_round_aux _ _ _ _ _ _) as [s|s| |s m e].
      * left. exists 0. split; [reflexivity | lia].
      * exfalso. lia.
      * contradiction.
      * destruct R as (-> & _ & _ & Hm). left. eexists. split; [reflexivity|].
        unfold Float.signed.
        pose proof (trunc_small m e ltac:(lia)). lia.
Qed.

Lemma of_microseconds_outcome (x : Z) :
  0 <= x ->
  (exists v, Timedelta.of_microseconds x = Ok v /\
             Timedelta.total_microseconds v = x /\ Timedelta.wf v = true) \/
  Timedelta.of_microseconds x = Raise OverflowError.
Proof.
  intros _. destruct (Timedelta.of_microseconds x) as [v|e] eqn:E.
  - left. exists v. split; [reflexivity|]. now apply of_microseconds_total.
  - right. unfold Timedelta.of_microseconds in E.
    destruct (_ && _)%bool; [discriminate | now inversion E].
Qed.

(** One float argument of the constructor adds to the running sum or
    overflows. *)
Lemma accum_nonneg (sofar : Z) (leftover num : Float.float) (factor : Z)
      (fm : positive) (fe : Z) :
  0 <= sofar -> nonneg leftover = true -> nonneg num = true ->
  0 <= factor -> Float.of_Z factor = S754_finite false fm fe ->
  (exists s l, Timedelta.accum sofar leftover num factor = Ok (s, l) /\
               0 <= s /\ nonneg l = true) \/
  Timedelta.accum sofar leftover num factor = Raise OverflowError.
Proof.
  intros Hs Hl Hn Hf Ef. unfold Timedelta.accum.
  destruct (modf_nonneg num Hn) as [F1 I1].
  destruct (Float.modf num) as [frac int]. cbn [fst snd] in F1, I1.
  destruct (to_Z_nonneg int I1) as [(x & -> & Hx) | ->]; [|now right].
  unfold bind at 1.
  destruct (Float.is_zero frac).
  - left. exists (sofar + x * factor), leftover. split; [reflexivity|]. split; [nia | exact Hl].
  - rewrite Ef.
    destruct (modf_nonneg _ (mul_nonneg_l frac fm fe F1)) as [F2 I2].
    destruct (Float.modf _) as [frac' int']. cbn [fst snd] in F2, I2.
    destruct (to_Z_nonneg int' I2) as [(y & -> & Hy) | ->]; [|now right].
    unfold bind. left. eexists _, _. split; [reflexivity|].
    split; [nia | now apply add_nonneg].
Qed.

(** Rounding the leftover keeps the total from going below zero. *)
Lemma round_leftover_nonneg (x : Z) (leftover : Float.float) :
  0 <= x -> nonneg leftover = true ->
  (exists y, Timedelta.round_leftover x leftover = Ok y /\ 0 <= y) \/
  Timedelta.round_leftover x leftover = Raise OverflowError.
Proof.
  intros Hx Hl. unfold Timedelta.round_leftover.
  destruct (Float.is_zero leftover); [left; exists x; auto|].
  destruct (Float.eqb _ _).
  - change (Float.of_Z 2) with (S754_finite false 4503599627370496 (-51)).
    change (Float.of_ratio 1 2) with (S754_finite false 4503599627370496 (-53)).
    destruct (Z.odd x) eqn:Eo.
    + assert (H1 : 1 <= x).
      { destruct (Z.eq_dec x 0) as [-> | ?]; [discriminate Eo | lia]. }
      match goal with
      | |- context [Float.sub ?a (Float.of_Z 1)] =>
          assert (Ha : nonneg a = true)
            by (apply mul_nonneg_l, round_nonneg, mul_nonneg_r, add_nonneg;
                [exact Hl | reflexivity]);
          destruct (sub_one_trunc a Ha) as [(z & -> & Hz) | ->]
      end.
      * left. exists (x + z). split; [reflexivity | lia].
      * right. reflexivity.
    + change (Float.of_Z 0) with (S754_zero false).
      match goal with
      | |- context [Float.sub ?a (S754_zero false)] =>
          assert (Ha : nonneg (Float.sub a (S754_zero false)) = true)
            by (apply sub_zero_nonneg, mul_nonneg_l, round_nonneg, mul_nonneg_r,
                  add_nonneg; [exact Hl | reflexivity]);
          destruct (to_Z_nonneg _ Ha) as [(z & -> & Hz) | ->]
      end.
      * left. exists (x + z). split; [reflexivity | lia].
      * right. reflexivity.
  - destruct (to_Z_nonneg _ (round_nonneg leftover Hl)) as [(z & -> & Hz) | ->].
    + left. exists (x + z). split; [reflexivity | lia].
    + right. reflexivity.
Qed.

(** [timedelta(days, seconds)] of two floats that are not negative is an
    elapsed time that is not negative, or overflows. *)
Lemma of_floats_nonneg (days seconds : Float.float) :
  nonneg days = true -> nonneg seconds = true ->
  (exists v, Timedelta.of_floats days seconds = Ok v /\
             0 <= Timedelta.total_microseconds v /\ Timedelta.wf v = true) \/
  Timedelta.of_floats days seconds = Raise OverflowError.
Proof.
  intros Hd Hs. unfold Timedelta.of_floats, bind.
  destruct (accum_nonneg 0 Float.zero seconds Timedelta.us_per_second
              8589934592000000 (-33) ltac:(lia) eq_refl Hs
              ltac:(unfold Timedelta.us_per_second; lia) eq_refl)
    as [(s1 & l1 & E1 & H1 & L1) | E1]; rewrite E1; [|now right].
  cbn [fst snd].
  destruct (accum_nonneg s1 l1 days Timedelta.us_per_day
              5662310400000000 (-16) H1 L1 Hd
              ltac:(unfold Timedelta.us_per_day; lia) eq_refl)
    as [(s2 & l2 & E2 & H2 & L2) | E2]; rewrite E2; [|now right].
  cbn [fst snd].
  destruct (round_leftover_nonneg s2 l2 H2 L2) as [(y & E3 & Hy) | E3];
    rewrite E3; [|now right].
  destruct (of_microseconds_outcome y Hy) as [(v & E4 & Ht & Hw) | E4];
    rewrite E4; [|now right].
  left. exists v. split; [reflexivity|]. split; [lia | exact Hw].
Qed.

(** ** Binary64: whole numbers are exact *)

Lemma shr_1_exact (m : Z) :
  0 <= m ->
  shr_1 {| shr_m := 2 * m; shr_r := false; shr_s := false |}
  = {| shr_m := m; shr_r := false; shr_s := false |}.
Proof. destruct m as [|p|p]; [reflexivity | reflexivity | lia]. Qed.

Lemma iter_shr_exact (p : positive) :
  forall m, 0 <= m ->
    iter_pos shr_1 p {| shr_m := m * 2 ^ Zpos p; shr_r := false; shr_s := false |}
    = {| shr_m := m; shr_r := false; shr_s := false |}.
Proof.
  induction p as [p IH|p IH|]; intros m Hm; cbn [iter_pos].
  - replace (m * 2 ^ Zpos p~1) with (2 * ((m * 2 ^ Zpos p) * 2 ^ Zpos p)).
    + assert (0 < 2 ^ Zpos p) by (apply Z.pow_pos_nonneg; lia).
      rewrite shr_1_exact by nia. rewrite IH by nia. now apply IH.
    + replace (Zpos p~1) with (Zpos p + Zpos p + 1) by lia.
      rewrite !Z.pow_add_r by lia. change (2 ^ 1) with 2. ring.
  - replace (m * 2 ^ Zpos p~0) with ((m * 2 ^ Zpos p) * 2 ^ Zpos p).
    + assert (0 < 2 ^ Zpos p) by (apply Z.pow_pos_nonneg; lia).
      rewrite IH by nia. now apply IH.
    + replace (Zpos p~0) with (Zpos p + Zpos p) by lia.
      rewrite !Z.pow_add_r by lia. ring.
  - change (2 ^ 1) with 2. replace (m * 2) with (2 * m) by ring.
    now apply shr_1_exact.
Qed.

(** A whole number written with spare zero bits rounds to itself. *)
Lemma round_aux_exact (n k : Z) :
  0 < n -> Zdigits2 n <= 53 -> 53 - Zdigits2 n <= k ->
  binary_round_aux Float.prec Float.emax false (n * 2 ^ k) (- k) loc_Exact = exact_float n.
Proof.
  intros Hn Hd Hk.
  assert (D1 : 1 <= Zdigits2 n) by (rewrite Zdigits2_log2 by lia; pose proof (Z.log2_nonneg n); lia).
  set (d := Zdigits2 n) in *.
  assert (P : 0 < n * 2 ^ (53 - d)).
  { assert (0 < 2 ^ (53 - d)) by (apply Z.pow_pos_nonneg; lia). nia. }
  assert (S1 : shr_fexp Float.prec Float.emax (n * 2 ^ k) (- k) loc_Exact
               = ({| shr_m := n * 2 ^ (53 - d); shr_r := false; shr_s := false |}, d - 53)).
  { unfold shr_fexp, fexp, emin, Float.prec, Float.emax.
    rewrite Zdigits2_mul_pow2 by lia. fold d.
    replace (Z.max (d + k + - k - 53) (3 - 1024 - 53) - - k) with (d - 53 + k) by lia.
    unfold shr, shr_record_of_loc.
    destruct (d - 53 + k) as [|p|p] eqn:E; try lia.
    - f_equal; [|lia]. f_equal. f_equal. f_equal. lia.
    - replace (n * 2 ^ k) with ((n * 2 ^ (53 - d)) * 2 ^ Zpos p).
      + rewrite iter_shr_exact by lia. f_equal. lia.
      + rewrite <- Z.mul_assoc, <- Z.pow_add_r by lia. f_equal. f_equal. lia. }
  assert (S2 : shr_fexp Float.prec Float.emax (n * 2 ^ (53 - d)) (d - 53) loc_Exact
               = ({| shr_m := n * 2 ^ (53 - d); shr_r := false; shr_s := false |}, d - 53)).
  { unfold shr_fexp, fexp, emin, Float.prec, Float.emax.
    rewrite Zdigits2_mul_pow2 by lia. fold d.
    replace (Z.max (d + (53 - d) + (d - 53) - 53) (3 - 1024 - 53) - (d - 53)) with 0 by lia.
    reflexivity. }
  unfold binary_round_aux. rewrite S1. cbn [shr_m loc_of_shr_record round_nearest_even].
  rewrite S2. cbn [shr_m]. unfold exact_float. fold d.
  destruct (n * 2 ^ (53 - d)) as [|q|q] eqn:Eq; try lia.
  unfold Float.emax, Float.prec.
  assert (L : (d - 53 <=? 1024 - 53) = true) by (apply Z.leb_le; lia).
  rewrite L. reflexivity.
Qed.

Lemma of_Z_exact (n : Z) : 0 < n -> Zdigits2 n <= 53 -> Float.of_Z n = exact_float n.
Proof.
  intros Hn Hd. unfold Float.of_Z.
  destruct n as [|p|p]; try lia. cbn [binary_normalize]. unfold binary_round.
  set (e' := fexp Float.prec Float.emax (Zpos (digits2_pos p) + 0)).
  assert (He : e' = Zdigits2 (Zpos p) - 53).
  { subst e'. unfold fexp, emin, Float.prec, Float.emax. cbn [Zdigits2] in *. lia. }
  destruct (shl_align_spec p 0 e') as [E1 E2].
  destruct (shl_align p 0 e') as [mz ez]. cbn [fst snd] in E1, E2.
  rewrite E2, E1.
  replace (Z.min 0 e') with (- (53 - Zdigits2 (Zpos p))) by lia.
  replace (0 - - (53 - Zdigits2 (Zpos p))) with (53 - Zdigits2 (Zpos p)) by lia.
  apply round_aux_exact; lia.
Qed.

Lemma of_ratio_exact (n : Z) : 0 < n -> Zdigits2 n <= 53 -> Float.of_ratio n 1 = exact_float n.
Proof.
  intros Hn Hd. unfold Float.of_ratio, SFdiv_core_binary.
  assert (D1 : 1 <= Zdigits2 n) by (destruct n; cbn; lia).
  change (Zdigits2 1) with 1.
  assert (He : Z.min (fexp Float.prec Float.emax (Zdigits2 n + 0 - (1 + 0))) (0 - 0)
               = - (54 - Zdigits2 n)).
  { unfold fexp, emin, Float.prec, Float.emax. lia. }
  rewrite He.
  replace (0 - 0 - - (54 - Zdigits2 n)) with (54 - Zdigits2 n) by lia.
  destruct (54 - Zdigits2 n) as [|p|p] eqn:Ep; try lia.
  rewrite Z.shiftl_mul_pow2 by lia.
  pose proof (Z.div_1_r (n * 2 ^ Zpos p)) as Hq.
  pose proof (Z.mod_1_r (n * 2 ^ Zpos p)) as Hr.
  unfold Z.div, Z.modulo in Hq, Hr.
  destruct (Z.div_eucl (n * 2 ^ Zpos p) 1) as [q r]. subst q r.
  change (new_location 1 0) with loc_Exact.
  apply round_aux_exact; lia.
Qed.

Lemma exact_float_to_Z (n : Z) :
  0 < n -> Zdigits2 n <= 53 -> Float.to_Z (exact_float n) = Ok n.
Proof.
  intros Hn Hd. unfold exact_float, Float.to_Z, Float.signed.
  assert (D1 : 1 <= Zdigits2 n) by (destruct n; cbn; lia).
  assert (P : 0 < 2 ^ (53 - Zdigits2 n)) by (apply Z.pow_pos_nonneg; lia).
  rewrite Z2Pos.id by nia. f_equal.
  destruct (0 <=? Zdigits2 n - 53) eqn:E.
  - apply Z.leb_le in E. replace (Zdigits2 n - 53) with 0 by lia.
    replace (53 - Zdigits2 n) with 0 by lia. rewrite Z.shiftl_0_r. lia.
  - replace (- (Zdigits2 n - 53)) with (53 - Zdigits2 n) by lia.
    rewrite Z.shiftr_div_pow2 by lia. apply Z.div_mul. lia.
Qed.

Lemma exact_float_modf (n : Z) :
  0 < n -> Zdigits2 n <= 53 ->
  Float.modf (exact_float n) = (S754_zero false, exact_float n).
Proof.
  intros Hn Hd.
  assert (D1 : 1 <= Zdigits2 n) by (destruct n; cbn; lia).
  assert (P : 0 < 2 ^ (53 - Zdigits2 n)) by (apply Z.pow_pos_nonneg; lia).
  unfold exact_float at 1, Float.modf.
  destruct (0 <=? Zdigits2 n - 53) eqn:E; [reflexivity|].
  rewrite Z2Pos.id by nia. unfold Float.signed.
  replace (- (Zdigits2 n - 53)) with (53 - Zdigits2 n) by lia.
  rewrite Z.land_ones by lia. rewrite Z.mod_mul by lia.
  rewrite Z.shiftr_div_pow2 by lia. rewrite Z.div_mul by lia.
  cbn [binary_normalize]. rewrite <- (of_Z_exact n) by assumption. reflexivity.
Qed.

(** [timedelta(float(n), 0.0)] for a whole number of days. *)
Lemma of_floats_whole_days (n : Z) :
  0 < n -> Zdigits2 n <= 53 ->
  Timedelta.of_floats (exact_float n) Float.zero
  = Timedelta.of_microseconds (n * Timedelta.us_per_day).
Proof.
  intros Hn Hd. unfold Timedelta.of_floats.
  change (Timedelta.accum 0 Float.zero Float.zero Timedelta.us_per_second)
    with (Ok (0, Float.zero)).
  unfold bind at 1. cbn [fst snd]. unfold Timedelta.accum.
  rewrite exact_float_modf, exact_float_to_Z by assumption.
  unfold bind at 1. cbn [Float.is_zero]. unfold bind at 1. cbn [fst snd].
  unfold Timedelta.round_leftover. cbn [Float.is_zero Float.zero]. reflexivity.
Qed.

(** ** Binary64: small numbers stay finite *)

Lemma bounded_mono (b b' : Z) (x : Float.float) :
  b <= b' -> bounded b x = true -> bounded b' x = true.
Proof.
  intros Hb. destruct x as [[]|s| |[] m e]; cbn [bounded]; auto.
  intros H. apply andb_true_iff in H. destruct H as [H1 H2].
  apply Z.leb_le in H1, H2. apply andb_true_iff. split; apply Z.leb_le; lia.
Qed.

Lemma of_Z_bounded (n b : Z) :
  0 <= n -> n < 2 ^ b -> 0 <= b <= 53 -> bounded b (Float.of_Z n) = true.
Proof.
  intros Hn Hb Hr. destruct (Z.eq_dec n 0) as [-> | Hne]; [reflexivity|].
  assert (Hd : Zdigits2 n <= b) by (apply Zdigits2_le; lia).
  assert (D1 : 1 <= Zdigits2 n) by (destruct n; cbn; lia).
  rewrite of_Z_exact by lia. unfold exact_float, bounded.
  assert (P : 0 < 2 ^ (53 - Zdigits2 n)) by (apply Z.pow_pos_nonneg; lia).
  rewrite Z2Pos.id by nia. rewrite Zdigits2_mul_pow2 by lia.
  apply andb_true_iff. split; apply Z.leb_le; lia.
Qed.

Lemma mul_bounded (b : Z) (x y : Float.float) :
  0 <= b -> 2 * b + 1 <= 971 -> bounded b x = true -> bounded b y = true ->
  bounded (2 * b + 1) (Float.mul x y) = true.
Proof.
  intros Hb Hb'.
  destruct x as [[]|s| |[] mx ex], y as [[]|t| |[] my ey]; cbn [bounded];
    intros Hx Hy; try discriminate Hx; try discriminate Hy; try reflexivity.
  apply andb_true_iff in Hx, Hy. destruct Hx as [X1 X2], Hy as [Y1 Y2].
  apply Z.leb_le in X1, X2, Y1, Y2.
  unfold Float.mul, SFmul. cbn [xorb].
  pose proof (binary_round_aux_spec false (Zpos (mx * my)) (ex + ey) loc_Exact ltac:(lia)) as R.
  pose proof (Zdigits2_mul (Zpos mx) (Zpos my) ltac:(lia) ltac:(lia)) as Dm.
  rewrite <- Pos2Z.inj_mul in Dm.
  destruct (binary_round_aux _ _ _ _ _ _) as [s|s| |s m e]; cbn [bounded].
  - now subst s.
  - exfalso. lia.
  - contradiction.
  - destruct R as (-> & _ & R1 & R2).
    apply andb_true_iff. split; apply Z.leb_le; lia.
Qed.

Lemma add_bounded (b : Z) (x y : Float.float) :
  0 <= b -> b + 2 <= 971 -> bounded b x = true -> bounded b y = true ->
  bounded (b + 2) (Float.add x y) = true.
Proof.
  intros Hb Hb' Hx Hy.
  pose proof (bounded_mono b (b + 2) x ltac:(lia) Hx) as Hx'.
  pose proof (bounded_mono b (b + 2) y ltac:(lia) Hy) as Hy'.
  destruct x as [[]|s| |[] mx ex], y as [[]|t| |[] my ey];
    try discriminate Hx; try discriminate Hy; try assumption.
  cbn [bounded] in Hx, Hy.
  apply andb_true_iff in Hx, Hy. destruct Hx as [X1 X2], Hy as [Y1 Y2].
  apply Z.leb_le in X1, X2, Y1, Y2.
  unfold Float.add, SFadd. cbn [cond_Zopp].
  set (ez := Z.min ex ey).
  pose proof (shl_align_digits mx ex ez) as Da.
  pose proof (shl_align_digits my ey ez) as Da'.
  destruct (shl_align_spec mx ex ez) as [Sa _].
  destruct (shl_align_spec my ey ez) as [Sa' _].
  destruct (shl_align mx ex ez) as [a ea], (shl_align my ey ez) as [a' ea'].
  cbn [fst snd] in *.
  change (Zpos a + Zpos a') with (Zpos (a + a')).
  cbn [binary_normalize]. unfold binary_round.
  pose proof (Zdigits2_add (Zpos a) (Zpos a') (b - ez) ltac:(lia) ltac:(lia)
                ltac:(lia) ltac:(lia)) as Ds.
  change (Zpos a + Zpos a') with (Zpos (a + a')) in Ds.
  pose proof (shl_align_digits (a + a') ez
                (fexp Float.prec Float.emax (Zpos (digits2_pos (a + a')) + ez))) as Dz.
  destruct (shl_align_spec (a + a') ez
              (fexp Float.prec Float.emax (Zpos (digits2_pos (a + a')) + ez))) as [Sz _].
  destruct (shl_align (a + a') ez _) as [mz ez']. cbn [fst snd] in Dz, Sz.
  pose proof (binary_round_aux_spec false (Zpos mz) ez' loc_Exact ltac:(lia)) as R.
  destruct (binary_round_aux _ _ _ _ _ _) as [s|s| |s m e]; cbn [bounded].
  - now subst s.
  - exfalso. lia.
  - contradiction.
  - destruct R as (-> & _ & R1 & R2).
    apply andb_true_iff. split; apply Z.leb_le; lia.
Qed.

Lemma zero_padded_spec (w : nat) :
  forall n acc,
    String.length (Text.zero_padded w n acc) = (w + String.length acc)%nat /\
    Text.all Text.is_digit (Text.zero_padded w n acc) = Text.all Text.is_digit acc.
Proof.
  induction w as [|w IH]; intros n acc; cbn [Text.zero_padded]; [auto|].
  destruct (IH (n / 10) (String (Text.digit_chr (n mod 10)) acc)) as [L D].
  rewrite L, D. cbn [String.length Text.all].
  pose proof (Z.mod_pos_bound n 10 ltac:(lia)) as Hm.
  destruct (digit_chr_spec (n mod 10) ltac:(lia)) as [_ Hc]. rewrite Hc.
  split; [lia | reflexivity].
Qed.

Lemma div_half_even_nonneg (n d : Z) : 0 <= n -> 0 < d -> 0 <= Float.div_half_even n d.
Proof.
  intros Hn Hd. unfold Float.div_half_even.
  pose proof (Z.div_pos n d Hn Hd).
  destruct (2 * (n mod d) ?= d); [destruct (Z.even _)| |]; lia.
Qed.

(** ['%.6f'] of a small number: digits, a point and six digits. *)
Lemma format_6f_shape (b : Z) (x : Float.float) :
  bounded b x = true ->
  exists ip fp, Float.format_6f x = ip ++ "." ++ fp /\
                digits_nonempty ip = true /\ Text.all_digits fp = true /\
                String.length fp = 6%nat.
Proof.
  intros Hx. unfold Float.format_6f.
  assert (M : exists m e, Float.mantissa_exponent x = Some (m, e) /\ 0 <= m).
  { destruct x as [[]|s| |[] m e]; try discriminate Hx.
    - exists 0, 0. split; [reflexivity | lia].
    - exists (Zpos m), e. split; [reflexivity | lia]. }
  destruct M as (m & e & -> & Hm).
  set (scaled := if 0 <=? e then m * 2 ^ e * 1000000
                 else Float.div_half_even (m * 1000000) (2 ^ (- e))).
  assert (Hs : 0 <= scaled).
  { subst scaled. destruct (0 <=? e) eqn:E.
    - apply Z.leb_le in E. assert (0 <= 2 ^ e) by (apply Z.pow_nonneg; lia). nia.
    - apply Z.leb_gt in E. apply div_half_even_nonneg; [lia|].
      apply Z.pow_pos_nonneg; lia. }
  exists (Text.decimal (scaled / 1000000)), (Text.zero_padded 6 (scaled mod 1000000) "").
  split; [reflexivity|].
  destruct (decimal_spec (scaled / 1000000) ltac:(apply Z.div_pos; lia)) as [Hd _].
  destruct (zero_padded_spec 6 (scaled mod 1000000) "") as [L D].
  split; [exact Hd|]. split; [exact D | exact L].
Qed.

(** The seconds designator with a fraction has exactly six fractional
    digits. *)
Lemma seconds_with_fraction_shape (seconds microseconds : Z) :
  0 <= seconds < 60 -> 0 <= microseconds < 1000000 ->
  exists ip fp,
    TimeUtil.seconds_with_fraction seconds microseconds = ip ++ "." ++ fp ++ "S" /\
    digits_nonempty ip = true /\ Text.all_digits fp = true /\ String.length fp = 6%nat.
Proof.
  intros Hs Hu. unfold TimeUtil.seconds_with_fraction.
  assert (B : bounded 43 (Float.add (Float.of_Z seconds)
                            (Float.mul (Float.of_ratio 1 1000000) (Float.of_Z microseconds)))
              = true).
  { assert (P : 2 ^ 20 = 1048576) by reflexivity.
    assert (B1 : bounded 20 (Float.of_Z seconds) = true)
      by (apply of_Z_bounded; lia).
    assert (B2 : bounded 20 (Float.of_Z microseconds) = true)
      by (apply of_Z_bounded; lia).
    assert (B3 : bounded 20 (Float.of_ratio 1 1000000) = true) by reflexivity.
    pose proof (mul_bounded 20 _ _ ltac:(lia) ltac:(lia) B3 B2) as B4.
    apply (add_bounded 41); try lia; [|exact B4].
    apply (bounded_mono 20); [lia | exact B1]. }
  destruct (format_6f_shape 43 _ B) as (ip & fp & -> & Hi & Hf & Hl).
  exists ip, fp. split; [|auto].
  rewrite append_assoc. reflexivity.
Qed.

(** ** The encoder against the documented text *)

Lemma wf_fields (v : Timedelta.timedelta) :
  Timedelta.wf v = true ->
  -999999999 <= Timedelta.days v <= 999999999 /\
  0 <= Timedelta.seconds v < 86400 /\ 0 <= Timedelta.microseconds v < 1000000.
Proof.
  unfold Timedelta.wf. rewrite !andb_true_iff.
  intros [[[[[H1 H2] H3] H4] H5] H6].
  apply Z.leb_le in H1, H2, H3, H5. apply Z.ltb_lt in H4, H6. lia.
Qed.

(** Negating a negative elapsed time gives its absolute value. *)
Lemma neg_magnitude (v : Timedelta.timedelta) :
  Timedelta.wf v = true -> Timedelta.days v < 0 ->
  Timedelta.neg v = Ok (magnitude v).
Proof.
  intros Hw Hd. destruct (wf_fields v Hw) as (D & S & U).
  unfold magnitude. apply Z.ltb_lt in Hd. rewrite Hd. apply Z.ltb_lt in Hd.
  unfold Timedelta.neg.
  assert (Hx : 0 <= - Timedelta.total_microseconds v <= 999999999 * 86400000000).
  { unfold Timedelta.total_microseconds, Timedelta.us_per_second. lia. }
  destruct (of_microseconds_in_range (- Timedelta.total_microseconds v) ltac:(lia))
    as [a Ha].
  rewrite Ha. f_equal.
  unfold Timedelta.of_microseconds, Timedelta.us_per_second in Ha.
  destruct (_ && _)%bool; [|discriminate]. now inversion Ha.
Qed.

Lemma magnitude_spec (v : Timedelta.timedelta) :
  Timedelta.wf v = true ->
  Timedelta.wf (magnitude v) = true /\ 0 <= Timedelta.days (magnitude v) /\
  has_time (magnitude v) = has_time v.
Proof.
  intros Hw. destruct (wf_fields v Hw) as (D & S & U).
  destruct (Z.ltb_spec (Timedelta.days v) 0) as [Hd | Hd].
  - pose proof (neg_magnitude v Hw Hd) as Hn.
    unfold Timedelta.neg in Hn. apply of_microseconds_total in Hn.
    destruct Hn as [Ht Hwa]. split; [exact Hwa|].
    unfold magnitude in *. apply Z.ltb_lt in Hd. rewrite Hd in *. apply Z.ltb_lt in Hd.
    set (x := - Timedelta.total_microseconds v) in *.
    assert (Hx : 0 <= x)
      by (unfold x, Timedelta.total_microseconds, Timedelta.us_per_second; lia).
    unfold split_microseconds, has_time.
    cbn [Timedelta.days Timedelta.seconds Timedelta.microseconds].
    split; [apply Z.div_pos; [apply Z.div_pos|]; lia|].
    pose proof (Z.div_mod x 1000000 ltac:(lia)) as E1.
    pose proof (Z.mod_pos_bound x 1000000 ltac:(lia)) as B1.
    pose proof (Z.div_mod (x / 1000000) 86400 ltac:(lia)) as E2.
    pose proof (Z.mod_pos_bound (x / 1000000) 86400 ltac:(lia)) as B2.
    assert (Ex : x = - ((Timedelta.days v * 86400 + Timedelta.seconds v) * 1000000
                        + Timedelta.microseconds v)) by reflexivity.
    destruct (Z.eqb_spec (Timedelta.seconds v) 0), (Z.eqb_spec (Timedelta.microseconds v) 0),
      (Z.eqb_spec ((x / 1000000) mod 86400) 0), (Z.eqb_spec (x mod 1000000) 0);
      try reflexivity; exfalso; lia.
  - unfold magnitude. apply Z.ltb_ge in Hd. rewrite Hd. apply Z.ltb_ge in Hd. auto.
Qed.

(** [encode_duration] writes the sign and the documented text of the
    absolute value. *)
Lemma encode_duration_text (v : Timedelta.timedelta) :
  Timedelta.wf v = true ->
  TimeUtil.encode_duration (TimeUtil.TimedeltaV v)
  = Ok (sign_text v ++ duration_text (magnitude v)).
Proof.
  intros Hw. unfold TimeUtil.encode_duration, sign_text.
  assert (E : (if Timedelta.days v <? 0 then
                 x <- Timedelta.neg v ;; Ok (TimeUtil.append [] "-", x)
               else Ok ([], v))
              = Ok (if Timedelta.days v <? 0 then ["-"] else [], magnitude v)).
  { destruct (Z.ltb_spec (Timedelta.days v) 0) as [Hd | Hd].
    - rewrite (neg_magnitude v Hw Hd). reflexivity.
    - unfold magnitude. apply Z.ltb_ge in Hd. now rewrite Hd. }
  cbv zeta. rewrite E. unfold bind. clear E.
  set (a := magnitude v).
  unfold duration_text, days_text, time_text, has_time, hours_text, minutes_text,
    seconds_text, hours_of, minutes_of, seconds_of, TimeUtil.append.
  destruct (Timedelta.days v <? 0);
    destruct (Timedelta.days a =? 0), (Timedelta.seconds a =? 0),
      (Timedelta.microseconds a =? 0), (Timedelta.seconds a / 60 / 60 =? 0),
      ((Timedelta.seconds a / 60) mod 60 =? 0), (Timedelta.seconds a mod 60 =? 0);
    cbn [negb orb andb app String.concat append];
    rewrite ?append_nil_r; rewrite ?append_assoc; reflexivity.
Qed.

(** ** The documented text is in the documented grammar *)

Lemma contains_append (c : ascii) (a b : string) :
  contains c (a ++ b) = (contains c a || contains c b)%bool.
Proof.
  induction a as [|x a IH]; cbn [append contains]; [reflexivity|].
  now rewrite IH, orb_assoc.
Qed.

Lemma contains_digits (c : ascii) (w : string) :
  Text.is_digit c = false -> Text.all Text.is_digit w = true -> contains c w = false.
Proof.
  intros Hc. induction w as [|x w IH]; cbn [Text.all contains]; [reflexivity|].
  intros H. apply andb_true_iff in H. destruct H as [Hx Hw].
  rewrite (IH Hw), orb_false_r.
  apply Ascii.eqb_neq. intros ->. rewrite Hc in Hx. discriminate.
Qed.

Lemma before_append (c : ascii) (a b : string) :
  contains c a = false -> before c (a ++ b) = a ++ before c b.
Proof.
  induction a as [|x a IH]; cbn [append contains before]; [reflexivity|].
  intros H. apply orb_false_iff in H. destruct H as [Hx Ha].
  now rewrite Hx, (IH Ha).
Qed.

Lemma digits_nonempty_all (w : string) :
  digits_nonempty w = true -> Text.all Text.is_digit w = true.
Proof. unfold digits_nonempty. intros H. apply andb_true_iff in H. apply H. Qed.

Lemma designator_contains (c x : ascii) (n : option string) :
  Text.is_digit c = false -> Ascii.eqb x c = false -> whole_number n = true ->
  contains c (number_designator (String x "") n) = false.
Proof.
  intros Hc Hx Hn. destruct n as [w|]; cbn [number_designator whole_number] in *;
    [|reflexivity].
  rewrite contains_append, (contains_digits c w Hc (digits_nonempty_all w Hn)).
  cbn [append contains]. now rewrite Hx.
Qed.

Lemma seconds_contains (c : ascii) (s : option (string * option string)) :
  Text.is_digit c = false -> Ascii.eqb "S" c = false -> Ascii.eqb "." c = false ->
  seconds_number s = true -> contains c (seconds_designator s) = false.
Proof.
  intros Hc HS HP Hs. destruct s as [[w [f|]]|]; cbn [seconds_designator seconds_number] in *;
    [| |reflexivity].
  - rewrite !andb_true_iff in Hs. destruct Hs as [[Hw Hf] _].
    rewrite contains_append, (contains_digits c w Hc (digits_nonempty_all w Hw)).
    cbn [append contains orb]. rewrite HP.
    rewrite contains_append, (contains_digits c f Hc Hf). cbn [append contains]. now rewrite HS.
  - rewrite contains_append, (contains_digits c w Hc (digits_nonempty_all w Hs)).
    cbn [append contains]. now rewrite HS.
Qed.

(** A text of the grammar has no year designator and no month designator. *)
Lemma grammar_no_year_month (d : option string)
      (t : option (option string * option string * option (string * option string))) :
  grammar_ok d t = true -> no_year_month (grammar_text d t) = true.
Proof.
  intros H. unfold no_year_month, grammar_text.
  assert (Hd : whole_number d = true).
  { destruct t as [[[h m] s]|]; cbn [grammar_ok] in H; [|exact H].
    rewrite !andb_true_iff in H. tauto. }
  apply andb_true_iff. split; apply negb_true_iff.
  - cbn [append contains]. change (Ascii.eqb "P" "Y") with false. cbn [orb].
    rewrite contains_append, (designator_contains "Y" "D" d) by (auto; reflexivity).
    destruct t as [[[h m] s]|]; [|reflexivity].
    cbn [grammar_ok] in H. rewrite !andb_true_iff in H.
    destruct H as [[[_ Hh] Hm] Hs].
    cbn [append contains orb]. change (Ascii.eqb "T" "Y") with false. cbn [orb].
    rewrite !contains_append.
    rewrite (designator_contains "Y" "H" h), (designator_contains "Y" "M" m)
      by (auto; reflexivity).
    now rewrite (seconds_contains "Y" s) by (auto; reflexivity).
  - cbn [append before]. change (Ascii.eqb "P" "T") with false. cbv iota.
    rewrite before_append by (apply designator_contains; auto; reflexivity).
    assert (E : forall u, u = match t with
                              | Some (h, m, s) =>
                                  String "T"
                                    (number_designator "H" h
                                     ++ number_designator "M" m ++ seconds_designator s)
                              | None => ""
                              end -> before "T" u = "").
    { intros u ->. destruct t as [[[h m] s]|]; reflexivity. }
    rewrite (E _ eq_refl), append_nil_r.
    cbn [contains]. change (Ascii.eqb "P" "M") with false. cbn [orb].
    apply designator_contains; auto; reflexivity.
Qed.

Lemma whole_designator (n : Z) (x : string) :
  0 <= n ->
  exists d, whole_number d = true /\
            (if n =? 0 then "" else Text.decimal n ++ x) = number_designator x d.
Proof.
  intros Hn. destruct (n =? 0).
  - exists None. split; reflexivity.
  - exists (Some (Text.decimal n)). split; [|reflexivity].
    apply (decimal_spec n Hn).
Qed.

Lemma seconds_text_designator (a : Timedelta.timedelta) :
  Timedelta.wf a = true ->
  exists s, seconds_number s = true /\ seconds_text a = seconds_designator s.
Proof.
  intros Hw. destruct (wf_fields a Hw) as (_ & S & U).
  pose proof (Z.mod_pos_bound (Timedelta.seconds a) 60 ltac:(lia)) as B.
  unfold seconds_text, seconds_of.
  destruct (Timedelta.microseconds a =? 0).
  - destruct (Timedelta.seconds a mod 60 =? 0).
    + exists None. split; reflexivity.
    + exists (Some (Text.decimal (Timedelta.seconds a mod 60), None)).
      split; [|reflexivity]. apply decimal_spec. lia.
  - destruct (seconds_with_fraction_shape (Timedelta.seconds a mod 60)
                (Timedelta.microseconds a) B U) as (ip & fp & E & Hi & Hf & Hl).
    exists (Some (ip, Some fp)). split; [|exact E].
    cbn [seconds_number]. rewrite Hi, Hf, Hl. reflexivity.
Qed.

(** The documented text of an elapsed time that is not negative is in the
    documented grammar. *)
Lemma duration_text_grammar (a : Timedelta.timedelta) :
  Timedelta.wf a = true -> 0 <= Timedelta.days a ->
  exists d t, grammar_ok d t = true /\ duration_text a = grammar_text d t.
Proof.
  intros Hw Hd. destruct (wf_fields a Hw) as (_ & S & U).
  destruct (whole_designator (Timedelta.days a) "D" Hd) as (d & Gd & Ed).
  destruct (whole_designator (hours_of a) "H"
              ltac:(unfold hours_of; apply Z.div_pos; [apply Z.div_pos|]; lia))
    as (h & Gh & Eh).
  destruct (whole_designator (minutes_of a) "M"
              ltac:(unfold minutes_of; apply Z.mod_pos_bound; lia))
    as (m & Gm & Em).
  destruct (seconds_text_designator a Hw) as (s & Gs & Es).
  unfold duration_text, days_text, time_text, hours_text, minutes_text.
  rewrite Es, Eh, Em.
  destruct (has_time a).
  - exists d, (Some (h, m, s)). split.
    + cbn [grammar_ok]. now rewrite Gd, Gh, Gm, Gs.
    + unfold grammar_text. now rewrite Ed.
  - destruct (Timedelta.days a =? 0) eqn:E0.
    + exists None, (Some (None, None, Some ("0", None))). split; reflexivity.
    + exists d, None. split; [exact Gd|]. unfold grammar_text. now rewrite Ed.
Qed.

(** ** The duration encoder *)

(** C3, as the code has it.  The text of an elapsed time is an optional
    minus sign, written when the value is negative, and then the text of
    the absolute value: that one begins with [P] and is in the grammar
    [P(nD)?(T(nH)?(nM)?(nS(.ffffff)?)?)?].  The whole text has no year
    designator and no month designator. *)
Theorem encode_duration_grammar (v : Timedelta.timedelta) :
  Timedelta.wf v = true ->
  exists out body,
    TimeUtil.encode_duration (TimeUtil.TimedeltaV v) = Ok out /\
    out = (if Timedelta.days v <? 0 then "-" else "") ++ body /\
    Text.prefix 1 body = "P" /\
    in_grammar body /\
    no_year_month out = true.
Proof.
  intros Hw. destruct (magnitude_spec v Hw) as (Hwa & Hda & _).
  destruct (duration_text_grammar (magnitude v) Hwa Hda) as (d & t & Hok & E).
  exists (sign_text v ++ duration_text (magnitude v)), (duration_text (magnitude v)).
  split; [apply encode_duration_text; exact Hw|].
  split; [reflexivity|].
  split; [reflexivity|].
  split; [right; exists d, t; split; [exact Hok | exact E]|].
  pose proof (grammar_no_year_month d t Hok) as G. rewrite <- E in G.
  unfold sign_text. destruct (Timedelta.days v <? 0); [|exact G].
  unfold no_year_month in *. cbn [append contains before].
  change (Ascii.eqb "-" "Y") with false. change (Ascii.eqb "-" "T") with false.
  cbv iota. cbn [contains orb].
  change (Ascii.eqb "-" "M") with false. cbn [orb]. exact G.
Qed.

Lemma encode_duration_grammar_witness :
  Timedelta.wf (Timedelta.mk (-1) 3723 250000) = true /\
  exists out body,
    TimeUtil.encode_duration (TimeUtil.TimedeltaV (Timedelta.mk (-1) 3723 250000)) = Ok out /\
    out = (if Timedelta.days (Timedelta.mk (-1) 3723 250000) <? 0 then "-" else "") ++ body /\
    Text.prefix 1 body = "P" /\
    in_grammar body /\
    no_year_month out = true.
Proof.
  split; [reflexivity|].
  apply (encode_duration_grammar (Timedelta.mk (-1) 3723 250000)). reflexivity.
Defined.

(** The text of a negative elapsed time begins with the minus sign. *)
Lemma negative_duration_text :
  Timedelta.wf (Timedelta.mk (-1) 0 0) = true /\
  TimeUtil.encode_duration (TimeUtil.TimedeltaV (Timedelta.mk (-1) 0 0)) = Ok "-P1D" /\
  ~ (exists out,
        TimeUtil.encode_duration (TimeUtil.TimedeltaV (Timedelta.mk (-1) 0 0)) = Ok out /\
        Text.prefix 1 out = "P").
Proof.
  split; [reflexivity|]. split; [vm_compute; reflexivity|].
  intros (out & E & P). vm_compute in E. injection E as <-. discriminate P.
Qed.

(** ** What the duration parser returns *)

Lemma parse_duration_matched (s : string) (v : Timedelta.timedelta) :
  TimeUtil.parse_duration (TimeUtil.Str s) = Ok v ->
  exists m, Re.rmatch TimeUtil.RE_ISO_8601_DURATION s = Some m /\
            duration_group m "sign" <> Some "-".
Proof.
  intros H.
  destruct (Re.rmatch TimeUtil.RE_ISO_8601_DURATION s) as [m|] eqn:E.
  - exists m. split; [reflexivity|]. intros Hs.
    destruct (duration_sign s m E) as [[Hn _] | (c & t & Hc & ->)].
    + rewrite Hn in Hs. discriminate Hs.
    + rewrite Hc in Hs. injection Hs as ->.
      rewrite minus_sign_refused in H. discriminate H.
  - unfold TimeUtil.parse_duration in H. rewrite E in H. discriminate H.
Qed.

(** The computed day count and seconds total are not negative, so the
    constructor returns an elapsed time that is not negative, or overflows. *)
Lemma parse_duration_outcome (s : string) (m : Re.captures) :
  Re.rmatch TimeUtil.RE_ISO_8601_DURATION s = Some m ->
  duration_group m "sign" <> Some "-" ->
  (exists v, TimeUtil.parse_duration (TimeUtil.Str s) = Ok v /\
             0 <= Timedelta.total_microseconds v /\ Timedelta.wf v = true) \/
  TimeUtil.parse_duration (TimeUtil.Str s) = Raise OverflowError.
Proof.
  intros Hm Hs.
  destruct (parse_duration_floats s m Hm Hs)
    as (_ & years & months & days & hours & minutes & seconds
        & Ey & Emo & Ed & Eh & Emi & Es & E).
  rewrite E. apply of_floats_nonneg.
  - apply add_nonneg; [apply add_nonneg|].
    + exact (of_string_or_0_nonneg _ _ Ed).
    + exact (mul_nonneg_r months 8444249301319680 (-48) (of_string_or_0_nonneg _ _ Emo)).
    + exact (mul_nonneg_r years 6421147906211840 (-44) (of_string_or_0_nonneg _ _ Ey)).
  - apply add_nonneg; [apply add_nonneg|].
    + exact (of_string_or_0_nonneg _ _ Es).
    + exact (mul_nonneg_r minutes 8444249301319680 (-47) (of_string_or_0_nonneg _ _ Emi)).
    + exact (mul_nonneg_r hours 7916483719987200 (-41) (of_string_or_0_nonneg _ _ Eh)).
Qed.

(** ** The duration parser *)

(** C5, as the code has it.  A string that begins with the minus sign is
    refused with [ValueError], whatever follows, and every elapsed time
    that [parse_duration] returns for a string is not negative.  An elapsed
    time given as such is returned unchanged, also when it is negative. *)
Theorem negative_sign_rejected :
  (forall t : string,
      TimeUtil.parse_duration (TimeUtil.Str (String "-" t)) = Raise ValueError) /\
  (forall (s : string) (v : Timedelta.timedelta),
      TimeUtil.parse_duration (TimeUtil.Str s) = Ok v ->
      0 <= Timedelta.total_microseconds v /\ Timedelta.wf v = true) /\
  (forall v : Timedelta.timedelta,
      TimeUtil.parse_duration (TimeUtil.TimedeltaV v) = Ok v) /\
  TimeUtil.parse_duration (TimeUtil.Str "-P0D") = Raise ValueError /\
  TimeUtil.parse_duration (TimeUtil.Str "-P1D") = Raise ValueError.
Proof.
  split; [exact minus_sign_refused|].
  split; [|split; [reflexivity | split; apply minus_sign_refused]].
  intros s v H.
  destruct (parse_duration_matched s v H) as (m & Hm & Hs).
  destruct (parse_duration_outcome s m Hm Hs) as [(v' & E & Ht & Hw) | E];
    rewrite E in H; [|discriminate H].
  injection H as <-. split; assumption.
Qed.

Lemma negative_sign_rejected_witness :
  0 <= Timedelta.total_microseconds (Timedelta.mk 1 9000 0) /\
  Timedelta.wf (Timedelta.mk 1 9000 0) = true.
Proof.
  apply (proj1 (proj2 negative_sign_rejected) "P1DT2H30M" (Timedelta.mk 1 9000 0)).
  vm_compute. reflexivity.
Defined.

(** Two strings that the pattern matches, with a days group that is a
    number, for which [parse_duration] returns no elapsed time: the first
    is one day beyond the range of [timedelta], the second is refused for
    its sign. *)
Lemma parse_duration_components_fails :
  (duration_group_of "P1000000000D" "days" = Some "1000000000" /\
   TimeUtil.parse_duration (TimeUtil.Str "P1000000000D") = Raise OverflowError) /\
  (duration_group_of "-P1D" "days" = Some "1" /\
   TimeUtil.parse_duration (TimeUtil.Str "-P1D") = Raise ValueError).
Proof. vm_compute. repeat split; reflexivity. Qed.

(** ** Sums with zero and products of whole numbers *)

Lemma add_zero_l (x : Float.float) :
  nonneg x = true -> Float.add Float.zero x = x.
Proof. destruct x as [[|]|[|]| |[|] m e]; try discriminate; reflexivity. Qed.

Lemma add_zero_r (x : Float.float) :
  nonneg x = true -> Float.add x Float.zero = x.
Proof. destruct x as [[|]|[|]| |[|] m e]; try discriminate; reflexivity. Qed.

Lemma mul_zero_l (m : positive) (e : Z) :
  Float.mul Float.zero (S754_finite false m e) = Float.zero.
Proof. reflexivity. Qed.

Lemma exact_float_nonneg (n : Z) : nonneg (exact_float n) = true.
Proof. reflexivity. Qed.

(** The product of two whole numbers is exact when it fits in 53 bits. *)
Lemma mul_exact (a b : Z) :
  0 < a -> 0 < b -> Zdigits2 (a * b) <= 53 ->
  Float.mul (exact_float a) (exact_float b) = exact_float (a * b).
Proof.
  intros Ha Hb Hd.
  assert (Da : Zdigits2 a <= Zdigits2 (a * b)) by (apply Zdigits2_mono; nia).
  assert (Db : Zdigits2 b <= Zdigits2 (a * b)) by (apply Zdigits2_mono; nia).
  assert (D : Zdigits2 a + Zdigits2 b - 1 <= Zdigits2 (a * b)).
  { rewrite !Zdigits2_log2 by nia.
    pose proof (Z.log2_mul_below a b Ha Hb). lia. }
  assert (Pa : 0 < 2 ^ (53 - Zdigits2 a)) by (apply Z.pow_pos_nonneg; lia).
  assert (Pb : 0 < 2 ^ (53 - Zdigits2 b)) by (apply Z.pow_pos_nonneg; lia).
  unfold exact_float at 1 2, Float.mul, SFmul. cbn [xorb].
  rewrite Pos2Z.inj_mul, !Z2Pos.id by nia.
  replace (a * 2 ^ (53 - Zdigits2 a) * (b * 2 ^ (53 - Zdigits2 b)))
    with (a * b * 2 ^ (106 - Zdigits2 a - Zdigits2 b)).
  - replace (Zdigits2 a - 53 + (Zdigits2 b - 53))
      with (- (106 - Zdigits2 a - Zdigits2 b)) by lia.
    apply round_aux_exact; [nia | exact Hd | lia].
  - replace (106 - Zdigits2 a - Zdigits2 b)
      with ((53 - Zdigits2 a) + (53 - Zdigits2 b)) by lia.
    rewrite Z.pow_add_r by lia. ring.
Qed.

(** [timedelta(0.0, float(n))] for a whole number of seconds. *)
Lemma of_floats_whole_seconds (n : Z) :
  0 < n -> Zdigits2 n <= 53 ->
  Timedelta.of_floats Float.zero (exact_float n)
  = Timedelta.of_microseconds (n * Timedelta.us_per_second).
Proof.
  intros Hn Hd. unfold Timedelta.of_floats.
  unfold Timedelta.accum at 1.
  rewrite exact_float_modf, exact_float_to_Z by assumption.
  unfold bind at 1. cbn [Float.is_zero]. unfold bind at 1. cbn [fst snd].
  change (Timedelta.accum (0 + n * Timedelta.us_per_second) Float.zero Float.zero
            Timedelta.us_per_day)
    with (Ok (0 + n * Timedelta.us_per_second + 0 * Timedelta.us_per_day, Float.zero)).
  unfold bind at 1. cbn [fst snd].
  unfold Timedelta.round_leftover. cbn [Float.is_zero Float.zero]. unfold bind.
  f_equal. lia.
Qed.

(** [float] of a whole number written in decimal. *)
Lemma of_string_decimal (n : Z) :
  0 < n -> Zdigits2 n <= 53 ->
  Float.of_string_or_0 (Some (Text.decimal n)) = Ok (exact_float n).
Proof.
  intros Hn Hd. destruct (decimal_spec n ltac:(lia)) as [Hne Hv].
  pose proof (digits_nonempty_all _ Hne) as Ha.
  unfold digits_nonempty in Hne. apply andb_true_iff in Hne. destruct Hne as [Hne Hall].
  unfold Float.of_string_or_0, Float.of_string.
  destruct (Text.decimal n) as [|c w] eqn:E; [discriminate Hne|].
  pose proof (split_dot_digits (String c w) "" Ha) as Hs.
  rewrite append_nil_r in Hs. rewrite Hs. cbn [Float.split_dot fst snd].
  rewrite append_nil_r. rewrite Hall, Hv. f_equal. apply of_ratio_exact; assumption.
Qed.

(** ["P<n>D"]: the number is taken by the days group. *)
Lemma days_match (num : string) :
  is_number num = true ->
  exists m, Re.rmatch TimeUtil.RE_ISO_8601_DURATION ("P" ++ num ++ "D") = Some m /\
            duration_group m "sign" = None /\ duration_group m "years" = None /\
            duration_group m "months" = None /\ duration_group m "days" = Some num /\
            duration_group m "hours" = None /\ duration_group m "minutes" = None /\
            duration_group m "seconds" = None.
Proof.
  intros H. destruct (number_parts num H) as (ip & fs & -> & Hip & Hfs).
  exists ((6%nat, ip ++ fraction_text fs) :: fraction_captures 7 fs).
  split.
  - unfold Re.rmatch, TimeUtil.RE_ISO_8601_DURATION.
    rewrite append_assoc.
    cbn [Re.run append]. rewrite Nat.eqb_refl.
    change (TimeUtil.sign_class "P") with false. cbn [Ascii.eqb Bool.eqb].
    rewrite !designated_skip_other by (auto; reflexivity).
    erewrite designated_take; [reflexivity | auto | auto | reflexivity | reflexivity |].
    cbn [Re.run].
    rewrite !designated_skip_start by reflexivity.
    cbn [Re.run]. rewrite app_nil_r. reflexivity.
  - destruct fs; repeat split; cbn; try reflexivity.
Qed.

(** ** Single designators *)

(** [parse_duration] on a match without a sign, group by group. *)
Lemma parse_duration_unsigned (s : string) (m : Re.captures)
      (years months days hours minutes seconds : Float.float) :
  Re.rmatch TimeUtil.RE_ISO_8601_DURATION s = Some m ->
  duration_group m "sign" = None ->
  Float.of_string_or_0 (duration_group m "years") = Ok years ->
  Float.of_string_or_0 (duration_group m "months") = Ok months ->
  Float.of_string_or_0 (duration_group m "days") = Ok days ->
  Float.of_string_or_0 (duration_group m "hours") = Ok hours ->
  Float.of_string_or_0 (duration_group m "minutes") = Ok minutes ->
  Float.of_string_or_0 (duration_group m "seconds") = Ok seconds ->
  TimeUtil.parse_duration (TimeUtil.Str s) =
    Timedelta.of_floats
      (Float.add (Float.add days (Float.mul months (Float.of_Z 30)))
         (Float.mul years (Float.of_Z 365)))
      (Float.add (Float.add seconds (Float.mul minutes (Float.of_Z 60)))
         (Float.mul hours (Float.of_Z 3600))).
Proof.
  intros Hm Hs Ey Emo Ed Eh Emi Es.
  unfold TimeUtil.parse_duration. rewrite Hm. cbv zeta.
  unfold duration_group in *.
  rewrite Hs, Ey, Emo, Ed, Eh, Emi, Es. reflexivity.
Qed.

(** ["P<n>M"] is [timedelta(float(n) * 30, 0.0)]. *)
Lemma parse_months (num : string) (f : Float.float) :
  is_number num = true -> Float.of_string_or_0 (Some num) = Ok f ->
  TimeUtil.parse_duration (TimeUtil.Str ("P" ++ num ++ "M"))
  = Timedelta.of_floats (Float.mul f (Float.of_Z 30)) Float.zero.
Proof.
  intros Hn Hf.
  destruct (months_match num Hn) as (m & Hm & Gs & Gy & Gmo & Gd & Gh & Gmi & Gse).
  rewrite (parse_duration_unsigned _ m Float.zero f Float.zero Float.zero Float.zero
             Float.zero Hm Gs);
    try (rewrite ?Gy, ?Gd, ?Gh, ?Gmi, ?Gse; reflexivity);
    [|rewrite Gmo; exact Hf].
  change (Float.mul Float.zero (Float.of_Z 365)) with Float.zero.
  change (Float.mul Float.zero (Float.of_Z 60)) with Float.zero.
  change (Float.mul Float.zero (Float.of_Z 3600)) with Float.zero.
  change (Float.add (Float.add Float.zero Float.zero) Float.zero) with Float.zero.
  assert (N : nonneg (Float.mul f (Float.of_Z 30)) = true)
    by exact (mul_nonneg_r f 8444249301319680 (-48) (of_string_or_0_nonneg _ _ Hf)).
  now rewrite (add_zero_l _ N), (add_zero_r _ N).
Qed.

(** ["PT<n>M"] is [timedelta(0.0, float(n) * 60)]. *)
Lemma parse_minutes (num : string) (f : Float.float) :
  is_number num = true -> Float.of_string_or_0 (Some num) = Ok f ->
  TimeUtil.parse_duration (TimeUtil.Str ("PT" ++ num ++ "M"))
  = Timedelta.of_floats Float.zero (Float.mul f (Float.of_Z 60)).
Proof.
  intros Hn Hf.
  destruct (minutes_match num Hn) as (m & Hm & Gs & Gy & Gmo & Gd & Gh & Gmi & Gse).
  rewrite (parse_duration_unsigned _ m Float.zero Float.zero Float.zero Float.zero f
             Float.zero Hm Gs);
    try (rewrite ?Gy, ?Gmo, ?Gd, ?Gh, ?Gse; reflexivity);
    [|rewrite Gmi; exact Hf].
  change (Float.mul Float.zero (Float.of_Z 30)) with Float.zero.
  change (Float.mul Float.zero (Float.of_Z 365)) with Float.zero.
  change (Float.mul Float.zero (Float.of_Z 3600)) with Float.zero.
  change (Float.add (Float.add Float.zero Float.zero) Float.zero) with Float.zero.
  assert (N : nonneg (Float.mul f (Float.of_Z 60)) = true)
    by exact (mul_nonneg_r f 8444249301319680 (-47) (of_string_or_0_nonneg _ _ Hf)).
  now rewrite (add_zero_l _ N), (add_zero_r _ N).
Qed.

(** ["P<n>D"] is [timedelta(float(n), 0.0)]. *)
Lemma parse_days (num : string) (f : Float.float) :
  is_number num = true -> Float.of_string_or_0 (Some num) = Ok f ->
  TimeUtil.parse_duration (TimeUtil.Str ("P" ++ num ++ "D"))
  = Timedelta.of_floats f Float.zero.
Proof.
  intros Hn Hf.
  destruct (days_match num Hn) as (m & Hm & Gs & Gy & Gmo & Gd & Gh & Gmi & Gse).
  rewrite (parse_duration_unsigned _ m Float.zero Float.zero f Float.zero Float.zero
             Float.zero Hm Gs);
    try (rewrite ?Gy, ?Gmo, ?Gh, ?Gmi, ?Gse; reflexivity);
    [|rewrite Gd; exact Hf].
  change (Float.mul Float.zero (Float.of_Z 30)) with Float.zero.
  change (Float.mul Float.zero (Float.of_Z 365)) with Float.zero.
  change (Float.mul Float.zero (Float.of_Z 60)) with Float.zero.
  change (Float.mul Float.zero (Float.of_Z 3600)) with Float.zero.
  change (Float.add (Float.add Float.zero Float.zero) Float.zero) with Float.zero.
  pose proof (of_string_or_0_nonneg _ _ Hf) as N.
  now rewrite !(add_zero_r _ N).
Qed.

Lemma small_digits (n b : Z) : 0 <= n -> 0 <= b -> n < 2 ^ b -> Zdigits2 n <= b.
Proof. intros Hn Hb H. now apply Zdigits2_le. Qed.

(** A whole number of microseconds that is a multiple of a second. *)
Lemma of_microseconds_seconds (t : Z) :
  0 <= t <= 999999999 * 86400 + 86399 ->
  Timedelta.of_microseconds (t * Timedelta.us_per_second)
  = Ok (Timedelta.mk (t / 86400) (t mod 86400) 0).
Proof.
  intros Ht. unfold Timedelta.of_microseconds, Timedelta.us_per_second.
  rewrite Z.mod_mul, Z.div_mul by lia.
  assert (0 <= t / 86400 <= 999999999).
  { split; [apply Z.div_pos; lia|]. apply Z.lt_succ_r.
    apply Z.div_lt_upper_bound; lia. }
  assert (L1 : (-999999999 <=? t / 86400) = true) by (apply Z.leb_le; lia).
  assert (L2 : (t / 86400 <=? 999999999) = true) by (apply Z.leb_le; lia).
  rewrite L1, L2. reflexivity.
Qed.

(** The text of a positive whole number of days. *)
Lemma encode_whole_days (n : Z) :
  1 <= n <= 999999999 ->
  TimeUtil.encode_duration (TimeUtil.TimedeltaV (Timedelta.mk n 0 0))
  = Ok ("P" ++ Text.decimal n ++ "D").
Proof.
  intros Hn.
  assert (Hw : Timedelta.wf (Timedelta.mk n 0 0) = true).
  { unfold Timedelta.wf. cbn [Timedelta.days Timedelta.seconds Timedelta.microseconds].
    assert (L1 : (-999999999 <=? n) = true) by (apply Z.leb_le; lia).
    assert (L2 : (n <=? 999999999) = true) by (apply Z.leb_le; lia).
    rewrite L1, L2. reflexivity. }
  rewrite (encode_duration_text _ Hw).
  unfold sign_text, magnitude, duration_text, days_text, time_text, has_time.
  cbn [Timedelta.days Timedelta.seconds Timedelta.microseconds].
  assert (L3 : (n <? 0) = false) by (apply Z.ltb_ge; lia).
  assert (L4 : (n =? 0) = false) by (apply Z.eqb_neq; lia).
  rewrite L3. cbn [Timedelta.days]. rewrite L4. cbn [Z.eqb negb orb].
  now rewrite append_nil_r.
Qed.

(** ["P<n>D"] for a whole number of days in the range of [timedelta]. *)
Lemma parse_whole_days (n : Z) :
  1 <= n <= 999999999 ->
  TimeUtil.parse_duration (TimeUtil.Str ("P" ++ Text.decimal n ++ "D"))
  = Ok (Timedelta.mk n 0 0).
Proof.
  intros Hn.
  assert (Hd : Zdigits2 n <= 53).
  { apply Z.le_trans with 30; [|lia]. apply small_digits; lia. }
  rewrite (parse_days (Text.decimal n) (exact_float n)).
  - rewrite of_floats_whole_days by (assumption || lia).
    replace (n * Timedelta.us_per_day) with ((n * 86400) * Timedelta.us_per_second)
      by (unfold Timedelta.us_per_day, Timedelta.us_per_second; lia).
    rewrite of_microseconds_seconds by lia.
    rewrite Z.div_mul, Z.mod_mul by lia. reflexivity.
  - apply digits_nonempty_number. apply decimal_spec. lia.
  - apply of_string_decimal; [lia | exact Hd].
Qed.

(** ["P<n>M"] for a whole number of months is [30 n] days. *)
Lemma parse_whole_months (n : Z) :
  1 <= n -> 30 * n <= 999999999 ->
  TimeUtil.parse_duration (TimeUtil.Str ("P" ++ Text.decimal n ++ "M"))
  = Ok (Timedelta.mk (30 * n) 0 0).
Proof.
  intros Hn Hb.
  assert (Hd' : Zdigits2 (n * 30) <= 53).
  { apply Z.le_trans with 30; [|lia]. apply small_digits; lia. }
  assert (Hd : Zdigits2 n <= 53).
  { apply Z.le_trans with (Zdigits2 (n * 30)); [|exact Hd'].
    apply Zdigits2_mono. lia. }
  rewrite (parse_months (Text.decimal n) (exact_float n)).
  - rewrite (of_Z_exact 30) by (cbn; lia).
    rewrite mul_exact by (assumption || lia).
    rewrite of_floats_whole_days by (assumption || lia).
    replace (n * 30 * Timedelta.us_per_day)
      with ((30 * n * 86400) * Timedelta.us_per_second)
      by (unfold Timedelta.us_per_day, Timedelta.us_per_second; lia).
    rewrite of_microseconds_seconds by lia.
    rewrite Z.div_mul, Z.mod_mul by lia. reflexivity.
  - apply digits_nonempty_number. apply decimal_spec. lia.
  - apply of_string_decimal; [lia | exact Hd].
Qed.

(** ["PT<n>M"] for a whole number of minutes is [60 n] seconds. *)
Lemma parse_whole_minutes (n : Z) :
  1 <= n -> 60 * n <= 999999999 * 86400 + 86399 ->
  TimeUtil.parse_duration (TimeUtil.Str ("PT" ++ Text.decimal n ++ "M"))
  = Ok (Timedelta.mk (60 * n / 86400) ((60 * n) mod 86400) 0).
Proof.
  intros Hn Hb.
  assert (Hd' : Zdigits2 (n * 60) <= 53).
  { apply Z.le_trans with 47; [|lia]. apply small_digits; lia. }
  assert (Hd : Zdigits2 n <= 53).
  { apply Z.le_trans with (Zdigits2 (n * 60)); [|exact Hd'].
    apply Zdigits2_mono. lia. }
  rewrite (parse_minutes (Text.decimal n) (exact_float n)).
  - rewrite (of_Z_exact 60) by (cbn; lia).
    rewrite mul_exact by (assumption || lia).
    rewrite of_floats_whole_seconds by (assumption || lia).
    replace (n * 60) with (60 * n) by lia.
    apply of_microseconds_seconds. lia.
  - apply digits_nonempty_number. apply decimal_spec. lia.
  - apply of_string_decimal; [lia | exact Hd].
Qed.

(** ** Round trip and the two meanings of [M] *)

(** C8, as the code has it.  For a whole number of days from 1 to
    999999999, written in decimal without leading zeros, ["P<n>D"] parses
    to [n] days and that elapsed time is written ["P<n>D"] again. *)
Theorem day_only_round_trip :
  (forall n : Z,
      1 <= n <= 999999999 ->
      TimeUtil.parse_duration (TimeUtil.Str ("P" ++ Text.decimal n ++ "D"))
      = Ok (Timedelta.mk n 0 0) /\
      (v <- TimeUtil.parse_duration (TimeUtil.Str ("P" ++ Text.decimal n ++ "D")) ;;
       TimeUtil.encode_duration (TimeUtil.TimedeltaV v))
      = Ok ("P" ++ Text.decimal n ++ "D")) /\
  (v <- TimeUtil.parse_duration (TimeUtil.Str "P1D") ;;
   TimeUtil.encode_duration (TimeUtil.TimedeltaV v)) = Ok "P1D".
Proof.
  split; [|vm_compute; reflexivity].
  intros n Hn. rewrite (parse_whole_days n Hn). split; [reflexivity|].
  unfold bind. exact (encode_whole_days n Hn).
Qed.

Lemma day_only_round_trip_witness :
  TimeUtil.parse_duration (TimeUtil.Str ("P" ++ Text.decimal 365 ++ "D"))
  = Ok (Timedelta.mk 365 0 0) /\
  (v <- TimeUtil.parse_duration (TimeUtil.Str ("P" ++ Text.decimal 365 ++ "D")) ;;
   TimeUtil.encode_duration (TimeUtil.TimedeltaV v))
  = Ok ("P" ++ Text.decimal 365 ++ "D").
Proof. apply (proj1 day_only_round_trip 365). lia. Defined.

(** One day beyond the range of [timedelta] there is no elapsed time to
    write, and a leading zero is not written back. *)
Lemma day_only_round_trip_fails :
  (v <- TimeUtil.parse_duration (TimeUtil.Str "P1000000000D") ;;
   TimeUtil.encode_duration (TimeUtil.TimedeltaV v)) = Raise OverflowError /\
  (v <- TimeUtil.parse_duration (TimeUtil.Str "P01D") ;;
   TimeUtil.encode_duration (TimeUtil.TimedeltaV v)) = Ok "P1D".
Proof. split; vm_compute; reflexivity. Qed.

(** C10, as the code has it.  For a number [n], digits with an optional
    fraction, ["P<n>M"] has [n] in the months group and is
    [timedelta(float(n) * 30, 0.0)], and ["PT<n>M"] has [n] in the minutes
    group and is [timedelta(0.0, float(n) * 60)], both in binary64 and
    within the range of [timedelta].  For a whole number [n >= 1] these are
    [30 n] days as long as that is at most 999999999, and [60 n] seconds as
    long as that is less than 1000000000 days. *)
Theorem month_minute_designator :
  (forall num : string,
      is_number num = true ->
      exists f,
        Float.of_string_or_0 (Some num) = Ok f /\
        duration_group_of ("P" ++ num ++ "M") "months" = Some num /\
        duration_group_of ("P" ++ num ++ "M") "minutes" = None /\
        TimeUtil.parse_duration (TimeUtil.Str ("P" ++ num ++ "M"))
        = Timedelta.of_floats (Float.mul f (Float.of_Z 30)) Float.zero /\
        duration_group_of ("PT" ++ num ++ "M") "minutes" = Some num /\
        duration_group_of ("PT" ++ num ++ "M") "months" = None /\
        TimeUtil.parse_duration (TimeUtil.Str ("PT" ++ num ++ "M"))
        = Timedelta.of_floats Float.zero (Float.mul f (Float.of_Z 60))) /\
  (forall n : Z,
      1 <= n -> 30 * n <= 999999999 ->
      TimeUtil.parse_duration (TimeUtil.Str ("P" ++ Text.decimal n ++ "M"))
      = Ok (Timedelta.mk (30 * n) 0 0)) /\
  (forall n : Z,
      1 <= n -> 60 * n <= 999999999 * 86400 + 86399 ->
      TimeUtil.parse_duration (TimeUtil.Str ("PT" ++ Text.decimal n ++ "M"))
      = Ok (Timedelta.mk (60 * n / 86400) ((60 * n) mod 86400) 0)) /\
  TimeUtil.parse_duration (TimeUtil.Str "P1M") = Ok (Timedelta.mk 30 0 0) /\
  TimeUtil.parse_duration (TimeUtil.Str "PT1M") = Ok (Timedelta.mk 0 60 0).
Proof.
  split; [|split; [exact parse_whole_months|
                   split; [exact parse_whole_minutes|split; vm_compute; reflexivity]]].
  intros num Hn. destruct (of_string_number num Hn) as [f Hf]. exists f.
  split; [exact Hf|].
  destruct (months_match num Hn) as (m & Hm & _ & _ & Gmo & _ & _ & Gmi & _).
  destruct (minutes_match num Hn) as (m' & Hm' & _ & _ & Gmo' & _ & _ & Gmi' & _).
  unfold duration_group_of. rewrite Hm, Hm'.
  split; [exact Gmo|]. split; [exact Gmi|].
  split; [exact (parse_months num f Hn Hf)|].
  split; [exact Gmi'|]. split; [exact Gmo'|].
  exact (parse_minutes num f Hn Hf).
Qed.

Lemma month_minute_designator_witness :
  (exists f,
      Float.of_string_or_0 (Some "1.5") = Ok f /\
      duration_group_of ("P" ++ "1.5" ++ "M") "months" = Some "1.5" /\
      duration_group_of ("P" ++ "1.5" ++ "M") "minutes" = None /\
      TimeUtil.parse_duration (TimeUtil.Str ("P" ++ "1.5" ++ "M"))
      = Timedelta.of_floats (Float.mul f (Float.of_Z 30)) Float.zero /\
      duration_group_of ("PT" ++ "1.5" ++ "M") "minutes" = Some "1.5" /\
      duration_group_of ("PT" ++ "1.5" ++ "M") "months" = None /\
      TimeUtil.parse_duration (TimeUtil.Str ("PT" ++ "1.5" ++ "M"))
      = Timedelta.of_floats Float.zero (Float.mul f (Float.of_Z 60))) /\
  TimeUtil.parse_duration (TimeUtil.Str ("P" ++ Text.decimal 12 ++ "M"))
  = Ok (Timedelta.mk (30 * 12) 0 0) /\
  TimeUtil.parse_duration (TimeUtil.Str ("PT" ++ Text.decimal 1500 ++ "M"))
  = Ok (Timedelta.mk (60 * 1500 / 86400) ((60 * 1500) mod 86400) 0).
Proof.
  split; [apply (proj1 month_minute_designator "1.5"); reflexivity|].
  split.
  - apply (proj1 (proj2 month_minute_designator) 12); lia.
  - apply (proj1 (proj2 (proj2 month_minute_designator)) 1500); lia.
Defined.

(** Forty million months are beyond the range of [timedelta]. *)
Lemma month_minute_designator_fails :
  is_number "40000000" = true /\
  duration_group_of "P40000000M" "months" = Some "40000000" /\
  TimeUtil.parse_duration (TimeUtil.Str "P40000000M") = Raise OverflowError.
Proof. repeat split; vm_compute; reflexivity. Qed.

(** ** A line feed at the end of the subject *)

Lemma prefix_short (n : nat) :
  forall a b, (n <= String.length a)%nat -> Text.prefix n (a ++ b) = Text.prefix n a.
Proof.
  induction n as [|n IH]; intros a b H; [now destruct a; destruct b|].
  destruct a as [|c a]; [cbn in H; lia|].
  cbn [append Text.prefix]. f_equal. apply IH. cbn in H. lia.
Qed.

Lemma consumed_line_feed (u u' : string) :
  Re.consumed (u ++ line_feed) (u' ++ line_feed) = Re.consumed u u'.
Proof.
  unfold Re.consumed. rewrite !length_append.
  replace (String.length u + String.length line_feed
           - (String.length u' + String.length line_feed))%nat
    with (String.length u - String.length u')%nat by lia.
  apply prefix_short. lia.
Qed.

Lemma no_newline_tail (c : ascii) (u : string) :
  no_newline (String c u) = true -> Ascii.eqb c Re.newline = false /\ no_newline u = true.
Proof.
  unfold no_newline. cbn [contains]. intros H.
  apply negb_true_iff, orb_false_iff in H. destruct H as [Hc Hu].
  split; [exact Hc | now rewrite Hu].
Qed.

Section LineFeed.

Variable n : nat.
Context {R : Type}.

Lemma rep_line_feed (p : ascii -> bool) (u : string) :
  p Re.newline = false ->
  forall lo hi g (k' k : string -> Re.captures -> option R),
    no_newline u = true -> follows k' k ->
    Re.rep p lo hi (u ++ line_feed) g k' = Re.rep p lo hi u g k.
Proof.
  intros Hp. induction u as [|c u IH]; intros lo hi g k' k Hu Hk.
  - pose proof (Hk "" g eq_refl) as E. cbn [append] in E. unfold line_feed in *.
    cbn [append Re.rep]. rewrite Hp, E.
    destruct hi as [[|h]|]; reflexivity.
  - destruct (no_newline_tail c u Hu) as [_ Hu'].
    pose proof (Hk (String c u) g Hu) as E. cbn [append] in E.
    cbn [append Re.rep]. rewrite E.
    rewrite (IH (Nat.pred lo) (option_map Nat.pred hi) g k' k Hu' Hk).
    reflexivity.
Qed.

Lemma run_line_feed (r : Re.regex) :
  newline_free r = true ->
  forall u g (k' k : string -> Re.captures -> option R),
    no_newline u = true -> follows k' k ->
    Re.run (S n) r (u ++ line_feed) g k' = Re.run n r u g k.
Proof.
  induction r as [| |c|p|p lo hi|r1 IH1 r2 IH2|r1 IH1 r2 IH2|r1 IH1|i r1 IH1|name i r1 IH1];
    cbn [newline_free]; intros Hr u g k' k Hu Hk.
  - cbn [Re.run]. rewrite length_append, (Hk u g Hu).
    replace (String.length u + String.length line_feed)%nat with (S (String.length u))
      by (cbn; lia).
    reflexivity.
  - destruct u as [|c [|c' u]].
    + cbn. exact (Hk "" g eq_refl).
    + destruct (no_newline_tail c "" Hu) as [Hc _].
      unfold line_feed. cbn [append Re.run]. now rewrite Hc.
    + reflexivity.
  - destruct u as [|c' u].
    + unfold line_feed. cbn [append Re.run]. apply negb_true_iff in Hr. now rewrite Hr.
    + destruct (no_newline_tail c' u Hu) as [_ Hu'].
      cbn [append Re.run]. now rewrite (Hk u g Hu').
  - destruct u as [|c' u].
    + unfold line_feed. cbn [append Re.run]. apply negb_true_iff in Hr. now rewrite Hr.
    + destruct (no_newline_tail c' u Hu) as [_ Hu'].
      cbn [append Re.run]. now rewrite (Hk u g Hu').
  - apply negb_true_iff in Hr. cbn [Re.run]. now apply rep_line_feed.
  - apply andb_true_iff in Hr. destruct Hr as [H1 H2].
    cbn [Re.run]. apply IH1; [exact H1 | exact Hu|].
    intros u' g' Hu'. now apply IH2.
  - apply andb_true_iff in Hr. destruct Hr as [H1 H2].
    cbn [Re.run]. now rewrite (IH1 H1 u g k' k Hu Hk), (IH2 H2 u g k' k Hu Hk).
  - cbn [Re.run]. now rewrite (IH1 Hr u g k' k Hu Hk), (Hk u g Hu).
  - cbn [Re.run]. apply IH1; [exact Hr | exact Hu|].
    intros u' g' Hu'. now rewrite consumed_line_feed, (Hk u' _ Hu').
  - cbn [Re.run]. apply IH1; [exact Hr | exact Hu|].
    intros u' g' Hu'. now rewrite consumed_line_feed, (Hk u' _ Hu').
Qed.

End LineFeed.

(** [pattern.match] does not see a line feed at the end of the subject. *)
Lemma rmatch_line_feed (r : Re.regex) (s : string) :
  newline_free r = true -> no_newline s = true ->
  Re.rmatch r (s ++ line_feed) = Re.rmatch r s.
Proof.
  intros Hr Hs. unfold Re.rmatch. rewrite length_append.
  replace (String.length s + String.length line_feed)%nat with (S (String.length s))
    by (cbn; lia).
  apply run_line_feed; [exact Hr | exact Hs|].
  intros u g _. reflexivity.
Qed.

Lemma match_datetime_line_feed (s : string) :
  no_newline s = true ->
  TimeUtil.match_datetime (s ++ line_feed) = TimeUtil.match_datetime s.
Proof.
  intros Hs. unfold TimeUtil.match_datetime.
  now rewrite !rmatch_line_feed by (reflexivity || exact Hs).
Qed.

Lemma parse_datetime_line_feed (s : string) (tz_local : option TimeZone.t) :
  no_newline s = true ->
  TimeUtil.parse_datetime (TimeUtil.Str (s ++ line_feed)) tz_local
  = TimeUtil.parse_datetime (TimeUtil.Str s) tz_local.
Proof.
  intros Hs. unfold TimeUtil.parse_datetime, TimeUtil.parse_datetime_zoned.
  now rewrite (match_datetime_line_feed s Hs).
Qed.

Lemma parse_duration_line_feed (s : string) :
  no_newline s = true ->
  TimeUtil.parse_duration (TimeUtil.Str (s ++ line_feed))
  = TimeUtil.parse_duration (TimeUtil.Str s).
Proof.
  intros Hs. unfold TimeUtil.parse_duration.
  now rewrite rmatch_line_feed by (reflexivity || exact Hs).
Qed.

Lemma no_newline_append (a b : string) :
  no_newline (a ++ b) = (no_newline a && no_newline b)%bool.
Proof. unfold no_newline. rewrite contains_append. now destruct (contains _ a). Qed.

Lemma no_newline_digits (w : string) :
  Text.all Text.is_digit w = true -> no_newline w = true.
Proof.
  intros H. unfold no_newline. now rewrite (contains_digits Re.newline w eq_refl H).
Qed.

(** X1.  The three patterns end with [$], which also holds in front of a
    line feed that ends the subject: for a text without a line feed in it,
    the text followed by one line feed is parsed as the text itself, by
    [parse_datetime], [parse_date] and [parse_duration] alike. *)
Theorem trailing_line_feed_ignored (s : string) (tz_local : option TimeZone.t) :
  no_newline s = true ->
  TimeUtil.parse_datetime (TimeUtil.Str (s ++ line_feed)) tz_local
  = TimeUtil.parse_datetime (TimeUtil.Str s) tz_local /\
  TimeUtil.parse_date (TimeUtil.Str (s ++ line_feed))
  = TimeUtil.parse_date (TimeUtil.Str s) /\
  TimeUtil.parse_duration (TimeUtil.Str (s ++ line_feed))
  = TimeUtil.parse_duration (TimeUtil.Str s).
Proof.
  intros Hs. split; [now apply parse_datetime_line_feed|]. split.
  - unfold TimeUtil.parse_date. now rewrite parse_datetime_line_feed.
  - now apply parse_duration_line_feed.
Qed.

Lemma trailing_line_feed_ignored_witness :
  TimeUtil.parse_datetime (TimeUtil.Str ("2019-05-01T12:30:00+02:00" ++ line_feed)) None
  = TimeUtil.parse_datetime (TimeUtil.Str "2019-05-01T12:30:00+02:00") None /\
  TimeUtil.parse_date (TimeUtil.Str ("2019-05-01T12:30:00+02:00" ++ line_feed))
  = TimeUtil.parse_date (TimeUtil.Str "2019-05-01T12:30:00+02:00") /\
  TimeUtil.parse_duration (TimeUtil.Str ("2019-05-01T12:30:00+02:00" ++ line_feed))
  = TimeUtil.parse_duration (TimeUtil.Str "2019-05-01T12:30:00+02:00").
Proof. apply (trailing_line_feed_ignored "2019-05-01T12:30:00+02:00" None). reflexivity. Defined.

(** ** Negation and the encoder *)

Lemma split_total (v : Timedelta.timedelta) :
  Timedelta.wf v = true -> split_microseconds (Timedelta.total_microseconds v) = v.
Proof.
  intros Hw. destruct (wf_fields v Hw) as (_ & S & U).
  destruct v as [d s us]. cbn [Timedelta.days Timedelta.seconds Timedelta.microseconds] in *.
  unfold split_microseconds, Timedelta.total_microseconds, Timedelta.us_per_second.
  cbn [Timedelta.days Timedelta.seconds Timedelta.microseconds].
  assert (E1 : ((d * 86400 + s) * 1000000 + us) / 1000000 = d * 86400 + s)
    by (symmetry; apply Z.div_unique with us; lia).
  assert (E2 : ((d * 86400 + s) * 1000000 + us) mod 1000000 = us)
    by (symmetry; apply Z.mod_unique with (d * 86400 + s); lia).
  assert (E3 : (d * 86400 + s) / 86400 = d)
    by (symmetry; apply Z.div_unique with s; lia).
  assert (E4 : (d * 86400 + s) mod 86400 = s)
    by (symmetry; apply Z.mod_unique with d; lia).
  now rewrite E1, E2, E3, E4.
Qed.

(** X2.  The text of the negation of a positive elapsed time is the minus
    sign followed by the text of the elapsed time itself. *)
Theorem encode_duration_negated (v w : Timedelta.timedelta) :
  Timedelta.wf v = true -> 0 < Timedelta.total_microseconds v ->
  Timedelta.neg v = Ok w ->
  exists t,
    TimeUtil.encode_duration (TimeUtil.TimedeltaV v) = Ok t /\
    TimeUtil.encode_duration (TimeUtil.TimedeltaV w) = Ok ("-" ++ t).
Proof.
  intros Hw Hp Hn. destruct (wf_fields v Hw) as (D & S & U).
  assert (Hd : 0 <= Timedelta.days v).
  { unfold Timedelta.total_microseconds, Timedelta.us_per_second in Hp. lia. }
  destruct (of_microseconds_total _ _ Hn) as [Ht Hww].
  destruct (wf_fields w Hww) as (_ & Sw & Uw).
  assert (Hdw : Timedelta.days w < 0).
  { unfold Timedelta.total_microseconds, Timedelta.us_per_second in Ht, Hp. lia. }
  exists (duration_text v). split.
  - rewrite (encode_duration_text v Hw). unfold sign_text, magnitude.
    apply Z.ltb_ge in Hd. now rewrite Hd.
  - rewrite (encode_duration_text w Hww). unfold sign_text, magnitude.
    apply Z.ltb_lt in Hdw. rewrite Hdw. rewrite Ht, Z.opp_involutive.
    now rewrite (split_total v Hw).
Qed.

Lemma encode_duration_negated_witness :
  exists t,
    TimeUtil.encode_duration (TimeUtil.TimedeltaV (Timedelta.mk 1 9000 250000)) = Ok t /\
    TimeUtil.encode_duration (TimeUtil.TimedeltaV (Timedelta.mk (-2) 77399 750000))
    = Ok ("-" ++ t).
Proof.
  apply (encode_duration_negated (Timedelta.mk 1 9000 250000)
           (Timedelta.mk (-2) 77399 750000)); reflexivity.
Defined.

(** ** Every duration text *)

Lemma number_starts (w : string) :
  is_number w = true -> exists c w', w = String c w' /\ Text.is_digit c = true.
Proof.
  intros H. destruct (number_parts w H) as (ip & fs & -> & Hip & _).
  unfold digits_nonempty in Hip. apply andb_true_iff in Hip. destruct Hip as [Hne Hd].
  destruct ip as [|c ip]; [discriminate Hne|].
  cbn in Hd. apply andb_true_iff in Hd. destruct Hd as [Hc _].
  exists c, (ip ++ fraction_text fs). split; [reflexivity | exact Hc].
Qed.

Lemma number_captures_parts (i : nat) (ip : string) (fs : option string) :
  digits_nonempty ip = true ->
  number_captures i (Some (ip ++ fraction_text fs))
  = ((i, (ip ++ fraction_text fs)%string) :: fraction_captures (S i) fs)%list.
Proof.
  intros Hip. unfold number_captures. f_equal. f_equal.
  rewrite split_dot_digits by (apply digits_nonempty_all, Hip).
  destruct fs as [f|]; reflexivity.
Qed.

Lemma clear_nil (x : ascii) : clear_of x "".
Proof. left. reflexivity. Qed.

Lemma clear_separator (x : ascii) (rest : string) : clear_of x ("T" ++ rest).
Proof. left. reflexivity. Qed.

Lemma clear_number (x y : ascii) (w rest : string) :
  is_number w = true -> Text.is_digit y = false -> is_point y = false ->
  Ascii.eqb x y = false ->
  clear_of x (number_designator (String y "") (Some w) ++ rest).
Proof.
  intros Hw Hy Hp Hxy. destruct (number_parts w Hw) as (ip & fs & -> & Hip & Hfs).
  right. exists ip, fs, y, rest. cbn [number_designator].
  rewrite !append_assoc. cbn [append]. auto 6.
Qed.

(** One designator in front of a text that is clear. *)
Lemma clear_step (x y : ascii) (c : option string) (rest : string) :
  optional_number c = true -> Text.is_digit y = false -> is_point y = false ->
  Ascii.eqb x y = false -> clear_of x rest ->
  clear_of x (number_designator (String y "") c ++ rest).
Proof.
  intros Hc Hy Hp Hxy Hr. destruct c as [w|]; [now apply clear_number | exact Hr].
Qed.

Lemma clear_optional_separator (x : ascii) (t : bool) (rest : string) :
  clear_of x rest -> clear_of x (separator t ++ rest).
Proof. intros H. destruct t; [apply clear_separator | exact H]. Qed.

Section DurationBody.

Variable n : nat.
Context {R : Type}.

Lemma designated_skip (name : string) (i : nat) (x : ascii) (tail : string)
      (g : Re.captures) (k : string -> Re.captures -> option R) :
  Text.is_digit x = false -> is_point x = false -> clear_of x tail ->
  Re.run n (TimeUtil.designated name i x) tail g k = k tail g.
Proof.
  intros Hx Hp [H | (ip & fs & y & rest & -> & Hip & Hfs & Hy & Hyp & Hxy)].
  - now apply designated_skip_start.
  - now apply designated_skip_other.
Qed.

(** One designator of the pattern on its place in the text. *)
Lemma designated_step (name : string) (i : nat) (x : ascii) (c : option string)
      (tail : string) (g : Re.captures) (k : string -> Re.captures -> option R) (r : R) :
  Text.is_digit x = false -> is_point x = false ->
  optional_number c = true -> (c = None -> clear_of x tail) ->
  k tail (number_captures i c ++ g)%list = Some r ->
  Re.run n (TimeUtil.designated name i x) (number_designator (String x "") c ++ tail) g k
  = Some r.
Proof.
  intros Hx Hp Hc Ht Hk. destruct c as [w|].
  - cbn [optional_number] in Hc.
    destruct (number_parts w Hc) as (ip & fs & -> & Hip & Hfs).
    rewrite number_captures_parts in Hk by exact Hip.
    cbn [number_designator]. rewrite !append_assoc. cbn [append].
    now apply designated_take.
  - cbn [number_designator append]. rewrite designated_skip; auto.
Qed.

Lemma separator_step (t : bool) (tail : string) (g : Re.captures)
      (k : string -> Re.captures -> option R) (r : R) :
  starts_outside (Ascii.eqb "T") tail = true ->
  k tail g = Some r ->
  Re.run n (Re.Opt (Re.Chr "T")) (separator t ++ tail) g k = Some r.
Proof.
  intros Ht Hk. destruct t; cbn [separator append Re.run].
  - cbn [Ascii.eqb Bool.eqb]. now rewrite Hk.
  - destruct tail as [|c u]; [exact Hk|].
    cbn [starts_outside] in Ht. apply negb_true_iff in Ht. now rewrite Ht.
Qed.

End DurationBody.

Lemma designators_start (p : ascii -> bool) (cs : list (string * option string)) :
  (forall c, Text.is_digit c = true -> p c = false) ->
  Forall (fun xc => optional_number (snd xc) = true) cs ->
  starts_outside p (fold_right (fun xc acc => number_designator (fst xc) (snd xc) ++ acc)
                      "" cs) = true.
Proof.
  intros Hp H. induction H as [|[x [w|]] cs Hc _ IH]; cbn [fold_right fst snd].
  - reflexivity.
  - cbn [snd optional_number] in Hc. destruct (number_starts w Hc) as (c & w' & -> & Hd).
    cbn. now rewrite (Hp c Hd).
  - exact IH.
Qed.

Ltac clear_chain :=
  repeat first
    [ apply clear_nil
    | apply clear_optional_separator
    | apply clear_step; [assumption | reflexivity | reflexivity | reflexivity | ] ].

(** The pattern after [P] on the designators of a text. *)
Lemma duration_body_match (n : nat) (y mo d : option string) (t : bool)
      (h mi s : option string) (g : Re.captures) :
  optional_number y = true -> optional_number mo = true -> optional_number d = true ->
  optional_number h = true -> optional_number mi = true -> optional_number s = true ->
  minutes_as_months mo d t h mi = false ->
  Re.run n duration_body
    (number_designator "Y" y ++ number_designator "M" mo ++ number_designator "D" d ++
     separator t ++
     number_designator "H" h ++ number_designator "M" mi ++ number_designator "S" s)
    g (fun _ g' => Some g')
  = Some (number_captures 12 s ++ number_captures 10 mi ++ number_captures 8 h ++
          number_captures 6 d ++ number_captures 4 mo ++ number_captures 2 y ++ g)%list.
Proof.
  intros Hy Hmo Hd Hh Hmi Hs Ha.
  unfold duration_body. rewrite <- (append_nil_r (number_designator "S" s)).
  rewrite run_Seq.
  apply designated_step; [reflexivity | reflexivity | exact Hy | intros _; clear_chain |].
  rewrite run_Seq.
  apply designated_step; [reflexivity | reflexivity | exact Hmo | |].
  { intros ->. destruct d as [wd|]; [now apply clear_number|].
    destruct t; [apply clear_separator|].
    destruct h as [wh|]; [now apply clear_number|].
    destruct mi as [wmi|]; [discriminate Ha|].
    cbn [number_designator separator append]. clear_chain. }
  rewrite run_Seq.
  apply designated_step; [reflexivity | reflexivity | exact Hd | intros _; clear_chain |].
  rewrite run_Seq.
  apply separator_step.
  { apply (designators_start (Ascii.eqb "T") [("H", h); ("M", mi); ("S", s)]).
    - intros c Hc. now apply digit_differs.
    - repeat constructor; assumption. }
  rewrite run_Seq.
  apply designated_step; [reflexivity | reflexivity | exact Hh | intros _; clear_chain |].
  rewrite run_Seq.
  apply designated_step; [reflexivity | reflexivity | exact Hmi | intros _; clear_chain |].
  rewrite run_Seq.
  apply designated_step; [reflexivity | reflexivity | exact Hs | intros _; clear_chain |].
  cbn [Re.run]. now rewrite !app_assoc.
Qed.

Lemma group_fraction_captures (j i : nat) (fs : option string) (g : Re.captures) :
  j <> i -> Re.group (fraction_captures j fs ++ g)%list i = Re.group g i.
Proof.
  intros H. destruct fs as [f|]; [|reflexivity].
  cbn [fraction_captures app Re.group].
  apply Nat.eqb_neq in H. now rewrite H.
Qed.

Lemma group_number_other (i j : nat) (c : option string) (g : Re.captures) :
  i <> j -> S i <> j -> Re.group (number_captures i c ++ g)%list j = Re.group g j.
Proof.
  intros H1 H2. destruct c as [w|]; [|reflexivity].
  cbn [number_captures app Re.group].
  apply Nat.eqb_neq in H1. rewrite H1. now apply group_fraction_captures.
Qed.

Lemma group_number_same (i : nat) (c : option string) (g : Re.captures) :
  Re.group g i = None -> Re.group (number_captures i c ++ g)%list i = c.
Proof.
  intros H. destruct c as [w|]; [|exact H].
  cbn [number_captures app Re.group]. now rewrite Nat.eqb_refl.
Qed.

Ltac pick_group :=
  repeat (rewrite group_number_other by discriminate);
  first [ rewrite group_number_same;
          [reflexivity
          | repeat (rewrite group_number_other by discriminate); reflexivity]
        | reflexivity ].

Lemma sign_cases (sg : string) :
  is_sign sg = true -> sg = "" \/ sg = "+" \/ sg = "-".
Proof.
  unfold is_sign. intros H. apply orb_true_iff in H. destruct H as [H | H].
  - apply orb_true_iff in H. destruct H as [H | H]; apply String.eqb_eq in H; auto.
  - apply String.eqb_eq in H. auto.
Qed.

(** Every duration text is matched, and each group holds its component of
    the text. *)
Lemma duration_string_match (sg : string) (y mo d : option string) (t : bool)
      (h mi s : option string) :
  is_sign sg = true ->
  optional_number y = true -> optional_number mo = true -> optional_number d = true ->
  optional_number h = true -> optional_number mi = true -> optional_number s = true ->
  minutes_as_months mo d t h mi = false ->
  exists m,
    Re.rmatch TimeUtil.RE_ISO_8601_DURATION (duration_string sg y mo d t h mi s) = Some m /\
    duration_group m "sign" = sign_group sg /\
    duration_group m "years" = y /\ duration_group m "months" = mo /\
    duration_group m "days" = d /\ duration_group m "hours" = h /\
    duration_group m "minutes" = mi /\ duration_group m "seconds" = s.
Proof.
  intros Hsg Hy Hmo Hd Hh Hmi Hs Ha.
  exists (number_captures 12 s ++ number_captures 10 mi ++ number_captures 8 h ++
          number_captures 6 d ++ number_captures 4 mo ++ number_captures 2 y ++
          match sg with EmptyString => [] | _ => [(1%nat, sg)] end)%list.
  split.
  - unfold Re.rmatch, TimeUtil.RE_ISO_8601_DURATION, duration_string.
    pose proof (fun n g => duration_body_match n y mo d t h mi s g Hy Hmo Hd Hh Hmi Hs Ha)
      as B.
    unfold duration_body in B. cbn [Re.run] in B.
    destruct (sign_cases sg Hsg) as [-> | [-> | ->]].
    + cbn [append Re.run]. rewrite Nat.eqb_refl.
      change (TimeUtil.sign_class "P") with false. cbn [Ascii.eqb Bool.eqb].
      apply B.
    + cbn [append Re.run]. rewrite Nat.eqb_refl.
      change (TimeUtil.sign_class "+") with true. cbn [Ascii.eqb Bool.eqb].
      match goal with
      | |- context [Re.consumed (String "+" ?u) ?u] =>
          change (Re.consumed (String "+" u) u) with (Re.consumed ("+" ++ u) u);
          rewrite consumed_append
      end.
      now rewrite B.
    + cbn [append Re.run]. rewrite Nat.eqb_refl.
      change (TimeUtil.sign_class "-") with true. cbn [Ascii.eqb Bool.eqb].
      match goal with
      | |- context [Re.consumed (String "-" ?u) ?u] =>
          change (Re.consumed (String "-" u) u) with (Re.consumed ("-" ++ u) u);
          rewrite consumed_append
      end.
      now rewrite B.
  - change (duration_group ?m "sign") with (Re.group m 1).
    change (duration_group ?m "years") with (Re.group m 2).
    change (duration_group ?m "months") with (Re.group m 4).
    change (duration_group ?m "days") with (Re.group m 6).
    change (duration_group ?m "hours") with (Re.group m 8).
    change (duration_group ?m "minutes") with (Re.group m 10).
    change (duration_group ?m "seconds") with (Re.group m 12).
    destruct (sign_cases sg Hsg) as [-> | [-> | ->]]; repeat split; pick_group.
Qed.

(** ** The duration parser on duration texts *)

Lemma duration_string_minus (y mo d : option string) (t : bool) (h mi s : option string) :
  TimeUtil.parse_duration (TimeUtil.Str (duration_string "-" y mo d t h mi s))
  = Raise ValueError.
Proof. apply minus_sign_refused. Qed.

(** A duration text without a minus sign, component by component. *)
Lemma parse_duration_string (sg : string) (y mo d : option string) (t : bool)
      (h mi s : option string) :
  is_sign sg = true -> sg <> "-" ->
  optional_number y = true -> optional_number mo = true -> optional_number d = true ->
  optional_number h = true -> optional_number mi = true -> optional_number s = true ->
  minutes_as_months mo d t h mi = false ->
  exists years months days hours minutes seconds,
    Float.of_string_or_0 y = Ok years /\ Float.of_string_or_0 mo = Ok months /\
    Float.of_string_or_0 d = Ok days /\ Float.of_string_or_0 h = Ok hours /\
    Float.of_string_or_0 mi = Ok minutes /\ Float.of_string_or_0 s = Ok seconds /\
    TimeUtil.parse_duration (TimeUtil.Str (duration_string sg y mo d t h mi s)) =
      Timedelta.of_floats
        (Float.add (Float.add days (Float.mul months (Float.of_Z 30)))
           (Float.mul years (Float.of_Z 365)))
        (Float.add (Float.add seconds (Float.mul minutes (Float.of_Z 60)))
           (Float.mul hours (Float.of_Z 3600))).
Proof.
  intros Hsg Hm Hy Hmo Hd Hh Hmi Hs Ha.
  destruct (duration_string_match sg y mo d t h mi s Hsg Hy Hmo Hd Hh Hmi Hs Ha)
    as (m & Hmatch & Gsg & Gy & Gmo & Gd & Gh & Gmi & Gs).
  assert (Hsign : duration_group m "sign" <> Some "-").
  { rewrite Gsg. destruct (sign_cases sg Hsg) as [-> | [-> | ->]];
      [discriminate | discriminate | contradiction]. }
  destruct (parse_duration_floats _ m Hmatch Hsign) as (_ & F).
  rewrite Gy, Gmo, Gd, Gh, Gmi, Gs in F. exact F.
Qed.

(** X3.  In a duration text the separator [T] and a plus sign make no
    difference to [parse_duration]: the text is parsed as the same text
    without them, unless taking the [T] out puts a minutes number in the
    months' place. *)
Theorem separator_and_plus_optional (sg : string) (y mo d : option string) (t : bool)
        (h mi s : option string) :
  is_sign sg = true -> sg <> "-" ->
  optional_number y = true -> optional_number mo = true -> optional_number d = true ->
  optional_number h = true -> optional_number mi = true -> optional_number s = true ->
  minutes_as_months mo d false h mi = false ->
  TimeUtil.parse_duration (TimeUtil.Str (duration_string sg y mo d t h mi s))
  = TimeUtil.parse_duration (TimeUtil.Str (duration_string "" y mo d false h mi s)).
Proof.
  intros Hsg Hm Hy Hmo Hd Hh Hmi Hs Ha.
  assert (Ha' : minutes_as_months mo d t h mi = false).
  { destruct t; [|exact Ha]. unfold minutes_as_months.
    destruct mo, d, h, mi; reflexivity. }
  destruct (parse_duration_string sg y mo d t h mi s Hsg Hm Hy Hmo Hd Hh Hmi Hs Ha')
    as (fy & fmo & fd & fh & fmi & fs & Ey & Emo & Ed & Eh & Emi & Es & E).
  destruct (parse_duration_string "" y mo d false h mi s eq_refl ltac:(discriminate)
              Hy Hmo Hd Hh Hmi Hs Ha)
    as (fy' & fmo' & fd' & fh' & fmi' & fs' & Ey' & Emo' & Ed' & Eh' & Emi' & Es' & E').
  rewrite E, E'.
  rewrite Ey in Ey'. rewrite Emo in Emo'. rewrite Ed in Ed'.
  rewrite Eh in Eh'. rewrite Emi in Emi'. rewrite Es in Es'.
  injection Ey' as <-. injection Emo' as <-. injection Ed' as <-.
  injection Eh' as <-. injection Emi' as <-. injection Es' as <-.
  reflexivity.
Qed.

Lemma separator_and_plus_optional_witness :
  TimeUtil.parse_duration
    (TimeUtil.Str (duration_string "+" None (Some "1.5") (Some "2") true (Some "3") None
                     (Some "4.25")))
  = TimeUtil.parse_duration
      (TimeUtil.Str (duration_string "" None (Some "1.5") (Some "2") false (Some "3") None
                       (Some "4.25"))).
Proof.
  apply (separator_and_plus_optional "+" None (Some "1.5") (Some "2") true (Some "3") None
           (Some "4.25"));
    first [reflexivity | discriminate].
Defined.

(** ** Whole numbers in binary64 *)

Lemma normalize_exact (n k : Z) :
  0 < n -> Zdigits2 n <= 53 -> 0 <= k ->
  binary_normalize Float.prec Float.emax (n * 2 ^ k) (- k) false = exact_float n.
Proof.
  intros Hn Hd Hk.
  assert (P : 0 < 2 ^ k) by (apply Z.pow_pos_nonneg; lia).
  destruct (n * 2 ^ k) as [|p|p] eqn:Ep; try nia.
  cbn [binary_normalize]. unfold binary_round.
  assert (Dp : Zdigits2 (Zpos p) = Zdigits2 n + k)
    by (rewrite <- Ep; apply Zdigits2_mul_pow2; lia).
  assert (D1 : 1 <= Zdigits2 n) by (destruct n; cbn; lia).
  set (e' := fexp Float.prec Float.emax (Zpos (digits2_pos p) + - k)).
  assert (He : e' = Zdigits2 n - 53).
  { subst e'. unfold fexp, emin, Float.prec, Float.emax.
    change (Zpos (digits2_pos p)) with (Zdigits2 (Zpos p)). lia. }
  destruct (shl_align_spec p (- k) e') as [E1 E2].
  destruct (shl_align p (- k) e') as [mz ez]. cbn [fst snd] in E1, E2.
  rewrite E2, E1, <- Ep.
  set (k' := - Z.min (- k) e').
  replace (Z.min (- k) e') with (- k') by (subst k'; lia).
  replace (n * 2 ^ k * 2 ^ (- k - - k')) with (n * 2 ^ k').
  - apply round_aux_exact; subst k'; lia.
  - rewrite <- Z.mul_assoc, <- Z.pow_add_r by (subst k'; lia).
    f_equal. f_equal. lia.
Qed.

(** The sum of two whole numbers is exact when it fits in 53 bits. *)
Lemma add_exact (a b : Z) :
  0 < a -> 0 < b -> Zdigits2 (a + b) <= 53 ->
  Float.add (exact_float a) (exact_float b) = exact_float (a + b).
Proof.
  intros Ha Hb Hd.
  assert (Da : Zdigits2 a <= Zdigits2 (a + b)) by (apply Zdigits2_mono; lia).
  assert (Db : Zdigits2 b <= Zdigits2 (a + b)) by (apply Zdigits2_mono; lia).
  assert (A1 : 1 <= Zdigits2 a) by (destruct a; cbn; lia).
  assert (B1 : 1 <= Zdigits2 b) by (destruct b; cbn; lia).
  assert (Pa : 0 < 2 ^ (53 - Zdigits2 a)) by (apply Z.pow_pos_nonneg; lia).
  assert (Pb : 0 < 2 ^ (53 - Zdigits2 b)) by (apply Z.pow_pos_nonneg; lia).
  unfold exact_float at 1 2, Float.add, SFadd.
  set (ma := Z.to_pos (a * 2 ^ (53 - Zdigits2 a))).
  set (mb := Z.to_pos (b * 2 ^ (53 - Zdigits2 b))).
  set (ea := Zdigits2 a - 53). set (eb := Zdigits2 b - 53).
  destruct (shl_align_spec ma ea (Z.min ea eb)) as [_ Ea].
  destruct (shl_align_spec mb eb (Z.min ea eb)) as [_ Eb].
  cbn [cond_Zopp]. rewrite Ea, Eb.
  subst ma mb. rewrite !Z2Pos.id by nia.
  set (k := - Z.min ea eb).
  replace (Z.min ea eb) with (- k) by (subst k; lia).
  replace (Z.min ea (- k)) with (- k) by (subst k; lia).
  replace (Z.min eb (- k)) with (- k) by (subst k; lia).
  replace (a * 2 ^ (53 - Zdigits2 a) * 2 ^ (ea - - k) + b * 2 ^ (53 - Zdigits2 b) * 2 ^ (eb - - k))
    with ((a + b) * 2 ^ k).
  - apply normalize_exact; subst k ea eb; lia.
  - rewrite <- !Z.mul_assoc, <- !Z.pow_add_r by (subst k ea eb; lia).
    replace (53 - Zdigits2 a + (ea - - k)) with k by (subst ea; lia).
    replace (53 - Zdigits2 b + (eb - - k)) with k by (subst eb; lia).
    ring.
Qed.

Lemma whole_float_nonneg (n : Z) : nonneg (whole_float n) = true.
Proof. unfold whole_float. destruct (n =? 0); reflexivity. Qed.

Lemma add_whole (a b : Z) :
  0 <= a -> 0 <= b -> Zdigits2 (a + b) <= 53 ->
  Float.add (whole_float a) (whole_float b) = whole_float (a + b).
Proof.
  intros Ha Hb Hd. unfold whole_float.
  destruct (Z.eqb_spec a 0) as [-> | Na].
  - cbn [Z.add]. destruct (b =? 0); [reflexivity|]. now apply add_zero_l.
  - destruct (Z.eqb_spec b 0) as [-> | Nb].
    + rewrite Z.add_0_r. apply Z.eqb_neq in Na. rewrite Na. now apply add_zero_r.
    + assert (N : (a + b =? 0) = false) by (apply Z.eqb_neq; lia).
      rewrite N. apply add_exact; lia.
Qed.

(** A whole number times a positive whole factor. *)
Lemma mul_whole (a f : Z) :
  0 <= a -> 0 < f -> Zdigits2 f <= 53 -> Zdigits2 (a * f) <= 53 ->
  Float.mul (whole_float a) (Float.of_Z f) = whole_float (a * f).
Proof.
  intros Ha Hf Hdf Hd. rewrite (of_Z_exact f Hf Hdf). unfold whole_float.
  destruct (Z.eqb_spec a 0) as [-> | Na]; [reflexivity|].
  assert (N : (a * f =? 0) = false) by (apply Z.eqb_neq; nia).
  rewrite N. apply mul_exact; lia.
Qed.

Lemma whole_float_modf (n : Z) :
  0 <= n -> Zdigits2 n <= 53 ->
  Float.modf (whole_float n) = (Float.zero, whole_float n) /\
  Float.to_Z (whole_float n) = Ok n.
Proof.
  intros Hn Hd. unfold whole_float.
  destruct (Z.eqb_spec n 0) as [-> | N]; [split; reflexivity|].
  split; [apply exact_float_modf | apply exact_float_to_Z]; lia.
Qed.

Lemma accum_whole (sofar : Z) (leftover : Float.float) (n factor : Z) :
  0 <= n -> Zdigits2 n <= 53 ->
  Timedelta.accum sofar leftover (whole_float n) factor = Ok (sofar + n * factor, leftover).
Proof.
  intros Hn Hd. unfold Timedelta.accum.
  destruct (whole_float_modf n Hn Hd) as [-> ->]. reflexivity.
Qed.

(** [timedelta(days, seconds)] for two whole numbers given as floats. *)
Lemma of_floats_whole (days seconds : Z) :
  0 <= days -> Zdigits2 days <= 53 -> 0 <= seconds -> Zdigits2 seconds <= 53 ->
  Timedelta.of_floats (whole_float days) (whole_float seconds)
  = Timedelta.of_microseconds
      (days * Timedelta.us_per_day + seconds * Timedelta.us_per_second).
Proof.
  intros Hd Dd Hs Ds. unfold Timedelta.of_floats.
  rewrite accum_whole by assumption. unfold bind at 1. cbn [fst snd].
  rewrite accum_whole by assumption. unfold bind at 1. cbn [fst snd].
  unfold Timedelta.round_leftover. cbn [Float.is_zero Float.zero]. unfold bind.
  f_equal. lia.
Qed.

(** [float] of an optional whole number written in decimal. *)
Lemma of_string_whole (c : option Z) :
  whole_ok c = true -> Zdigits2 (whole_value c) <= 53 ->
  Float.of_string_or_0 (whole_text c) = Ok (whole_float (whole_value c)).
Proof.
  destruct c as [n|]; cbn [whole_ok whole_value whole_text option_map];
    [|reflexivity].
  intros Hn Hd. apply Z.leb_le in Hn. unfold whole_float.
  destruct (Z.eqb_spec n 0) as [-> | N]; [reflexivity|].
  apply of_string_decimal; lia.
Qed.

Lemma whole_text_number (c : option Z) :
  whole_ok c = true -> optional_number (whole_text c) = true.
Proof.
  destruct c as [n|]; cbn [whole_ok whole_text option_map optional_number];
    [|reflexivity].
  intros Hn. apply Z.leb_le in Hn.
  apply digits_nonempty_number. now apply decimal_spec.
Qed.

(** ** Whole numbers in a duration text *)

Lemma of_microseconds_overflow (t : Z) :
  999999999 * 86400 + 86399 < t ->
  Timedelta.of_microseconds (t * Timedelta.us_per_second) = Raise OverflowError.
Proof.
  intros Ht. unfold Timedelta.of_microseconds, Timedelta.us_per_second.
  rewrite Z.div_mul by lia.
  assert (H : 1000000000 <= t / 86400) by (apply Z.div_le_lower_bound; lia).
  assert (L : (t / 86400 <=? 999999999) = false) by (apply Z.leb_gt; lia).
  rewrite L, andb_false_r. reflexivity.
Qed.

(** Whole numbers are read and added up without rounding. *)
Lemma parse_whole_numbers (sg : string) (y mo d : option Z) (t : bool)
        (h mi s : option Z) (total : Z) :
  is_sign sg = true -> sg <> "-" ->
  whole_ok y = true -> whole_ok mo = true -> whole_ok d = true ->
  whole_ok h = true -> whole_ok mi = true -> whole_ok s = true ->
  minutes_as_months (whole_text mo) (whole_text d) t (whole_text h) (whole_text mi) = false ->
  365 * whole_value y + 30 * whole_value mo + whole_value d < 2 ^ 53 ->
  3600 * whole_value h + 60 * whole_value mi + whole_value s < 2 ^ 53 ->
  total = (365 * whole_value y + 30 * whole_value mo + whole_value d) * 86400
          + (3600 * whole_value h + 60 * whole_value mi + whole_value s) ->
  TimeUtil.parse_duration
    (TimeUtil.Str (duration_string sg (whole_text y) (whole_text mo) (whole_text d) t
                     (whole_text h) (whole_text mi) (whole_text s)))
  = if total <=? 999999999 * 86400 + 86399
    then Ok (Timedelta.mk (total / 86400) (total mod 86400) 0)
    else Raise OverflowError.
Proof.
  intros Hsg Hm Hy Hmo Hd Hh Hmi Hs Ha BD BS ->.
  assert (Vy : 0 <= whole_value y) by (destruct y; cbn in *; lia).
  assert (Vmo : 0 <= whole_value mo) by (destruct mo; cbn in *; lia).
  assert (Vd : 0 <= whole_value d) by (destruct d; cbn in *; lia).
  assert (Vh : 0 <= whole_value h) by (destruct h; cbn in *; lia).
  assert (Vmi : 0 <= whole_value mi) by (destruct mi; cbn in *; lia).
  assert (Vs : 0 <= whole_value s) by (destruct s; cbn in *; lia).
  assert (S53 : forall x, 0 <= x -> x < 2 ^ 53 -> Zdigits2 x <= 53)
    by (intros x H0 H1; apply small_digits; lia).
  destruct (parse_duration_string sg _ _ _ t _ _ _ Hsg Hm
              (whole_text_number y Hy) (whole_text_number mo Hmo) (whole_text_number d Hd)
              (whole_text_number h Hh) (whole_text_number mi Hmi) (whole_text_number s Hs)
              Ha)
    as (fy & fmo & fd & fh & fmi & fs & Ey & Emo & Ed & Eh & Emi & Es & E).
  rewrite of_string_whole in Ey, Emo, Ed, Eh, Emi, Es by (assumption || (apply S53; lia)).
  injection Ey as <-. injection Emo as <-. injection Ed as <-.
  injection Eh as <-. injection Emi as <-. injection Es as <-.
  rewrite E.
  rewrite !mul_whole by (try apply S53; cbn; lia).
  rewrite !add_whole by (try apply S53; lia).
  rewrite of_floats_whole by (try apply S53; lia).
  set (D := whole_value d + whole_value mo * 30 + whole_value y * 365).
  set (S := whole_value s + whole_value mi * 60 + whole_value h * 3600).
  replace (D * Timedelta.us_per_day + S * Timedelta.us_per_second)
    with ((D * 86400 + S) * Timedelta.us_per_second)
    by (unfold Timedelta.us_per_day, Timedelta.us_per_second; lia).
  replace ((365 * whole_value y + 30 * whole_value mo + whole_value d) * 86400
           + (3600 * whole_value h + 60 * whole_value mi + whole_value s))
    with (D * 86400 + S) by (subst D S; lia).
  destruct (Z.leb_spec (D * 86400 + S) (999999999 * 86400 + 86399)) as [L | L].
  - apply of_microseconds_seconds. subst D S. lia.
  - now apply of_microseconds_overflow.
Qed.

(** X4.  For whole numbers, a duration text without a minus sign is parsed
    without any rounding: with [365 y + 30 mo + d] days and
    [3600 h + 60 mi + s] seconds, both below [2 ^ 53], the result is that
    many days and seconds, carried over into days of 86400 seconds, and
    [OverflowError] when this is more than 999999999 days and 86399
    seconds. *)
Theorem parse_duration_whole (sg : string) (y mo d : option Z) (t : bool)
        (h mi s : option Z) (total : Z) :
  is_sign sg = true -> sg <> "-" ->
  whole_ok y = true -> whole_ok mo = true -> whole_ok d = true ->
  whole_ok h = true -> whole_ok mi = true -> whole_ok s = true ->
  minutes_as_months (whole_text mo) (whole_text d) t (whole_text h) (whole_text mi) = false ->
  365 * whole_value y + 30 * whole_value mo + whole_value d < 2 ^ 53 ->
  3600 * whole_value h + 60 * whole_value mi + whole_value s < 2 ^ 53 ->
  total = (365 * whole_value y + 30 * whole_value mo + whole_value d) * 86400
          + (3600 * whole_value h + 60 * whole_value mi + whole_value s) ->
  TimeUtil.parse_duration
    (TimeUtil.Str (duration_string sg (whole_text y) (whole_text mo) (whole_text d) t
                     (whole_text h) (whole_text mi) (whole_text s)))
  = if total <=? 999999999 * 86400 + 86399
    then Ok (Timedelta.mk (total / 86400) (total mod 86400) 0)
    else Raise OverflowError.
Proof.
  intros Hsg Hm Hy Hmo Hd Hh Hmi Hs Ha BD BS E.
  now apply parse_whole_numbers.
Qed.

Lemma parse_duration_whole_witness :
  TimeUtil.parse_duration
    (TimeUtil.Str (duration_string "+" (whole_text (Some 1)) (whole_text (Some 2))
                     (whole_text None) false (whole_text (Some 30)) (whole_text None)
                     (whole_text (Some 90))))
  = if 36828090 <=? 999999999 * 86400 + 86399
    then Ok (Timedelta.mk (36828090 / 86400) (36828090 mod 86400) 0)
    else Raise OverflowError.
Proof.
  apply (parse_duration_whole "+" (Some 1) (Some 2) None false (Some 30) None (Some 90)
           36828090);
    first [reflexivity | discriminate].
Defined.

(** ** From the encoder back through the parser *)

Lemma nonzero_value (n : Z) : whole_value (nonzero n) = n.
Proof. unfold nonzero. destruct (Z.eqb_spec n 0) as [-> | H]; reflexivity. Qed.

Lemma nonzero_ok (n : Z) : 0 <= n -> whole_ok (nonzero n) = true.
Proof.
  intros H. unfold nonzero. destruct (n =? 0); [reflexivity|]. now apply Z.leb_le.
Qed.

Lemma nonzero_designator (x : string) (n : Z) :
  number_designator x (whole_text (nonzero n))
  = if n =? 0 then "" else Text.decimal n ++ x.
Proof. unfold nonzero. destruct (n =? 0); reflexivity. Qed.

Lemma minutes_after_separator (mo d h mi : option string) :
  minutes_as_months mo d true h mi = false.
Proof. unfold minutes_as_months. destruct mo, d, h, mi; reflexivity. Qed.

(** The text of an elapsed time with a sub-day remainder and no
    microseconds, as a duration text of whole numbers. *)
Lemma duration_text_whole (v : Timedelta.timedelta) :
  has_time v = true -> Timedelta.microseconds v = 0 ->
  duration_text v
  = duration_string "" (whole_text None) (whole_text None)
      (whole_text (nonzero (Timedelta.days v))) true
      (whole_text (nonzero (hours_of v))) (whole_text (nonzero (minutes_of v)))
      (whole_text (nonzero (seconds_of v))).
Proof.
  intros Ht Hu.
  unfold duration_text, duration_string, days_text, time_text, hours_text, minutes_text,
    seconds_text.
  rewrite Ht, Hu, !nonzero_designator. reflexivity.
Qed.

(** The text of an elapsed time that is not negative and has no
    microseconds is parsed back to it. *)
Lemma parse_whole_text (v : Timedelta.timedelta) :
  Timedelta.wf v = true -> 0 <= Timedelta.days v -> Timedelta.microseconds v = 0 ->
  TimeUtil.parse_duration (TimeUtil.Str (duration_text v)) = Ok v.
Proof.
  intros Hw Hd Hu. destruct (wf_fields v Hw) as (D & S & _).
  destruct (has_time v) eqn:Ht.
  - rewrite (duration_text_whole v Ht Hu).
    assert (Bh : 0 <= hours_of v <= 23).
    { unfold hours_of. split; [apply Z.div_pos; [apply Z.div_pos|]; lia|].
      apply Z.lt_succ_r. apply Z.div_lt_upper_bound; [lia|].
      apply Z.div_lt_upper_bound; lia. }
    assert (Bm : 0 <= minutes_of v < 60) by (unfold minutes_of; apply Z.mod_pos_bound; lia).
    assert (Bs : 0 <= seconds_of v < 60) by (unfold seconds_of; apply Z.mod_pos_bound; lia).
    assert (Es : 3600 * hours_of v + 60 * minutes_of v + seconds_of v = Timedelta.seconds v).
    { unfold hours_of, minutes_of, seconds_of.
      pose proof (Z.div_mod (Timedelta.seconds v) 60 ltac:(lia)).
      pose proof (Z.div_mod (Timedelta.seconds v / 60) 60 ltac:(lia)). lia. }
    assert (N53 : forall x, 0 <= x <= 999999999 * 86400 -> x < 2 ^ 53)
      by (intros x Hx; change (2 ^ 53) with 9007199254740992; lia).
    rewrite (parse_whole_numbers "" None None (nonzero (Timedelta.days v)) true
               (nonzero (hours_of v)) (nonzero (minutes_of v)) (nonzero (seconds_of v))
               (Timedelta.days v * 86400 + Timedelta.seconds v)
               eq_refl ltac:(discriminate) eq_refl eq_refl (nonzero_ok _ Hd)
               (nonzero_ok _ (proj1 Bh)) (nonzero_ok _ (proj1 Bm)) (nonzero_ok _ (proj1 Bs))
               (minutes_after_separator _ _ _ _));
      rewrite ?nonzero_value; cbn [whole_value]; [|apply N53; lia|apply N53; lia|lia].
    assert (L : (Timedelta.days v * 86400 + Timedelta.seconds v
                 <=? 999999999 * 86400 + 86399) = true) by (apply Z.leb_le; lia).
    rewrite L.
    assert (E3 : (Timedelta.days v * 86400 + Timedelta.seconds v) / 86400 = Timedelta.days v)
      by (symmetry; apply Z.div_unique with (Timedelta.seconds v); lia).
    assert (E4 : (Timedelta.days v * 86400 + Timedelta.seconds v) mod 86400
                 = Timedelta.seconds v)
      by (symmetry; apply Z.mod_unique with (Timedelta.days v); lia).
    rewrite E3, E4. destruct v as [d s u]. cbn in Hu. now subst u.
  - unfold has_time in Ht. apply orb_false_iff in Ht. destruct Ht as [Hs _].
    apply negb_false_iff, Z.eqb_eq in Hs.
    unfold duration_text, days_text, time_text, has_time. rewrite Hs, Hu.
    cbn [Z.eqb negb orb].
    destruct v as [d s u].
    cbn [Timedelta.days Timedelta.seconds Timedelta.microseconds] in *. subst s u.
    destruct (Z.eqb_spec d 0) as [-> | N].
    + vm_compute. reflexivity.
    + rewrite append_nil_r. apply parse_whole_days. lia.
Qed.

(** ** The errors of the duration parser *)

(** X6.  On a string, [parse_duration] raises [ValueError] exactly when the
    pattern does not match or the string begins with a minus sign; the
    only other error is [OverflowError], for a value beyond the range of
    [timedelta]. *)
Theorem parse_duration_errors (s : string) :
  (TimeUtil.parse_duration (TimeUtil.Str s) = Raise ValueError <->
   Re.rmatch TimeUtil.RE_ISO_8601_DURATION s = None \/ exists t, s = String "-" t) /\
  (forall e, TimeUtil.parse_duration (TimeUtil.Str s) = Raise e ->
             e = ValueError \/ e = OverflowError).
Proof.
  assert (C : forall m, Re.rmatch TimeUtil.RE_ISO_8601_DURATION s = Some m ->
                        (exists t, s = String "-" t) \/
                        (exists v, TimeUtil.parse_duration (TimeUtil.Str s) = Ok v) \/
                        TimeUtil.parse_duration (TimeUtil.Str s) = Raise OverflowError).
  { intros m Hm.
    destruct (duration_sign s m Hm) as [[Hn _] | (c & t & Hc & ->)].
    - right. destruct (parse_duration_outcome s m Hm) as [(v & E & _) | E]; eauto.
      rewrite Hn. discriminate.
    - destruct (Ascii.eqb_spec c "-") as [-> | N]; [left; eauto|].
      right. destruct (parse_duration_outcome _ m Hm) as [(v & E & _) | E]; eauto.
      rewrite Hc. intros H. injection H as H. contradiction. }
  split; [split|].
  - intros H. destruct (Re.rmatch TimeUtil.RE_ISO_8601_DURATION s) as [m|] eqn:Hm;
      [|left; reflexivity].
    destruct (C m eq_refl) as [Hs | [[v E] | E]]; [right; exact Hs | |];
      rewrite E in H; discriminate H.
  - intros [H | [t ->]]; [|apply minus_sign_refused].
    unfold TimeUtil.parse_duration. now rewrite H.
  - intros e H. destruct (Re.rmatch TimeUtil.RE_ISO_8601_DURATION s) as [m|] eqn:Hm.
    + destruct (C m eq_refl) as [[t ->] | [[v E] | E]].
      * rewrite minus_sign_refused in H. injection H as <-. now left.
      * rewrite E in H. discriminate H.
      * rewrite E in H. injection H as <-. now right.
    + unfold TimeUtil.parse_duration in H. rewrite Hm in H. injection H as <-. now left.
Qed.

Lemma parse_duration_errors_witness :
  OverflowError = ValueError \/ OverflowError = OverflowError.
Proof.
  apply (proj2 (parse_duration_errors "P1000000000D") OverflowError).
  vm_compute. reflexivity.
Defined.

(** ** Every date-time text *)

Lemma long_pattern : TimeUtil.RE_ISO_8601_DATETIME_LONG = datetime_pattern true.
Proof. reflexivity. Qed.

Lemma short_pattern : TimeUtil.RE_ISO_8601_DATETIME_SHORT = datetime_pattern false.
Proof. reflexivity. Qed.

Lemma prefix_drop (n : nat) : forall s, Text.prefix n s ++ drop n s = s.
Proof.
  induction n as [|n IH]; intros [|c s]; cbn; try reflexivity. now rewrite IH.
Qed.

Lemma all_drop (p : ascii -> bool) (n : nat) :
  forall s, Text.all p s = true -> Text.all p (drop n s) = true.
Proof.
  induction n as [|n IH]; intros [|c s] H; cbn; try exact H.
  cbn in H. apply andb_true_iff in H. now apply IH.
Qed.

Lemma consumed_drop (n : nat) (f rest : string) :
  Re.consumed (f ++ rest) (drop n f ++ rest) = Text.prefix n f.
Proof.
  rewrite <- (prefix_drop n f) at 1. rewrite append_assoc. apply consumed_append.
Qed.

Lemma digits_of_inv (k : nat) (w : string) :
  digits_of k w = true -> String.length w = k /\ Text.all Text.is_digit w = true.
Proof.
  unfold digits_of. intros H. apply andb_true_iff in H. destruct H as [H1 H2].
  apply Nat.eqb_eq in H1. split; assumption.
Qed.

Section DatetimeSteps.

Variable n : nat.
Context {R : Type}.

(** [p{k,k}] takes exactly [k] characters of the class. *)
Lemma rep_exact (p : ascii -> bool) (w : string) :
  forall k rest g (K : string -> Re.captures -> option R),
    String.length w = k -> Text.all p w = true ->
    Re.rep p k (Some k) (w ++ rest) g K = K rest g.
Proof.
  induction w as [|c w IH]; intros k rest g K Hl Ha.
  - cbn in Hl. subst k. cbn [append]. destruct rest; reflexivity.
  - cbn in Hl. subst k. cbn in Ha. apply andb_true_iff in Ha. destruct Ha as [Hc Ha].
    cbn [append Re.rep Nat.pred option_map]. rewrite Hc.
    rewrite (IH (String.length w) rest g K eq_refl Ha).
    now destruct (K rest g).
Qed.

Lemma grp_digits (i k : nat) (w rest : string) (g : Re.captures)
      (K : string -> Re.captures -> option R) :
  digits_of k w = true ->
  Re.run n (Re.Grp i (Re.d k k)) (w ++ rest) g K = K rest ((i, w) :: g).
Proof.
  intros H. destruct (digits_of_inv k w H) as [Hl Ha].
  unfold Re.d. cbn [Re.run]. rewrite rep_exact by assumption.
  now rewrite consumed_append.
Qed.

Lemma after_step (long : bool) (c : ascii) (r : Re.regex) (s : string) (g : Re.captures)
      (K : string -> Re.captures -> option R) :
  Re.run n (after long c r) (mark long c ++ s) g K = Re.run n r s g K.
Proof.
  destruct long; cbn [after mark append Re.run]; [|reflexivity].
  now rewrite Ascii.eqb_refl.
Qed.

(** A repetition that wants a character where there is none of the
    class. *)
Lemma rep_none (p : ascii -> bool) (lo : nat) (hi : option nat) (s : string)
      (g : Re.captures) (K : string -> Re.captures -> option R) :
  starts_outside p s = true -> Re.rep p (S lo) hi s g K = None.
Proof.
  intros H. destruct s as [|c s]; cbn [Re.rep].
  - now destruct hi as [[|h]|].
  - cbn in H. apply negb_true_iff in H. rewrite H. now destruct hi as [[|h]|].
Qed.

(** The greedy path of [p*]. *)
Lemma rep_greedy (p : ascii -> bool) (ds : string) :
  forall t g (K : string -> Re.captures -> option R) r,
    Text.all p ds = true -> starts_outside p t = true -> K t g = Some r ->
    Re.rep p 0 None (ds ++ t) g K = Some r.
Proof.
  induction ds as [|c ds IH]; intros t g K r Ha Ht HK.
  - cbn [append]. destruct t as [|c t]; cbn [Re.rep]; [exact HK|].
    cbn in Ht. apply negb_true_iff in Ht. now rewrite Ht.
  - cbn in Ha. apply andb_true_iff in Ha. destruct Ha as [Hc Ha].
    cbn [append Re.rep Nat.pred option_map]. rewrite Hc.
    now rewrite (IH t g K r Ha Ht HK).
Qed.

(** The greedy path of [p{0,h}]: up to [h] characters. *)
Lemma rep_upto (p : ascii -> bool) (f : string) :
  forall h t g (K : string -> Re.captures -> option R) r,
    Text.all p f = true -> starts_outside p t = true ->
    K (drop h f ++ t) g = Some r ->
    Re.rep p 0 (Some h) (f ++ t) g K = Some r.
Proof.
  induction f as [|c f IH]; intros h t g K r Ha Ht HK.
  - assert (E : drop h "" = "") by now destruct h.
    rewrite E in HK. cbn [append] in *.
    destruct h as [|h]; [destruct t; exact HK|].
    destruct t as [|c t]; cbn [Re.rep]; [exact HK|].
    cbn in Ht. apply negb_true_iff in Ht. now rewrite Ht.
  - cbn in Ha. apply andb_true_iff in Ha. destruct Ha as [Hc Ha].
    destruct h as [|h]; [exact HK|].
    cbn [drop] in HK. cbn [append Re.rep Nat.pred option_map]. rewrite Hc.
    now rewrite (IH h t g K r Ha Ht HK).
Qed.

(** The fraction digits: the group takes up to six of them and the
    repetition behind it the others. *)
Lemma fraction_digits (f t : string) (g : Re.captures)
      (K : string -> Re.captures -> option R) (r : R) :
  Text.all Text.is_digit f = true -> starts_outside Text.is_digit t = true ->
  K t ((7%nat, Text.prefix 6 f) :: g) = Some r ->
  Re.run n (Re.Seq (Re.Grp 7 (Re.d 0 6)) Re.d_star) (f ++ t) g K = Some r.
Proof.
  intros Ha Ht HK. unfold Re.d, Re.d_star. cbn [Re.run].
  apply rep_upto; [exact Ha | exact Ht|].
  rewrite consumed_drop.
  apply rep_greedy; [now apply all_drop | exact Ht | exact HK].
Qed.

End DatetimeSteps.

Ltac crunch :=
  cbn [zone_pattern fraction_pattern second_pattern clock_pattern after mark
       zone_part zone_string second_part fraction_part zone_captures second_captures
       append app Re.run Re.rep Re.d Re.d_star Nat.pred option_map
       Ascii.eqb Bool.eqb Re.consumed String.length Nat.sub Text.prefix].

Ltac crunch_in H :=
  cbn [zone_pattern fraction_pattern second_pattern clock_pattern after mark
       zone_part zone_string second_part fraction_part zone_captures second_captures
       append app Re.run Re.rep Re.d Re.d_star Nat.pred option_map
       Ascii.eqb Bool.eqb Re.consumed String.length Nat.sub Text.prefix] in H.

Section DatetimeParts.

Variable n : nat.
Context {R : Type}.

(** The zone at the end of the subject. *)
Lemma zone_step (long : bool) (z : option zone_text) (g : Re.captures)
      (K : string -> Re.captures -> option R) (r : R) :
  zone_ok z = true ->
  K "" (zone_captures long z ++ g)%list = Some r ->
  Re.run n (zone_pattern long) (zone_part long z) g K = Some r.
Proof.
  intros Hz HK. destruct z as [[|sg hh mm]|].
  - crunch. crunch_in HK. now rewrite HK.
  - cbn [zone_ok] in Hz. apply andb_true_iff in Hz. destruct Hz as [Hz Hm].
    apply andb_true_iff in Hz. destruct Hz as [Hs Hh].
    destruct (two_digits_inv hh Hh) as (a & b & -> & Ha & Hb).
    destruct mm as [mm|].
    + destruct (two_digits_inv mm Hm) as (c & d & -> & Hc & Hd).
      destruct (sign_class_cases sg Hs) as [-> | ->]; destruct long;
        crunch; crunch_in HK;
        rewrite ?Hs, ?Ha, ?Hb; crunch; rewrite ?Hc, ?Hd; crunch; now rewrite HK.
    + destruct (sign_class_cases sg Hs) as [-> | ->]; destruct long;
        crunch; crunch_in HK;
        rewrite ?Hs, ?Ha, ?Hb; crunch; now rewrite HK.
  - crunch. exact HK.
Qed.

End DatetimeParts.

Lemma zone_start (long : bool) (z : option zone_text) :
  zone_ok z = true ->
  zone_part long z = "" \/
  exists c rest, zone_part long z = String c rest /\
                 (c = "Z" \/ c = "+" \/ c = "-")%char.
Proof.
  intros Hz. destruct z as [[|sg hh mm]|]; [right | right | left; reflexivity].
  - exists "Z"%char, "". auto.
  - cbn [zone_ok] in Hz. apply andb_true_iff in Hz. destruct Hz as [Hz _].
    apply andb_true_iff in Hz. destruct Hz as [Hs _].
    cbn [zone_part zone_string append]. do 2 eexists. split; [reflexivity|].
    destruct (sign_class_cases sg Hs); auto.
Qed.

Lemma zone_outside (p : ascii -> bool) (long : bool) (z : option zone_text) :
  zone_ok z = true -> p "Z"%char = false -> p "+"%char = false -> p "-"%char = false ->
  starts_outside p (zone_part long z) = true.
Proof.
  intros Hz HZ Hp Hm.
  destruct (zone_start long z Hz) as [-> | (c & rest & -> & [-> | [-> | ->]])];
    cbn [starts_outside]; [reflexivity | now rewrite HZ | now rewrite Hp | now rewrite Hm].
Qed.

Section DatetimeClock.

Variable n : nat.
Context {R : Type}.

Lemma run_Chr (c : ascii) (s : string) (g : Re.captures)
      (K : string -> Re.captures -> option R) :
  Re.run n (Re.Chr c) (String c s) g K = K s g.
Proof. cbn [Re.run]. now rewrite Ascii.eqb_refl. Qed.

Lemma run_Cls (p : ascii -> bool) (c : ascii) (s : string) (g : Re.captures)
      (K : string -> Re.captures -> option R) :
  p c = true -> Re.run n (Re.Cls p) (String c s) g K = K s g.
Proof. intros H. cbn [Re.run]. now rewrite H. Qed.

(** No seconds where the zone or the end of the subject is. *)
Lemma second_absent (long : bool) (z : option zone_text) (g : Re.captures)
      (K : string -> Re.captures -> option R) :
  zone_ok z = true ->
  Re.run n (after long ":" (Re.Seq (Re.Grp 6 (Re.d 2 2)) fraction_pattern))
    (zone_part long z) g K = None.
Proof.
  intros Hz. destruct long; cbn [after].
  - destruct (zone_start true z Hz) as [-> | (c & rest & -> & [-> | [-> | ->]])];
      reflexivity.
  - unfold Re.d. cbn [Re.run]. apply rep_none.
    now apply zone_outside.
Qed.

(** No fraction mark where the zone or the end of the subject is. *)
Lemma fraction_absent (long : bool) (z : option zone_text) (g : Re.captures)
      (K : string -> Re.captures -> option R) :
  zone_ok z = true ->
  Re.run n fraction_pattern (zone_part long z) g K = K (zone_part long z) g.
Proof.
  intros Hz. unfold fraction_pattern. rewrite run_Opt, run_Seq.
  destruct (zone_start long z Hz) as [-> | (c & rest & -> & [-> | [-> | ->]])];
    reflexivity.
Qed.

(** The seconds and the zone at the end of the subject. *)
Lemma second_step (long : bool) (sec : option (string * option (ascii * string)))
      (z : option zone_text) (g : Re.captures)
      (K : string -> Re.captures -> option R) (r : R) :
  second_ok sec = true -> zone_ok z = true ->
  K "" (zone_captures long z ++ second_captures sec ++ g)%list = Some r ->
  Re.run n (Re.Seq (second_pattern long) (zone_pattern long))
    (second_part long sec ++ zone_part long z) g K = Some r.
Proof.
  intros Hs Hz HK. unfold second_pattern. rewrite run_Seq, run_Opt.
  destruct sec as [[ss [[mk f]|]]|]; cbn [second_part second_captures app] in *.
  - apply andb_true_iff in Hs. destruct Hs as [Hss Hf].
    apply andb_true_iff in Hf. destruct Hf as [Hmk Hf].
    rewrite !append_assoc, after_step, run_Seq, grp_digits by exact Hss.
    unfold fraction_pattern at 1. rewrite run_Opt, run_Seq.
    cbn [fraction_part append]. rewrite run_Cls by exact Hmk.
    rewrite (fraction_digits n f (zone_part long z) _ _ r); [reflexivity | exact Hf | |].
    + now apply zone_outside.
    + now apply zone_step.
  - apply andb_true_iff in Hs. destruct Hs as [Hs _].
    rewrite !append_assoc, after_step, run_Seq, grp_digits by exact Hs.
    cbn [fraction_part append]. rewrite fraction_absent by exact Hz.
    now rewrite (zone_step n long z _ K r Hz HK).
  - cbn [append]. rewrite second_absent by exact Hz. now apply zone_step.
Qed.

(** The time of day, from [T] to the end of the subject. *)
Lemma clock_step (long : bool) (c : option clock_text) (g : Re.captures)
      (K : string -> Re.captures -> option R) (r : R) :
  clock_ok c = true ->
  K "" (clock_captures long c ++ g)%list = Some r ->
  Re.run n (clock_pattern long) (clock_part long c) g K = Some r.
Proof.
  intros Hc HK. unfold clock_pattern. rewrite run_Opt.
  destruct c as [[hh mm sec z]|]; cbn [clock_part clock_captures c_hour c_minute
                                         c_second c_zone clock_ok app] in *.
  - apply andb_true_iff in Hc. destruct Hc as [Hc Hz].
    apply andb_true_iff in Hc. destruct Hc as [Hc Hs].
    apply andb_true_iff in Hc. destruct Hc as [Hh Hm].
    rewrite run_Seq. cbn [append]. rewrite run_Chr.
    rewrite run_Seq, grp_digits by exact Hh.
    rewrite after_step, run_Seq, grp_digits by exact Hm.
    rewrite (second_step long sec z _ K r Hs Hz); [reflexivity|].
    now rewrite <- !app_assoc in HK.
  - exact HK.
Qed.

End DatetimeClock.

Lemma run_Bos {R : Type} (s : string) (g : Re.captures)
      (K : string -> Re.captures -> option R) :
  Re.run (String.length s) Re.Bos s g K = K s g.
Proof. cbn [Re.run]. now rewrite Nat.eqb_refl. Qed.

(** Each of the two patterns matches the texts of its form. *)
Lemma datetime_pattern_match (long : bool) (Y M D : string) (c : option clock_text) :
  digits_of 4 Y = true -> digits_of 2 M = true -> digits_of 2 D = true ->
  clock_ok c = true ->
  Re.rmatch (datetime_pattern long) (datetime_text long Y M D c)
  = Some (clock_captures long c ++ [(3%nat, D); (2%nat, M); (1%nat, Y)])%list.
Proof.
  intros HY HM HD Hc. unfold Re.rmatch, datetime_pattern, datetime_text.
  rewrite run_Seq, run_Bos.
  rewrite run_Seq, grp_digits by exact HY.
  rewrite after_step, run_Seq, grp_digits by exact HM.
  rewrite after_step, run_Seq, grp_digits by exact HD.
  rewrite run_Seq. apply clock_step; [exact Hc|]. reflexivity.
Qed.

(** The long pattern does not match a text in the short form. *)
Lemma long_pattern_short_text (Y M D : string) (c : option clock_text) :
  digits_of 4 Y = true -> digits_of 2 M = true ->
  Re.rmatch (datetime_pattern true) (datetime_text false Y M D c) = None.
Proof.
  intros HY HM. unfold Re.rmatch, datetime_pattern, datetime_text.
  rewrite run_Seq, run_Bos.
  rewrite run_Seq, grp_digits by exact HY.
  destruct (two_digits_inv M HM) as (a & b & -> & Ha & _).
  cbn [mark append after Re.run].
  now rewrite (digit_differs "-" a eq_refl Ha).
Qed.

Lemma match_datetime_text (long : bool) (Y M D : string) (c : option clock_text) :
  digits_of 4 Y = true -> digits_of 2 M = true -> digits_of 2 D = true ->
  clock_ok c = true ->
  TimeUtil.match_datetime (datetime_text long Y M D c)
  = Some (clock_captures long c ++ [(3%nat, D); (2%nat, M); (1%nat, Y)])%list.
Proof.
  intros HY HM HD Hc. unfold TimeUtil.match_datetime.
  rewrite long_pattern, short_pattern. destruct long.
  - now rewrite datetime_pattern_match.
  - rewrite long_pattern_short_text by assumption. now apply datetime_pattern_match.
Qed.

(** ** The groups of a date-time text *)

Lemma group_zone_other (long : bool) (z : option zone_text) (g : Re.captures) (i : nat) :
  i <> 8%nat -> i <> 9%nat -> i <> 10%nat ->
  Re.group (zone_captures long z ++ g)%list i = Re.group g i.
Proof.
  intros H8 H9 H10.
  apply not_eq_sym, Nat.eqb_neq in H8. apply not_eq_sym, Nat.eqb_neq in H9.
  apply not_eq_sym, Nat.eqb_neq in H10.
  destruct z as [[|sg hh [mm|]]|]; cbn [zone_captures app Re.group];
    now rewrite ?H8, ?H9, ?H10.
Qed.

Lemma group_second_other (sec : option (string * option (ascii * string)))
      (g : Re.captures) (i : nat) :
  i <> 6%nat -> i <> 7%nat ->
  Re.group (second_captures sec ++ g)%list i = Re.group g i.
Proof.
  intros H6 H7.
  apply not_eq_sym, Nat.eqb_neq in H6. apply not_eq_sym, Nat.eqb_neq in H7.
  destruct sec as [[ss [[mk f]|]]|]; cbn [second_captures app Re.group];
    now rewrite ?H6, ?H7.
Qed.

Lemma group_clock_date (long : bool) (c : option clock_text) (g : Re.captures) (i : nat) :
  (i <= 3)%nat -> Re.group (clock_captures long c ++ g)%list i = Re.group g i.
Proof.
  intros Hi. destruct c as [[hh mm sec z]|]; [|reflexivity].
  cbn [clock_captures c_hour c_minute c_second c_zone]. rewrite <- !app_assoc.
  rewrite group_zone_other, group_second_other by lia.
  cbn [app Re.group].
  assert (E5 : Nat.eqb 5 i = false) by (apply Nat.eqb_neq; lia).
  assert (E4 : Nat.eqb 4 i = false) by (apply Nat.eqb_neq; lia).
  now rewrite E5, E4.
Qed.

(** ** Numbers in a date-time text *)

Lemma int_of_digits (w : string) :
  w <> "" -> Text.all_digits w = true -> Text.int_of w = Ok (Text.digits_val 0 w).
Proof.
  intros Hn Ha. destruct w as [|a w]; [contradiction|].
  assert (Hd : Text.is_digit a = true).
  { unfold Text.all_digits in Ha. cbn in Ha. apply andb_true_iff in Ha. apply Ha. }
  assert (Hs : a <> "+"%char /\ a <> "-"%char) by (split; intros ->; discriminate Hd).
  destruct Hs as [Hp Hm]. unfold Text.int_of.
  destruct a as [[] [] [] [] [] [] [] []]; try (now rewrite Ha);
    try (exfalso; apply Hp; reflexivity); try (exfalso; apply Hm; reflexivity).
Qed.

Lemma digits_of_text (k : nat) (w : string) :
  digits_of (S k) w = true -> w <> "" /\ Text.all_digits w = true.
Proof.
  intros H. destruct (digits_of_inv _ _ H) as [Hl Ha]. split; [|exact Ha].
  intros ->. discriminate Hl.
Qed.

Lemma int_or_0_digits (k : nat) (w : string) :
  digits_of (S k) w = true -> Text.int_or_0 (Some w) = Ok (Text.digits_val 0 w).
Proof.
  intros H. destruct (digits_of_text k w H) as [Hn Ha].
  unfold Text.int_or_0. destruct w as [|a w]; [contradiction|].
  now apply int_of_digits.
Qed.

Lemma digits_val_acc (s : string) :
  forall acc, Text.digits_val acc s
              = acc * 10 ^ Z.of_nat (String.length s) + Text.digits_val 0 s.
Proof.
  induction s as [|c s IH]; intros acc; cbn [Text.digits_val String.length].
  - cbn. lia.
  - rewrite IH, (IH (10 * 0 + Text.digit_val c)).
    rewrite Nat2Z.inj_succ, Z.pow_succ_r by lia. ring.
Qed.

Lemma digits_val_bound (s : string) :
  Text.all Text.is_digit s = true ->
  0 <= Text.digits_val 0 s < 10 ^ Z.of_nat (String.length s).
Proof.
  induction s as [|c s IH]; intros Ha; cbn [Text.digits_val String.length].
  - cbn. lia.
  - cbn in Ha. apply andb_true_iff in Ha. destruct Ha as [Hc Ha].
    pose proof (digit_val_range c Hc). specialize (IH Ha).
    rewrite digits_val_acc, Nat2Z.inj_succ, Z.pow_succ_r by lia. nia.
Qed.

Lemma length_zeros (k : nat) : String.length (zeros k) = k.
Proof. induction k as [|k IH]; cbn; [reflexivity | now rewrite IH]. Qed.

Lemma digits_val_zeros (k : nat) : Text.digits_val 0 (zeros k) = 0.
Proof. induction k as [|k IH]; cbn; [reflexivity | exact IH]. Qed.

Lemma all_zeros (k : nat) : Text.all Text.is_digit (zeros k) = true.
Proof. induction k as [|k IH]; cbn; [reflexivity | exact IH]. Qed.

Lemma prefix_zeros (k : nat) :
  forall a, Text.prefix k (a ++ zeros (S k)) = Text.prefix k (a ++ zeros k).
Proof.
  induction k as [|k IH]; intros a; [now destruct a|].
  destruct a as [|c a].
  - cbn [append zeros Text.prefix]. f_equal. apply (IH "").
  - cbn [append Text.prefix]. f_equal.
    change (zeros (S (S k))) with ("0" ++ zeros (S k)).
    change (zeros (S k)) with ("0" ++ zeros k) at 2.
    rewrite <- !append_assoc. apply IH.
Qed.

Lemma length_prefix_zeros (k : nat) :
  forall a, String.length (Text.prefix k (a ++ zeros k)) = k.
Proof.
  induction k as [|k IH]; intros a; [now destruct a|].
  destruct a as [|c a].
  - cbn [append zeros Text.prefix String.length]. f_equal. apply (IH "").
  - cbn [append Text.prefix String.length]. f_equal.
    rewrite prefix_zeros. apply IH.
Qed.

Lemma all_prefix (p : ascii -> bool) (k : nat) :
  forall s, Text.all p s = true -> Text.all p (Text.prefix k s) = true.
Proof.
  induction k as [|k IH]; intros [|c s] H; cbn; try reflexivity.
  cbn in H. apply andb_true_iff in H. destruct H as [Hc H].
  now rewrite Hc, IH.
Qed.

(** Padding a fraction with zeros to [k] digits and cutting it there gives
    the fraction in units of [10 ^ -k], rounded down. *)
Lemma padded_value (f : string) :
  forall k, Text.all Text.is_digit f = true ->
    Text.digits_val 0 (Text.prefix k (f ++ zeros k))
    = Text.digits_val 0 f * 10 ^ Z.of_nat k / 10 ^ Z.of_nat (String.length f).
Proof.
  induction f as [|c f IH]; intros k Ha.
  - cbn [append String.length Text.digits_val].
    replace (Text.prefix k (zeros k)) with (zeros k).
    + now rewrite digits_val_zeros.
    + clear. induction k as [|k IH]; cbn; [reflexivity | now rewrite <- IH].
  - pose proof (digits_val_bound _ Ha) as B.
    cbn in Ha. apply andb_true_iff in Ha. destruct Ha as [Hc Ha].
    pose proof (digits_val_bound _ Ha) as B'.
    pose proof (digit_val_range c Hc) as Rc.
    assert (P : 0 < 10 ^ Z.of_nat (String.length f)) by (apply Z.pow_pos_nonneg; lia).
    destruct k as [|k].
    + cbn [Text.prefix Text.digits_val Z.of_nat]. rewrite Z.pow_0_r, Z.mul_1_r.
      symmetry. apply Z.div_small. exact B.
    + cbn [append Text.prefix]. rewrite prefix_zeros.
      cbn [Text.digits_val String.length].
      rewrite digits_val_acc, length_prefix_zeros, (IH k Ha).
      rewrite (digits_val_acc f (10 * 0 + Text.digit_val c)).
      rewrite !Nat2Z.inj_succ, !Z.pow_succ_r by lia.
      replace ((10 * 0 + Text.digit_val c) * 10 ^ Z.of_nat (String.length f)
               + Text.digits_val 0 f)
        with (Text.digit_val c * 10 ^ Z.of_nat (String.length f) + Text.digits_val 0 f)
        by ring.
      replace ((Text.digit_val c * 10 ^ Z.of_nat (String.length f) + Text.digits_val 0 f)
               * (10 * 10 ^ Z.of_nat k))
        with (10 * ((Text.digit_val c * 10 ^ Z.of_nat k) * 10 ^ Z.of_nat (String.length f)
                    + Text.digits_val 0 f * 10 ^ Z.of_nat k)) by ring.
      rewrite Z.div_mul_cancel_l by lia.
      rewrite Z.div_add_l by lia. ring.
Qed.

Lemma prefix_prefix (k : nat) :
  forall f t, Text.prefix k (Text.prefix k f ++ t) = Text.prefix k (f ++ t).
Proof.
  induction k as [|k IH]; intros f t; [now destruct f; destruct t|].
  destruct f as [|c f]; [reflexivity|].
  cbn [Text.prefix append]. f_equal. apply IH.
Qed.

(** [int(((usec or '') + '000000')[:6])] for the digits that group 7 takes
    from a fraction. *)
Lemma microseconds_of_group (f : string) :
  Text.all Text.is_digit f = true ->
  Text.int_of (Text.prefix 6 (Text.or_else (Some (Text.prefix 6 f)) "" ++ "000000"))
  = Ok (fraction_microseconds f).
Proof.
  intros Ha.
  assert (E : Text.or_else (Some (Text.prefix 6 f)) "" = Text.prefix 6 f)
    by (destruct (Text.prefix 6 f); reflexivity).
  rewrite E, prefix_prefix.
  change "000000" with (zeros 6).
  rewrite int_of_digits.
  - f_equal. unfold fraction_microseconds. now rewrite padded_value.
  - intros H. pose proof (length_prefix_zeros 6 f) as L. rewrite H in L. discriminate L.
  - apply all_prefix. unfold Text.all_digits. rewrite all_append, Ha. apply all_zeros.
Qed.

(** ** From the groups to the timestamp *)

Lemma parse_zoned_groups (s : string) (m : Re.captures) (tz_local : option TimeZone.t) :
  TimeUtil.match_datetime s = Some m ->
  TimeUtil.parse_datetime_zoned (TimeUtil.Str s) tz_local =
    (tz_obj <- TimeUtil.zone_of (Re.group m 8) (Re.group m 9) (Re.group m 10) tz_local ;;
     y <- TimeUtil.int_group (Re.group m 1) ;;
     mo <- TimeUtil.int_group (Re.group m 2) ;;
     dd <- Text.int_or_0 (Re.group m 3) ;;
     h <- Text.int_or_0 (Re.group m 4) ;;
     mi <- Text.int_or_0 (Re.group m 5) ;;
     s <- Text.int_or_0 (Re.group m 6) ;;
     us <- Text.int_of (Text.prefix 6 (Text.or_else (Re.group m 7) "" ++ "000000")) ;;
     Datetime.new y mo dd h mi s us tz_obj).
Proof. intros H. unfold TimeUtil.parse_datetime_zoned. now rewrite H. Qed.

Lemma zone_of_value (sg : ascii) (hh tail : string) (mm : option string)
      (tz_local : option TimeZone.t) :
  zone_ok (Some (Offset sg hh mm)) = true ->
  TimeUtil.zone_of (Some (String sg tail)) (Some (String sg hh)) mm tz_local
  = zone_value (Some (Offset sg hh mm)) tz_local.
Proof.
  cbn [zone_ok]. intros H. apply andb_true_iff in H. destruct H as [H Hm].
  apply andb_true_iff in H. destruct H as [Hs Hh].
  destruct (two_digits_int hh Hh) as [Ih _].
  pose proof (two_digits_text hh Hh) as Th.
  assert (M : Text.int_of (Text.or_else mm "0")
              = Ok (Text.digits_val 0 (Text.or_else mm "0")) /\
              Text.or_else mm "0" <> "" /\ Text.all_digits (Text.or_else mm "0") = true).
  { destruct mm as [mm|].
    - destruct (two_digits_int mm Hm) as [Im _].
      destruct (two_digits_text mm Hm) as [Nm Dm].
      destruct mm; [contradiction|]. cbn [Text.or_else]. auto.
    - cbn [Text.or_else]. split; [reflexivity | split; [discriminate | reflexivity]]. }
  destruct M as (Im & Nm & Dm).
  unfold TimeUtil.zone_of, zone_value.
  assert (EZ : String.eqb (String sg tail) "Z" = false)
    by (destruct (sign_class_cases sg Hs) as [-> | ->]; reflexivity).
  rewrite EZ. unfold Text.int_or_0.
  rewrite (signed_int sg hh _ Hs Ih Th). unfold bind at 1.
  cbn [Text.prefix append].
  rewrite (signed_int sg _ _ Hs Im (conj Nm Dm)). unfold bind at 1.
  reflexivity.
Qed.

Lemma base_groups (Y M D : string) (long : bool) (c : option clock_text) :
  let m := (clock_captures long c ++ [(3%nat, D); (2%nat, M); (1%nat, Y)])%list in
  Re.group m 1 = Some Y /\ Re.group m 2 = Some M /\ Re.group m 3 = Some D.
Proof. cbv zeta. rewrite !group_clock_date by lia. repeat split. Qed.

(** The time of day and the zone, read from the groups of a text. *)
Lemma clock_groups (Y M D : string) (long : bool) (c : option clock_text)
      (tz_local : option TimeZone.t) :
  clock_ok c = true ->
  let m := (clock_captures long c ++ [(3%nat, D); (2%nat, M); (1%nat, Y)])%list in
  Text.int_or_0 (Re.group m 4) = Ok (text_hour c) /\
  Text.int_or_0 (Re.group m 5) = Ok (text_minute c) /\
  Text.int_or_0 (Re.group m 6) = Ok (text_second c) /\
  Text.int_of (Text.prefix 6 (Text.or_else (Re.group m 7) "" ++ "000000"))
  = Ok (text_microsecond c) /\
  TimeUtil.zone_of (Re.group m 8) (Re.group m 9) (Re.group m 10) tz_local
  = zone_value (text_zone c) tz_local.
Proof.
  intros Hc. cbv zeta.
  destruct c as [[hh mm sec z]|]; [|repeat split].
  cbn [clock_ok c_hour c_minute c_second c_zone] in Hc.
  apply andb_true_iff in Hc. destruct Hc as [Hc Hz].
  apply andb_true_iff in Hc. destruct Hc as [Hc Hs].
  apply andb_true_iff in Hc. destruct Hc as [Hh Hm].
  cbn [clock_captures c_hour c_minute c_second c_zone text_hour text_minute text_zone].
  rewrite <- !app_assoc.
  split; [|split; [|split; [|split]]].
  - rewrite group_zone_other, group_second_other by discriminate.
    cbn [app Re.group Nat.eqb]. now apply (int_or_0_digits 1).
  - rewrite group_zone_other, group_second_other by discriminate.
    cbn [app Re.group Nat.eqb]. now apply (int_or_0_digits 1).
  - rewrite group_zone_other by discriminate.
    destruct sec as [[ss [[mk f]|]]|]; cbn [second_captures app Re.group Nat.eqb text_second];
      try reflexivity;
      cbn [second_ok] in Hs; apply andb_true_iff in Hs; destruct Hs as [Hs _];
      now apply (int_or_0_digits 1).
  - rewrite group_zone_other by discriminate.
    destruct sec as [[ss [[mk f]|]]|];
      cbn [second_captures app Re.group Nat.eqb text_microsecond]; try reflexivity.
    cbn [second_ok] in Hs. apply andb_true_iff in Hs. destruct Hs as [_ Hs].
    apply andb_true_iff in Hs. destruct Hs as [_ Hf].
    now apply microseconds_of_group.
  - destruct z as [[|sg zh [zm|]]|].
    + reflexivity.
    + cbn [zone_captures app Re.group Nat.eqb]. now apply zone_of_value.
    + cbn [zone_captures app Re.group Nat.eqb].
      rewrite (group_second_other sec _ 10) by discriminate.
      cbn [app Re.group Nat.eqb]. now apply zone_of_value.
    + cbn [zone_captures app].
      rewrite !group_second_other by discriminate. reflexivity.
Qed.

(** The zone-aware or naive timestamp that [parse_datetime] builds from a
    text, before the conversion to UTC. *)
Lemma parse_zoned_text (long : bool) (Y M D : string) (c : option clock_text)
      (tz_local : option TimeZone.t) :
  digits_of 4 Y = true -> digits_of 2 M = true -> digits_of 2 D = true ->
  clock_ok c = true ->
  TimeUtil.parse_datetime_zoned (TimeUtil.Str (datetime_text long Y M D c)) tz_local
  = text_value Y M D c tz_local.
Proof.
  intros HY HM HD Hc.
  rewrite (parse_zoned_groups _ _ tz_local (match_datetime_text long Y M D c HY HM HD Hc)).
  destruct (base_groups Y M D long c) as (G1 & G2 & G3).
  destruct (clock_groups Y M D long c tz_local Hc) as (G4 & G5 & G6 & G7 & G8).
  rewrite G1, G2, G3, G4, G5, G6, G7, G8.
  unfold text_value, TimeUtil.int_group.
  destruct (zone_value (text_zone c) tz_local) as [zone|e]; [|reflexivity].
  unfold bind at 1 3.
  rewrite (int_of_digits Y), (int_of_digits M) by (apply (digits_of_text _ _ HY)
                                                   || apply (digits_of_text _ _ HM)).
  rewrite (int_or_0_digits 1 D HD). reflexivity.
Qed.

(** ** The date-time parser on date-time texts *)



Example parse_datetime_text_example :
  datetime_text true "2019" "05" "01"
    (Some (mk_clock "12" "30" (Some ("15", Some (","%char, "1234567")))
             (Some (Offset "+" "02" (Some "30")))))
  = "2019-05-01T12:30:15,1234567+02:30" /\
  datetime_text false "2019" "05" "01"
    (Some (mk_clock "12" "30" (Some ("15", Some (","%char, "1234567")))
             (Some (Offset "+" "02" (Some "30")))))
  = "20190501T123015,1234567+0230" /\
  TimeUtil.parse_datetime (TimeUtil.Str "2019-05-01T12:30:15,1234567+02:30") None
  = Ok (Datetime.mk 2019 5 1 10 0 15 123456 None).
Proof. repeat split. Qed.

(** X8.  A date text, in the long or the short form, is parsed by
    [parse_date] to the date made of its three numbers when that is a date
    of the calendar, and raises [ValueError] when it is not. *)
Theorem parse_date_text (long : bool) (Y M D : string) :
  digits_of 4 Y = true -> digits_of 2 M = true -> digits_of 2 D = true ->
  TimeUtil.parse_date (TimeUtil.Str (datetime_text long Y M D None))
  = if Calendar.valid_date (Text.digits_val 0 Y) (Text.digits_val 0 M) (Text.digits_val 0 D)
    then Ok (Date.mk (Text.digits_val 0 Y) (Text.digits_val 0 M) (Text.digits_val 0 D))
    else Raise ValueError.
Proof.
  intros HY HM HD. unfold TimeUtil.parse_date, TimeUtil.parse_datetime.
  rewrite parse_zoned_text by (assumption || reflexivity).
  unfold text_value, zone_value, text_zone, Datetime.new. unfold bind at 3.
  cbn [text_hour text_minute text_second text_microsecond].
  change (Calendar.valid_time 0 0 0 0) with true. rewrite andb_true_r.
  destruct (Calendar.valid_date _ _ _); reflexivity.
Qed.

Lemma parse_date_text_witness :
  TimeUtil.parse_date (TimeUtil.Str (datetime_text false "2019" "02" "29" None))
  = if Calendar.valid_date (Text.digits_val 0 "2019") (Text.digits_val 0 "02")
         (Text.digits_val 0 "29")
    then Ok (Date.mk (Text.digits_val 0 "2019") (Text.digits_val 0 "02")
               (Text.digits_val 0 "29"))
    else Raise ValueError.
Proof. apply (parse_date_text false "2019" "02" "29"); reflexivity. Defined.

(** ** The calendar: from a date to its ordinal and back *)

Lemma year_step (y : Z) :
  Calendar.days_before_year (y + 1)
  = Calendar.days_before_year y + 365 + Calendar.b2z (Calendar.is_leap y).
Proof.
  unfold Calendar.days_before_year, Calendar.is_leap, Calendar.b2z.
  replace (y + 1 - 1) with y by lia.
  destruct (Z.eqb_spec (y mod 4) 0), (Z.eqb_spec (y mod 100) 0),
    (Z.eqb_spec (y mod 400) 0); cbn [andb negb orb];
    Z.div_mod_to_equations; lia.
Qed.

Lemma year_mono (y y' : Z) :
  y <= y' -> Calendar.days_before_year y <= Calendar.days_before_year y'.
Proof.
  intros H. pattern y'. apply (Z.le_ind _ ltac:(intros ? ? ->; tauto) y); [lia| |exact H].
  intros z Hz IH. replace (Z.succ z) with (z + 1) by lia. rewrite year_step.
  unfold Calendar.b2z. destruct (Calendar.is_leap z); lia.
Qed.

Ltac month_cases m :=
  let H := fresh "H" in
  assert (H : m = 1 \/ m = 2 \/ m = 3 \/ m = 4 \/ m = 5 \/ m = 6 \/
              m = 7 \/ m = 8 \/ m = 9 \/ m = 10 \/ m = 11 \/ m = 12) by lia;
  destruct H as [-> | [-> | [-> | [-> | [-> | [-> | [-> | [-> | [-> | [-> | [-> | ->]]]]]]]]]]].

Ltac tables :=
  repeat match goal with
  | |- context [Calendar.at_index ?l ?k] =>
      let v := eval vm_compute in (Calendar.at_index l k) in
      change (Calendar.at_index l k) with v
  | H : context [Calendar.at_index ?l ?k] |- _ =>
      let v := eval vm_compute in (Calendar.at_index l k) in
      change (Calendar.at_index l k) with v in H
  end;
  cbn [Z.eqb Z.ltb Z.compare Pos.eqb Pos.compare Pos.compare_cont andb Calendar.b2z] in *.

Lemma valid_date_inv (y m d : Z) :
  Calendar.valid_date y m d = true ->
  1 <= y <= 9999 /\ 1 <= m <= 12 /\ 1 <= d <= Calendar.days_in_month y m.
Proof.
  unfold Calendar.valid_date, Calendar.MINYEAR, Calendar.MAXYEAR.
  rewrite !andb_true_iff, !Z.leb_le. lia.
Qed.

(** The day of the year of a valid date. *)
Lemma day_of_year_range (y m d : Z) :
  1 <= m <= 12 -> 1 <= d <= Calendar.days_in_month y m ->
  1 <= Calendar.days_before_month y m + d <= 365 + Calendar.b2z (Calendar.is_leap y).
Proof.
  intros Hm Hd. unfold Calendar.days_before_month, Calendar.days_in_month in *.
  destruct (Calendar.is_leap y); month_cases m; tables; lia.
Qed.

Lemma day_of_year_inj (y m d m' d' : Z) :
  1 <= m <= 12 -> 1 <= d <= Calendar.days_in_month y m ->
  1 <= m' <= 12 -> 1 <= d' <= Calendar.days_in_month y m' ->
  Calendar.days_before_month y m + d = Calendar.days_before_month y m' + d' ->
  m = m' /\ d = d'.
Proof.
  intros Hm Hd Hm' Hd'. unfold Calendar.days_before_month, Calendar.days_in_month in *.
  destruct (Calendar.is_leap y); month_cases m; month_cases m'; tables; lia.
Qed.

Lemma ymd2ord_range (y m d : Z) :
  Calendar.valid_date y m d = true ->
  0 < Calendar.ymd2ord y m d <= Calendar.MAXORDINAL.
Proof.
  intros H. destruct (valid_date_inv y m d H) as (Hy & Hm & Hd).
  pose proof (day_of_year_range y m d Hm Hd) as R.
  pose proof (year_step y) as S.
  pose proof (year_mono 1 y ltac:(lia)) as L.
  pose proof (year_mono (y + 1) 10000 ltac:(lia)) as U.
  change (Calendar.days_before_year 1) with 0 in L.
  change (Calendar.days_before_year 10000) with 3652059 in U.
  unfold Calendar.ymd2ord, Calendar.MAXORDINAL. lia.
Qed.

Lemma ymd2ord_inj (y m d y' m' d' : Z) :
  Calendar.valid_date y m d = true -> Calendar.valid_date y' m' d' = true ->
  Calendar.ymd2ord y m d = Calendar.ymd2ord y' m' d' ->
  y = y' /\ m = m' /\ d = d'.
Proof.
  intros H H' E.
  destruct (valid_date_inv y m d H) as (Hy & Hm & Hd).
  destruct (valid_date_inv y' m' d' H') as (Hy' & Hm' & Hd').
  pose proof (day_of_year_range y m d Hm Hd) as R.
  pose proof (day_of_year_range y' m' d' Hm' Hd') as R'.
  pose proof (year_step y) as S. pose proof (year_step y') as S'.
  unfold Calendar.ymd2ord in E.
  assert (y = y').
  { destruct (Z.lt_trichotomy y y') as [L | [L | L]]; [exfalso | exact L | exfalso].
    - pose proof (year_mono (y + 1) y' ltac:(lia)). lia.
    - pose proof (year_mono (y' + 1) y ltac:(lia)). lia. }
  subst y'. split; [reflexivity|].
  apply (day_of_year_inj y); try assumption. lia.
Qed.

(** The ordinal of a valid date leads back to the date. *)
Lemma ord2ymd_ymd2ord (y m d : Z) :
  Calendar.valid_date y m d = true ->
  Calendar.ord2ymd (Calendar.ymd2ord y m d) = (y, m, d).
Proof.
  intros H. pose proof (ymd2ord_range y m d H) as R.
  pose proof (ymd2ord_ord2ymd (Calendar.ymd2ord y m d)) as E.
  pose proof (ord2ymd_valid (Calendar.ymd2ord y m d) R) as V.
  destruct (Calendar.ord2ymd (Calendar.ymd2ord y m d)) as [[y' m'] d'].
  destruct (ymd2ord_inj y' m' d' y m d V H E) as (-> & -> & ->). reflexivity.
Qed.

(** ** A zone with offset zero *)

Lemma valid_time_inv (h mi s us : Z) :
  Calendar.valid_time h mi s us = true ->
  0 <= h <= 23 /\ 0 <= mi <= 59 /\ 0 <= s <= 59 /\ 0 <= us <= 999999.
Proof.
  unfold Calendar.valid_time. rewrite !andb_true_iff, !Z.leb_le. lia.
Qed.

(** Subtracting nothing from a valid timestamp gives the timestamp. *)
Lemma sub_nothing (v : Datetime.datetime) (delta : Timedelta.timedelta) :
  Datetime.wf v = true -> Timedelta.total_microseconds delta = 0 ->
  Datetime.sub v delta = Ok v.
Proof.
  intros Hw Hz. unfold Datetime.wf in Hw. apply andb_true_iff in Hw.
  destruct Hw as [Hd Ht].
  destruct v as [y mo d h mi s us tz].
  cbn [Datetime.year Datetime.month Datetime.day Datetime.hour Datetime.minute
       Datetime.second Datetime.microsecond] in *.
  destruct (valid_time_inv _ _ _ _ Ht) as (Bh & Bmi & Bs & Bus).
  pose proof (ymd2ord_range y mo d Hd) as R.
  unfold Datetime.sub. rewrite Hz, Z.sub_0_r.
  unfold Datetime.wall_clock, Datetime.toordinal, Timedelta.us_per_day.
  cbn [Datetime.year Datetime.month Datetime.day Datetime.hour Datetime.minute
       Datetime.second Datetime.microsecond Datetime.tzinfo].
  set (o := Calendar.ymd2ord y mo d) in *.
  set (tod := ((h * 60 + mi) * 60 + s) * 1000000 + us).
  assert (Bt : 0 <= tod < 86400000000) by (subst tod; lia).
  replace ((((o * 24 + h) * 60 + mi) * 60 + s) * 1000000 + us)
    with (o * 86400000000 + tod) by (subst tod; lia).
  assert (E1 : (o * 86400000000 + tod) / 86400000000 = o)
    by (symmetry; apply Z.div_unique with tod; lia).
  assert (E2 : (o * 86400000000 + tod) mod 86400000000 = tod)
    by (symmetry; apply Z.mod_unique with o; lia).
  rewrite E1, E2.
  assert (L1 : (0 <? o) = true) by (apply Z.ltb_lt; lia).
  assert (L2 : (o <=? Calendar.MAXORDINAL) = true) by (apply Z.leb_le; lia).
  rewrite L1, L2. cbn [andb]. subst o. rewrite (ord2ymd_ymd2ord y mo d Hd).
  assert (E3 : tod / 1000000 = (h * 60 + mi) * 60 + s)
    by (symmetry; apply Z.div_unique with us; subst tod; lia).
  assert (E4 : tod mod 1000000 = us)
    by (symmetry; apply Z.mod_unique with ((h * 60 + mi) * 60 + s); subst tod; lia).
  rewrite E3, E4.
  assert (E5 : ((h * 60 + mi) * 60 + s) / 3600 = h)
    by (symmetry; apply Z.div_unique with (mi * 60 + s); lia).
  assert (E6 : ((h * 60 + mi) * 60 + s) mod 3600 = mi * 60 + s)
    by (symmetry; apply Z.mod_unique with h; lia).
  rewrite E5, E6.
  assert (E7 : (mi * 60 + s) / 60 = mi)
    by (symmetry; apply Z.div_unique with s; lia).
  assert (E8 : (mi * 60 + s) mod 60 = s)
    by (symmetry; apply Z.mod_unique with mi; lia).
  now rewrite E7, E8.
Qed.

(** A valid timestamp in a zone whose offset is zero keeps its fields. *)
Lemma to_utc_naive_zero (v : Datetime.datetime) (tz : TimeZone.t) :
  Datetime.wf v = true -> Datetime.tzinfo v = Some tz ->
  Timedelta.total_microseconds (TimeZone.offset tz) = 0 ->
  TimeUtil.to_utc_naive v = Ok (Datetime.replace_tzinfo v None).
Proof.
  intros Hw Htz Hz. unfold TimeUtil.to_utc_naive. rewrite Htz.
  unfold Datetime.astimezone, TimeZone.utcoffset. rewrite Hz.
  cbn [Z.ltb Z.opp Z.compare Timedelta.us_per_day andb]. unfold bind at 2.
  rewrite (sub_nothing v _ Hw Hz). unfold bind at 2.
  change (Timedelta.total_microseconds (TimeZone.offset TimeUtil.UTC)) with 0.
  cbn [Z.ltb Z.opp Z.compare Timedelta.us_per_day andb]. unfold bind at 2.
  change (Timedelta.neg (TimeZone.dst TimeUtil.UTC)) with (Ok Timedelta.ZERO).
  unfold bind at 2.
  rewrite sub_nothing; [reflexivity | exact Hw | reflexivity].
Qed.

(** ** Zones with offset zero and offsets out of range *)

Lemma new_inv (y mo d h mi s us : Z) (tz : option TimeZone.t) (v : Datetime.datetime) :
  Datetime.new y mo d h mi s us tz = Ok v ->
  v = Datetime.mk y mo d h mi s us tz /\ Datetime.wf v = true.
Proof.
  unfold Datetime.new.
  destruct (Calendar.valid_date y mo d && Calendar.valid_time h mi s us)%bool eqn:E;
    [|discriminate].
  intros H. injection H as <-. split; [reflexivity | exact E].
Qed.

Lemma new_zone (y mo d h mi s us : Z) (tz tz' : option TimeZone.t) :
  Datetime.new y mo d h mi s us tz
  = match Datetime.new y mo d h mi s us tz' with
    | Ok v => Ok (Datetime.replace_tzinfo v tz)
    | Raise e => Raise e
    end.
Proof.
  unfold Datetime.new.
  destruct (Calendar.valid_date y mo d && Calendar.valid_time h mi s us)%bool; reflexivity.
Qed.

(** X9.  A valid timestamp in a zone whose offset is zero is returned by
    [to_utc_naive] with its fields unchanged and without the zone; so a
    date-time text that ends with [Z] is parsed as the same text without a
    zone and without an assumed zone. *)
Theorem utc_zone_stripped :
  (forall (v : Datetime.datetime) (tz : TimeZone.t),
      Datetime.wf v = true -> Datetime.tzinfo v = Some tz ->
      Timedelta.total_microseconds (TimeZone.offset tz) = 0 ->
      TimeUtil.to_utc_naive v = Ok (Datetime.replace_tzinfo v None)) /\
  (forall (long : bool) (Y M D hh mm : string)
          (sec : option (string * option (ascii * string)))
          (tz_local : option TimeZone.t),
      digits_of 4 Y = true -> digits_of 2 M = true -> digits_of 2 D = true ->
      digits_of 2 hh = true -> digits_of 2 mm = true -> second_ok sec = true ->
      TimeUtil.parse_datetime
        (TimeUtil.Str (datetime_text long Y M D (Some (mk_clock hh mm sec (Some Zulu)))))
        tz_local
      = TimeUtil.parse_datetime
          (TimeUtil.Str (datetime_text long Y M D (Some (mk_clock hh mm sec None)))) None).
Proof.
  split; [exact to_utc_naive_zero|].
  intros long Y M D hh mm sec tz_local HY HM HD Hh Hm Hs.
  unfold TimeUtil.parse_datetime.
  rewrite !parse_zoned_text
    by (assumption || (cbn [clock_ok c_hour c_minute c_second c_zone zone_ok];
                       now rewrite Hh, Hm, Hs)).
  unfold text_value. cbn [text_zone c_zone zone_value]. unfold bind at 2 4.
  rewrite (new_zone _ _ _ _ _ _ _ (Some TimeUtil.UTC) None).
  destruct (Datetime.new _ _ _ _ _ _ _ None) as [v|e] eqn:E; [|reflexivity].
  destruct (new_inv _ _ _ _ _ _ _ _ _ E) as [Ev Hw]. unfold bind.
  rewrite (to_utc_naive_zero (Datetime.replace_tzinfo v (Some TimeUtil.UTC)) TimeUtil.UTC);
    [|exact Hw | reflexivity | reflexivity].
  subst v. reflexivity.
Qed.

Lemma utc_zone_stripped_witness :
  TimeUtil.to_utc_naive (Datetime.mk 2019 5 1 12 30 0 0 (Some TimeUtil.UTC))
  = Ok (Datetime.replace_tzinfo (Datetime.mk 2019 5 1 12 30 0 0 (Some TimeUtil.UTC)) None) /\
  TimeUtil.parse_datetime
    (TimeUtil.Str (datetime_text true "2019" "05" "01"
                     (Some (mk_clock "12" "30" None (Some Zulu))))) None
  = TimeUtil.parse_datetime
      (TimeUtil.Str (datetime_text true "2019" "05" "01"
                       (Some (mk_clock "12" "30" None None)))) None.
Proof.
  split.
  - apply (proj1 utc_zone_stripped (Datetime.mk 2019 5 1 12 30 0 0 (Some TimeUtil.UTC))
             TimeUtil.UTC); reflexivity.
  - apply (proj2 utc_zone_stripped true "2019" "05" "01" "12" "30" None None);
      reflexivity.
Defined.

Lemma zone_value_offset (sg : ascii) (hh : string) (mm : option string)
      (tz_local : option TimeZone.t) :
  zone_ok (Some (Offset sg hh mm)) = true ->
  exists tz,
    zone_value (Some (Offset sg hh mm)) tz_local = Ok (Some tz) /\
    Timedelta.total_microseconds (TimeZone.offset tz) =
      offset_sign (String sg hh) *
      (Text.digits_val 0 hh * 3600000000
       + Text.digits_val 0 (Text.or_else mm "0") * 60000000).
Proof.
  intros Hz. rewrite <- (zone_of_value sg hh hh mm tz_local Hz).
  cbn [zone_ok] in Hz. apply andb_true_iff in Hz. destruct Hz as [Hz Hm].
  apply andb_true_iff in Hz. destruct Hz as [Hs Hh].
  destruct (zone_of_offset sg hh (String sg hh) mm tz_local Hs Hh) as (tz & E & T & _).
  - intros m ->. exact Hm.
  - discriminate.
  - intros H. injection H as -> H. destruct (two_digits_inv hh Hh) as (a & b & -> & _).
    discriminate H.
  - exists tz. split; assumption.
Qed.

(** X10.  A date-time text whose written offset is 24 hours or more, with
    either sign, makes [parse_datetime] raise [ValueError]. *)
Theorem offset_out_of_range (long : bool) (Y M D hh mm : string)
        (sec : option (string * option (ascii * string)))
        (sg : ascii) (zh : string) (zm : option string) (tz_local : option TimeZone.t) :
  digits_of 4 Y = true -> digits_of 2 M = true -> digits_of 2 D = true ->
  digits_of 2 hh = true -> digits_of 2 mm = true -> second_ok sec = true ->
  zone_ok (Some (Offset sg zh zm)) = true ->
  24 * 60 <= 60 * Text.digits_val 0 zh + Text.digits_val 0 (Text.or_else zm "0") ->
  TimeUtil.parse_datetime
    (TimeUtil.Str (datetime_text long Y M D
                     (Some (mk_clock hh mm sec (Some (Offset sg zh zm)))))) tz_local
  = Raise ValueError.
Proof.
  intros HY HM HD Hh Hm Hs Hz Hb. unfold TimeUtil.parse_datetime.
  rewrite parse_zoned_text
    by (assumption || (cbn [clock_ok c_hour c_minute c_second c_zone];
                       now rewrite Hh, Hm, Hs, Hz)).
  unfold text_value. cbn [text_zone c_zone].
  destruct (zone_value_offset sg zh zm tz_local Hz) as (tz & E & T).
  rewrite E. unfold bind at 2.
  destruct (Datetime.new _ _ _ _ _ _ _ (Some tz)) as [v|e] eqn:N.
  - destruct (new_inv _ _ _ _ _ _ _ _ _ N) as [-> _]. unfold bind.
    unfold TimeUtil.to_utc_naive. cbn [Datetime.tzinfo].
    unfold Datetime.astimezone, TimeZone.utcoffset. rewrite T.
    assert (S1 : offset_sign (String sg zh) = 1 \/ offset_sign (String sg zh) = -1).
    { cbn [zone_ok] in Hz. apply andb_true_iff in Hz. destruct Hz as [Hz _].
      apply andb_true_iff in Hz. destruct Hz as [Hsg _].
      destruct (sign_class_cases sg Hsg) as [-> | ->]; auto. }
    unfold Timedelta.us_per_day.
    destruct S1 as [-> | ->].
    + assert (L : (1 * (Text.digits_val 0 zh * 3600000000
                        + Text.digits_val 0 (Text.or_else zm "0") * 60000000)
                   <? 86400000000) = false) by (apply Z.ltb_ge; lia).
      rewrite L, andb_false_r. reflexivity.
    + assert (L : (Z.opp 86400000000
                   <? -1 * (Text.digits_val 0 zh * 3600000000
                            + Text.digits_val 0 (Text.or_else zm "0") * 60000000)) = false)
        by (apply Z.ltb_ge; lia).
      rewrite L. reflexivity.
  - unfold Datetime.new in N. destruct (_ && _)%bool; [discriminate|].
    injection N as <-. reflexivity.
Qed.

Lemma offset_out_of_range_witness :
  TimeUtil.parse_datetime
    (TimeUtil.Str (datetime_text true "2019" "05" "01"
                     (Some (mk_clock "12" "30" None (Some (Offset "-" "24" (Some "00")))))))
    None
  = Raise ValueError.
Proof.
  apply (offset_out_of_range true "2019" "05" "01" "12" "30" None "-" "24" (Some "00") None);
    first [reflexivity | cbn; lia].
Defined.

(** ** What the date-time parser returns *)

Lemma bind_ok {A B : Type} (c : result A) (k : A -> result B) (b : B) :
  bind c k = Ok b -> exists a, c = Ok a /\ k a = Ok b.
Proof. destruct c as [a|e]; [eauto | discriminate]. Qed.

Lemma parse_zoned_wf (s : string) (tz_local : option TimeZone.t) (z : Datetime.datetime) :
  TimeUtil.parse_datetime_zoned (TimeUtil.Str s) tz_local = Ok z -> Datetime.wf z = true.
Proof.
  intros H. unfold TimeUtil.parse_datetime_zoned in H.
  destruct (TimeUtil.match_datetime s) as [m|]; [|discriminate].
  destruct (Re.groups m 10) as [|a [|b [|c [|d [|e [|f [|g [|h [|i [|j [|k l]]]]]]]]]]];
    try discriminate.
  repeat (apply bind_ok in H; destruct H as (? & _ & H)).
  apply new_inv in H. apply H.
Qed.

(** X11.  Whatever [parse_datetime] returns for a string is a valid
    timestamp without a zone, and giving a result of [parse_datetime] back
    to it returns the same timestamp, whatever zone is assumed. *)
Theorem parse_datetime_result :
  (forall (s : string) (tz_local : option TimeZone.t) (r : Datetime.datetime),
      TimeUtil.parse_datetime (TimeUtil.Str s) tz_local = Ok r ->
      Datetime.wf r = true /\ Datetime.tzinfo r = None) /\
  (forall (value : TimeUtil.value) (tz_local tz_local' : option TimeZone.t)
          (r : Datetime.datetime),
      TimeUtil.parse_datetime value tz_local = Ok r ->
      TimeUtil.parse_datetime (TimeUtil.DatetimeV r) tz_local' = Ok r).
Proof.
  split.
  - intros s tz_local r H. unfold TimeUtil.parse_datetime in H.
    apply bind_ok in H. destruct H as (z & Hz & H).
    pose proof (parse_zoned_wf s tz_local z Hz) as Hw.
    destruct (to_utc_naive_spec z r H) as [Hn Hr]. split; [|exact Hn].
    destruct (Datetime.tzinfo z); [apply Hr | now subst r].
  - intros value tz_local tz_local' r H. unfold TimeUtil.parse_datetime in H.
    apply bind_ok in H. destruct H as (z & _ & H).
    destruct (to_utc_naive_spec z r H) as [Hn _].
    unfold TimeUtil.parse_datetime, TimeUtil.parse_datetime_zoned, bind,
      TimeUtil.to_utc_naive.
    now rewrite Hn.
Qed.

Lemma parse_datetime_result_witness :
  (Datetime.wf (Datetime.mk 2020 1 1 1 30 0 0 None) = true /\
   Datetime.tzinfo (Datetime.mk 2020 1 1 1 30 0 0 None) = None) /\
  TimeUtil.parse_datetime (TimeUtil.DatetimeV (Datetime.mk 2020 1 1 1 30 0 0 None))
    (Some TimeUtil.UTC)
  = Ok (Datetime.mk 2020 1 1 1 30 0 0 None).
Proof.
  split.
  - apply (proj1 parse_datetime_result "2020-01-01T00:00:00-01:30" None). reflexivity.
  - apply (proj2 parse_datetime_result (TimeUtil.Str "2020-01-01T00:00:00-01:30") None
             (Some TimeUtil.UTC)). reflexivity.
Defined.

(** ** Only the date-time texts *)

Lemma exactly_digits (k : nat) (w : string) :
  Text.all Text.is_digit w = true -> (k <= String.length w)%nat ->
  (forall h, Some k = Some h -> (String.length w <= h)%nat) ->
  digits_of k w = true.
Proof.
  intros Ha Hlo Hhi. specialize (Hhi k eq_refl).
  unfold digits_of. apply andb_true_iff. split; [|exact Ha].
  apply Nat.eqb_eq. lia.
Qed.

Ltac digits_facts :=
  repeat first
    [ assumption
    | reflexivity
    | apply exactly_digits; assumption
    | apply andb_true_iff; split ].

Lemma zone_sound (n : nat) (long : bool) (w rest : string) (g g' : Re.captures) :
  Re.matches n (zone_pattern long) w rest g g' ->
  exists z, zone_ok z = true /\ w = zone_part long z.
Proof.
  intros H. unfold zone_pattern, Re.d in H. destruct long; cbn [after] in H;
    invert_matches;
    match goal with
    | |- exists z, _ /\ (String ?c "" ++ ?a) ++ ":" ++ ?b = _ =>
        exists (Some (Offset c a (Some b)))
    | |- exists z, _ /\ (String ?c "" ++ ?a) ++ "" = _ =>
        exists (Some (Offset c a None))
    | |- exists z, _ /\ (String ?c "" ++ ?a) ++ ?b = _ =>
        exists (Some (Offset c a (Some b)))
    | |- exists z, _ /\ "Z" = _ => exists (Some Zulu)
    | |- exists z, _ /\ "" = _ => exists None
    end;
    (split; [cbn [zone_ok]; digits_facts | reflexivity]).
Qed.

Lemma second_sound (n : nat) (long : bool) (w rest : string) (g g' : Re.captures) :
  Re.matches n (second_pattern long) w rest g g' ->
  exists sec, second_ok sec = true /\ w = second_part long sec.
Proof.
  intros H. unfold second_pattern, fraction_pattern, Re.d, Re.d_star in H.
  destruct long; cbn [after] in H; invert_matches;
    match goal with
    | |- exists z, _ /\ ":" ++ ?a ++ String ?mk "" ++ ?f ++ ?f' = _ =>
        exists (Some (a, Some (mk, f ++ f')))
    | |- exists z, _ /\ ":" ++ ?a ++ "" = _ => exists (Some (a, None))
    | |- exists z, _ /\ ?a ++ String ?mk "" ++ ?f ++ ?f' = _ =>
        exists (Some (a, Some (mk, f ++ f')))
    | |- exists z, _ /\ ?a ++ "" = _ => exists (Some (a, None))
    | |- exists z, _ /\ "" = _ => exists None
    end;
    (split; [cbn [second_ok]; digits_facts;
             try (unfold Text.all_digits; rewrite all_append; digits_facts)
            | reflexivity]).
Qed.

Lemma clock_sound (n : nat) (long : bool) (w rest : string) (g g' : Re.captures) :
  Re.matches n (clock_pattern long) w rest g g' ->
  exists c, clock_ok c = true /\ w = clock_part long c.
Proof.
  intros H. unfold clock_pattern, Re.d in H.
  destruct long; cbn [after] in H; invert_matches;
    try (exists None; split; reflexivity);
    match goal with
    | Hs : Re.matches _ (second_pattern _) ?ws _ _ _,
      Hz : Re.matches _ (zone_pattern _) ?wz _ _ _ |- _ =>
        destruct (second_sound _ _ _ _ _ _ Hs) as (sec & Hsec & ->);
        destruct (zone_sound _ _ _ _ _ _ Hz) as (z & Hzone & ->)
    end;
    match goal with
    | |- exists c, _ /\ "T" ++ ?hh ++ ":" ++ ?mm ++ _ = _ =>
        exists (Some (mk_clock hh mm sec z))
    | |- exists c, _ /\ "T" ++ ?hh ++ ?mm ++ _ = _ =>
        exists (Some (mk_clock hh mm sec z))
    end;
    (split; [cbn [clock_ok c_hour c_minute c_second c_zone]; digits_facts | reflexivity]).
Qed.

(** A subject that one of the two patterns matches is a date-time text of
    its form, possibly followed by a line feed. *)
Lemma datetime_pattern_sound (long : bool) (s : string) (m : Re.captures) :
  Re.rmatch (datetime_pattern long) s = Some m ->
  exists Y M D c tail,
    digits_of 4 Y = true /\ digits_of 2 M = true /\ digits_of 2 D = true /\
    clock_ok c = true /\ (tail = "" \/ tail = line_feed) /\
    s = datetime_text long Y M D c ++ tail.
Proof.
  intros H. apply rmatch_sound in H. destruct H as (w & rest & -> & H).
  unfold datetime_pattern, Re.d in H.
  destruct long; cbn [after] in H; invert_matches;
    match goal with
    | Hc : Re.matches _ (clock_pattern _) _ _ _ _ |- _ =>
        destruct (clock_sound _ _ _ _ _ _ Hc) as (c & Hclock & ->)
    end;
    match goal with
    | |- exists Y M D c' tail, _ /\ _ /\ _ /\ _ /\ _ /\
                               ("" ++ ?w1 ++ "-" ++ ?w2 ++ "-" ++ ?w3 ++ _ ++ "") ++ ?t = _ =>
        exists w1, w2, w3, c, t
    | |- exists Y M D c' tail, _ /\ _ /\ _ /\ _ /\ _ /\
                               ("" ++ ?w1 ++ ?w2 ++ ?w3 ++ _ ++ "") ++ ?t = _ =>
        exists w1, w2, w3, c, t
    end;
    (split; [digits_facts|]; split; [digits_facts|]; split; [digits_facts|];
     split; [exact Hclock|]; split; [auto|];
     unfold datetime_text; cbn [mark append];
     rewrite ?append_nil_r, ?append_assoc; cbn [append]; reflexivity).
Qed.

Lemma no_newline_field (k : nat) (w : string) : digits_of k w = true -> no_newline w = true.
Proof. intros H. apply no_newline_digits. apply (digits_of_inv k w H). Qed.

Lemma no_newline_mark (long : bool) (c : ascii) :
  Ascii.eqb c Re.newline = false -> no_newline (mark long c) = true.
Proof.
  intros H. destruct long; [|reflexivity].
  unfold no_newline. cbn [mark contains]. now rewrite H.
Qed.

Lemma no_newline_zone (long : bool) (z : option zone_text) :
  zone_ok z = true -> no_newline (zone_part long z) = true.
Proof.
  intros Hz. destruct z as [[|sg hh mm]|]; try reflexivity.
  cbn [zone_ok] in Hz. apply andb_true_iff in Hz. destruct Hz as [Hz Hm].
  apply andb_true_iff in Hz. destruct Hz as [Hs Hh].
  cbn [zone_part zone_string].
  change (String sg hh) with (String sg "" ++ hh).
  rewrite !no_newline_append, (no_newline_field 2 hh Hh).
  assert (E : no_newline (String sg "") = true)
    by (destruct (sign_class_cases sg Hs) as [-> | ->]; reflexivity).
  rewrite E. destruct mm as [mm|]; [|reflexivity].
  now rewrite no_newline_append, (no_newline_field 2 mm Hm), no_newline_mark.
Qed.

Lemma fraction_mark_cases (c : ascii) :
  TimeUtil.fraction_mark c = true -> c = "."%char \/ c = ","%char.
Proof.
  intros H. destruct c as [[] [] [] [] [] [] [] []]; vm_compute in H;
    try discriminate H; auto.
Qed.

Lemma no_newline_second (long : bool) (sec : option (string * option (ascii * string))) :
  second_ok sec = true -> no_newline (second_part long sec) = true.
Proof.
  intros Hs. destruct sec as [[ss fr]|]; [|reflexivity].
  cbn [second_ok] in Hs. apply andb_true_iff in Hs. destruct Hs as [Hss Hf].
  cbn [second_part].
  rewrite !no_newline_append, (no_newline_field 2 ss Hss), no_newline_mark by reflexivity.
  destruct fr as [[mk f]|]; [|reflexivity].
  apply andb_true_iff in Hf. destruct Hf as [Hmk Hf].
  cbn [fraction_part]. change (String mk f) with (String mk "" ++ f).
  rewrite no_newline_append, (no_newline_digits f Hf).
  destruct (fraction_mark_cases mk Hmk) as [-> | ->]; reflexivity.
Qed.

(** A date-time text has no line feed in it. *)
Lemma no_newline_datetime_text (long : bool) (Y M D : string) (c : option clock_text) :
  digits_of 4 Y = true -> digits_of 2 M = true -> digits_of 2 D = true ->
  clock_ok c = true ->
  no_newline (datetime_text long Y M D c) = true.
Proof.
  intros HY HM HD Hc. unfold datetime_text.
  rewrite !no_newline_append, (no_newline_field 4 Y HY), (no_newline_field 2 M HM),
    (no_newline_field 2 D HD), !no_newline_mark by reflexivity.
  destruct c as [[hh mm sec z]|]; [|reflexivity].
  cbn [clock_ok c_hour c_minute c_second c_zone] in Hc.
  apply andb_true_iff in Hc. destruct Hc as [Hc Hz].
  apply andb_true_iff in Hc. destruct Hc as [Hc Hs].
  apply andb_true_iff in Hc. destruct Hc as [Hh Hm].
  cbn [clock_part c_hour c_minute c_second c_zone].
  now rewrite !no_newline_append, (no_newline_field 2 hh Hh), (no_newline_field 2 mm Hm),
    (no_newline_second long sec Hs), (no_newline_zone long z Hz), no_newline_mark.
Qed.

(** A subject that [parse_datetime] matches is a date-time text, possibly
    followed by a line feed. *)
Lemma match_datetime_sound (s : string) (m : Re.captures) :
  TimeUtil.match_datetime s = Some m ->
  exists long Y M D c tail,
    digits_of 4 Y = true /\ digits_of 2 M = true /\ digits_of 2 D = true /\
    clock_ok c = true /\ (tail = "" \/ tail = line_feed) /\
    s = datetime_text long Y M D c ++ tail.
Proof.
  unfold TimeUtil.match_datetime. rewrite long_pattern, short_pattern.
  destruct (Re.rmatch (datetime_pattern true) s) as [m'|] eqn:E; intros H.
  - exists true. exact (datetime_pattern_sound true s m' E).
  - exists false. exact (datetime_pattern_sound false s m H).
Qed.

(** [parse_datetime] on a date-time text that may end with a line feed. *)
Lemma parse_datetime_text_tail (long : bool) (Y M D : string) (c : option clock_text)
      (tail : string) (tz_local : option TimeZone.t) :
  digits_of 4 Y = true -> digits_of 2 M = true -> digits_of 2 D = true ->
  clock_ok c = true -> tail = "" \/ tail = line_feed ->
  TimeUtil.match_datetime (datetime_text long Y M D c ++ tail) <> None /\
  TimeUtil.parse_datetime (TimeUtil.Str (datetime_text long Y M D c ++ tail)) tz_local
  = (v <- text_value Y M D c tz_local ;; TimeUtil.to_utc_naive v).
Proof.
  intros HY HM HD Hc [-> | ->].
  - rewrite append_nil_r. split.
    + now rewrite match_datetime_text.
    + unfold TimeUtil.parse_datetime. now rewrite parse_zoned_text.
  - pose proof (no_newline_datetime_text long Y M D c HY HM HD Hc) as N. split.
    + rewrite (match_datetime_line_feed _ N). now rewrite match_datetime_text.
    + rewrite (parse_datetime_line_feed _ tz_local N).
      unfold TimeUtil.parse_datetime. now rewrite parse_zoned_text.
Qed.

(** ** The strings that the date-time parser takes *)

(** X12.  Among the texts of ASCII characters, [parse_datetime] takes the
    date-time texts of the long and the short form, possibly followed by
    a line feed, and nothing else: every other text of ASCII characters
    raises [ValueError]. *)
Theorem datetime_texts_only (s : string) (tz_local : option TimeZone.t) :
  (is_datetime_text s -> TimeUtil.match_datetime s <> None) /\
  (ascii_only s = true -> TimeUtil.match_datetime s <> None -> is_datetime_text s) /\
  (ascii_only s = true -> ~ is_datetime_text s ->
   TimeUtil.parse_datetime (TimeUtil.Str s) tz_local = Raise ValueError).
Proof.
  assert (E : TimeUtil.match_datetime s <> None -> is_datetime_text s).
  { destruct (TimeUtil.match_datetime s) as [m|] eqn:Hm; [|congruence].
    intros _. exact (match_datetime_sound s m Hm). }
  split; [|split].
  - intros (long & Y & M & D & c & tail & HY & HM & HD & Hc & Ht & ->).
    apply (parse_datetime_text_tail long Y M D c tail None HY HM HD Hc Ht).
  - intros _. exact E.
  - intros _ N. unfold TimeUtil.parse_datetime, TimeUtil.parse_datetime_zoned.
    destruct (TimeUtil.match_datetime s) as [m|] eqn:Hm; [|reflexivity].
    exfalso. apply N, E. discriminate.
Qed.

Lemma datetime_texts_only_witness :
  TimeUtil.parse_datetime (TimeUtil.Str "2019-05-01 12:30") None = Raise ValueError.
Proof.
  apply (proj2 (proj2 (datetime_texts_only "2019-05-01 12:30" None))); [reflexivity|].
  intros H. apply (proj1 (datetime_texts_only "2019-05-01 12:30" None)) in H.
  apply H. reflexivity.
Defined.

Lemma utcoffset_errors (tz : TimeZone.t) (e : exn) :
  TimeZone.utcoffset tz = Raise e -> e = ValueError.
Proof.
  unfold TimeZone.utcoffset. destruct (_ && _)%bool; [discriminate|].
  intros H. now injection H as <-.
Qed.

Lemma sub_errors (v : Datetime.datetime) (delta : Timedelta.timedelta) (e : exn) :
  Datetime.sub v delta = Raise e -> e = OverflowError.
Proof.
  unfold Datetime.sub. destruct (_ && _)%bool.
  - destruct (Calendar.ord2ymd _) as [[y mo] d]. discriminate.
  - intros H. now injection H as <-.
Qed.

Lemma to_utc_naive_errors (v : Datetime.datetime) (e : exn) :
  TimeUtil.to_utc_naive v = Raise e -> e = ValueError \/ e = OverflowError.
Proof.
  unfold TimeUtil.to_utc_naive. destruct (Datetime.tzinfo v) as [tz|]; [|discriminate].
  unfold Datetime.astimezone.
  destruct (TimeZone.utcoffset tz) as [off|e1] eqn:E1; unfold bind at 2.
  - destruct (Datetime.sub v off) as [u|e2] eqn:E2; unfold bind at 2.
    + change (TimeZone.utcoffset TimeUtil.UTC) with (Ok Timedelta.ZERO).
      change (Timedelta.neg (TimeZone.dst TimeUtil.UTC)) with (Ok Timedelta.ZERO).
      unfold bind at 2 3.
      destruct (Datetime.sub _ Timedelta.ZERO) as [r|e3] eqn:E3; unfold bind.
      * discriminate.
      * intros H. injection H as <-. right. exact (sub_errors _ _ _ E3).
    + unfold bind. intros H. injection H as <-. right. exact (sub_errors _ _ _ E2).
  - unfold bind. intros H. injection H as <-. left. exact (utcoffset_errors _ _ E1).
Qed.

(** X13.  On a string, [parse_datetime] raises nothing but [ValueError]
    and, when the conversion to UTC leaves the years 1 to 9999,
    [OverflowError]. *)
Theorem parse_datetime_errors :
  (forall (s : string) (tz_local : option TimeZone.t) (e : exn),
      TimeUtil.parse_datetime (TimeUtil.Str s) tz_local = Raise e ->
      e = ValueError \/ e = OverflowError) /\
  TimeUtil.parse_datetime (TimeUtil.Str "0001-01-01T00:00:00+01:00") None
  = Raise OverflowError.
Proof.
  split; [|reflexivity].
  intros s tz_local e H.
  destruct (TimeUtil.match_datetime s) as [m|] eqn:Hm.
  - destruct (match_datetime_sound s m Hm)
      as (long & Y & M & D & c & tail & HY & HM & HD & Hc & Ht & ->).
    rewrite (proj2 (parse_datetime_text_tail long Y M D c tail tz_local HY HM HD Hc Ht)) in H.
    unfold text_value in H.
    assert (Z : exists zone, zone_value (text_zone c) tz_local = Ok zone).
    { destruct c as [[hh mm sec [[|sg zh zm]|]]|]; cbn [text_zone c_zone zone_value];
        eauto.
      cbn [clock_ok c_zone] in Hc. apply andb_true_iff in Hc. destruct Hc as [_ Hz].
      destruct (zone_value_offset sg zh zm tz_local Hz) as (tz & E & _). eauto. }
    destruct Z as [zone Z]. rewrite Z in H. unfold bind at 2 in H.
    unfold Datetime.new in H. destruct (_ && _)%bool.
    + unfold bind in H. now apply to_utc_naive_errors in H.
    + injection H as <-. now left.
  - unfold TimeUtil.parse_datetime, TimeUtil.parse_datetime_zoned in H.
    rewrite Hm in H. injection H as <-. now left.
Qed.

Lemma parse_datetime_errors_witness :
  OverflowError = ValueError \/ OverflowError = OverflowError.
Proof.
  apply (proj1 parse_datetime_errors "0001-01-01T00:00:00+01:00" None OverflowError).
  reflexivity.
Defined.

(** ** Duration strings: what a match looks like *)

Lemma designated_component (n : nat) (name : string) (i : nat) (x : ascii)
      (w rest : string) (g g' : Re.captures) :
  Re.matches n (TimeUtil.designated name i x) w rest g g' ->
  exists c, optional_number c = true /\ w = number_designator (String x "") c.
Proof.
  intros M. destruct (designated_matches _ _ _ _ _ _ _ _ M) as [[_ ->] | (num & -> & Hn & _)].
  - exists None. split; reflexivity.
  - exists (Some num). split; [exact Hn | reflexivity].
Qed.

Lemma no_newline_number (c : option string) (x : string) :
  optional_number c = true -> no_newline x = true ->
  no_newline (number_designator x c) = true.
Proof.
  intros Hc Hx. destruct c as [w|]; [|reflexivity].
  cbn [number_designator optional_number] in *.
  destruct (number_parts w Hc) as (ip & fs & -> & Hip & Hfs).
  rewrite !no_newline_append, Hx, (no_newline_digits ip (digits_nonempty_all ip Hip)).
  destruct fs as [f|]; [|reflexivity].
  cbn [fraction_text]. change (String "." f) with ("." ++ f).
  rewrite no_newline_append. cbn [fraction_ok] in Hfs.
  now rewrite (no_newline_digits f (digits_nonempty_all f Hfs)).
Qed.

(** A duration text has no line feed in it. *)
Lemma no_newline_duration_string (sg : string) (y mo d : option string) (t : bool)
      (h mi s : option string) :
  is_sign sg = true ->
  optional_number y = true -> optional_number mo = true -> optional_number d = true ->
  optional_number h = true -> optional_number mi = true -> optional_number s = true ->
  no_newline (duration_string sg y mo d t h mi s) = true.
Proof.
  intros Hsg Hy Hmo Hd Hh Hmi Hs. unfold duration_string.
  rewrite !no_newline_append, !no_newline_number by (assumption || reflexivity).
  destruct (sign_cases sg Hsg) as [-> | [-> | ->]]; destruct t; reflexivity.
Qed.

(** A subject that the duration pattern matches is a duration text,
    possibly followed by a line feed. *)
Lemma duration_sound (s : string) (m : Re.captures) :
  Re.rmatch TimeUtil.RE_ISO_8601_DURATION s = Some m -> is_duration_text s.
Proof.
  intros H. apply rmatch_sound in H. destruct H as (w & rest & -> & M).
  unfold TimeUtil.RE_ISO_8601_DURATION in M.
  invert_seq.
  repeat match goal with
  | H : Re.matches _ (TimeUtil.designated _ _ _) _ _ _ _ |- _ =>
      let c := fresh "c" in let Hc := fresh "Hc" in
      destruct (designated_component _ _ _ _ _ _ _ _ H) as (c & Hc & ->); clear H
  end.
  assert (N : forall sg y mo d t h mi se tail,
             is_sign sg = true ->
             optional_number y = true -> optional_number mo = true ->
             optional_number d = true -> optional_number h = true ->
             optional_number mi = true -> optional_number se = true ->
             (tail = "" \/ tail = line_feed) ->
             is_duration_text (duration_string sg y mo d t h mi se ++ tail)).
  { clear. intros sg y mo d t h mi se tail Hsg Hy Hmo Hd Hh Hmi Hse Ht.
    destruct (minutes_as_months mo d t h mi) eqn:E.
    - destruct mo; [discriminate|]. destruct d; [discriminate|].
      destruct h; [discriminate|]. destruct mi as [w|]; [|discriminate].
      destruct t; [discriminate|].
      exists sg, y, (Some w), None, false, None, None, se, tail.
      repeat (split; [assumption || reflexivity|]). reflexivity.
    - exists sg, y, mo, d, t, h, mi, se, tail.
      repeat (split; [assumption|]). reflexivity. }
  invert_matches;
    match goal with
    | |- is_duration_text (("" ++ ?sg ++ "P" ++ number_designator _ ?y ++
                            number_designator _ ?mo ++ number_designator _ ?d ++ ?t ++
                            number_designator _ ?h ++ number_designator _ ?mi ++
                            number_designator _ ?se ++ "") ++ ?tail) =>
        let b := match t with EmptyString => constr:(false) | _ => constr:(true) end in
        replace (("" ++ sg ++ "P" ++ number_designator "Y" y ++
                  number_designator "M" mo ++ number_designator "D" d ++ t ++
                  number_designator "H" h ++ number_designator "M" mi ++
                  number_designator "S" se ++ "") ++ tail)
          with (duration_string sg y mo d b h mi se ++ tail)
          by (unfold duration_string, separator; now rewrite ?append_nil_r);
        apply N; auto
    end;
    match goal with
    | Hc : TimeUtil.sign_class ?c = true |- _ =>
        destruct (sign_class_cases c Hc) as [-> | ->]; reflexivity
    | _ => reflexivity
    end.
Qed.

(** ** The strings that the duration parser takes *)

Lemma duration_text_matches (s : string) :
  is_duration_text s -> Re.rmatch TimeUtil.RE_ISO_8601_DURATION s <> None.
Proof.
  intros (sg & y & mo & d & t & h & mi & se & tail &
          Hsg & Hy & Hmo & Hd & Hh & Hmi & Hse & Hm & Ht & ->).
  destruct (duration_string_match sg y mo d t h mi se Hsg Hy Hmo Hd Hh Hmi Hse Hm)
    as (m & E & _).
  destruct Ht as [-> | ->].
  - rewrite append_nil_r, E. discriminate.
  - rewrite rmatch_line_feed, E;
      [discriminate | reflexivity | now apply no_newline_duration_string].
Qed.

(** X14.  Among the texts of ASCII characters, the duration pattern
    matches the duration texts, possibly followed by a line feed, and
    nothing else: on every other text of ASCII characters
    [parse_duration] raises [ValueError]. *)
Theorem duration_texts_only (s : string) :
  (is_duration_text s -> Re.rmatch TimeUtil.RE_ISO_8601_DURATION s <> None) /\
  (ascii_only s = true -> Re.rmatch TimeUtil.RE_ISO_8601_DURATION s <> None ->
   is_duration_text s) /\
  (ascii_only s = true -> ~ is_duration_text s ->
   TimeUtil.parse_duration (TimeUtil.Str s) = Raise ValueError).
Proof.
  assert (E : Re.rmatch TimeUtil.RE_ISO_8601_DURATION s <> None -> is_duration_text s).
  { destruct (Re.rmatch TimeUtil.RE_ISO_8601_DURATION s) as [m|] eqn:Hm; [|congruence].
    intros _. exact (duration_sound s m Hm). }
  split; [|split].
  - apply duration_text_matches.
  - intros _. exact E.
  - intros _ N. unfold TimeUtil.parse_duration.
    destruct (Re.rmatch TimeUtil.RE_ISO_8601_DURATION s) as [m|] eqn:Hm; [|reflexivity].
    exfalso. apply N, E. discriminate.
Qed.

Lemma duration_texts_only_witness :
  TimeUtil.parse_duration (TimeUtil.Str "P1DT") = Ok (Timedelta.mk 1 0 0) /\
  TimeUtil.parse_duration (TimeUtil.Str "PT1H1D") = Raise ValueError.
Proof.
  split; [reflexivity|].
  apply (proj2 (proj2 (duration_texts_only "PT1H1D"))); [reflexivity|].
  intros H. apply (proj1 (duration_texts_only "PT1H1D")) in H.
  apply H. reflexivity.
Defined.

(** ** Binary64: rounding is within one unit of the last place *)

(** [shr_fexp] shifts a mantissa of more than 53 digits down to 53. *)
Lemma shr_fexp_shift (m e : Z) (l : location) :
  0 <= m -> 53 <= Zdigits2 m -> -1074 <= e ->
  shr_m (fst (shr_fexp Float.prec Float.emax m e l)) = Z.shiftr m (Zdigits2 m - 53) /\
  snd (shr_fexp Float.prec Float.emax m e l) = e + (Zdigits2 m - 53) /\
  (Zdigits2 m = 53 ->
   loc_of_shr_record (fst (shr_fexp Float.prec Float.emax m e l)) = l).
Proof.
  intros Hm Hd He. unfold shr_fexp, fexp, emin, Float.prec, Float.emax.
  change (3 - 1024 - 53) with (-1074).
  replace (Z.max (Zdigits2 m + e - 53) (-1074) - e) with (Zdigits2 m - 53) by lia.
  assert (Hr : shr_m (shr_record_of_loc m l) = m)
    by (destruct l as [|[]]; reflexivity).
  assert (Hl : loc_of_shr_record (shr_record_of_loc m l) = l)
    by (destruct l as [|[]]; reflexivity).
  unfold shr. destruct (Zdigits2 m - 53) as [|p|p] eqn:En; cbn [fst snd]; try lia.
  - rewrite Hr, Z.shiftr_0_r. repeat split; [lia | auto].
  - rewrite iter_shr_m by (rewrite Hr; lia). rewrite Hr.
    repeat split. lia.
Qed.

(** Rounding a positive mantissa of at least 53 digits gives a mantissa of
    53 digits that is within one unit of it, at the exponent that the
    number of digits asks for, or the next one. *)
Lemma round_aux_near (M E : Z) (l : location) :
  0 < M -> 53 <= Zdigits2 M -> -1074 <= E -> Zdigits2 M + E <= 1023 ->
  exists m e,
    binary_round_aux Float.prec Float.emax false M E l = S754_finite false m e /\
    Zdigits2 (Zpos m) = 53 /\
    Zdigits2 M + E - 53 <= e <= Zdigits2 M + E - 52 /\
    (Zpos m - 1) * 2 ^ (e - E) <= M <= (Zpos m + 1) * 2 ^ (e - E).
Proof.
  intros HM Hd HE Hb. unfold binary_round_aux.
  destruct (shr_fexp_shift M E l ltac:(lia) Hd HE) as (S1 & E1 & _).
  destruct (shr_fexp Float.prec Float.emax M E l) as [r1 e1]. cbn [fst snd] in S1, E1.
  set (t := Zdigits2 M - 53) in *.
  assert (P : 0 < 2 ^ t) by (apply Z.pow_pos_nonneg; lia).
  assert (Dt : Zdigits2 (shr_m r1) = 53).
  { rewrite S1, Zdigits2_shiftr by lia. lia. }
  assert (Bt : shr_m r1 * 2 ^ t <= M < (shr_m r1 + 1) * 2 ^ t).
  { rewrite S1, Z.shiftr_div_pow2 by lia.
    pose proof (Z.div_mod M (2 ^ t) ltac:(lia)).
    pose proof (Z.mod_pos_bound M (2 ^ t) P). nia. }
  assert (N1 : 0 <= shr_m r1) by (rewrite S1; apply Z.shiftr_nonneg; lia).
  pose proof (round_nearest_even_spec (shr_m r1) (loc_of_shr_record r1) N1) as R.
  set (m1 := round_nearest_even (shr_m r1) (loc_of_shr_record r1)) in *.
  assert (L1 : shr_m r1 < 2 ^ 53)
    by (apply Zdigits2_le; lia).
  assert (G1 : 2 ^ 52 <= shr_m r1).
  { destruct (Z_lt_le_dec (shr_m r1) (2 ^ 52)) as [F|F]; [|exact F].
    apply Zdigits2_le in F; lia. }
  assert (D1 : 53 <= Zdigits2 m1 <= 54).
  { split.
    - rewrite <- Dt. apply Zdigits2_mono. lia.
    - apply Zdigits2_le; [lia | lia|]. change (2 ^ 54) with (2 * 2 ^ 53). lia. }
  destruct (shr_fexp_shift m1 e1 loc_Exact ltac:(lia) ltac:(lia) ltac:(lia))
    as (S2 & E2 & _).
  destruct (shr_fexp Float.prec Float.emax m1 e1 loc_Exact) as [r2 e2].
  cbn [fst snd] in S2, E2.
  destruct (Z.eq_dec (Zdigits2 m1) 53) as [D53 | D54].
  - rewrite D53, Z.sub_diag, Z.shiftr_0_r in S2. rewrite D53 in E2.
    rewrite S2. destruct m1 as [|p|p] eqn:Em; try lia.
    assert (Le : (e2 <=? Float.emax - Float.prec) = true)
      by (apply Z.leb_le; unfold Float.emax, Float.prec; lia).
    rewrite Le. exists p, e2. split; [reflexivity|]. split; [exact D53|].
    split; [lia|]. replace (e2 - E) with t by lia. nia.
  - assert (D : Zdigits2 m1 = 54) by lia.
    assert (G : 2 ^ 53 <= m1).
    { destruct (Z_lt_le_dec m1 (2 ^ 53)) as [F|F]; [|exact F].
      apply Zdigits2_le in F; lia. }
    assert (Em : m1 = 2 ^ 53) by lia.
    rewrite D in S2, E2. rewrite Em in S2.
    change (Z.shiftr (2 ^ 53) (54 - 53)) with (Zpos 4503599627370496) in S2.
    rewrite S2.
    assert (Le : (e2 <=? Float.emax - Float.prec) = true)
      by (apply Z.leb_le; unfold Float.emax, Float.prec; lia).
    rewrite Le. exists 4503599627370496%positive, e2.
    split; [reflexivity|]. split; [reflexivity|]. split; [lia|].
    replace (e2 - E) with (t + 1) by lia.
    rewrite Z.pow_add_r by lia. change (2 ^ 1) with 2.
    change (2 ^ 53) with 9007199254740992 in *. nia.
Qed.

(** A mantissa of exactly 53 digits is left as it is. *)
Lemma round_aux_id (M E : Z) :
  0 < M -> Zdigits2 M = 53 -> -1074 <= E <= 971 ->
  binary_round_aux Float.prec Float.emax false M E loc_Exact
  = S754_finite false (Z.to_pos M) E.
Proof.
  intros HM Hd HE. unfold binary_round_aux.
  destruct (shr_fexp_shift M E loc_Exact ltac:(lia) ltac:(lia) ltac:(lia))
    as (S1 & E1 & L1).
  destruct (shr_fexp Float.prec Float.emax M E loc_Exact) as [r1 e1].
  cbn [fst snd] in S1, E1, L1.
  rewrite Hd, Z.sub_diag in S1, E1. rewrite Z.shiftr_0_r in S1.
  rewrite (L1 Hd), S1. cbn [round_nearest_even].
  replace e1 with E by lia.
  destruct (shr_fexp_shift M E loc_Exact ltac:(lia) ltac:(lia) ltac:(lia))
    as (S2 & E2 & _).
  destruct (shr_fexp Float.prec Float.emax M E loc_Exact) as [r2 e2].
  cbn [fst snd] in S2, E2.
  rewrite Hd, Z.sub_diag in S2, E2. rewrite Z.shiftr_0_r in S2.
  rewrite S2. destruct M as [|p|p]; try lia.
  assert (Le : (e2 <=? Float.emax - Float.prec) = true)
    by (apply Z.leb_le; unfold Float.emax, Float.prec; lia).
  rewrite Le. f_equal. lia.
Qed.

(** A positive number of at most 53 digits is brought to 53 digits
    without a change of its value. *)
Lemma normalize_dyadic (n e : Z) :
  0 < n -> Zdigits2 n <= 53 -> -1074 <= e + Zdigits2 n - 53 -> e + Zdigits2 n - 53 <= 971 ->
  binary_normalize Float.prec Float.emax n e false
  = S754_finite false (Z.to_pos (n * 2 ^ (53 - Zdigits2 n))) (e + Zdigits2 n - 53).
Proof.
  intros Hn Hd Hlo Hhi.
  destruct n as [|p|p]; try lia.
  cbn [binary_normalize]. unfold binary_round.
  set (d := Zdigits2 (Zpos p)) in *.
  assert (D1 : 1 <= d) by (subst d; cbn; lia).
  set (e' := fexp Float.prec Float.emax (Zpos (digits2_pos p) + e)).
  assert (He : e' = e + d - 53).
  { subst e' d. unfold fexp, emin, Float.prec, Float.emax. cbn [Zdigits2] in *. lia. }
  destruct (shl_align_spec p e e') as [E1 E2].
  destruct (shl_align p e e') as [mz ez]. cbn [fst snd] in E1, E2.
  assert (P : 0 < 2 ^ (53 - d)) by (apply Z.pow_pos_nonneg; lia).
  replace (Z.min e e') with e' in * by lia.
  replace (e - e') with (53 - d) in E2 by lia.
  rewrite E1, E2, He.
  apply round_aux_id; [nia | | lia].
  rewrite Zdigits2_mul_pow2 by lia. fold d. lia.
Qed.

(** ** Binary64: the error of a sum, a product and a quotient *)

Lemma normal_inv (lo hi : Z) (x : Float.float) :
  normal lo hi x = true ->
  exists m e, x = S754_finite false m e /\ Zdigits2 (Zpos m) = 53 /\ lo <= e <= hi.
Proof.
  destruct x as [s|s| |[|] m e]; try discriminate. cbn [normal]. intros H.
  apply andb_true_iff in H. destruct H as [H H3].
  apply andb_true_iff in H. destruct H as [H1 H2].
  apply Z.eqb_eq in H1. apply Z.leb_le in H2, H3.
  exists m, e. repeat split; assumption.
Qed.

Lemma normal_intro (lo hi : Z) (m : positive) (e : Z) :
  Zdigits2 (Zpos m) = 53 -> lo <= e <= hi -> normal lo hi (S754_finite false m e) = true.
Proof.
  intros H1 [H2 H3]. cbn [normal]. apply Z.eqb_eq in H1. apply Z.leb_le in H2, H3.
  now rewrite H1, H2, H3.
Qed.

Lemma normal_mono (lo hi lo' hi' : Z) (x : Float.float) :
  lo' <= lo -> hi <= hi' -> normal lo hi x = true -> normal lo' hi' x = true.
Proof.
  intros H1 H2 H. destruct (normal_inv lo hi x H) as (m & e & -> & D & B).
  apply normal_intro; [exact D | lia].
Qed.

Lemma normal_nonneg (lo hi : Z) (x : Float.float) : normal lo hi x = true -> nonneg x = true.
Proof. intros H. destruct (normal_inv lo hi x H) as (m & e & -> & _). reflexivity. Qed.

(** A mantissa of 53 digits lies between [2 ^ 52] and [2 ^ 53]. *)
Lemma digits_53 (m : Z) : 0 < m -> Zdigits2 m = 53 -> 2 ^ 52 <= m < 2 ^ 53.
Proof.
  intros Hm Hd. split.
  - destruct (Z_lt_le_dec m (2 ^ 52)) as [F|F]; [|exact F].
    apply Zdigits2_le in F; lia.
  - apply Zdigits2_le; lia.
Qed.

Lemma pow2_pos (k : Z) : 0 <= k -> 0 < 2 ^ k.
Proof. intros H. apply Z.pow_pos_nonneg; lia. Qed.

Lemma pow2_le (a b : Z) : a <= b -> 2 ^ a <= 2 ^ b.
Proof.
  intros H. destruct (Z_lt_le_dec a 0) as [N|N].
  - rewrite (Z.pow_neg_r 2 a N). apply Z.pow_nonneg. lia.
  - apply Z.pow_le_mono_r; lia.
Qed.

(** The number of a positive whole number of at most 53 digits. *)
Lemma exact_float_normal (n : Z) :
  0 < n -> Zdigits2 n <= 53 ->
  normal (Zdigits2 n - 53) (Zdigits2 n - 53) (exact_float n) = true /\
  fixed (exact_float n) = n * 2 ^ 256.
Proof.
  intros Hn Hd.
  assert (D1 : 1 <= Zdigits2 n) by (destruct n; cbn; lia).
  assert (P : 0 < 2 ^ (53 - Zdigits2 n)) by (apply pow2_pos; lia).
  unfold exact_float. split.
  - apply normal_intro; [|lia]. rewrite Z2Pos.id by nia.
    rewrite Zdigits2_mul_pow2 by lia. lia.
  - cbn [fixed]. rewrite Z2Pos.id by nia.
    rewrite <- Z.mul_assoc, <- Z.pow_add_r by lia. f_equal. f_equal. lia.
Qed.

Lemma shl_align_none (m : positive) (e e' : Z) : e <= e' -> shl_align m e e' = (m, e).
Proof.
  intros H. unfold shl_align. destruct (e' - e) as [|d|d] eqn:E; try reflexivity. lia.
Qed.

Lemma scaled_near (m B S A U : Z) :
  0 < A -> (m - 1) * B <= S <= (m + 1) * B -> B * A <= U ->
  Z.abs (m * (B * A) - S * A) <= U.
Proof.
  intros HA HS HU. replace (m * (B * A) - S * A) with ((m * B - S) * A) by ring.
  assert (H : Z.abs (m * B - S) <= B) by (apply Z.abs_le; lia).
  rewrite Z.abs_mul, (Z.abs_eq A) by lia.
  assert (Z.abs (m * B - S) * A <= B * A) by (apply Z.mul_le_mono_nonneg_r; lia).
  lia.
Qed.

(** The sum of two positive numbers is within one unit of the last place
    of the exact sum. *)
Lemma add_near (lo hi : Z) (x y : Float.float) :
  normal lo hi x = true -> normal lo hi y = true -> -256 <= lo -> hi <= 900 ->
  normal lo (hi + 2) (Float.add x y) = true /\
  Z.abs (fixed (Float.add x y) - (fixed x + fixed y)) <= 2 ^ (hi + 258).
Proof.
  intros Hx Hy Hlo Hhi.
  destruct (normal_inv lo hi x Hx) as (mx & ex & -> & Dx & Bx).
  destruct (normal_inv lo hi y Hy) as (my & ey & -> & Dy & By).
  destruct (digits_53 (Zpos mx) ltac:(lia) Dx) as [Gx Lx].
  destruct (digits_53 (Zpos my) ltac:(lia) Dy) as [Gy Ly].
  unfold Float.add, SFadd. cbn [cond_Zopp].
  set (ez := Z.min ex ey).
  destruct (shl_align_spec mx ex ez) as [_ Ex].
  destruct (shl_align_spec my ey ez) as [_ Ey].
  rewrite Ex, Ey.
  replace (Z.min ex ez) with ez by lia. replace (Z.min ey ez) with ez by lia.
  assert (Px : 0 < 2 ^ (ex - ez)) by (apply pow2_pos; lia).
  assert (Py : 0 < 2 ^ (ey - ez)) by (apply pow2_pos; lia).
  assert (Ux : 2 ^ (ex - ez) <= 2 ^ (hi - ez)) by (apply pow2_le; lia).
  assert (Uy : 2 ^ (ey - ez) <= 2 ^ (hi - ez)) by (apply pow2_le; lia).
  set (S := Zpos mx * 2 ^ (ex - ez) + Zpos my * 2 ^ (ey - ez)).
  assert (HS : 2 ^ 52 <= S).
  { subst S. assert (Zpos mx * 1 <= Zpos mx * 2 ^ (ex - ez))
      by (apply Z.mul_le_mono_nonneg_l; lia).
    assert (0 <= Zpos my * 2 ^ (ey - ez)) by (apply Z.mul_nonneg_nonneg; lia). lia. }
  assert (Ph : 0 < 2 ^ (hi - ez)) by (apply pow2_pos; lia).
  assert (LS : S < 2 ^ (54 + (hi - ez))).
  { rewrite Z.pow_add_r by lia. change (2 ^ 54) with (2 * 2 ^ 53). subst S.
    assert (Zpos mx * 2 ^ (ex - ez) <= Zpos mx * 2 ^ (hi - ez))
      by (apply Z.mul_le_mono_nonneg_l; lia).
    assert (Zpos mx * 2 ^ (hi - ez) < 2 ^ 53 * 2 ^ (hi - ez))
      by (apply Z.mul_lt_mono_pos_r; lia).
    assert (Zpos my * 2 ^ (ey - ez) <= Zpos my * 2 ^ (hi - ez))
      by (apply Z.mul_le_mono_nonneg_l; lia).
    assert (Zpos my * 2 ^ (hi - ez) < 2 ^ 53 * 2 ^ (hi - ez))
      by (apply Z.mul_lt_mono_pos_r; lia).
    lia. }
  assert (DS : 53 <= Zdigits2 S <= 54 + (hi - ez)).
  { split.
    - change 53 with (Zdigits2 (2 ^ 52)). apply Zdigits2_mono. lia.
    - apply Zdigits2_le; lia. }
  destruct S as [|p|p] eqn:ES; try lia.
  cbn [binary_normalize]. unfold binary_round.
  assert (Hf : fexp Float.prec Float.emax (Zpos (digits2_pos p) + ez)
               = Zdigits2 (Zpos p) + ez - 53).
  { unfold fexp, emin, Float.prec, Float.emax. cbn [Zdigits2] in *. lia. }
  rewrite Hf, shl_align_none by lia.
  destruct (round_aux_near (Zpos p) ez loc_Exact ltac:(lia) ltac:(lia) ltac:(lia)
              ltac:(lia)) as (m & e & -> & Dm & Be & Bm).
  split; [apply normal_intro; [exact Dm | lia]|].
  cbn [fixed].
  assert (R1 : 0 <= e - ez) by (clear - Be DS; lia).
  assert (R2 : 0 <= ez + 256) by (clear - Bx By Hlo; lia).
  assert (R3 : 0 <= ex - ez) by (clear; lia).
  assert (R4 : 0 <= ey - ez) by (clear; lia).
  assert (R5 : e + 256 <= hi + 258) by (clear - Be DS; lia).
  assert (Pa : 0 < 2 ^ (ez + 256)) by (apply pow2_pos; exact R2).
  assert (E1 : 2 ^ (e + 256) = 2 ^ (e - ez) * 2 ^ (ez + 256))
    by (rewrite <- Z.pow_add_r by assumption; f_equal; ring).
  assert (E2 : 2 ^ (ex + 256) = 2 ^ (ex - ez) * 2 ^ (ez + 256))
    by (rewrite <- Z.pow_add_r by assumption; f_equal; ring).
  assert (E3 : 2 ^ (ey + 256) = 2 ^ (ey - ez) * 2 ^ (ez + 256))
    by (rewrite <- Z.pow_add_r by assumption; f_equal; ring).
  assert (U : 2 ^ (e - ez) * 2 ^ (ez + 256) <= 2 ^ (hi + 258))
    by (rewrite <- E1; apply pow2_le; exact R5).
  rewrite E1, E2, E3. rewrite <- ES in Bm.
  replace (Zpos mx * (2 ^ (ex - ez) * 2 ^ (ez + 256))
           + Zpos my * (2 ^ (ey - ez) * 2 ^ (ez + 256)))
    with ((Zpos mx * 2 ^ (ex - ez) + Zpos my * 2 ^ (ey - ez)) * 2 ^ (ez + 256)) by ring.
  apply scaled_near; [exact Pa | exact Bm | exact U].
Qed.

(** The product of two positive numbers is within one unit of the last
    place of the exact product. *)
Lemma mul_near (lo1 hi1 lo2 hi2 : Z) (x y : Float.float) :
  normal lo1 hi1 x = true -> normal lo2 hi2 y = true ->
  -256 <= lo1 -> -256 <= lo2 -> -256 <= lo1 + lo2 + 52 -> hi1 + hi2 <= 800 ->
  normal (lo1 + lo2 + 52) (hi1 + hi2 + 54) (Float.mul x y) = true /\
  Z.abs (fixed (Float.mul x y) * 2 ^ 256 - fixed x * fixed y) <= 2 ^ (hi1 + hi2 + 566).
Proof.
  intros Hx Hy L1 L2 L12 H12.
  destruct (normal_inv lo1 hi1 x Hx) as (mx & ex & -> & Dx & Bx).
  destruct (normal_inv lo2 hi2 y Hy) as (my & ey & -> & Dy & By).
  destruct (digits_53 (Zpos mx) ltac:(lia) Dx) as [Gx Lx].
  destruct (digits_53 (Zpos my) ltac:(lia) Dy) as [Gy Ly].
  unfold Float.mul, SFmul. cbn [xorb]. rewrite Pos2Z.inj_mul.
  set (M := Zpos mx * Zpos my).
  assert (GM : 2 ^ 104 <= M).
  { subst M. change (2 ^ 104) with (2 ^ 52 * 2 ^ 52). apply Z.mul_le_mono_nonneg; lia. }
  assert (LM : M < 2 ^ 106).
  { subst M. change (2 ^ 106) with (2 ^ 53 * 2 ^ 53). apply Z.mul_lt_mono_nonneg; lia. }
  assert (DM : 105 <= Zdigits2 M <= 106).
  { split.
    - change 105 with (Zdigits2 (2 ^ 104)). apply Zdigits2_mono. lia.
    - apply Zdigits2_le; lia. }
  destruct (round_aux_near M (ex + ey) loc_Exact ltac:(lia) ltac:(lia) ltac:(lia) ltac:(lia))
    as (m & e & -> & Dm & Be & Bm).
  split; [apply normal_intro; [exact Dm | lia]|].
  cbn [fixed].
  assert (Pa : 0 < 2 ^ (ex + ey + 512)) by (apply pow2_pos; lia).
  assert (U : 2 ^ (e - (ex + ey)) * 2 ^ (ex + ey + 512) <= 2 ^ (hi1 + hi2 + 566))
    by (rewrite <- Z.pow_add_r by lia; apply pow2_le; lia).
  replace (Zpos m * 2 ^ (e + 256) * 2 ^ 256)
    with (Zpos m * (2 ^ (e - (ex + ey)) * 2 ^ (ex + ey + 512))).
  - replace (Zpos mx * 2 ^ (ex + 256) * (Zpos my * 2 ^ (ey + 256)))
      with (M * 2 ^ (ex + ey + 512)).
    + apply scaled_near; [exact Pa | exact Bm | exact U].
    + replace (ex + ey + 512) with ((ex + 256) + (ey + 256)) by lia.
      rewrite Z.pow_add_r by lia. subst M. ring.
  - rewrite <- Z.mul_assoc. f_equal.
    rewrite <- !Z.pow_add_r by lia. f_equal. lia.
Qed.

(** The quotient of two positive whole numbers is within two units of the
    last place of the exact quotient. *)
Lemma of_ratio_near (n d : Z) :
  0 < n -> 0 < d -> Zdigits2 n <= Zdigits2 d + 52 ->
  -256 <= Zdigits2 n - Zdigits2 d - 53 ->
  normal (Zdigits2 n - Zdigits2 d - 53) (Zdigits2 n - Zdigits2 d - 51)
    (Float.of_ratio n d) = true /\
  Z.abs (fixed (Float.of_ratio n d) * d - n * 2 ^ 256)
    <= d * 2 ^ (Zdigits2 n - Zdigits2 d + 206).
Proof.
  intros Hn Hd Hk Hlo.
  set (k := Zdigits2 n - Zdigits2 d) in *.
  assert (Dn : 1 <= Zdigits2 n) by (destruct n; cbn; lia).
  assert (Dd : 1 <= Zdigits2 d) by (destruct d; cbn; lia).
  pose proof (Zdigits2_bound n ltac:(lia)) as Un.
  pose proof (Zdigits2_bound d ltac:(lia)) as Ud.
  assert (Gn : 2 ^ (Zdigits2 n - 1) <= n).
  { destruct (Z_lt_le_dec n (2 ^ (Zdigits2 n - 1))) as [F|F]; [|exact F].
    apply Zdigits2_le in F; lia. }
  assert (Gd : 2 ^ (Zdigits2 d - 1) <= d).
  { destruct (Z_lt_le_dec d (2 ^ (Zdigits2 d - 1))) as [F|F]; [|exact F].
    apply Zdigits2_le in F; lia. }
  unfold Float.of_ratio, SFdiv_core_binary.
  assert (He : Z.min (fexp Float.prec Float.emax (Zdigits2 n + 0 - (Zdigits2 d + 0))) (0 - 0)
               = - (53 - k)).
  { unfold fexp, emin, Float.prec, Float.emax. lia. }
  rewrite He.
  replace (0 - 0 - - (53 - k)) with (53 - k) by lia.
  set (s := 53 - k) in *.
  assert (Hs : 0 < s) by lia.
  assert (Em : match s with Z0 => n | Zpos _ => Z.shiftl n s | Zneg _ => 0 end = n * 2 ^ s).
  { destruct s as [|p|p] eqn:Es; try lia. apply Z.shiftl_mul_pow2. lia. }
  rewrite Em.
  pose proof (Z.div_mod (n * 2 ^ s) d ltac:(lia)) as Hq.
  pose proof (Z.mod_pos_bound (n * 2 ^ s) d Hd) as Hr.
  unfold Z.div, Z.modulo in Hq, Hr.
  destruct (Z.div_eucl (n * 2 ^ s) d) as [q r].
  assert (Ps : 0 < 2 ^ s) by (apply pow2_pos; lia).
  assert (Gq : 2 ^ 52 <= q).
  { assert (2 ^ 52 * d <= n * 2 ^ s).
    { assert (2 ^ 52 * d <= 2 ^ 52 * 2 ^ Zdigits2 d) by (apply Z.mul_le_mono_nonneg_l; lia).
      assert (2 ^ (Zdigits2 n - 1) * 2 ^ s <= n * 2 ^ s)
        by (apply Z.mul_le_mono_nonneg_r; lia).
      assert (2 ^ 52 * 2 ^ Zdigits2 d = 2 ^ (Zdigits2 n - 1) * 2 ^ s).
      { rewrite <- !Z.pow_add_r by lia. f_equal. subst s k. lia. }
      lia. }
    destruct (Z_lt_le_dec q (2 ^ 52)) as [F|F]; [|exact F]. exfalso.
    assert (d * q <= d * (2 ^ 52 - 1)) by (apply Z.mul_le_mono_nonneg_l; lia).
    lia. }
  assert (Lq : q < 2 ^ 54).
  { assert (n * 2 ^ s < 2 ^ 54 * d).
    { assert (n * 2 ^ s < 2 ^ Zdigits2 n * 2 ^ s) by (apply Z.mul_lt_mono_pos_r; lia).
      assert (2 ^ 54 * 2 ^ (Zdigits2 d - 1) <= 2 ^ 54 * d)
        by (apply Z.mul_le_mono_nonneg_l; lia).
      assert (2 ^ Zdigits2 n * 2 ^ s = 2 ^ 54 * 2 ^ (Zdigits2 d - 1)).
      { rewrite <- !Z.pow_add_r by lia. f_equal. subst s k. lia. }
      lia. }
    destruct (Z_lt_le_dec q (2 ^ 54)) as [F|F]; [exact F|]. exfalso.
    assert (d * 2 ^ 54 <= d * q) by (apply Z.mul_le_mono_nonneg_l; lia).
    lia. }
  assert (Dq : 53 <= Zdigits2 q <= 54).
  { split.
    - change 53 with (Zdigits2 (2 ^ 52)). apply Zdigits2_mono. lia.
    - apply Zdigits2_le; lia. }
  destruct (round_aux_near q (- s) (new_location d r)
              ltac:(lia) ltac:(lia) ltac:(lia) ltac:(lia))
    as (m & e & -> & Dm & Be & Bm).
  split; [apply normal_intro; [exact Dm | subst s; lia]|].
  cbn [fixed].
  set (B := 2 ^ (e - - s)) in *.
  set (A := 2 ^ (- s + 256)).
  assert (PA : 0 < A) by (apply pow2_pos; subst s; lia).
  assert (PB : 0 < B) by (apply pow2_pos; lia).
  assert (E1 : 2 ^ (e + 256) = B * A).
  { subst A B. rewrite <- Z.pow_add_r by (subst s; lia). f_equal. lia. }
  assert (E2 : 2 ^ 256 = 2 ^ s * A).
  { subst A. rewrite <- Z.pow_add_r by (subst s; lia). f_equal. lia. }
  assert (U : 2 * (B * A) <= 2 ^ (k + 206)).
  { rewrite <- E1. change 2 with (2 ^ 1) at 1. rewrite <- Z.pow_add_r by lia.
    apply pow2_le. subst s. lia. }
  rewrite E1, E2.
  replace (Zpos m * (B * A) * d - n * (2 ^ s * A))
    with ((Zpos m * B * d - n * 2 ^ s) * A) by ring.
  assert (H1 : Z.abs (Zpos m * B * d - n * 2 ^ s) <= 2 * B * d).
  { apply Z.abs_le.
    assert ((Zpos m - 1) * B * d <= q * d) by (apply Z.mul_le_mono_nonneg_r; lia).
    assert (q * d <= (Zpos m + 1) * B * d) by (apply Z.mul_le_mono_nonneg_r; lia).
    assert (1 * d <= B * d) by (apply Z.mul_le_mono_nonneg_r; lia).
    lia. }
  rewrite Z.abs_mul, (Z.abs_eq A) by lia.
  assert (Z.abs (Zpos m * B * d - n * 2 ^ s) * A <= 2 * B * d * A)
    by (apply Z.mul_le_mono_nonneg_r; lia).
  assert (d * (2 * (B * A)) <= d * 2 ^ (k + 206)) by (apply Z.mul_le_mono_nonneg_l; lia).
  lia.
Qed.

(** ** Binary64: the whole part, the fraction and the nearest whole number *)

(** [modf] is exact: the whole part and the fraction of the value. *)
Lemma modf_near (lo hi : Z) (x : Float.float) :
  normal lo hi x = true -> hi < 0 -> -204 <= lo ->
  exists F I,
    Float.modf x = (F, I) /\
    Float.to_Z I = Ok (fixed x / 2 ^ 256) /\
    (fixed x mod 2 ^ 256 = 0 -> F = Float.zero) /\
    (fixed x mod 2 ^ 256 <> 0 ->
     normal (lo - 52) (-53) F = true /\ fixed F = fixed x mod 2 ^ 256).
Proof.
  intros Hx Hhi Hlo.
  destruct (normal_inv lo hi x Hx) as (m & e & -> & Dm & Be).
  destruct (digits_53 (Zpos m) ltac:(lia) Dm) as [Gm Lm].
  cbn [Float.modf fixed].
  assert (Ee : (0 <=? e) = false) by (apply Z.leb_gt; lia).
  rewrite Ee. cbn [Float.signed].
  rewrite Z.shiftr_div_pow2, Z.land_ones by lia.
  set (P := 2 ^ (- e)). set (A := 2 ^ (e + 256)).
  assert (PP : 0 < P) by (apply pow2_pos; lia).
  assert (PA : 0 < A) by (apply pow2_pos; lia).
  assert (EPA : 2 ^ 256 = P * A).
  { subst P A. rewrite <- Z.pow_add_r by lia. f_equal. lia. }
  pose proof (Z.div_mod (Zpos m) P ltac:(lia)) as Hq.
  pose proof (Z.mod_pos_bound (Zpos m) P PP) as Hr.
  assert (Q0 : 0 <= Zpos m / P) by (apply Z.div_pos; lia).
  assert (Q1 : Zpos m / P <= Zpos m).
  { assert (1 * (Zpos m / P) <= P * (Zpos m / P))
      by (apply Z.mul_le_mono_nonneg_r; lia). lia. }
  assert (Ediv : Zpos m * A / 2 ^ 256 = Zpos m / P)
    by (rewrite EPA; apply Z.div_mul_cancel_r; lia).
  assert (Emod : (Zpos m * A) mod 2 ^ 256 = (Zpos m mod P) * A)
    by (rewrite EPA; apply Z.mul_mod_distr_r; lia).
  rewrite Ediv, Emod.
  eexists. eexists. split; [reflexivity|]. split; [|split].
  - destruct (Z.eq_dec (Zpos m / P) 0) as [-> | N]; [reflexivity|].
    change (binary_normalize Float.prec Float.emax (Zpos m / P) 0 false)
      with (Float.of_Z (Zpos m / P)).
    assert (Dq : Zdigits2 (Zpos m / P) <= 53).
    { rewrite <- Dm. apply Zdigits2_mono. lia. }
    rewrite of_Z_exact by lia. apply exact_float_to_Z; lia.
  - intros H0. assert (E0 : Zpos m mod P = 0) by nia. now rewrite E0.
  - intros N0. set (fp := Zpos m mod P) in *.
    assert (Pf : 0 < fp) by (destruct (Z.eq_dec fp 0) as [E0|]; [rewrite E0 in N0|]; lia).
    assert (Df1 : 1 <= Zdigits2 fp) by (destruct fp; cbn; lia).
    assert (Df2 : Zdigits2 fp <= 53) by (rewrite <- Dm; apply Zdigits2_mono; lia).
    assert (Df3 : Zdigits2 fp <= - e) by (apply Zdigits2_le; subst P; lia).
    rewrite normalize_dyadic by lia.
    assert (Pd : 0 < 2 ^ (53 - Zdigits2 fp)) by (apply pow2_pos; lia).
    assert (Pfd : 0 < fp * 2 ^ (53 - Zdigits2 fp)) by (apply Z.mul_pos_pos; lia).
    split.
    + apply normal_intro; [|lia]. rewrite Z2Pos.id by lia.
      rewrite Zdigits2_mul_pow2 by lia. lia.
    + cbn [fixed]. rewrite Z2Pos.id by lia.
      rewrite <- Z.mul_assoc, <- Z.pow_add_r by lia. f_equal. subst A. f_equal. lia.
Qed.

(** The number rounded to the nearest whole number, for a fraction that
    is not one half: the total goes up by one when the fraction is above
    one half. *)
Lemma round_leftover_nearest (lo : Z) (x : Z) (F : Float.float) :
  normal lo (-53) F = true -> fixed F <> 2 ^ 255 ->
  Timedelta.round_leftover x F = Ok (x + (if fixed F <? 2 ^ 255 then 0 else 1)).
Proof.
  intros HF Hne.
  destruct (normal_inv lo (-53) F HF) as (m & e & -> & Dm & Be).
  destruct (digits_53 (Zpos m) ltac:(lia) Dm) as [Gm Lm].
  unfold Timedelta.round_leftover. cbn [Float.is_zero Float.round fixed] in *.
  assert (Ee : (0 <=? e) = false) by (apply Z.leb_gt; lia).
  rewrite Ee. cbn [Float.signed].
  change (Float.of_ratio 1 2) with (S754_finite false 4503599627370496 (-53)).
  destruct (Z.eq_dec e (-53)) as [-> | Ne].
  - change (2 ^ (-53 + 256)) with (2 ^ 203) in *.
    assert (Hgt : 2 ^ 52 < Zpos m).
    { destruct (Z.eq_dec (Zpos m) (2 ^ 52)) as [E|]; [|lia].
      exfalso. apply Hne. rewrite E. reflexivity. }
    assert (Hlt : (Zpos m * 2 ^ 203 <? 2 ^ 255) = false).
    { apply Z.ltb_ge. change (2 ^ 255) with (2 ^ 52 * 2 ^ 203).
      apply Z.mul_le_mono_nonneg_r; lia. }
    rewrite Hlt.
    assert (Eip : Z.shiftr (Zpos m) (- -53) = 0).
    { rewrite Z.shiftr_div_pow2 by lia. apply Z.div_small. change (- -53) with 53. lia. }
    assert (Eup : Z.testbit (Zpos m) (- -53 - 1) = true).
    { change (- -53 - 1) with 52. rewrite Z.testbit_true by lia.
      assert (E1 : Zpos m / 2 ^ 52 = 1).
      { symmetry. apply Z.div_unique with (r := Zpos m - 2 ^ 52).
        - left. change (2 ^ 53) with (2 * 2 ^ 52) in Lm. lia.
        - lia. }
      rewrite E1. reflexivity. }
    rewrite Eip, Eup.
    change (binary_normalize Float.prec Float.emax (0 + 1) 0 false)
      with (S754_finite false 4503599627370496 (-52)).
    assert (Es : Float.sub (S754_finite false 4503599627370496 (-52))
                   (S754_finite false m (-53))
                 = binary_normalize Float.prec Float.emax (2 ^ 53 - Zpos m) (-53) false).
    { unfold Float.sub, SFsub. cbn [cond_Zopp].
      change (Z.min (-52) (-53)) with (-53).
      destruct (shl_align_spec 4503599627370496 (-52) (-53)) as [_ E1].
      destruct (shl_align_spec m (-53) (-53)) as [_ E2].
      rewrite E1, E2. change (Z.min (-52) (-53)) with (-53).
      change (Z.min (-53) (-53)) with (-53).
      change (-52 - -53) with 1. change (-53 - -53) with 0.
      f_equal. change (2 ^ 0) with 1. change (4503599627370496 * 2 ^ 1) with (2 ^ 53).
      lia. }
    rewrite Es.
    set (n := 2 ^ 53 - Zpos m).
    assert (Hn : 0 < n < 2 ^ 52) by (subst n; change (2 ^ 53) with (2 * 2 ^ 52) in *; lia).
    assert (Dn1 : 1 <= Zdigits2 n) by (destruct n; cbn; lia).
    assert (Dn2 : Zdigits2 n <= 52) by (apply Zdigits2_le; lia).
    rewrite normalize_dyadic by lia.
    cbn [Float.abs SFabs Float.eqb SFeqb SFcompare].
    assert (Ec : (-53 + Zdigits2 n - 53 ?= -53) = Lt) by (apply Z.compare_lt_iff; lia).
    rewrite Ec. reflexivity.
  - assert (Le : e <= -54) by lia.
    assert (Hlt : (Zpos m * 2 ^ (e + 256) <? 2 ^ 255) = true).
    { apply Z.ltb_lt.
      destruct (Z_lt_le_dec (e + 256) 0) as [N|N].
      - rewrite (Z.pow_neg_r 2 _ N). lia.
      - assert (2 ^ (e + 256) <= 2 ^ 202) by (apply pow2_le; lia).
        assert (0 < 2 ^ (e + 256)) by (apply pow2_pos; lia).
        assert (Zpos m * 2 ^ (e + 256) < 2 ^ 53 * 2 ^ (e + 256))
          by (apply Z.mul_lt_mono_pos_r; lia).
        assert (2 ^ 53 * 2 ^ (e + 256) <= 2 ^ 53 * 2 ^ 202)
          by (apply Z.mul_le_mono_nonneg_l; lia).
        change (2 ^ 255) with (2 ^ 53 * 2 ^ 202). lia. }
    rewrite Hlt.
    assert (P53 : 2 ^ 53 <= 2 ^ (- e - 1)) by (apply pow2_le; lia).
    assert (Pe : 2 ^ (- e) = 2 * 2 ^ (- e - 1)).
    { change 2 with (2 ^ 1) at 2. rewrite <- Z.pow_add_r by lia. f_equal. lia. }
    assert (Eip : Z.shiftr (Zpos m) (- e) = 0).
    { rewrite Z.shiftr_div_pow2 by lia. apply Z.div_small. lia. }
    assert (Eup : Z.testbit (Zpos m) (- e - 1) = false).
    { apply Z.testbit_false; [lia|]. rewrite Z.div_small by lia. reflexivity. }
    rewrite Eip, Eup.
    change (binary_normalize Float.prec Float.emax 0 0 false) with (S754_zero false).
    cbn [Float.sub SFsub negb Float.abs SFabs Float.eqb SFeqb SFcompare].
    assert (Ec : (e ?= -53) = Lt) by (apply Z.compare_lt_iff; lia).
    rewrite Ec. reflexivity.
Qed.

(** ** The [timedelta] constructor on seconds with a fraction *)

(** [timedelta(0, seconds)]: the first argument of the constructor, for a
    number of seconds within [2 ^ -4] millionths of [T] seconds and [us]
    microseconds.  The whole microseconds found are [us], with a small
    leftover, or [us - 1], with a leftover just below one. *)
Lemma accum_near (num : Float.float) (T us : Z) :
  normal (-72) (-1) num = true -> 0 <= T -> 0 < us < 1000000 ->
  Z.abs (fixed num * 1000000 - (T * 1000000 + us) * 2 ^ 256) <= 2 ^ 252 ->
  exists y F,
    Timedelta.accum 0 Float.zero num Timedelta.us_per_second
    = Ok (T * 1000000 + y, F) /\
    ((F = Float.zero /\ y = us) \/
     (normal (-157) (-53) F = true /\
      ((y = us /\ fixed F < 2 ^ 253) \/ (y = us - 1 /\ 2 ^ 256 - 2 ^ 253 < fixed F)))).
Proof.
  intros Hn HT Hus Hv. apply Z.abs_le in Hv.
  destruct (modf_near (-72) (-1) num Hn ltac:(lia) ltac:(lia))
    as (F & I & Em & EI & _ & HF).
  assert (Ediv : fixed num / 2 ^ 256 = T).
  { symmetry. apply Z.div_unique with (r := fixed num - T * 2 ^ 256); lia. }
  assert (Emod : fixed num mod 2 ^ 256 = fixed num - T * 2 ^ 256).
  { symmetry. apply Z.mod_unique with (q := T); lia. }
  rewrite Ediv in EI. rewrite Emod in HF.
  destruct (HF ltac:(lia)) as [NF FF]. clear HF.
  unfold Timedelta.accum. rewrite Em, EI. unfold bind at 1.
  assert (ZF : Float.is_zero F = false)
    by (destruct (normal_inv _ _ _ NF) as (mF & eF & -> & _); reflexivity).
  rewrite ZF.
  unfold Timedelta.us_per_second.
  change (Float.of_Z 1000000) with (S754_finite false 8589934592000000 (-33)).
  destruct (mul_near (-33) (-33) (-72 - 52) (-53) (S754_finite false 8589934592000000 (-33)) F
              eq_refl NF ltac:(lia) ltac:(lia) ltac:(lia) ltac:(lia)) as [Nd Fd].
  set (dnum := Float.mul (S754_finite false 8589934592000000 (-33)) F) in *.
  change (fixed (S754_finite false 8589934592000000 (-33))) with (1000000 * 2 ^ 256) in Fd.
  change (2 ^ (-33 + -53 + 566)) with (2 ^ 224 * 2 ^ 256) in Fd.
  assert (Fd' : Z.abs (fixed dnum - 1000000 * fixed F) <= 2 ^ 224).
  { replace (fixed dnum * 2 ^ 256 - 1000000 * 2 ^ 256 * fixed F)
      with ((fixed dnum - 1000000 * fixed F) * 2 ^ 256) in Fd by ring.
    rewrite Z.abs_mul in Fd. change (Z.abs (2 ^ 256)) with (2 ^ 256) in Fd.
    apply Z.mul_le_mono_pos_r in Fd; [exact Fd | reflexivity]. }
  clear Fd. apply Z.abs_le in Fd'.
  change (-33 + (-72 - 52) + 52) with (-105) in Nd. change (-33 + -53 + 54) with (-32) in Nd.
  destruct (modf_near (-105) (-32) dnum Nd ltac:(lia) ltac:(lia))
    as (F' & I' & Em' & EI' & HZ & HF').
  rewrite Em', EI'. unfold bind.
  assert (B : us * 2 ^ 256 - 2 ^ 253 < fixed dnum < us * 2 ^ 256 + 2 ^ 253) by lia.
  clear Hv Fd' FF Emod Ediv.
  destruct (Z_lt_le_dec (fixed dnum) (us * 2 ^ 256)) as [L | L].
  - assert (Ey : fixed dnum / 2 ^ 256 = us - 1).
    { symmetry. apply Z.div_unique with (r := fixed dnum - (us - 1) * 2 ^ 256); lia. }
    assert (Er : fixed dnum mod 2 ^ 256 = fixed dnum - (us - 1) * 2 ^ 256).
    { symmetry. apply Z.mod_unique with (q := us - 1); lia. }
    rewrite Ey, Er in *.
    exists (us - 1). eexists. split; [f_equal; f_equal; lia|].
    right. destruct (HF' ltac:(lia)) as [NF' FF'].
    rewrite add_zero_l by (exact (normal_nonneg _ _ _ NF')).
    split; [exact NF'|]. right. split; [reflexivity|]. rewrite FF'. lia.
  - assert (Ey : fixed dnum / 2 ^ 256 = us).
    { symmetry. apply Z.div_unique with (r := fixed dnum - us * 2 ^ 256); lia. }
    assert (Er : fixed dnum mod 2 ^ 256 = fixed dnum - us * 2 ^ 256).
    { symmetry. apply Z.mod_unique with (q := us); lia. }
    rewrite Ey, Er in *.
    exists us. eexists. split; [f_equal; f_equal; lia|].
    destruct (Z.eq_dec (fixed dnum - us * 2 ^ 256) 0) as [E0 | N0].
    + left. rewrite (HZ E0). split; reflexivity.
    + right. destruct (HF' N0) as [NF' FF'].
      rewrite add_zero_l by (exact (normal_nonneg _ _ _ NF')).
      split; [exact NF'|]. left. split; [reflexivity|]. rewrite FF'. lia.
Qed.

(** [timedelta(days, seconds)] for a whole number of days and a number of
    seconds within [2 ^ -4] millionths of [T] seconds and [us]
    microseconds: exactly that many days, seconds and microseconds. *)
Lemma of_floats_near (D T us : Z) (num : Float.float) :
  0 <= D -> Zdigits2 D <= 53 ->
  normal (-72) (-1) num = true -> 0 <= T -> 0 < us < 1000000 ->
  Z.abs (fixed num * 1000000 - (T * 1000000 + us) * 2 ^ 256) <= 2 ^ 252 ->
  Timedelta.of_floats (whole_float D) num
  = Timedelta.of_microseconds
      (D * Timedelta.us_per_day + T * Timedelta.us_per_second + us).
Proof.
  intros HD DD Hn HT Hus Hv. unfold Timedelta.of_floats.
  destruct (accum_near num T us Hn HT Hus Hv) as (y & F & -> & HF).
  unfold bind at 1. cbn [fst snd].
  rewrite accum_whole by assumption. unfold bind at 1. cbn [fst snd].
  assert (E : Timedelta.round_leftover (T * 1000000 + y + D * Timedelta.us_per_day) F
              = Ok (D * Timedelta.us_per_day + T * Timedelta.us_per_second + us)).
  { unfold Timedelta.us_per_second.
    destruct HF as [[-> ->] | [NF HF]].
    - unfold Timedelta.round_leftover. cbn [Float.is_zero Float.zero]. f_equal. lia.
    - rewrite (round_leftover_nearest (-157)) by (exact NF || lia).
      f_equal. destruct HF as [[-> HF] | [-> HF]].
      + assert (L : (fixed F <? 2 ^ 255) = true) by (apply Z.ltb_lt; lia).
        rewrite L. lia.
      + assert (L : (fixed F <? 2 ^ 255) = false) by (apply Z.ltb_ge; lia).
        rewrite L. lia. }
  rewrite E. reflexivity.
Qed.

(** ** The seconds with a fraction, as the encoder writes them *)

(** [n / d] is rounded to [q] when it is less than one half away from it. *)
Lemma div_half_even_near (n d q : Z) :
  0 < d -> 2 * Z.abs (n - q * d) < d -> Float.div_half_even n d = q.
Proof.
  intros Hd H. unfold Float.div_half_even.
  pose proof (Z.div_mod n d ltac:(lia)) as Hq.
  pose proof (Z.mod_pos_bound n d Hd) as Hr.
  set (k := n / d) in *. set (r := n mod d) in *.
  assert (Hk : k = q \/ k = q - 1).
  { assert (-1 < k - q + 1 /\ k - q < 1); [|lia].
    split.
    - destruct (Z_lt_le_dec (-1) (k - q + 1)) as [L|L]; [exact L|]. exfalso.
      assert (d * (k - q) <= d * (-2)) by (apply Z.mul_le_mono_nonneg_l; lia). lia.
    - destruct (Z_lt_le_dec (k - q) 1) as [L|L]; [exact L|]. exfalso.
      assert (d * 1 <= d * (k - q)) by (apply Z.mul_le_mono_nonneg_l; lia). lia. }
  destruct Hk as [-> | ->].
  - assert (C : (2 * r ?= d) = Lt) by (apply Z.compare_lt_iff; lia).
    now rewrite C.
  - assert (C : (2 * r ?= d) = Gt) by (apply Z.compare_gt_iff; lia).
    rewrite C. lia.
Qed.

(** The binary64 number of [seconds + 1e-6 * microseconds] is within
    [2 ^ -16] millionths of the exact sum. *)
Lemma seconds_fraction_near (s us : Z) :
  0 <= s < 64 -> 0 < us < 1000000 ->
  normal (-72) (-45)
    (Float.add (Float.of_Z s) (Float.mul (Float.of_ratio 1 1000000) (Float.of_Z us))) = true /\
  Z.abs (fixed (Float.add (Float.of_Z s)
                  (Float.mul (Float.of_ratio 1 1000000) (Float.of_Z us))) * 1000000
         - (s * 1000000 + us) * 2 ^ 256) <= 2 ^ 240.
Proof.
  intros Hs Hus.
  change (Float.of_ratio 1 1000000) with (S754_finite false 4722366482869645 (-72)).
  assert (Du : 1 <= Zdigits2 us <= 20).
  { split; [destruct us; cbn; lia|]. apply Zdigits2_le; lia. }
  rewrite (of_Z_exact us) by lia.
  destruct (exact_float_normal us ltac:(lia) ltac:(lia)) as [Nu Fu].
  apply (normal_mono _ _ (-52) (-33)) in Nu; try lia.
  destruct (mul_near (-72) (-72) (-52) (-33) (S754_finite false 4722366482869645 (-72))
              (exact_float us) eq_refl Nu ltac:(lia) ltac:(lia) ltac:(lia) ltac:(lia))
    as [Np Fp].
  set (p := Float.mul (S754_finite false 4722366482869645 (-72)) (exact_float us)) in *.
  rewrite Fu in Fp.
  change (fixed (S754_finite false 4722366482869645 (-72)))
    with (4722366482869645 * 2 ^ 184) in Fp.
  change (-72 + -52 + 52) with (-72) in Np. change (-72 + -33 + 54) with (-51) in Np.
  change (2 ^ (-72 + -33 + 566)) with (2 ^ 205 * 2 ^ 256) in Fp.
  assert (Fp' : Z.abs (fixed p - 4722366482869645 * 2 ^ 184 * us) <= 2 ^ 205).
  { replace (fixed p * 2 ^ 256 - 4722366482869645 * 2 ^ 184 * (us * 2 ^ 256))
      with ((fixed p - 4722366482869645 * 2 ^ 184 * us) * 2 ^ 256) in Fp by ring.
    rewrite Z.abs_mul in Fp. change (Z.abs (2 ^ 256)) with (2 ^ 256) in Fp.
    apply Z.mul_le_mono_pos_r in Fp; [exact Fp | reflexivity]. }
  clear Fp.
  destruct (Z.eq_dec s 0) as [-> | Ns].
  - change (Float.of_Z 0) with Float.zero.
    rewrite add_zero_l by (exact (normal_nonneg _ _ _ Np)).
    split; [apply (normal_mono (-72) (-51)); [lia | lia | exact Np]|].
    apply Z.abs_le in Fp'. apply Z.abs_le.
    lia.
  - assert (Ds : 1 <= Zdigits2 s <= 6).
    { split; [destruct s; cbn; lia|]. apply Zdigits2_le; lia. }
    rewrite (of_Z_exact s) by lia.
    destruct (exact_float_normal s ltac:(lia) ltac:(lia)) as [Nsf Fs].
    apply (normal_mono _ _ (-72) (-47)) in Nsf; try lia.
    apply (normal_mono _ _ (-72) (-47)) in Np; try lia.
    destruct (add_near (-72) (-47) (exact_float s) p Nsf Np ltac:(lia) ltac:(lia))
      as [Na Fa].
    change (-47 + 2) with (-45) in Na. change (-47 + 258) with 211 in Fa.
    split; [exact Na|].
    rewrite Fs in Fa.
    apply Z.abs_le in Fp'. apply Z.abs_le in Fa. apply Z.abs_le.
    lia.
Qed.

(** ['%.6f' % x] for a number within [2 ^ -16] millionths of [N]
    millionths: the digits of [N]. *)
Lemma format_6f_near (lo hi : Z) (x : Float.float) (N : Z) :
  normal lo hi x = true -> -256 <= lo -> hi < 0 ->
  Z.abs (fixed x * 1000000 - N * 2 ^ 256) <= 2 ^ 240 ->
  Float.format_6f x
  = Text.decimal (N / 1000000) ++ "." ++ Text.zero_padded 6 (N mod 1000000) "".
Proof.
  intros Hx Hlo Hhi Hv.
  destruct (normal_inv lo hi x Hx) as (m & e & -> & Dm & Be).
  unfold Float.format_6f. cbn [Float.mantissa_exponent Float.signed fixed] in *.
  assert (Ee : (0 <=? e) = false) by (apply Z.leb_gt; lia).
  rewrite Ee.
  set (P := 2 ^ (- e)). set (A := 2 ^ (e + 256)) in *.
  assert (PP : 0 < P) by (apply pow2_pos; lia).
  assert (PA : 0 < A) by (apply pow2_pos; lia).
  assert (EPA : 2 ^ 256 = P * A).
  { subst P A. rewrite <- Z.pow_add_r by lia. f_equal. lia. }
  rewrite (div_half_even_near (Zpos m * 1000000) P N); [reflexivity | exact PP|].
  destruct (Z_lt_le_dec (2 * Z.abs (Zpos m * 1000000 - N * P)) P) as [L|L]; [exact L|].
  exfalso.
  assert (H1 : P * A <= 2 * Z.abs (Zpos m * 1000000 - N * P) * A)
    by (apply Z.mul_le_mono_nonneg_r; lia).
  replace (Zpos m * A * 1000000 - N * 2 ^ 256)
    with ((Zpos m * 1000000 - N * P) * A) in Hv by (rewrite EPA; ring).
  rewrite Z.abs_mul, (Z.abs_eq A) in Hv by lia.
  rewrite <- EPA in H1. lia.
Qed.

(** The seconds with a fraction are written with the digits of the
    seconds, a point and the six digits of the microseconds. *)
Lemma seconds_with_fraction_text (s us : Z) :
  0 <= s < 60 -> 0 < us < 1000000 ->
  TimeUtil.seconds_with_fraction s us
  = (Text.decimal s ++ "." ++ Text.zero_padded 6 us "") ++ "S".
Proof.
  intros Hs Hus. unfold TimeUtil.seconds_with_fraction.
  destruct (seconds_fraction_near s us ltac:(lia) Hus) as [Na Fa].
  rewrite (format_6f_near (-72) (-45) _ (s * 1000000 + us) Na) by (lia || exact Fa).
  assert (E1 : (s * 1000000 + us) / 1000000 = s)
    by (symmetry; apply Z.div_unique with (r := us); lia).
  assert (E2 : (s * 1000000 + us) mod 1000000 = us)
    by (symmetry; apply Z.mod_unique with (q := s); lia).
  now rewrite E1, E2.
Qed.

Lemma digits_val_append (a b : string) :
  forall acc, Text.digits_val acc (a ++ b) = Text.digits_val (Text.digits_val acc a) b.
Proof. induction a as [|c a IH]; intros acc; cbn; [reflexivity | apply IH]. Qed.

(** The value of a number written with leading zeros. *)
Lemma zero_padded_value (w : nat) :
  forall n acc,
    0 <= n ->
    Text.digits_val 0 (Text.zero_padded w n acc)
    = (n mod 10 ^ Z.of_nat w) * 10 ^ Z.of_nat (String.length acc) + Text.digits_val 0 acc.
Proof.
  induction w as [|w IH]; intros n acc Hn.
  - cbn [Text.zero_padded Z.of_nat]. change (10 ^ 0) with 1. rewrite Z.mod_1_r. lia.
  - cbn [Text.zero_padded]. rewrite IH by (apply Z.div_pos; lia).
    pose proof (Z.mod_pos_bound n 10 ltac:(lia)) as Hr.
    destruct (digit_chr_spec (n mod 10) ltac:(lia)) as [Hc _].
    cbn [String.length Text.digits_val]. rewrite (digits_val_acc acc), Hc.
    rewrite !Nat2Z.inj_succ, !Z.pow_succ_r by lia.
    assert (P : 0 < 10 ^ Z.of_nat w) by (apply Z.pow_pos_nonneg; lia).
    rewrite (Z.rem_mul_r n 10 (10 ^ Z.of_nat w)) by lia. ring.
Qed.

(** The text of seconds with six digits after the point is a number. *)
Lemma fraction_text_number (s us : Z) :
  0 <= s -> 0 <= us ->
  is_number (Text.decimal s ++ "." ++ Text.zero_padded 6 us "") = true.
Proof.
  intros Hs Hus. destruct (decimal_spec s Hs) as [Hne _].
  destruct (zero_padded_spec 6 us "") as [Hl Hd].
  apply number_fraction.
  - apply digits_nonempty_all, Hne.
  - unfold digits_nonempty in Hne. apply andb_true_iff in Hne. destruct Hne as [Hne _].
    destruct (Text.decimal s); [discriminate Hne | cbn; lia].
  - exact Hd.
  - rewrite Hl. cbn. lia.
Qed.

(** [float] of seconds written with six digits after the point. *)
Lemma of_string_fraction (s us : Z) :
  0 <= s -> 0 <= us < 1000000 ->
  Float.of_string_or_0 (Some (Text.decimal s ++ "." ++ Text.zero_padded 6 us ""))
  = Ok (Float.of_ratio (s * 1000000 + us) 1000000).
Proof.
  intros Hs Hus. destruct (decimal_spec s Hs) as [Hne Hv].
  pose proof (digits_nonempty_all _ Hne) as Ha.
  unfold digits_nonempty in Hne. apply andb_true_iff in Hne. destruct Hne as [Hne Hall].
  destruct (zero_padded_spec 6 us "") as [Hl Hd].
  pose proof (zero_padded_value 6 us "" ltac:(lia)) as Hz.
  set (fp := Text.zero_padded 6 us "") in *.
  destruct (Text.decimal s) as [|c w] eqn:E; [discriminate Hne|].
  change (Float.of_string_or_0 (Some (String c w ++ "." ++ fp)))
    with (Float.of_string (String c w ++ "." ++ fp)).
  unfold Float.of_string.
  rewrite (split_dot_digits (String c w) ("." ++ fp) Ha).
  cbn [Float.split_dot append fst snd]. rewrite append_nil_r.
  change (Text.all_digits (String c w)) with (Text.all Text.is_digit (String c w)).
  change (Text.all_digits fp) with (Text.all Text.is_digit fp).
  rewrite Ha, Hd.
  destruct fp as [|c' fp'] eqn:Ef; [discriminate Hl|].
  cbn [andb Text.all]. rewrite <- Ef in *.
  change (String c (w ++ fp)) with (String c w ++ fp).
  rewrite digits_val_append, digits_val_acc, Hv, Hz, Hl.
  cbn [String.length Nat.add Text.digits_val].
  change (10 ^ Z.of_nat 6) with 1000000. change (10 ^ Z.of_nat 0) with 1.
  rewrite Z.mod_small by lia.
  replace (s * 1000000 + (us * 1 + 0)) with (s * 1000000 + us) by lia.
  reflexivity.
Qed.

(** Adding a whole number to a positive number. *)
Lemma add_whole_near (lo hi : Z) (x : Float.float) (n : Z) :
  normal lo hi x = true -> -256 <= lo -> lo <= -52 -> hi <= 900 ->
  0 <= n -> Zdigits2 n <= 53 -> Zdigits2 n <= hi + 53 ->
  normal lo (hi + 2) (Float.add x (whole_float n)) = true /\
  Z.abs (fixed (Float.add x (whole_float n)) - (fixed x + n * 2 ^ 256)) <= 2 ^ (hi + 258).
Proof.
  intros Hx Hlo Hlo' Hhi Hn Dn Dn'. unfold whole_float.
  assert (Hlh : lo <= hi) by (destruct (normal_inv _ _ _ Hx) as (mx & ex & _ & _ & B); lia).
  destruct (Z.eqb_spec n 0) as [-> | N].
  - rewrite add_zero_r by (exact (normal_nonneg _ _ _ Hx)).
    split; [apply (normal_mono lo hi); [lia | lia | exact Hx]|].
    replace (fixed x - (fixed x + 0 * 2 ^ 256)) with 0 by ring.
    cbn [Z.abs]. apply Z.lt_le_incl, pow2_pos. lia.
  - assert (D1 : 1 <= Zdigits2 n) by (destruct n; cbn; lia).
    destruct (exact_float_normal n ltac:(lia) Dn) as [Nn Fn].
    apply (normal_mono _ _ lo hi) in Nn; try lia.
    destruct (add_near lo hi x (exact_float n) Hx Nn Hlo Hhi) as [Na Fa].
    rewrite Fn in Fa. split; assumption.
Qed.

(** The seconds of a duration text, with the minutes and the hours added
    as [parse_duration] adds them. *)
Lemma seconds_sum_near (h m s us : Z) :
  0 <= h < 24 -> 0 <= m < 60 -> 0 <= s < 60 -> 0 < us < 1000000 ->
  normal (-72) (-34)
    (Float.add (Float.add (Float.of_ratio (s * 1000000 + us) 1000000) (whole_float (m * 60)))
       (whole_float (h * 3600))) = true /\
  Z.abs (fixed (Float.add (Float.add (Float.of_ratio (s * 1000000 + us) 1000000)
                             (whole_float (m * 60))) (whole_float (h * 3600))) * 1000000
         - ((h * 3600 + m * 60 + s) * 1000000 + us) * 2 ^ 256) <= 2 ^ 243.
Proof.
  intros Hh Hm Hs Hus.
  set (N := s * 1000000 + us).
  assert (DN : 1 <= Zdigits2 N <= 26).
  { split; [destruct N eqn:E; cbn; lia|]. apply Zdigits2_le; lia. }
  destruct (of_ratio_near N 1000000 ltac:(lia) ltac:(lia)) as [N0 F0].
  { change (Zdigits2 1000000) with 20. lia. }
  { change (Zdigits2 1000000) with 20. lia. }
  change (Zdigits2 1000000) with 20 in N0, F0.
  apply (normal_mono _ _ (-72) (-45)) in N0; try lia.
  assert (F0' : Z.abs (fixed (Float.of_ratio N 1000000) * 1000000 - N * 2 ^ 256)
                <= 1000000 * 2 ^ 212).
  { etransitivity; [exact F0|]. apply Z.mul_le_mono_nonneg_l; [lia|].
    apply pow2_le. lia. }
  clear F0. set (f0 := Float.of_ratio N 1000000) in *.
  apply (normal_mono _ _ (-72) (-41)) in N0; try lia.
  destruct (add_whole_near (-72) (-41) f0 (m * 60) N0) as [N1 F1]; try lia.
  { apply Zdigits2_le; lia. }
  { assert (Zdigits2 (m * 60) <= 12) by (apply Zdigits2_le; lia). lia. }
  set (f1 := Float.add f0 (whole_float (m * 60))) in *.
  change (-41 + 2) with (-39) in N1. change (-41 + 258) with 217 in F1.
  apply (normal_mono _ _ (-72) (-36)) in N1; try lia.
  destruct (add_whole_near (-72) (-36) f1 (h * 3600) N1) as [N2 F2]; try lia.
  { apply Zdigits2_le; lia. }
  { assert (Zdigits2 (h * 3600) <= 17) by (apply Zdigits2_le; lia). lia. }
  change (-36 + 2) with (-34) in N2. change (-36 + 258) with 222 in F2.
  split; [exact N2|].
  apply Z.abs_le in F0', F1, F2. apply Z.abs_le. subst N. lia.
Qed.

(** ** The designators of the duration encoder *)

(** C7.  The zero-length elapsed time is written [PT0S].  With a sub-day
    remainder, the text has, after the sign, [P] and the days, a [T]
    followed by the hours if they are not zero, the minutes if they are not
    zero, and the seconds.  With microseconds, the seconds are written as
    their whole number, a point and the six digits of the microseconds;
    without, as a plain integer if the seconds are not zero.  The hours,
    minutes, seconds and microseconds are those of the absolute value.
    Five and a half seconds are written [PT5.500000S]. *)
Theorem encode_duration_designators :
  TimeUtil.encode_duration (TimeUtil.TimedeltaV TimeUtil.ZERO) = Ok "PT0S" /\
  (forall v : Timedelta.timedelta,
      Timedelta.wf v = true -> has_time v = true ->
      exists h m s,
        TimeUtil.encode_duration (TimeUtil.TimedeltaV v)
        = Ok (sign_text v ++ "P" ++ days_text (magnitude v) ++ "T" ++ h ++ m ++ s) /\
        h = (if hours_of (magnitude v) =? 0 then ""
             else Text.decimal (hours_of (magnitude v)) ++ "H") /\
        m = (if minutes_of (magnitude v) =? 0 then ""
             else Text.decimal (minutes_of (magnitude v)) ++ "M") /\
        (Timedelta.microseconds (magnitude v) <> 0 ->
         exists fp,
           s = Text.decimal (seconds_of (magnitude v)) ++ "." ++ fp ++ "S" /\
           String.length fp = 6%nat /\ Text.all_digits fp = true /\
           Text.digits_val 0 fp = Timedelta.microseconds (magnitude v)) /\
        (Timedelta.microseconds (magnitude v) = 0 ->
         s = (if seconds_of (magnitude v) =? 0 then ""
              else Text.decimal (seconds_of (magnitude v)) ++ "S"))) /\
  TimeUtil.encode_duration (TimeUtil.TimedeltaV (Timedelta.mk 0 5 500000))
    = Ok "PT5.500000S" /\
  TimeUtil.encode_duration (TimeUtil.TimedeltaV (Timedelta.mk 0 1 250000))
    = Ok "PT1.250000S".
Proof.
  split; [vm_compute; reflexivity|].
  split; [|split; vm_compute; reflexivity].
  intros v Hw Ht. destruct (magnitude_spec v Hw) as (Hwa & Hda & Hta).
  rewrite Ht in Hta. destruct (wf_fields _ Hwa) as (_ & S & U).
  exists (hours_text (magnitude v)), (minutes_text (magnitude v)),
    (seconds_text (magnitude v)).
  split.
  - rewrite (encode_duration_text v Hw). unfold duration_text, time_text.
    rewrite Hta. reflexivity.
  - split; [reflexivity|]. split; [reflexivity|]. unfold seconds_text. split.
    + intros Hu.
      assert (Bs : 0 <= seconds_of (magnitude v) < 60)
        by (unfold seconds_of; apply Z.mod_pos_bound; lia).
      apply Z.eqb_neq in Hu. rewrite Hu. apply Z.eqb_neq in Hu.
      rewrite seconds_with_fraction_text by lia.
      exists (Text.zero_padded 6 (Timedelta.microseconds (magnitude v)) "").
      destruct (zero_padded_spec 6 (Timedelta.microseconds (magnitude v)) "") as [Hl Hd].
      split; [|split; [exact Hl | split; [exact Hd|]]].
      * rewrite !append_assoc. reflexivity.
      * rewrite zero_padded_value by lia.
        cbn [String.length Z.of_nat Text.digits_val].
        change (10 ^ Z.of_nat 6) with 1000000. change (10 ^ 0) with 1.
        rewrite Z.mod_small by lia. lia.
    + intros Hu. rewrite Hu. reflexivity.
Qed.

Lemma encode_duration_designators_witness :
  exists h m s,
    TimeUtil.encode_duration (TimeUtil.TimedeltaV (Timedelta.mk (-1) 3723 250000))
    = Ok (sign_text (Timedelta.mk (-1) 3723 250000) ++ "P"
          ++ days_text (magnitude (Timedelta.mk (-1) 3723 250000)) ++ "T" ++ h ++ m ++ s) /\
    h = (if hours_of (magnitude (Timedelta.mk (-1) 3723 250000)) =? 0 then ""
         else Text.decimal (hours_of (magnitude (Timedelta.mk (-1) 3723 250000))) ++ "H") /\
    m = (if minutes_of (magnitude (Timedelta.mk (-1) 3723 250000)) =? 0 then ""
         else Text.decimal (minutes_of (magnitude (Timedelta.mk (-1) 3723 250000))) ++ "M") /\
    (Timedelta.microseconds (magnitude (Timedelta.mk (-1) 3723 250000)) <> 0 ->
     exists fp,
       s = Text.decimal (seconds_of (magnitude (Timedelta.mk (-1) 3723 250000)))
           ++ "." ++ fp ++ "S" /\
       String.length fp = 6%nat /\ Text.all_digits fp = true /\
       Text.digits_val 0 fp
       = Timedelta.microseconds (magnitude (Timedelta.mk (-1) 3723 250000))) /\
    (Timedelta.microseconds (magnitude (Timedelta.mk (-1) 3723 250000)) = 0 ->
     s = (if seconds_of (magnitude (Timedelta.mk (-1) 3723 250000)) =? 0 then ""
          else Text.decimal (seconds_of (magnitude (Timedelta.mk (-1) 3723 250000))) ++ "S")).
Proof.
  apply (proj1 (proj2 encode_duration_designators) (Timedelta.mk (-1) 3723 250000));
    reflexivity.
Defined.

(** ** From the encoder back through the parser, with microseconds *)

(** The text of an elapsed time with microseconds, as a duration text. *)
Lemma duration_text_fraction (v : Timedelta.timedelta) :
  Timedelta.wf v = true -> Timedelta.microseconds v <> 0 ->
  duration_text v
  = duration_string "" (whole_text None) (whole_text None)
      (whole_text (nonzero (Timedelta.days v))) true
      (whole_text (nonzero (hours_of v))) (whole_text (nonzero (minutes_of v)))
      (Some (Text.decimal (seconds_of v) ++ "."
             ++ Text.zero_padded 6 (Timedelta.microseconds v) "")).
Proof.
  intros Hw Hu. destruct (wf_fields v Hw) as (_ & S & U).
  assert (Bs : 0 <= seconds_of v < 60) by (unfold seconds_of; apply Z.mod_pos_bound; lia).
  apply Z.eqb_neq in Hu.
  unfold duration_text, duration_string, days_text, time_text, hours_text, minutes_text,
    seconds_text, has_time.
  rewrite Hu, orb_true_r, !nonzero_designator.
  rewrite seconds_with_fraction_text by (apply Z.eqb_neq in Hu; lia).
  reflexivity.
Qed.

Lemma of_microseconds_fields (v : Timedelta.timedelta) :
  Timedelta.wf v = true ->
  Timedelta.of_microseconds
    (Timedelta.days v * Timedelta.us_per_day
     + Timedelta.seconds v * Timedelta.us_per_second + Timedelta.microseconds v)
  = Ok v.
Proof.
  intros Hw. destruct (wf_fields v Hw) as (D & S & U).
  destruct v as [d s us]. cbn [Timedelta.days Timedelta.seconds Timedelta.microseconds] in *.
  unfold Timedelta.of_microseconds, Timedelta.us_per_second, Timedelta.us_per_day.
  replace (d * 86400000000 + s * 1000000 + us) with ((d * 86400 + s) * 1000000 + us) by lia.
  assert (E1 : ((d * 86400 + s) * 1000000 + us) / 1000000 = d * 86400 + s)
    by (symmetry; apply Z.div_unique with us; lia).
  assert (E2 : ((d * 86400 + s) * 1000000 + us) mod 1000000 = us)
    by (symmetry; apply Z.mod_unique with (d * 86400 + s); lia).
  assert (E3 : (d * 86400 + s) / 86400 = d)
    by (symmetry; apply Z.div_unique with s; lia).
  assert (E4 : (d * 86400 + s) mod 86400 = s)
    by (symmetry; apply Z.mod_unique with d; lia).
  rewrite E1, E2, E3, E4.
  assert (L1 : (-999999999 <=? d) = true) by (apply Z.leb_le; lia).
  assert (L2 : (d <=? 999999999) = true) by (apply Z.leb_le; lia).
  now rewrite L1, L2.
Qed.

(** The text of an elapsed time with microseconds is parsed back to it. *)
Lemma parse_fraction_text (v : Timedelta.timedelta) :
  Timedelta.wf v = true -> 0 <= Timedelta.days v -> Timedelta.microseconds v <> 0 ->
  TimeUtil.parse_duration (TimeUtil.Str (duration_text v)) = Ok v.
Proof.
  intros Hw Hd Hu. destruct (wf_fields v Hw) as (D & S & U).
  assert (Bh : 0 <= hours_of v < 24).
  { unfold hours_of. split; [apply Z.div_pos; [apply Z.div_pos|]; lia|].
    apply Z.div_lt_upper_bound; [lia|]. apply Z.div_lt_upper_bound; lia. }
  assert (Bm : 0 <= minutes_of v < 60) by (unfold minutes_of; apply Z.mod_pos_bound; lia).
  assert (Bs : 0 <= seconds_of v < 60) by (unfold seconds_of; apply Z.mod_pos_bound; lia).
  assert (Es : hours_of v * 3600 + minutes_of v * 60 + seconds_of v = Timedelta.seconds v).
  { unfold hours_of, minutes_of, seconds_of.
    pose proof (Z.div_mod (Timedelta.seconds v) 60 ltac:(lia)).
    pose proof (Z.div_mod (Timedelta.seconds v / 60) 60 ltac:(lia)). lia. }
  assert (S53 : forall x, 0 <= x <= 999999999 -> Zdigits2 x <= 53).
  { intros x Hx. apply Zdigits2_le; [lia | lia|].
    change (2 ^ 53) with 9007199254740992. lia. }
  rewrite (duration_text_fraction v Hw Hu).
  destruct (parse_duration_string "" (whole_text None) (whole_text None)
              (whole_text (nonzero (Timedelta.days v))) true
              (whole_text (nonzero (hours_of v))) (whole_text (nonzero (minutes_of v)))
              (Some (Text.decimal (seconds_of v) ++ "."
                     ++ Text.zero_padded 6 (Timedelta.microseconds v) ""))
              eq_refl ltac:(discriminate) eq_refl eq_refl
              (whole_text_number _ (nonzero_ok _ Hd))
              (whole_text_number _ (nonzero_ok _ (proj1 Bh)))
              (whole_text_number _ (nonzero_ok _ (proj1 Bm)))
              (fraction_text_number _ _ (proj1 Bs) (proj1 U))
              (minutes_after_separator _ _ _ _))
    as (fy & fmo & fd & fh & fmi & fs & Ey & Emo & Ed & Eh & Emi & Efs & E).
  rewrite of_string_whole in Ey, Emo, Ed, Eh, Emi
    by (try apply nonzero_ok; rewrite ?nonzero_value; cbn [whole_value whole_ok];
        try reflexivity; try apply S53; lia).
  rewrite of_string_fraction in Efs by lia.
  injection Ey as <-. injection Emo as <-. injection Ed as <-.
  injection Eh as <-. injection Emi as <-. injection Efs as <-.
  rewrite E, !nonzero_value. cbn [whole_value].
  rewrite !mul_whole by (try apply S53; cbn; lia).
  rewrite !add_whole by (try apply S53; cbn; lia).
  destruct (seconds_sum_near (hours_of v) (minutes_of v) (seconds_of v)
              (Timedelta.microseconds v) Bh Bm Bs ltac:(lia)) as [Nf Ff].
  rewrite Es in Ff.
  replace (Timedelta.days v + 0 * 30 + 0 * 365) with (Timedelta.days v) by lia.
  apply (normal_mono _ _ (-72) (-1)) in Nf; try lia.
  assert (Ff' : 2 ^ 243 <= 2 ^ 252) by (apply pow2_le; lia).
  rewrite (of_floats_near (Timedelta.days v) (Timedelta.seconds v)
             (Timedelta.microseconds v) _
             Hd ltac:(apply S53; lia) Nf ltac:(lia) ltac:(lia)
             (Z.le_trans _ _ _ Ff Ff')).
  apply of_microseconds_fields, Hw.
Qed.

(** The text of an elapsed time that is not negative is parsed back to
    it. *)
Lemma parse_duration_text (v : Timedelta.timedelta) :
  Timedelta.wf v = true -> 0 <= Timedelta.days v ->
  TimeUtil.parse_duration (TimeUtil.Str (duration_text v)) = Ok v.
Proof.
  intros Hw Hd. destruct (Z.eq_dec (Timedelta.microseconds v) 0) as [Hu | Hu].
  - now apply parse_whole_text.
  - now apply parse_fraction_text.
Qed.

(** X5.  The text that [encode_duration] writes for an elapsed time that
    is not negative is parsed by [parse_duration] back to that elapsed
    time, to the microsecond; the text of a negative one is refused with
    [ValueError]. *)
Theorem duration_round_trip (v : Timedelta.timedelta) :
  Timedelta.wf v = true ->
  exists t,
    TimeUtil.encode_duration (TimeUtil.TimedeltaV v) = Ok t /\
    TimeUtil.parse_duration (TimeUtil.Str t)
    = if Timedelta.days v <? 0 then Raise ValueError else Ok v.
Proof.
  intros Hw. exists (sign_text v ++ duration_text (magnitude v)).
  split; [exact (encode_duration_text v Hw)|].
  unfold sign_text, magnitude.
  destruct (Z.ltb_spec (Timedelta.days v) 0) as [Hd | Hd].
  - apply minus_sign_refused.
  - now apply parse_duration_text.
Qed.

Lemma duration_round_trip_witness :
  exists t,
    TimeUtil.encode_duration (TimeUtil.TimedeltaV (Timedelta.mk 12 45296 250001)) = Ok t /\
    TimeUtil.parse_duration (TimeUtil.Str t)
    = if 12 <? 0 then Raise ValueError else Ok (Timedelta.mk 12 45296 250001).
Proof. apply (duration_round_trip (Timedelta.mk 12 45296 250001)). reflexivity. Defined.

Lemma split_microseconds_inj (x y : Z) :
  split_microseconds x = split_microseconds y -> x = y.
Proof.
  unfold split_microseconds. intros H. injection H as H1 H2 H3.
  pose proof (Z.div_mod x 1000000 ltac:(lia)).
  pose proof (Z.div_mod y 1000000 ltac:(lia)).
  pose proof (Z.div_mod (x / 1000000) 86400 ltac:(lia)).
  pose proof (Z.div_mod (y / 1000000) 86400 ltac:(lia)).
  lia.
Qed.

(** X15.  [encode_duration] writes different texts for different elapsed
    times. *)
Theorem encode_duration_injective (v w : Timedelta.timedelta) :
  Timedelta.wf v = true -> Timedelta.wf w = true ->
  TimeUtil.encode_duration (TimeUtil.TimedeltaV v)
  = TimeUtil.encode_duration (TimeUtil.TimedeltaV w) ->
  v = w.
Proof.
  intros Hv Hw. rewrite (encode_duration_text v Hv), (encode_duration_text w Hw).
  intros H. injection H as H.
  destruct (magnitude_spec v Hv) as (Mv & Dv & _).
  destruct (magnitude_spec w Hw) as (Mw & Dw & _).
  pose proof (parse_duration_text (magnitude v) Mv Dv) as Pv.
  pose proof (parse_duration_text (magnitude w) Mw Dw) as Pw.
  unfold sign_text in H.
  assert (E : magnitude v = magnitude w /\
              (Timedelta.days v <? 0) = (Timedelta.days w <? 0)).
  { destruct (Timedelta.days v <? 0), (Timedelta.days w <? 0).
    - apply (f_equal (fun s => match s with String _ t => t | EmptyString => "" end)) in H.
      cbn [append] in H. rewrite H in Pv. rewrite Pv in Pw. injection Pw as Pw. auto.
    - discriminate H.
    - discriminate H.
    - cbn [append] in H. rewrite H in Pv. rewrite Pv in Pw. injection Pw as Pw. auto. }
  destruct E as [E S]. unfold magnitude in E. rewrite <- S in E.
  destruct (Timedelta.days v <? 0); [|exact E].
  apply split_microseconds_inj in E.
  rewrite <- (split_total v Hv), <- (split_total w Hw). f_equal. lia.
Qed.

Lemma encode_duration_injective_witness :
  Timedelta.mk (-1) 86399 999999 = Timedelta.mk (-1) 86399 999999.
Proof.
  apply (encode_duration_injective (Timedelta.mk (-1) 86399 999999)
           (Timedelta.mk (-1) 86399 999999)); reflexivity.
Defined.

(** ** Binary64: sums of a known size and exact quotients *)

(** The sum of two positive numbers that is below [2 ^ b]. *)
Lemma add_below (lo hi b : Z) (x y : Float.float) :
  normal lo hi x = true -> normal lo hi y = true -> -256 <= lo -> b <= 900 ->
  fixed x + fixed y < 2 ^ (b + 256) ->
  normal lo (b - 52) (Float.add x y) = true /\
  Z.abs (fixed (Float.add x y) - (fixed x + fixed y)) <= 2 ^ (b + 204).
Proof.
  intros Hx Hy Hlo Hb Hs.
  destruct (normal_inv lo hi x Hx) as (mx & ex & -> & Dx & Bx).
  destruct (normal_inv lo hi y Hy) as (my & ey & -> & Dy & By).
  destruct (digits_53 (Zpos mx) ltac:(lia) Dx) as [Gx Lx].
  destruct (digits_53 (Zpos my) ltac:(lia) Dy) as [Gy Ly].
  cbn [fixed] in Hs.
  unfold Float.add, SFadd. cbn [cond_Zopp].
  set (ez := Z.min ex ey) in *.
  destruct (shl_align_spec mx ex ez) as [_ Ex].
  destruct (shl_align_spec my ey ez) as [_ Ey].
  rewrite Ex, Ey.
  replace (Z.min ex ez) with ez by (clear; lia).
  replace (Z.min ey ez) with ez by (clear; lia).
  assert (R2 : 0 <= ez + 256) by (clear - Bx By Hlo; lia).
  assert (R3 : 0 <= ex - ez) by (clear; lia).
  assert (R4 : 0 <= ey - ez) by (clear; lia).
  assert (Px : 0 < 2 ^ (ex - ez)) by (apply pow2_pos; exact R3).
  assert (Py : 0 < 2 ^ (ey - ez)) by (apply pow2_pos; exact R4).
  assert (Pa : 0 < 2 ^ (ez + 256)) by (apply pow2_pos; exact R2).
  assert (E2 : 2 ^ (ex + 256) = 2 ^ (ex - ez) * 2 ^ (ez + 256))
    by (rewrite <- Z.pow_add_r by assumption; f_equal; ring).
  assert (E3 : 2 ^ (ey + 256) = 2 ^ (ey - ez) * 2 ^ (ez + 256))
    by (rewrite <- Z.pow_add_r by assumption; f_equal; ring).
  set (S := Zpos mx * 2 ^ (ex - ez) + Zpos my * 2 ^ (ey - ez)).
  assert (HS : 2 ^ 52 <= S).
  { subst S. assert (Zpos mx * 1 <= Zpos mx * 2 ^ (ex - ez))
      by (apply Z.mul_le_mono_nonneg_l; lia).
    assert (0 <= Zpos my * 2 ^ (ey - ez)) by (apply Z.mul_nonneg_nonneg; lia). lia. }
  assert (ES : Zpos mx * 2 ^ (ex + 256) + Zpos my * 2 ^ (ey + 256) = S * 2 ^ (ez + 256))
    by (rewrite E2, E3; subst S; ring).
  rewrite ES in Hs.
  assert (Rb : 0 <= b - ez).
  { destruct (Z_lt_le_dec (b - ez) 0) as [N|N]; [|exact N]. exfalso.
    assert (2 ^ (b + 256) <= 2 ^ (ez + 256)) by (apply pow2_le; lia).
    assert (1 * 2 ^ (ez + 256) <= S * 2 ^ (ez + 256))
      by (apply Z.mul_le_mono_nonneg_r; lia).
    lia. }
  assert (LS : S < 2 ^ (b - ez)).
  { assert (E : 2 ^ (b + 256) = 2 ^ (b - ez) * 2 ^ (ez + 256))
      by (rewrite <- Z.pow_add_r by assumption; f_equal; ring).
    rewrite E in Hs. apply Z.mul_lt_mono_pos_r in Hs; assumption. }
  assert (DS : 53 <= Zdigits2 S <= b - ez).
  { split.
    - change 53 with (Zdigits2 (2 ^ 52)). apply Zdigits2_mono. lia.
    - apply Zdigits2_le; lia. }
  destruct S as [|p|p] eqn:EqS; try lia.
  cbn [binary_normalize]. unfold binary_round.
  assert (Hf : fexp Float.prec Float.emax (Zpos (digits2_pos p) + ez)
               = Zdigits2 (Zpos p) + ez - 53).
  { unfold fexp, emin, Float.prec, Float.emax. cbn [Zdigits2] in *. lia. }
  rewrite Hf, shl_align_none by lia.
  destruct (round_aux_near (Zpos p) ez loc_Exact ltac:(lia) ltac:(lia) ltac:(lia)
              ltac:(lia)) as (m & e & -> & Dm & Be & Bm).
  split; [apply normal_intro; [exact Dm | lia]|].
  cbn [fixed].
  assert (R1 : 0 <= e - ez) by (clear - Be DS; lia).
  assert (R5 : e + 256 <= b + 204) by (clear - Be DS; lia).
  assert (E1 : 2 ^ (e + 256) = 2 ^ (e - ez) * 2 ^ (ez + 256))
    by (rewrite <- Z.pow_add_r by assumption; f_equal; ring).
  assert (U : 2 ^ (e - ez) * 2 ^ (ez + 256) <= 2 ^ (b + 204))
    by (rewrite <- E1; apply pow2_le; exact R5).
  rewrite E1, ES. apply scaled_near; [exact Pa | exact Bm | exact U].
Qed.

(** Adding a whole number to a positive number, for a sum below
    [2 ^ b]. *)
Lemma add_whole_below (lo hi b : Z) (x : Float.float) (n : Z) :
  normal lo hi x = true -> -256 <= lo -> lo <= -52 -> b <= 53 -> hi <= b - 52 ->
  0 <= n -> fixed x + n * 2 ^ 256 < 2 ^ (b + 256) ->
  normal lo (b - 52) (Float.add x (whole_float n)) = true /\
  Z.abs (fixed (Float.add x (whole_float n)) - (fixed x + n * 2 ^ 256)) <= 2 ^ (b + 204).
Proof.
  intros Hx Hlo Hlo' Hb Hhi Hn Hs. unfold whole_float.
  destruct (normal_inv _ _ _ Hx) as (mx & ex & Ex & Dx & Bx).
  assert (Fx : 0 < fixed x).
  { rewrite Ex. cbn [fixed]. apply Z.mul_pos_pos; [lia | apply pow2_pos; lia]. }
  destruct (Z.eqb_spec n 0) as [-> | N].
  - rewrite add_zero_r by (exact (normal_nonneg _ _ _ Hx)).
    split; [apply (normal_mono lo hi); [lia | lia | exact Hx]|].
    replace (fixed x - (fixed x + 0 * 2 ^ 256)) with 0 by ring.
    cbn [Z.abs]. apply Z.lt_le_incl, pow2_pos. lia.
  - assert (Ln : n < 2 ^ b).
    { assert (E : 2 ^ (b + 256) = 2 ^ b * 2 ^ 256).
      { apply Z.pow_add_r; [|lia].
        destruct (Z_lt_le_dec b 0) as [F|F]; [|exact F]. exfalso.
        assert (2 ^ (b + 256) <= 2 ^ 256) by (apply pow2_le; lia). lia. }
      rewrite E in Hs.
      assert (n * 2 ^ 256 < 2 ^ b * 2 ^ 256) by lia.
      apply Z.mul_lt_mono_pos_r in H; [exact H | reflexivity]. }
    assert (Rb : 0 <= b).
    { destruct (Z_lt_le_dec b 0) as [F|F]; [|exact F].
      rewrite (Z.pow_neg_r 2 b F) in Ln. lia. }
    assert (Dn : 1 <= Zdigits2 n <= b).
    { split; [destruct n; cbn; lia|]. apply Zdigits2_le; lia. }
    destruct (exact_float_normal n ltac:(lia) ltac:(lia)) as [Nn Fn].
    apply (normal_mono _ _ lo (b - 52)) in Nn; try lia.
    apply (normal_mono _ _ lo (b - 52)) in Hx; try lia.
    destruct (add_below lo (b - 52) b x (exact_float n) Hx Nn Hlo ltac:(lia)) as [Na Fa].
    + rewrite Fn. exact Hs.
    + rewrite Fn in Fa. split; assumption.
Qed.

(** Zero divided by a positive number. *)
Lemma of_ratio_zero (d : Z) : 0 < d -> Float.of_ratio 0 d = Float.zero.
Proof.
  intros Hd. unfold Float.of_ratio, SFdiv_core_binary.
  set (e' := Z.min _ _). set (s := 0 - 0 - e').
  assert (Em : match s with Z0 => 0 | Zpos _ => Z.shiftl 0 s | Zneg _ => 0 end = 0)
    by (destruct s; try reflexivity; apply Z.shiftl_0_l).
  rewrite Em. cbn [Z.div_eucl].
  assert (El : new_location d 0 = loc_Exact)
    by (unfold new_location; destruct (Z.even d); reflexivity).
  rewrite El. unfold binary_round_aux, shr_fexp. cbn [Zdigits2 shr_record_of_loc].
  set (n := fexp Float.prec Float.emax (0 + e') - e').
  assert (Es : shr {| shr_m := 0; shr_r := false; shr_s := false |} e' n
               = ({| shr_m := 0; shr_r := false; shr_s := false |},
                  snd (shr {| shr_m := 0; shr_r := false; shr_s := false |} e' n))).
  { unfold shr. destruct n as [|p|p]; try reflexivity. cbn [snd]. f_equal.
    exact (iter_shr_exact p 0 ltac:(lia)). }
  rewrite Es. cbn [shr_m loc_of_shr_record round_nearest_even Zdigits2 shr_record_of_loc].
  set (e1 := snd _).
  set (n1 := fexp Float.prec Float.emax (0 + e1) - e1).
  assert (Es1 : shr_m (fst (shr {| shr_m := 0; shr_r := false; shr_s := false |} e1 n1)) = 0).
  { unfold shr. destruct n1 as [|p|p]; try reflexivity. cbn [fst].
    pose proof (iter_shr_exact p 0 ltac:(lia)) as H. cbn [Z.mul] in H. now rewrite H. }
  destruct (shr _ e1 n1) as [r2 e2]. cbn [fst] in Es1. now rewrite Es1.
Qed.

(** A whole multiple of the divisor is divided without rounding. *)
Lemma of_ratio_whole (a d : Z) :
  0 <= a -> Zdigits2 a <= 53 -> 0 < d -> Float.of_ratio (a * d) d = whole_float a.
Proof.
  intros Ha Da Hd. unfold whole_float.
  destruct (Z.eqb_spec a 0) as [-> | N]; [now apply of_ratio_zero|].
  assert (Pa : 0 < a) by lia.
  assert (Dd : 1 <= Zdigits2 d) by (destruct d; cbn; lia).
  assert (A1 : 1 <= Zdigits2 a) by (destruct a; cbn; lia).
  assert (Pad : 0 < a * d) by (apply Z.mul_pos_pos; lia).
  assert (D1 : Zdigits2 a + Zdigits2 d - 1 <= Zdigits2 (a * d)).
  { rewrite !Zdigits2_log2 by lia. pose proof (Z.log2_mul_below a d Pa Hd). lia. }
  assert (D2 : Zdigits2 (a * d) <= Zdigits2 a + Zdigits2 d)
    by (apply Zdigits2_mul; lia).
  unfold Float.of_ratio, SFdiv_core_binary.
  set (k := Zdigits2 (a * d) - Zdigits2 d) in *.
  assert (He : Z.min (fexp Float.prec Float.emax (Zdigits2 (a * d) + 0 - (Zdigits2 d + 0)))
                 (0 - 0) = - (53 - k)).
  { unfold fexp, emin, Float.prec, Float.emax. lia. }
  rewrite He.
  replace (0 - 0 - - (53 - k)) with (53 - k) by lia.
  set (s := 53 - k) in *.
  assert (Em : match s with Z0 => a * d | Zpos _ => Z.shiftl (a * d) s | Zneg _ => 0 end
               = a * 2 ^ s * d).
  { transitivity (Z.shiftl (a * d) s).
    - destruct s as [|p|p] eqn:Es; [reflexivity | reflexivity | lia].
    - rewrite Z.shiftl_mul_pow2 by lia. ring. }
  rewrite Em.
  assert (Ps : 0 < 2 ^ s) by (apply pow2_pos; lia).
  pose proof (Z.div_mul (a * 2 ^ s) d ltac:(lia)) as Hq.
  pose proof (Z.mod_mul (a * 2 ^ s) d ltac:(lia)) as Hr.
  unfold Z.div, Z.modulo in Hq, Hr.
  destruct (Z.div_eucl (a * 2 ^ s * d) d) as [q r]. subst q r.
  assert (El : new_location d 0 = loc_Exact)
    by (unfold new_location; destruct (Z.even d); reflexivity).
  rewrite El. apply round_aux_exact; lia.
Qed.

(** ** Seconds with a fraction in a duration text *)

(** [float] of a whole number followed by a point and digits. *)
Lemma of_string_digits (s : Z) (f : string) :
  0 <= s -> digits_nonempty f = true ->
  Float.of_string_or_0 (Some (Text.decimal s ++ "." ++ f))
  = Ok (Float.of_ratio (s * 10 ^ Z.of_nat (String.length f) + Text.digits_val 0 f)
          (10 ^ Z.of_nat (String.length f))).
Proof.
  intros Hs Hf. destruct (decimal_spec s Hs) as [Hne Hv].
  pose proof (digits_nonempty_all _ Hne) as Ha.
  pose proof (digits_nonempty_all _ Hf) as Hd.
  unfold digits_nonempty in Hne, Hf.
  apply andb_true_iff in Hne, Hf. destruct Hne as [Hne _], Hf as [Hf _].
  destruct (Text.decimal s) as [|c w] eqn:E; [discriminate Hne|].
  change (Float.of_string_or_0 (Some (String c w ++ "." ++ f)))
    with (Float.of_string (String c w ++ "." ++ f)).
  unfold Float.of_string.
  rewrite (split_dot_digits (String c w) ("." ++ f) Ha).
  cbn [Float.split_dot append fst snd]. rewrite append_nil_r.
  change (Text.all_digits (String c w)) with (Text.all Text.is_digit (String c w)).
  change (Text.all_digits f) with (Text.all Text.is_digit f).
  rewrite Ha, Hd.
  destruct f as [|c' f'] eqn:Ef; [discriminate Hf|].
  cbn [andb]. rewrite <- Ef in *.
  change (String c (w ++ f)) with (String c w ++ f).
  now rewrite digits_val_append, digits_val_acc, Hv.
Qed.

(** Seconds with up to six digits after the point, with whole numbers of
    seconds [a] and [b] added as [parse_duration] adds the minutes and
    the hours: the sum is within [2 ^ -4] millionths of the exact one. *)
Lemma seconds_sum_below (k : nat) (a b s F : Z) :
  (1 <= k <= 6)%nat -> 0 <= a -> 0 <= b -> 0 <= s -> a + b + s <= 10000000 ->
  0 < F < 10 ^ Z.of_nat k ->
  normal (-72) (-1)
    (Float.add (Float.add (Float.of_ratio (s * 10 ^ Z.of_nat k + F) (10 ^ Z.of_nat k))
                  (whole_float a)) (whole_float b)) = true /\
  Z.abs (fixed (Float.add (Float.add (Float.of_ratio (s * 10 ^ Z.of_nat k + F)
                                         (10 ^ Z.of_nat k))
                             (whole_float a)) (whole_float b)) * 1000000
         - ((a + b + s) * 1000000 + F * 10 ^ (6 - Z.of_nat k)) * 2 ^ 256) <= 2 ^ 252.
Proof.
  intros Hk Ha Hb Hs HT HF.
  set (d := 10 ^ Z.of_nat k) in *.
  set (n := s * d + F).
  assert (Hd : 10 <= d <= 1000000 /\ 4 <= Zdigits2 d <= 20 /\ d * 10 ^ (6 - Z.of_nat k) = 1000000).
  { clear - Hk. subst d.
    destruct k as [|[|[|[|[|[|[|k]]]]]]]; try lia;
      repeat split; try reflexivity; vm_compute; discriminate. }
  destruct Hd as (Bd & Dd & Ed).
  assert (Psd : 0 <= s * d) by (apply Z.mul_nonneg_nonneg; lia).
  assert (Lsd : s * d <= 10000000 * d) by (apply Z.mul_le_mono_nonneg_r; lia).
  assert (Pn : 0 < n) by (subst n; lia).
  assert (Ln : n < 10000001 * d) by (subst n; lia).
  assert (DN : 1 <= Zdigits2 n <= 24 + Zdigits2 d).
  { split; [destruct n; cbn; lia|]. apply Zdigits2_le; [lia | lia|].
    rewrite Z.pow_add_r by lia.
    pose proof (Zdigits2_bound d ltac:(lia)) as Ud.
    assert (10000001 * d < 2 ^ 24 * 2 ^ Zdigits2 d)
      by (apply Z.mul_lt_mono_nonneg; [lia | reflexivity | lia | exact Ud]).
    lia. }
  destruct (of_ratio_near n d ltac:(lia) ltac:(lia) ltac:(lia) ltac:(lia)) as [N0 F0].
  set (f0 := Float.of_ratio n d) in *.
  apply (normal_mono _ _ (-72) (-27)) in N0; try lia.
  assert (F0' : Z.abs (fixed f0 * d - n * 2 ^ 256) <= d * 2 ^ 230).
  { etransitivity; [exact F0|]. apply Z.mul_le_mono_nonneg_l; [lia|].
    apply pow2_le. lia. }
  clear F0. apply Z.abs_le in F0'.
  assert (U0 : fixed f0 < (s + 1) * 2 ^ 256 + 2 ^ 230).
  { apply (Z.mul_lt_mono_pos_r d); [lia|]. subst n. lia. }
  assert (L0 : s * 2 ^ 256 - 2 ^ 230 < fixed f0).
  { apply (Z.mul_lt_mono_pos_r d); [lia|]. subst n. lia. }
  destruct (add_whole_below (-72) (-27) 25 f0 a N0) as [N1 F1]; try lia.
  set (f1 := Float.add f0 (whole_float a)) in *.
  change (25 - 52) with (-27) in N1. change (25 + 204) with 229 in F1.
  apply Z.abs_le in F1.
  destruct (add_whole_below (-72) (-27) 25 f1 b N1) as [N2 F2]; try lia.
  set (f2 := Float.add f1 (whole_float b)) in *.
  change (25 - 52) with (-27) in N2. change (25 + 204) with 229 in F2.
  apply Z.abs_le in F2.
  split; [apply (normal_mono (-72) (-27)); [lia | lia | exact N2]|].
  set (c := 10 ^ (6 - Z.of_nat k)) in *.
  assert (Pc : 1 <= c <= 100000).
  { clear - Hk. subst c.
    destruct k as [|[|[|[|[|[|[|k]]]]]]]; try lia; split; vm_compute; discriminate. }
  assert (G : -(1000000 * 2 ^ 230) <= fixed f0 * 1000000 - (s * 1000000 + F * c) * 2 ^ 256
              <= 1000000 * 2 ^ 230).
  { replace (fixed f0 * 1000000 - (s * 1000000 + F * c) * 2 ^ 256)
      with ((fixed f0 * d - n * 2 ^ 256) * c) by (subst n; rewrite <- Ed; ring).
    assert (Ec : d * 2 ^ 230 * c = 1000000 * 2 ^ 230) by (rewrite <- Ed; ring).
    assert ((fixed f0 * d - n * 2 ^ 256) * c <= d * 2 ^ 230 * c)
      by (apply Z.mul_le_mono_nonneg_r; lia).
    assert (- (d * 2 ^ 230) * c <= (fixed f0 * d - n * 2 ^ 256) * c)
      by (apply Z.mul_le_mono_nonneg_r; lia).
    lia. }
  apply Z.abs_le. lia.
Qed.

Lemma of_microseconds_split (total us : Z) :
  0 <= total -> 0 <= us < 1000000 ->
  Timedelta.of_microseconds (total * Timedelta.us_per_second + us)
  = if total <=? 999999999 * 86400 + 86399
    then Ok (Timedelta.mk (total / 86400) (total mod 86400) us)
    else Raise OverflowError.
Proof.
  intros Ht Hu. unfold Timedelta.of_microseconds, Timedelta.us_per_second.
  assert (E1 : (total * 1000000 + us) / 1000000 = total)
    by (symmetry; apply Z.div_unique with us; lia).
  assert (E2 : (total * 1000000 + us) mod 1000000 = us)
    by (symmetry; apply Z.mod_unique with total; lia).
  rewrite E1, E2.
  assert (Q : 0 <= total / 86400) by (apply Z.div_pos; lia).
  assert (L1 : (-999999999 <=? total / 86400) = true) by (apply Z.leb_le; lia).
  rewrite L1. cbn [andb].
  destruct (Z.leb_spec total (999999999 * 86400 + 86399)) as [L | L].
  - assert (L2 : (total / 86400 <=? 999999999) = true).
    { apply Z.leb_le, Z.lt_succ_r. apply Z.div_lt_upper_bound; lia. }
    now rewrite L2.
  - assert (L2 : (total / 86400 <=? 999999999) = false).
    { apply Z.leb_gt. assert (1000000000 <= total / 86400); [|lia].
      apply Z.div_le_lower_bound; lia. }
    now rewrite L2.
Qed.

(** Seconds with up to six digits after the point are read and added up to
    the microsecond. *)
Lemma parse_fraction_numbers (sg : string) (y mo d : option Z) (t : bool)
        (h mi : option Z) (s : Z) (f : string) (total us : Z) :
  is_sign sg = true -> sg <> "-" ->
  whole_ok y = true -> whole_ok mo = true -> whole_ok d = true ->
  whole_ok h = true -> whole_ok mi = true -> 0 <= s ->
  digits_nonempty f = true -> (String.length f <= 6)%nat ->
  minutes_as_months (whole_text mo) (whole_text d) t (whole_text h) (whole_text mi) = false ->
  365 * whole_value y + 30 * whole_value mo + whole_value d < 2 ^ 53 ->
  3600 * whole_value h + 60 * whole_value mi + s <= 10000000 ->
  total = (365 * whole_value y + 30 * whole_value mo + whole_value d) * 86400
          + (3600 * whole_value h + 60 * whole_value mi + s) ->
  us = Text.digits_val 0 f * 10 ^ (6 - Z.of_nat (String.length f)) ->
  TimeUtil.parse_duration
    (TimeUtil.Str (duration_string sg (whole_text y) (whole_text mo) (whole_text d) t
                     (whole_text h) (whole_text mi) (Some (Text.decimal s ++ "." ++ f))))
  = if total <=? 999999999 * 86400 + 86399
    then Ok (Timedelta.mk (total / 86400) (total mod 86400) us)
    else Raise OverflowError.
Proof.
  intros Hsg Hm Hy Hmo Hd Hh Hmi Hs Hf Hl Ha BD BS -> ->.
  assert (Vy : 0 <= whole_value y) by (destruct y; cbn in *; lia).
  assert (Vmo : 0 <= whole_value mo) by (destruct mo; cbn in *; lia).
  assert (Vd : 0 <= whole_value d) by (destruct d; cbn in *; lia).
  assert (Vh : 0 <= whole_value h) by (destruct h; cbn in *; lia).
  assert (Vmi : 0 <= whole_value mi) by (destruct mi; cbn in *; lia).
  assert (S53 : forall x, 0 <= x -> x < 2 ^ 53 -> Zdigits2 x <= 53)
    by (intros x H0 H1; apply small_digits; lia).
  assert (T53 : forall x, 0 <= x <= 36000000000 -> Zdigits2 x <= 53).
  { intros x Hx. apply S53; [lia|]. change (2 ^ 53) with 9007199254740992. lia. }
  pose proof (digits_nonempty_all f Hf) as Af.
  pose proof (digits_val_bound f Af) as BF.
  set (k := String.length f) in *.
  assert (Hk : (1 <= k <= 6)%nat).
  { split; [|exact Hl]. unfold digits_nonempty in Hf. apply andb_true_iff in Hf.
    destruct Hf as [Hf _]. subst k. destruct f; [discriminate Hf | cbn; lia]. }
  assert (Nf : is_number (Text.decimal s ++ "." ++ f) = true).
  { destruct (decimal_spec s Hs) as [Hne _].
    apply number_fraction.
    - apply digits_nonempty_all, Hne.
    - unfold digits_nonempty in Hne. apply andb_true_iff in Hne. destruct Hne as [Hne _].
      destruct (Text.decimal s); [discriminate Hne | cbn; lia].
    - exact Af.
    - fold k. lia. }
  destruct (parse_duration_string sg _ _ _ t _ _ (Some (Text.decimal s ++ "." ++ f)) Hsg Hm
              (whole_text_number y Hy) (whole_text_number mo Hmo) (whole_text_number d Hd)
              (whole_text_number h Hh) (whole_text_number mi Hmi) Nf Ha)
    as (fy & fmo & fd & fh & fmi & fs & Ey & Emo & Ed & Eh & Emi & Es & E).
  rewrite of_string_whole in Ey, Emo, Ed, Eh, Emi by (assumption || (apply S53; lia)).
  rewrite of_string_digits in Es by assumption. fold k in Es.
  injection Ey as <-. injection Emo as <-. injection Ed as <-.
  injection Eh as <-. injection Emi as <-. injection Es as <-.
  rewrite E. clear E.
  rewrite !mul_whole by (try apply S53; try apply T53; cbn; lia).
  rewrite (add_whole (whole_value d)) by (try apply S53; lia).
  rewrite (add_whole (whole_value d + whole_value mo * 30)) by (try apply S53; lia).
  set (D := whole_value d + whole_value mo * 30 + whole_value y * 365).
  set (T := whole_value mi * 60 + whole_value h * 3600 + s).
  replace ((365 * whole_value y + 30 * whole_value mo + whole_value d) * 86400
           + (3600 * whole_value h + 60 * whole_value mi + s))
    with (D * 86400 + T) by (subst D T; lia).
  assert (HD : 0 <= D) by (subst D; lia).
  assert (HT : 0 <= T <= 10000000) by (subst T; lia).
  assert (Pc : 1 <= 10 ^ (6 - Z.of_nat k) /\
               10 ^ Z.of_nat k * 10 ^ (6 - Z.of_nat k) = 1000000).
  { clear - Hk. destruct k as [|[|[|[|[|[|[|k]]]]]]]; try lia;
      split; try reflexivity; vm_compute; discriminate. }
  destruct Pc as [Pc Ec].
  destruct (Z.eq_dec (Text.digits_val 0 f) 0) as [F0 | F0].
  - rewrite F0, Z.add_0_r, Z.mul_0_l.
    rewrite of_ratio_whole by (try apply T53; lia).
    rewrite !add_whole by (try apply T53; try apply Z.mul_nonneg_nonneg; lia).
    rewrite of_floats_whole
      by (try apply S53; try apply T53; subst D; try apply Z.mul_nonneg_nonneg; lia).
    replace (D * Timedelta.us_per_day
             + (s + whole_value mi * 60 + whole_value h * 3600) * Timedelta.us_per_second)
      with ((D * 86400 + T) * Timedelta.us_per_second + 0)
      by (unfold Timedelta.us_per_day, Timedelta.us_per_second; subst T; lia).
    apply of_microseconds_split; lia.
  - destruct (seconds_sum_below k (whole_value mi * 60) (whole_value h * 3600) s
                (Text.digits_val 0 f) Hk ltac:(lia) ltac:(lia) Hs ltac:(lia) ltac:(lia))
      as [Nn Fn].
    fold T in Fn.
    set (F := Text.digits_val 0 f) in *. set (c := 10 ^ (6 - Z.of_nat k)) in *.
    assert (Uus : 0 < F * c < 1000000).
    { split; [apply Z.mul_pos_pos; lia|]. rewrite <- Ec.
      apply Z.mul_lt_mono_pos_r; lia. }
    rewrite (of_floats_near D T (F * c) _ HD ltac:(apply S53; subst D; lia) Nn
               ltac:(lia) Uus Fn).
    replace (D * Timedelta.us_per_day + T * Timedelta.us_per_second + F * c)
      with ((D * 86400 + T) * Timedelta.us_per_second + F * c)
      by (unfold Timedelta.us_per_day, Timedelta.us_per_second; lia).
    apply of_microseconds_split; lia.
Qed.

(** X17.  Seconds written with one to six digits after the point are
    parsed to the microsecond: with whole numbers for the other
    components, [365 y + 30 mo + d] days below [2 ^ 53] and at most ten
    million seconds in [3600 h + 60 mi + s], the result is exactly that
    many days and seconds and the microseconds that the digits spell,
    and [OverflowError] beyond 999999999 days and 86399 seconds. *)
Theorem parse_duration_fraction (sg : string) (y mo d : option Z) (t : bool)
        (h mi : option Z) (s : Z) (f : string) (total us : Z) :
  is_sign sg = true -> sg <> "-" ->
  whole_ok y = true -> whole_ok mo = true -> whole_ok d = true ->
  whole_ok h = true -> whole_ok mi = true -> 0 <= s ->
  digits_nonempty f = true -> (String.length f <= 6)%nat ->
  minutes_as_months (whole_text mo) (whole_text d) t (whole_text h) (whole_text mi) = false ->
  365 * whole_value y + 30 * whole_value mo + whole_value d < 2 ^ 53 ->
  3600 * whole_value h + 60 * whole_value mi + s <= 10000000 ->
  total = (365 * whole_value y + 30 * whole_value mo + whole_value d) * 86400
          + (3600 * whole_value h + 60 * whole_value mi + s) ->
  us = Text.digits_val 0 f * 10 ^ (6 - Z.of_nat (String.length f)) ->
  TimeUtil.parse_duration
    (TimeUtil.Str (duration_string sg (whole_text y) (whole_text mo) (whole_text d) t
                     (whole_text h) (whole_text mi) (Some (Text.decimal s ++ "." ++ f))))
  = if total <=? 999999999 * 86400 + 86399
    then Ok (Timedelta.mk (total / 86400) (total mod 86400) us)
    else Raise OverflowError.
Proof.
  intros Hsg Hm Hy Hmo Hd Hh Hmi Hs Hf Hl Ha BD BS Et Eu.
  now apply parse_fraction_numbers.
Qed.

Lemma parse_duration_fraction_witness :
  TimeUtil.parse_duration
    (TimeUtil.Str (duration_string "" (whole_text None) (whole_text None)
                     (whole_text (Some 2)) true (whole_text (Some 30)) (whole_text None)
                     (Some (Text.decimal 90 ++ "." ++ "0625"))))
  = if 280890 <=? 999999999 * 86400 + 86399
    then Ok (Timedelta.mk (280890 / 86400) (280890 mod 86400) 62500)
    else Raise OverflowError.
Proof.
  apply (parse_duration_fraction "" None None (Some 2) true (Some 30) None 90 "0625"
           280890 62500);
    first [reflexivity | discriminate | cbn; lia].
Defined.

Example parse_duration_fraction_examples :
  TimeUtil.parse_duration (TimeUtil.Str "PT0.1S") = Ok (Timedelta.mk 0 0 100000) /\
  TimeUtil.parse_duration (TimeUtil.Str "P2DT30H90.0625S")
  = Ok (Timedelta.mk 3 21690 62500) /\
  TimeUtil.parse_duration (TimeUtil.Str "PT0.000001S") = Ok (Timedelta.mk 0 0 1).
Proof. repeat split; vm_compute; reflexivity. Qed.

(** ** The components of a duration text *)

(** C6, as the code has it.  For a duration string that the pattern matches
    without a minus sign, every named group is absent or a number, and
    [parse_duration] is the [timedelta] constructor applied to
    [days + 30 months + 365 years] and [seconds + 60 minutes + 3600 hours],
    computed in binary64 from the groups: an elapsed time that is not
    negative, or [OverflowError] when that is out of the range of
    [timedelta].  For whole numbers, with both sums below [2 ^ 53], the
    result is exactly [365 y + 30 mo + d] days and [3600 h + 60 mi + s]
    seconds, the seconds carried over into days of 86400 seconds; and the
    same with the microseconds added when the seconds are written with
    one to six digits after the point and the seconds are ten million at
    most.  ["P1DT2H30M"] is one day and 9000 seconds. *)
Theorem parse_duration_components :
  (forall (s : string) (m : Re.captures),
      Re.rmatch TimeUtil.RE_ISO_8601_DURATION s = Some m ->
      duration_group m "sign" <> Some "-" ->
      (number_group (duration_group m "years") /\
       number_group (duration_group m "months") /\
       number_group (duration_group m "days") /\
       number_group (duration_group m "hours") /\
       number_group (duration_group m "minutes") /\
       number_group (duration_group m "seconds")) /\
      (exists years months days hours minutes seconds,
          Float.of_string_or_0 (duration_group m "years") = Ok years /\
          Float.of_string_or_0 (duration_group m "months") = Ok months /\
          Float.of_string_or_0 (duration_group m "days") = Ok days /\
          Float.of_string_or_0 (duration_group m "hours") = Ok hours /\
          Float.of_string_or_0 (duration_group m "minutes") = Ok minutes /\
          Float.of_string_or_0 (duration_group m "seconds") = Ok seconds /\
          TimeUtil.parse_duration (TimeUtil.Str s) =
            Timedelta.of_floats
              (Float.add (Float.add days (Float.mul months (Float.of_Z 30)))
                 (Float.mul years (Float.of_Z 365)))
              (Float.add (Float.add seconds (Float.mul minutes (Float.of_Z 60)))
                 (Float.mul hours (Float.of_Z 3600)))) /\
      ((exists v, TimeUtil.parse_duration (TimeUtil.Str s) = Ok v /\
                  0 <= Timedelta.total_microseconds v /\ Timedelta.wf v = true) \/
       TimeUtil.parse_duration (TimeUtil.Str s) = Raise OverflowError)) /\
  (forall (sg : string) (y mo d : option Z) (t : bool) (h mi s : option Z) (total : Z),
      is_sign sg = true -> sg <> "-" ->
      whole_ok y = true -> whole_ok mo = true -> whole_ok d = true ->
      whole_ok h = true -> whole_ok mi = true -> whole_ok s = true ->
      minutes_as_months (whole_text mo) (whole_text d) t (whole_text h) (whole_text mi)
      = false ->
      365 * whole_value y + 30 * whole_value mo + whole_value d < 2 ^ 53 ->
      3600 * whole_value h + 60 * whole_value mi + whole_value s < 2 ^ 53 ->
      total = (365 * whole_value y + 30 * whole_value mo + whole_value d) * 86400
              + (3600 * whole_value h + 60 * whole_value mi + whole_value s) ->
      TimeUtil.parse_duration
        (TimeUtil.Str (duration_string sg (whole_text y) (whole_text mo) (whole_text d) t
                         (whole_text h) (whole_text mi) (whole_text s)))
      = if total <=? 999999999 * 86400 + 86399
        then Ok (Timedelta.mk (total / 86400) (total mod 86400) 0)
        else Raise OverflowError) /\
  (forall (sg : string) (y mo d : option Z) (t : bool) (h mi : option Z) (s : Z)
          (f : string) (total us : Z),
      is_sign sg = true -> sg <> "-" ->
      whole_ok y = true -> whole_ok mo = true -> whole_ok d = true ->
      whole_ok h = true -> whole_ok mi = true -> 0 <= s ->
      digits_nonempty f = true -> (String.length f <= 6)%nat ->
      minutes_as_months (whole_text mo) (whole_text d) t (whole_text h) (whole_text mi)
      = false ->
      365 * whole_value y + 30 * whole_value mo + whole_value d < 2 ^ 53 ->
      3600 * whole_value h + 60 * whole_value mi + s <= 10000000 ->
      total = (365 * whole_value y + 30 * whole_value mo + whole_value d) * 86400
              + (3600 * whole_value h + 60 * whole_value mi + s) ->
      us = Text.digits_val 0 f * 10 ^ (6 - Z.of_nat (String.length f)) ->
      TimeUtil.parse_duration
        (TimeUtil.Str (duration_string sg (whole_text y) (whole_text mo) (whole_text d) t
                         (whole_text h) (whole_text mi)
                         (Some (Text.decimal s ++ "." ++ f))))
      = if total <=? 999999999 * 86400 + 86399
        then Ok (Timedelta.mk (total / 86400) (total mod 86400) us)
        else Raise OverflowError) /\
  TimeUtil.parse_duration (TimeUtil.Str "P1DT2H30M") = Ok (Timedelta.mk 1 9000 0).
Proof.
  split; [|split; [|split; [|vm_compute; reflexivity]]].
  - intros s m Hm Hsign.
    destruct (parse_duration_floats s m Hm Hsign) as [G F].
    split; [exact G|]. split; [exact F|].
    exact (parse_duration_outcome s m Hm Hsign).
  - intros sg y mo d t h mi s total Hsg Hm Hy Hmo Hd Hh Hmi Hs Ha BD BS E.
    now apply parse_whole_numbers.
  - intros sg y mo d t h mi s f total us Hsg Hm Hy Hmo Hd Hh Hmi Hs Hf Hl Ha BD BS Et Eu.
    now apply parse_fraction_numbers.
Qed.

Lemma parse_duration_components_witness :
  TimeUtil.parse_duration
    (TimeUtil.Str (duration_string "" (whole_text (Some 1)) (whole_text (Some 2))
                     (whole_text (Some 3)) true (whole_text (Some 4)) (whole_text (Some 5))
                     (whole_text (Some 6))))
  = if 36993906 <=? 999999999 * 86400 + 86399
    then Ok (Timedelta.mk (36993906 / 86400) (36993906 mod 86400) 0)
    else Raise OverflowError.
Proof.
  apply (proj1 (proj2 parse_duration_components) "" (Some 1) (Some 2) (Some 3) true
           (Some 4) (Some 5) (Some 6) 36993906);
    first [reflexivity | discriminate].
Defined.

(** ** One instant, one result *)

(** Two valid timestamps of the same zone with the same wall clock are
    the same timestamp. *)
Lemma wall_clock_inj (a b : Datetime.datetime) :
  Datetime.wf a = true -> Datetime.wf b = true ->
  Datetime.tzinfo a = Datetime.tzinfo b ->
  Datetime.wall_clock a = Datetime.wall_clock b -> a = b.
Proof.
  destruct a as [y mo d h mi s us tz], b as [y' mo' d' h' mi' s' us' tz'].
  unfold Datetime.wf, Datetime.wall_clock, Datetime.toordinal.
  cbn [Datetime.year Datetime.month Datetime.day Datetime.hour Datetime.minute
       Datetime.second Datetime.microsecond Datetime.tzinfo].
  intros Ha Hb -> E.
  apply andb_true_iff in Ha, Hb. destruct Ha as [Da Ta], Hb as [Db Tb].
  apply valid_time_inv in Ta, Tb.
  assert (O : Calendar.ymd2ord y mo d = Calendar.ymd2ord y' mo' d') by lia.
  destruct (ymd2ord_inj _ _ _ _ _ _ Da Db O) as (-> & -> & ->).
  f_equal; lia.
Qed.

(** X16.  [to_utc_naive] gives one result for one instant: two zone-aware
    timestamps are converted to the same naive timestamp exactly when
    their wall clocks less their offsets are the same. *)
Theorem utc_instant_canonical (a b r s : Datetime.datetime) (ta tb : TimeZone.t) :
  Datetime.tzinfo a = Some ta -> Datetime.tzinfo b = Some tb ->
  TimeUtil.to_utc_naive a = Ok r -> TimeUtil.to_utc_naive b = Ok s ->
  (r = s <->
   Datetime.wall_clock a - Timedelta.total_microseconds (TimeZone.offset ta)
   = Datetime.wall_clock b - Timedelta.total_microseconds (TimeZone.offset tb)).
Proof.
  intros Ha Hb Hr Hs.
  destruct (to_utc_naive_spec a r Hr) as [Nr Sr].
  destruct (to_utc_naive_spec b s Hs) as [Ns Ss].
  rewrite Ha in Sr. rewrite Hb in Ss.
  destruct Sr as [Wr Vr], Ss as [Ws Vs].
  rewrite <- Wr, <- Ws. split.
  - now intros ->.
  - intros E. apply wall_clock_inj; congruence.
Qed.

Lemma utc_instant_canonical_witness :
  Datetime.mk 2019 5 1 10 0 0 0 None = Datetime.mk 2019 5 1 10 0 0 0 None <->
  Datetime.wall_clock
    (Datetime.mk 2019 5 1 12 0 0 0
       (Some (TimeZone.mk (Timedelta.mk 0 7200 0) "+02:00")))
  - Timedelta.total_microseconds
      (TimeZone.offset (TimeZone.mk (Timedelta.mk 0 7200 0) "+02:00"))
  = Datetime.wall_clock
      (Datetime.mk 2019 5 1 5 30 0 0
         (Some (TimeZone.mk (Timedelta.mk (-1) 70200 0) "-04:30")))
    - Timedelta.total_microseconds
        (TimeZone.offset (TimeZone.mk (Timedelta.mk (-1) 70200 0) "-04:30")).
Proof.
  apply (utc_instant_canonical
           (Datetime.mk 2019 5 1 12 0 0 0
              (Some (TimeZone.mk (Timedelta.mk 0 7200 0) "+02:00")))
           (Datetime.mk 2019 5 1 5 30 0 0
              (Some (TimeZone.mk (Timedelta.mk (-1) 70200 0) "-04:30"))));
    reflexivity.
Defined.

Example same_instant_texts :
  TimeUtil.parse_datetime (TimeUtil.Str "2019-05-01T12:00:00+02:00") None
  = Ok (Datetime.mk 2019 5 1 10 0 0 0 None) /\
  TimeUtil.parse_datetime (TimeUtil.Str "20190501T053000-0430") None
  = Ok (Datetime.mk 2019 5 1 10 0 0 0 None) /\
  TimeUtil.parse_datetime (TimeUtil.Str "2019-05-01T10:00:00Z") None
  = Ok (Datetime.mk 2019 5 1 10 0 0 0 None).
Proof. repeat split; vm_compute; reflexivity. Qed.

(** ** The result of the date-time parser *)

(** C1.  Whatever [parse_datetime] returns is a naive timestamp.  For a
    typed timestamp with a zone, it is the timestamp moved to UTC: its
    wall clock is the wall clock given less the offset of the zone; a
    typed timestamp without a zone is returned as it is.  For a date-time
    text, the timestamp that is converted has the numbers written in the
    text as its fields, with zero for what is left out, and the zone
    written in the text: [UTC] for [Z], the hours and minutes of a written
    offset, both with its sign, and the assumed zone when none is written;
    without any zone the fields written are the result.  A valid naive
    timestamp is fixed by its wall clock, and a text of ASCII characters
    that is accepted is a date-time text. *)
Theorem parse_datetime_naive_utc :
  (forall (v : Datetime.datetime) (tz_local : option TimeZone.t) (r : Datetime.datetime),
      TimeUtil.parse_datetime (TimeUtil.DatetimeV v) tz_local = Ok r ->
      Datetime.tzinfo r = None /\
      match Datetime.tzinfo v with
      | Some tz =>
          Datetime.wall_clock r
          = Datetime.wall_clock v - Timedelta.total_microseconds (TimeZone.offset tz) /\
          Datetime.wf r = true
      | None => r = v
      end) /\
  (forall (long : bool) (Y M D : string) (c : option clock_text) (tail : string)
          (tz_local : option TimeZone.t) (r : Datetime.datetime),
      digits_of 4 Y = true -> digits_of 2 M = true -> digits_of 2 D = true ->
      clock_ok c = true -> tail = "" \/ tail = line_feed ->
      TimeUtil.parse_datetime (TimeUtil.Str (datetime_text long Y M D c ++ tail)) tz_local
      = Ok r ->
      exists (zone : option TimeZone.t) (z : Datetime.datetime),
        match text_zone c with
        | None => zone = tz_local
        | Some Zulu => zone = Some TimeUtil.UTC
        | Some (Offset sg hh mm) =>
            exists tz,
              zone = Some tz /\
              Timedelta.total_microseconds (TimeZone.offset tz)
              = offset_sign (String sg hh)
                * (Text.digits_val 0 hh * 3600000000
                   + Text.digits_val 0 (Text.or_else mm "0") * 60000000)
        end /\
        z = Datetime.mk (Text.digits_val 0 Y) (Text.digits_val 0 M) (Text.digits_val 0 D)
              (text_hour c) (text_minute c) (text_second c) (text_microsecond c) zone /\
        Datetime.wf z = true /\
        Datetime.tzinfo r = None /\ Datetime.wf r = true /\
        match zone with
        | Some tz =>
            Datetime.wall_clock r
            = Datetime.wall_clock z - Timedelta.total_microseconds (TimeZone.offset tz)
        | None => r = z
        end) /\
  (forall a b : Datetime.datetime,
      Datetime.wf a = true -> Datetime.wf b = true ->
      Datetime.tzinfo a = None -> Datetime.tzinfo b = None ->
      Datetime.wall_clock a = Datetime.wall_clock b -> a = b) /\
  (forall (s : string) (tz_local : option TimeZone.t) (r : Datetime.datetime),
      ascii_only s = true ->
      TimeUtil.parse_datetime (TimeUtil.Str s) tz_local = Ok r -> is_datetime_text s) /\
  TimeUtil.parse_datetime (TimeUtil.Str "2019-05-01T12:30:15") None
  = Ok (Datetime.mk 2019 5 1 12 30 15 0 None) /\
  TimeUtil.parse_datetime (TimeUtil.Str "2019-05-01T12:30:15+02:00") None
  = Ok (Datetime.mk 2019 5 1 10 30 15 0 None) /\
  TimeUtil.parse_datetime (TimeUtil.Str "20190501T123015Z") None
  = Ok (Datetime.mk 2019 5 1 12 30 15 0 None).
Proof.
  split; [|split; [|split; [|split; [|repeat split; vm_compute; reflexivity]]]].
  - intros v tz_local r H. apply to_utc_naive_spec. exact H.
  - intros long Y M D c tail tz_local r HY HM HD Hc Ht H.
    rewrite (proj2 (parse_datetime_text_tail long Y M D c tail tz_local HY HM HD Hc Ht)) in H.
    unfold text_value in H.
    destruct (zone_value (text_zone c) tz_local) as [zone|e] eqn:Ez; [|discriminate H].
    unfold bind at 2 in H.
    destruct (Datetime.new (Text.digits_val 0 Y) (Text.digits_val 0 M) (Text.digits_val 0 D)
                (text_hour c) (text_minute c) (text_second c) (text_microsecond c) zone)
      as [z|e] eqn:En; [|discriminate H].
    unfold bind in H.
    destruct (new_inv _ _ _ _ _ _ _ _ _ En) as [Hz Hw].
    destruct (to_utc_naive_spec z r H) as [Nr Sr].
    exists zone, z. split; [|split; [exact Hz | split; [exact Hw | split; [exact Nr|]]]].
    + destruct c as [[hh mm sec [[|sg zh zm]|]]|];
        cbn [text_zone c_zone zone_value] in *;
        try (injection Ez as <-; reflexivity).
      cbn [clock_ok c_hour c_minute c_second c_zone] in Hc.
      apply andb_true_iff in Hc. destruct Hc as [_ Hzo].
      destruct (zone_value_offset sg zh zm tz_local Hzo) as (tz & E1 & E2).
      cbn [zone_value] in E1. rewrite E1 in Ez. injection Ez as <-.
      exists tz. split; [reflexivity | exact E2].
    + assert (Tz : Datetime.tzinfo z = zone) by (rewrite Hz; reflexivity).
      rewrite Tz in Sr. destruct zone as [tz|].
      * destruct Sr as [W V]. split; assumption.
      * subst r. split; [exact Hw | reflexivity].
  - intros a b Ha Hb Ta Tb E. apply wall_clock_inj; congruence.
  - intros s tz_local r _ H.
    destruct (TimeUtil.match_datetime s) as [m|] eqn:Hm.
    + exact (match_datetime_sound s m Hm).
    + unfold TimeUtil.parse_datetime, TimeUtil.parse_datetime_zoned in H.
      rewrite Hm in H. discriminate H.
Qed.

Lemma parse_datetime_naive_utc_witness :
  exists (zone : option TimeZone.t) (z : Datetime.datetime),
    (exists tz,
        zone = Some tz /\
        Timedelta.total_microseconds (TimeZone.offset tz)
        = offset_sign "-01"
          * (Text.digits_val 0 "01" * 3600000000
             + Text.digits_val 0 (Text.or_else (Some "30") "0") * 60000000)) /\
    z = Datetime.mk (Text.digits_val 0 "2020") (Text.digits_val 0 "01")
          (Text.digits_val 0 "01")
          (text_hour (Some (mk_clock "00" "00" (Some ("00", None))
                              (Some (Offset "-" "01" (Some "30"))))))
          (text_minute (Some (mk_clock "00" "00" (Some ("00", None))
                                (Some (Offset "-" "01" (Some "30"))))))
          (text_second (Some (mk_clock "00" "00" (Some ("00", None))
                                (Some (Offset "-" "01" (Some "30"))))))
          (text_microsecond (Some (mk_clock "00" "00" (Some ("00", None))
                                     (Some (Offset "-" "01" (Some "30"))))))
          zone /\
    Datetime.wf z = true /\
    Datetime.tzinfo (Datetime.mk 2020 1 1 1 30 0 0 None) = None /\
    Datetime.wf (Datetime.mk 2020 1 1 1 30 0 0 None) = true /\
    match zone with
    | Some tz =>
        Datetime.wall_clock (Datetime.mk 2020 1 1 1 30 0 0 None)
        = Datetime.wall_clock z - Timedelta.total_microseconds (TimeZone.offset tz)
    | None => Datetime.mk 2020 1 1 1 30 0 0 None = z
    end.
Proof.
  apply (proj1 (proj2 parse_datetime_naive_utc) true "2020" "01" "01"
           (Some (mk_clock "00" "00" (Some ("00", None))
                    (Some (Offset "-" "01" (Some "30")))))
           "" None (Datetime.mk 2020 1 1 1 30 0 0 None));
    first [reflexivity | left; reflexivity].
Defined.
